(** * Invoice / purchase-order validation service: a shallow embedding

    The development follows the Python sources:
    - [utils/helpers.py]            the flexible JSON parser,
    - [services/webhook/handler.py] the field normalizer and the ingestion endpoint,
    - [models/registro.py]          the persisted record,
    - [services/openai/client.py]   the comparison and the extraction,
    - [services/validator/validator.py] the validation engine,
    - [services/report/generator.py] the rows, the summary and the PDFs,
    - [services/google/]            the Drive upload and the Chat notice,
    - [main.py]                     one run of the orchestrator.

    Python text is a sequence of code points; Python values are a small
    inductive type; functions that can raise return a [result]; code that
    touches the record store or a collaborator runs in a state-and-exception
    monad over a [World]. *)

From Stdlib Require Import String Ascii.
From Stdlib Require Import List ZArith NArith QArith Bool Lia Arith.
From Stdlib Require Import Permutation Relations.
Import ListNotations.

Abbreviation length := Datatypes.length.

Set Implicit Arguments.
Close Scope Q_scope.

(* ===================================================================== *)
(** * Python built-ins used by the sources *)
(* ===================================================================== *)

Module Py.

(** A [str] is a sequence of Unicode code points. *)
Definition char := N.
Bind Scope N_scope with char.
Definition str := list char.

(** [lit] turns an ASCII literal of the sources into a [str]. *)
Definition lit (s : string) : str := map N_of_ascii (list_ascii_of_string s).
Arguments lit s%_string.

Definition char_eqb (a b : char) : bool := N.eqb a b.

Fixpoint str_eqb (a b : str) : bool :=
  match a, b with
  | [], [] => true
  | x :: a', y :: b' => char_eqb x y && str_eqb a' b'
  | _, _ => false
  end.

Definition in_range (lo hi c : N) : bool := (N.leb lo c && N.leb c hi)%bool.

(** [str.isspace] on one code point: the Unicode white-space set. *)
Definition is_space (c : char) : bool :=
  in_range 9 13 c || in_range 28 32 c || char_eqb c 133 || char_eqb c 160
  || char_eqb c 5760 || in_range 8192 8202 c || char_eqb c 8232
  || char_eqb c 8233 || char_eqb c 8239 || char_eqb c 8287 || char_eqb c 12288.

Definition is_digit (c : char) : bool := in_range 48 57 c.
Definition is_lower (c : char) : bool := in_range 97 122 c.
Definition is_upper (c : char) : bool := in_range 65 90 c.
Definition is_alpha (c : char) : bool := is_lower c || is_upper c.

(** [str.lstrip()], [str.rstrip()], [str.strip()] with no argument. *)
Fixpoint lstrip (s : str) : str :=
  match s with
  | c :: s' => if is_space c then lstrip s' else s
  | [] => []
  end.

Definition rstrip (s : str) : str := rev (lstrip (rev s)).

Definition strip (s : str) : str := rstrip (lstrip s).

(** [str.upper()]: the ASCII letters are mapped to upper case.  The case
    tables of the other scripts are not modelled: a code point above 127
    is left as it is. *)
Definition upper_char (c : char) : char :=
  if is_lower c then (c - 32)%N else c.

Definition lower_char (c : char) : char :=
  if is_upper c then (c + 32)%N else c.

Definition upper (s : str) : str := map upper_char s.
Definition lower (s : str) : str := map lower_char s.

(** [s.startswith(p)]. *)
Fixpoint startswith (p s : str) : bool :=
  match p, s with
  | [], _ => true
  | x :: p', y :: s' => char_eqb x y && startswith p' s'
  | _ :: _, [] => false
  end.

(** [needle in hay] on text. *)
Fixpoint contains (needle hay : str) : bool :=
  startswith needle hay ||
  match hay with
  | [] => false
  | _ :: hay' => contains needle hay'
  end.

(** [s.replace(old, new)]: every non-overlapping occurrence, left to right.
    [skip] counts the characters of a matched occurrence still to drop. *)
Fixpoint replace_from (old new : str) (skip : nat) (s : str) : str :=
  match s with
  | [] => []
  | c :: s' =>
      match skip with
      | S k => replace_from old new k s'
      | O =>
          if startswith old s
          then new ++ replace_from old new (length old - 1) s'
          else c :: replace_from old new 0 s'
      end
  end.

Definition replace (old new s : str) : str :=
  match old with
  | [] => new ++ flat_map (fun c => c :: new) s
  | _ :: _ => replace_from old new 0 s
  end.

(** ** Exceptions *)

(** An exception is represented by its text, [str(e)]. *)
Inductive exn : Type := Exception (msg : str).

Definition str_of_exn (e : exn) : str := match e with Exception m => m end.

Inductive result (A : Type) : Type :=
| Ok (a : A)
| Raise (e : exn).

Arguments Ok {A} a.
Arguments Raise {A} e.

Definition bind {A B} (c : result A) (k : A -> result B) : result B :=
  match c with
  | Ok a => k a
  | Raise e => Raise e
  end.

(** [try: c except Exception as e: h e]. *)
Definition try_except {A} (c : result A) (h : exn -> result A) : result A :=
  match c with
  | Ok a => Ok a
  | Raise e => h e
  end.

(** ** Floats *)

(** A float is represented by the exact value of the decimal text it was
    read from; infinities and NaN are kept apart.  Rounding to binary64,
    overflow to infinity and the sign of zero are not modelled. *)
Inductive pyfloat : Type :=
| FNum (q : Q)
| FInf (negative : bool)
| FNan.

Definition float_truthy (f : pyfloat) : bool :=
  match f with
  | FNum q => negb (Qeq_bool q 0)
  | FInf _ => true
  | FNan => true
  end.

Definition digit_val (c : char) : Z := Z.of_N c - 48.

(** Value of a digit sequence read left to right, starting from [acc]. *)
Fixpoint digits_val (acc : Z) (ds : str) : Z :=
  match ds with
  | [] => acc
  | d :: ds' => digits_val (acc * 10 + digit_val d) ds'
  end.

(** [m * 10 ^ e] as a reduced fraction. *)
Definition decimal (m e : Z) : Q :=
  Qred (if (0 <=? e)%Z
        then Qmake (m * 10 ^ e) 1
        else Qmake m (Z.to_pos (10 ^ (- e)))).

(** Digits with single underscores between them, as [float()] and [int()]
    accept: the longest prefix [d (_? d)*]; the underscores are dropped. *)
Fixpoint digits_us (s : str) : str * str :=
  match s with
  | c :: s' =>
      if is_digit c then
        match s' with
        | us :: ((d :: _) as s'') =>
            if char_eqb us 95 && is_digit d
            then let (ds, r) := digits_us s'' in (c :: ds, r)
            else let (ds, r) := digits_us s' in (c :: ds, r)
        | _ => let (ds, r) := digits_us s' in (c :: ds, r)
        end
      else ([], s)
  | [] => ([], [])
  end.

Definition read_sign (s : str) : bool * str :=
  match s with
  | c :: s' =>
      if char_eqb c 45 then (true, s')
      else if char_eqb c 43 then (false, s')
      else (false, s)
  | [] => (false, [])
  end.

(** The exponent part [e[+-]ddd] of a decimal float, when present. *)
Definition read_exponent (s : str) : option (Z * str) :=
  match s with
  | c :: s' =>
      if char_eqb c 101 || char_eqb c 69 then
        let (neg, s1) := read_sign s' in
        let (ds, r) := digits_us s1 in
        match ds with
        | [] => None
        | _ :: _ =>
            let v := digits_val 0 ds in
            Some (if neg then (- v)%Z else v, r)
        end
      else Some (0%Z, s)
  | [] => Some (0%Z, [])
  end.

(** The fraction part [.ddd], when present (the digits may be none). *)
Definition read_fraction (s : str) : str * str :=
  match s with
  | c :: s' => if char_eqb c 46 then digits_us s' else ([], s)
  | [] => ([], [])
  end.

(** [float(s)] on text: [None] stands for [ValueError].  Only the ASCII
    digits are read as digits. *)
Definition float_of_str (s : str) : option pyfloat :=
  let t := strip s in
  let (neg, t1) := read_sign t in
  let w := lower t1 in
  if str_eqb w (lit "inf") || str_eqb w (lit "infinity") then Some (FInf neg)
  else if str_eqb w (lit "nan") then Some FNan
  else
    let (ip, r1) := digits_us t1 in
    let (fp, r2) := read_fraction r1 in
    match ip ++ fp with
    | [] => None
    | _ :: _ =>
        match read_exponent r2 with
        | Some (e, []) =>
            let m := digits_val 0 (ip ++ fp) in
            Some (FNum (decimal (if neg then (- m)%Z else m)
                                (e - Z.of_nat (length fp))))
        | _ => None
        end
    end.

(** ** Values *)

#[local] Unset Elimination Schemes.
Inductive pyval : Type :=
| VNone
| VBool (b : bool)
| VInt (z : Z)
| VFloat (f : pyfloat)
| VStr (s : str)
| VList (l : list pyval)
| VDict (d : list (str * pyval)).
#[local] Set Elimination Schemes.

(** A [dict] with text keys keeps its items in insertion order. *)
Definition dict := list (str * pyval).

Fixpoint dict_get (k : str) (d : dict) : option pyval :=
  match d with
  | [] => None
  | (k', v) :: d' => if str_eqb k k' then Some v else dict_get k d'
  end.

(** [d[k] = v]: an existing key keeps its place. *)
Fixpoint dict_set (k : str) (v : pyval) (d : dict) : dict :=
  match d with
  | [] => [(k, v)]
  | (k', v') :: d' =>
      if str_eqb k k' then (k, v) :: d' else (k', v') :: dict_set k v d'
  end.

Definition dict_has (k : str) (d : dict) : bool :=
  match dict_get k d with Some _ => true | None => false end.

(** Truth value of an object, as [if x:], [not x] and [x or y] test it. *)
Definition truthy (v : pyval) : bool :=
  match v with
  | VNone => false
  | VBool b => b
  | VInt z => negb (Z.eqb z 0)
  | VFloat f => float_truthy f
  | VStr s => match s with [] => false | _ => true end
  | VList l => match l with [] => false | _ => true end
  | VDict d => match d with [] => false | _ => true end
  end.

(** [type(v).__name__]. *)
Definition type_name (v : pyval) : str :=
  match v with
  | VNone => lit "NoneType"
  | VBool _ => lit "bool"
  | VInt _ => lit "int"
  | VFloat _ => lit "float"
  | VStr _ => lit "str"
  | VList _ => lit "list"
  | VDict _ => lit "dict"
  end.

(** The text of a [TypeError] or [AttributeError] about an object. *)
Definition object_error (v : pyval) (what : string) : exn :=
  Exception (lit "'" ++ type_name v ++ lit "' object " ++ lit what).

(** [a or b] on objects. *)
Definition or_val (a b : pyval) : pyval := if truthy a then a else b.

(** [d.get(k)]: [None] when the key is missing. *)
Definition dict_get_or_none (k : str) (d : dict) : pyval :=
  match dict_get k d with Some v => v | None => VNone end.

(** [d[k]]: [KeyError] when the key is missing. *)
Definition dict_item (k : str) (d : dict) : result pyval :=
  match dict_get k d with
  | Some v => Ok v
  | None => Raise (Exception (lit "'" ++ k ++ lit "'"))
  end.

Definition str_truthy (s : str) : bool :=
  match s with [] => false | _ :: _ => true end.

(** [a or b] on optional text attributes: the first operand when it is
    truthy (neither [None] nor empty), otherwise the second. *)
Definition or_str (a b : option str) : option str :=
  match a with
  | Some s => if str_truthy s then a else b
  | None => b
  end.

(** [(a or b or ...) or default] where the chain is optional text. *)
Definition or_default (a : option str) (default : str) : str :=
  match a with
  | Some s => if str_truthy s then s else default
  | None => default
  end.

(** [base64.b64encode(data).decode('utf-8')] on a sequence of bytes. *)
Definition b64_char (n : N) : char :=
  if (n <? 26)%N then (65 + n)%N
  else if (n <? 52)%N then (97 + (n - 26))%N
  else if (n <? 62)%N then (48 + (n - 52))%N
  else if (n =? 62)%N then 43%N else 47%N.

Fixpoint b64encode (data : list N) : str :=
  match data with
  | [] => []
  | [a] =>
      [b64_char (a / 4); b64_char ((a mod 4) * 16); 61%N; 61%N]
  | [a; b] =>
      [b64_char (a / 4); b64_char ((a mod 4) * 16 + b / 16);
       b64_char ((b mod 16) * 4); 61%N]
  | a :: b :: c :: rest =>
      b64_char (a / 4) :: b64_char ((a mod 4) * 16 + b / 16)
      :: b64_char ((b mod 16) * 4 + c / 64) :: b64_char (c mod 64)
      :: b64encode rest
  end.

End Py.

Import Py.

Notation "x <- c ;; k" := (Py.bind c (fun x => k))
  (at level 61, c at next level, right associativity).

(* ===================================================================== *)
(** * The standard [json] decoder, as [json.loads] runs it on text *)
(* ===================================================================== *)

Module Json.

(** A [JSONDecodeError] carries the short message of the decoder; the
    position that Python appends to it is left out. *)
Definition decode_error {A} (msg : string) : result A :=
  Raise (Exception (lit msg)).

(** The white space of the decoder: space, tab, line feed, carriage return. *)
Definition is_ws (c : char) : bool :=
  char_eqb c 32 || char_eqb c 9 || char_eqb c 10 || char_eqb c 13.

Fixpoint skip_ws (s : str) : str :=
  match s with
  | c :: s' => if is_ws c then skip_ws s' else s
  | [] => []
  end.

Definition hex_val (c : char) : option N :=
  if in_range 48 57 c then Some (c - 48)%N
  else if in_range 65 70 c then Some (c - 55)%N
  else if in_range 97 102 c then Some (c - 87)%N
  else None.

(** The four hexadecimal digits of a [\uXXXX] escape. *)
Definition hex4 (a b c d : char) : option N :=
  match hex_val a, hex_val b, hex_val c, hex_val d with
  | Some x, Some y, Some z, Some t => Some (((x * 16 + y) * 16 + z) * 16 + t)%N
  | _, _, _, _ => None
  end.

(** The one-letter escapes. *)
Definition backslash (c : char) : option char :=
  if char_eqb c 34 then Some 34%N
  else if char_eqb c 92 then Some 92%N
  else if char_eqb c 47 then Some 47%N
  else if char_eqb c 98 then Some 8%N
  else if char_eqb c 102 then Some 12%N
  else if char_eqb c 110 then Some 10%N
  else if char_eqb c 114 then Some 13%N
  else if char_eqb c 116 then Some 9%N
  else None.

Definition is_high_surrogate (n : N) : bool := in_range 55296 56319 n.
Definition is_low_surrogate (n : N) : bool := in_range 56320 57343 n.

Definition join_surrogates (hi lo : N) : N :=
  (65536 + ((hi - 55296) * 1024 + (lo - 56320)))%N.

(** The characters of a string literal, from just after the opening quote
    up to the closing one, each with a mark telling whether it was written
    as a [\uXXXX] escape; then what follows the closing quote.  This is
    [scanstring] in strict mode, before surrogate pairs are joined. *)
Fixpoint scan_units (s : str) : result (list (char * bool) * str) :=
  match s with
  | [] => decode_error "Unterminated string starting at"
  | c :: s1 =>
      if char_eqb c 34 then Ok ([], s1)
      else if char_eqb c 92 then
        match s1 with
        | [] => decode_error "Unterminated string starting at"
        | esc :: s2 =>
            if char_eqb esc 117 then
              match s2 with
              | h1 :: h2 :: h3 :: h4 :: s3 =>
                  match hex4 h1 h2 h3 h4 with
                  | None => decode_error "Invalid \uXXXX escape"
                  | Some uni =>
                      p <- scan_units s3 ;;
                      Ok ((uni, true) :: fst p, snd p)
                  end
              | _ => decode_error "Invalid \uXXXX escape"
              end
            else
              match backslash esc with
              | None => decode_error "Invalid \escape"
              | Some ch =>
                  p <- scan_units s2 ;;
                  Ok ((ch, false) :: fst p, snd p)
              end
        end
      else if (c <? 32)%N then decode_error "Invalid control character at"
      else
        p <- scan_units s1 ;;
        Ok ((c, false) :: fst p, snd p)
  end.

(** A high surrogate escape immediately followed by a low surrogate escape
    stands for one code point. *)
Fixpoint join_pairs (l : list (char * bool)) : str :=
  match l with
  | [] => []
  | (hi, escaped) :: rest =>
      match rest with
      | (lo, true) :: rest' =>
          if escaped && is_high_surrogate hi && is_low_surrogate lo
          then join_surrogates hi lo :: join_pairs rest'
          else hi :: join_pairs rest
      | _ => hi :: join_pairs rest
      end
  end.

Definition scanstring (s : str) : result (str * str) :=
  p <- scan_units s ;; Ok (join_pairs (fst p), snd p).

(** The longest prefix of ASCII digits. *)
Fixpoint span_digits (s : str) : str * str :=
  match s with
  | c :: s' =>
      if is_digit c then let (ds, r) := span_digits s' in (c :: ds, r)
      else ([], s)
  | [] => ([], [])
  end.

(** The integer group of the number pattern: an optional minus sign, then
    a single zero or a digit from 1 to 9 followed by digits. *)
Definition match_integer (s : str) : option (str * str) :=
  let (sign, s1) :=
    match s with
    | c :: r => if char_eqb c 45 then ([c], r) else ([], s)
    | [] => ([], [])
    end in
  match s1 with
  | d :: r =>
      if char_eqb d 48 then Some (sign ++ [d], r)
      else if is_digit d then
        let (ds, r') := span_digits r in Some (sign ++ d :: ds, r')
      else None
  | [] => None
  end.

(** The optional group [\.[0-9]+]. *)
Definition match_frac (s : str) : str * str :=
  match s with
  | p :: ((d :: _) as r) =>
      if char_eqb p 46 && is_digit d
      then let (ds, r') := span_digits r in (p :: ds, r')
      else ([], s)
  | _ => ([], s)
  end.

(** The optional group [[eE][-+]?[0-9]+]. *)
Definition match_exp (s : str) : str * str :=
  match s with
  | e :: r =>
      if char_eqb e 101 || char_eqb e 69 then
        match r with
        | g :: ((d :: _) as r1) =>
            if (char_eqb g 45 || char_eqb g 43) && is_digit d then
              let (ds, r') := span_digits r1 in (e :: g :: ds, r')
            else if is_digit g then
              let (ds, r') := span_digits r in (e :: ds, r')
            else ([], s)
        | [g] =>
            if is_digit g then (e :: [g], []) else ([], s)
        | [] => ([], s)
        end
      else ([], s)
  | [] => ([], s)
  end.

(** [int(text)] on the integer group. *)
Definition int_of_group (g : str) : Z :=
  match g with
  | c :: ds => if char_eqb c 45 then (- digits_val 0 ds)%Z else digits_val 0 g
  | [] => 0%Z
  end.

(** A number at the head of [s]: an [int] when it has neither fraction nor
    exponent, a [float] otherwise. *)
Definition match_number (s : str) : option (result (pyval * str)) :=
  match match_integer s with
  | None => None
  | Some (integer, r1) =>
      let (frac, r2) := match_frac r1 in
      let (exp, r3) := match_exp r2 in
      match frac ++ exp with
      | [] => Some (Ok (VInt (int_of_group integer), r3))
      | _ :: _ =>
          match float_of_str (integer ++ frac ++ exp) with
          | Some f => Some (Ok (VFloat f, r3))
          | None => Some (decode_error "Expecting value")
          end
      end
  end.

(** [dict(pairs)]: a repeated key keeps its first place and its last
    value. *)
Definition dict_of_pairs (pairs : list (str * pyval)) : dict :=
  fold_left (fun d kv => dict_set (fst kv) (snd kv) d) pairs [].

(** The literals tried after the number pattern. *)
Definition scan_literal (s : str) : result (pyval * str) :=
  if startswith (lit "null") s then Ok (VNone, skipn 4 s)
  else if startswith (lit "true") s then Ok (VBool true, skipn 4 s)
  else if startswith (lit "false") s then Ok (VBool false, skipn 5 s)
  else
    match match_number s with
    | Some r => r
    | None =>
        if startswith (lit "NaN") s then Ok (VFloat FNan, skipn 3 s)
        else if startswith (lit "Infinity") s
        then Ok (VFloat (FInf false), skipn 8 s)
        else if startswith (lit "-Infinity") s
        then Ok (VFloat (FInf true), skipn 9 s)
        else decode_error "Expecting value"
    end.

(** [scan_once], [JSONArray] and [JSONObject].  The recursion is bounded
    by [fuel]; a text of length [n] never needs more than [n]. *)
Fixpoint scan_once (fuel : nat) (s : str) {struct fuel}
  : result (pyval * str) :=
  match fuel with
  | O => decode_error "Expecting value"
  | S f =>
      match s with
      | [] => decode_error "Expecting value"
      | c :: r =>
          if char_eqb c 34 then
            p <- scanstring r ;; Ok (VStr (fst p), snd p)
          else if char_eqb c 123 then
            match skip_ws r with
            | x :: r1 =>
                if char_eqb x 125 then Ok (VDict [], r1)
                else if char_eqb x 34 then
                  p <- object_loop f r1 ;;
                  Ok (VDict (dict_of_pairs (fst p)), snd p)
                else decode_error
                       "Expecting property name enclosed in double quotes"
            | [] => decode_error
                      "Expecting property name enclosed in double quotes"
            end
          else if char_eqb c 91 then
            match skip_ws r with
            | x :: r1 =>
                if char_eqb x 93 then Ok (VList [], r1)
                else
                  p <- array_loop f (x :: r1) ;;
                  Ok (VList (fst p), snd p)
            | [] => decode_error "Expecting value"
            end
          else scan_literal s
      end
  end

(** The [while] loop of [JSONArray], entered at a value. *)
with array_loop (fuel : nat) (s : str) {struct fuel}
  : result (list pyval * str) :=
  match fuel with
  | O => decode_error "Expecting value"
  | S f =>
      p <- scan_once f s ;;
      match skip_ws (snd p) with
      | x :: r =>
          if char_eqb x 93 then Ok ([fst p], r)
          else if char_eqb x 44 then
            q <- array_loop f (skip_ws r) ;;
            Ok (fst p :: fst q, snd q)
          else decode_error "Expecting ',' delimiter"
      | [] => decode_error "Expecting ',' delimiter"
      end
  end

(** The [while] loop of [JSONObject], entered just after the opening quote
    of a key. *)
with object_loop (fuel : nat) (s : str) {struct fuel}
  : result (list (str * pyval) * str) :=
  match fuel with
  | O => decode_error "Expecting value"
  | S f =>
      k <- scanstring s ;;
      match skip_ws (snd k) with
      | colon :: r =>
          if char_eqb colon 58 then
            p <- scan_once f (skip_ws r) ;;
            match skip_ws (snd p) with
            | x :: r1 =>
                if char_eqb x 125 then Ok ([(fst k, fst p)], r1)
                else if char_eqb x 44 then
                  match skip_ws r1 with
                  | q :: r2 =>
                      if char_eqb q 34 then
                        rest <- object_loop f r2 ;;
                        Ok ((fst k, fst p) :: fst rest, snd rest)
                      else decode_error
                        "Expecting property name enclosed in double quotes"
                  | [] => decode_error
                        "Expecting property name enclosed in double quotes"
                  end
                else decode_error "Expecting ',' delimiter"
            | [] => decode_error "Expecting ',' delimiter"
            end
          else decode_error "Expecting ':' delimiter"
      | [] => decode_error "Expecting ':' delimiter"
      end
  end.

(** [JSONDecoder.decode]: one value between optional white space, and
    nothing else. *)
Definition decode (s : str) : result pyval :=
  p <- scan_once (length s) (skip_ws s) ;;
  match skip_ws (snd p) with
  | [] => Ok (fst p)
  | _ :: _ => decode_error "Extra data"
  end.

(** [json.loads(s)] on text: a leading byte-order mark is refused. *)
Definition loads (s : str) : result pyval :=
  if startswith [65279%N] s
  then decode_error "Unexpected UTF-8 BOM (decode using utf-8-sig)"
  else decode s.

End Json.

(* ===================================================================== *)
(** * utils/helpers.py: the flexible JSON parser *)
(* ===================================================================== *)

Module Helpers.

Definition is_ident_start (c : char) : bool := is_alpha c || char_eqb c 95.
Definition is_ident_char (c : char) : bool :=
  is_alpha c || is_digit c || char_eqb c 95.

Fixpoint span_ident (s : str) : str * str :=
  match s with
  | c :: s' =>
      if is_ident_char c then let (k, r) := span_ident s' in (c :: k, r)
      else ([], s)
  | [] => ([], [])
  end.

(** [\s*] of the pattern: how many white-space characters lead [s]. *)
Fixpoint count_space (s : str) : nat :=
  match s with
  | c :: s' => if is_space c then S (count_space s') else O
  | [] => O
  end.

(** One attempt of the key pattern at the head of [s], the character
    before it being [prev]: not after a double quote, at a word boundary,
    an identifier up to a word boundary, not before a double quote, then
    white space and a colon.  The result is the key and the length of the
    match.  The word characters are taken to be the ASCII ones. *)
Definition key_match (prev : option char) (s : str) : option (str * nat) :=
  let prev_ok :=
    match prev with
    | Some p => negb (char_eqb p 34) && negb (is_ident_char p)
    | None => true
    end in
  match s with
  | c :: _ =>
      if prev_ok && is_ident_start c then
        let (key, r) := span_ident s in
        match r with
        | x :: _ =>
            if char_eqb x 34 then None
            else
              let n := count_space r in
              match skipn n r with
              | colon :: _ =>
                  if char_eqb colon 58
                  then Some (key, (length key + n + 1)%nat)
                  else None
              | [] => None
              end
        | [] => None
        end
      else None
  | [] => None
  end.

(** [re.sub(pattern, add_quotes, fixed)]: [skip] counts the characters of
    the current match still to pass over. *)
Fixpoint quote_keys (prev : option char) (skip : nat) (s : str) : str :=
  match s with
  | [] => []
  | c :: s' =>
      match skip with
      | S k => quote_keys (Some c) k s'
      | O =>
          match key_match prev s with
          | Some (key, n) =>
              (34%N :: key) ++ 34%N :: 58%N
              :: quote_keys (Some c) (n - 1) s'
          | None => c :: quote_keys (Some c) 0 s'
          end
      end
  end.

Definition fix_malformed_json (json_string : str) : str :=
  match Json.loads json_string with
  | Ok _ => json_string
  | Raise _ =>
      let fixed := quote_keys None 0 json_string in
      replace (lit "'") [34%N] fixed
  end.

Section ParseFlexible.

(** [ast.literal_eval], which the sources only call. *)
Variable literal_eval : str -> result pyval.

Definition parse_flexible_json (json_string : str) : result pyval :=
  let json_string := strip json_string in
  match Json.loads json_string with
  | Ok v => Ok v
  | Raise _ =>
      match Json.loads (fix_malformed_json json_string) with
      | Ok v => Ok v
      | Raise e =>
          let python_like :=
            replace (lit "null") (lit "None")
              (replace (lit "false") (lit "False")
                 (replace (lit "true") (lit "True") json_string)) in
          try_except (literal_eval python_like)
            (fun _ =>
               Raise (Exception
                        (lit "No se pudo parsear el JSON: " ++ str_of_exn e)))
      end
  end.

End ParseFlexible.

End Helpers.

(* ===================================================================== *)
(** * services/webhook/handler.py: the field normalizer *)
(* ===================================================================== *)

Module Normalizer.

(** A numeric input field, [Optional[Union[float, str]]]. *)
Inductive amount_in : Type :=
| AFloat (f : pyfloat)
| AStr (s : str).

Record OCAttachedData : Type := {
  oc_subject : option str;
  oc_poDate : option str;
  adquired_services : option (list str);
  adquired_serviecs : option (list str);
  authorized_by : option str
}.

(** [Optional[Union[OCAttachedData, Dict]]]: a validated model object or a
    plain mapping. *)
Inductive attached : Type :=
| AttModel (m : OCAttachedData)
| AttDict (d : dict).

(** The declared fields of the pydantic model [OrdenCompraInput]; the
    undeclared extra keys it tolerates play no part in normalization. *)
Record OrdenCompraInput : Type := {
  VendorName : option str;
  vendor_name : option str;
  proveedor : option str;
  our_company : option str;
  empresa : option str;
  receptor : option str;
  total : option amount_in;
  monto : option amount_in;
  amount : option amount_in;
  moneda : option str;
  currency : option str;
  id : option str;
  oc_id : option str;
  order_id : option str;
  oc_attached_data : option attached;
  datos_adicionales : option dict;
  concepto : option str;
  description : option str
}.

Definition amount_truthy (a : amount_in) : bool :=
  match a with
  | AFloat f => float_truthy f
  | AStr s => str_truthy s
  end.

(** [a or b] on optional amounts. *)
Definition or_amount (a b : option amount_in) : option amount_in :=
  match a with
  | Some x => if amount_truthy x then a else b
  | None => b
  end.

(** [self.monto or self.total or self.amount or 0.0]. *)
Definition raw_monto (o : OrdenCompraInput) : amount_in :=
  match or_amount (or_amount (monto o) (total o)) (amount o) with
  | Some x => if amount_truthy x then x else AFloat (FNum 0)
  | None => AFloat (FNum 0)
  end.

(** [float(x)]: [ValueError] on text that is not a number. *)
Definition py_float (x : amount_in) : result pyfloat :=
  match x with
  | AFloat f => Ok f
  | AStr s =>
      match float_of_str s with
      | Some f => Ok f
      | None =>
          Raise (Exception (lit "could not convert string to float: " ++ s))
      end
  end.

(** The body of the [try] of lines 52-55. *)
Definition convert_monto (raw : amount_in) : result pyfloat :=
  let raw' :=
    match raw with
    | AStr s => AStr (strip (replace (lit "$") [] (replace (lit ",") [] s)))
    | AFloat f => AFloat f
    end in
  py_float raw'.

Definition attached_truthy (a : attached) : bool :=
  match a with
  | AttModel _ => true
  | AttDict d => match d with [] => false | _ :: _ => true end
  end.

(** [self.oc_attached_data or self.datos_adicionales]. *)
Definition adj_of (o : OrdenCompraInput) : option attached :=
  match oc_attached_data o with
  | Some a =>
      if attached_truthy a then Some a
      else option_map AttDict (datos_adicionales o)
  | None => option_map AttDict (datos_adicionales o)
  end.

(** The [if isinstance(adj, dict):] block of lines 71-76. *)
Definition merge_adjuntos (adj : dict) (normalized : dict) : result dict :=
  let n1 := dict_set (lit "datos_adjuntos") (VDict adj) normalized in
  n2 <- (if dict_has (lit "oc_subject") adj
         then v <- dict_item (lit "oc_subject") adj ;;
              Ok (dict_set (lit "concepto") v n1)
         else Ok n1) ;;
  n3 <- (if dict_has (lit "oc_poDate") adj
         then v <- dict_item (lit "oc_poDate") adj ;;
              Ok (dict_set (lit "fecha_orden") v n2)
         else Ok n2) ;;
  let servicios :=
    or_val (dict_get_or_none (lit "adquired_services") adj)
           (dict_get_or_none (lit "adquired_serviecs") adj) in
  Ok (if truthy servicios
      then dict_set (lit "servicios") servicios n3
      else n3).

Definition to_normalized_dict (o : OrdenCompraInput) : result dict :=
  let prov :=
    or_default (or_str (or_str (proveedor o) (VendorName o)) (vendor_name o))
               (lit "N/A") in
  let emp :=
    or_default (or_str (or_str (empresa o) (our_company o)) (receptor o))
               (lit "N/A") in
  mnt <- try_except (convert_monto (raw_monto o))
                    (fun _ => Ok (FNum 0)) ;;
  let mon := upper (or_default (or_str (moneda o) (currency o)) (lit "MXN")) in
  let oid :=
    or_default (or_str (or_str (id o) (oc_id o)) (order_id o)) (lit "N/A") in
  let normalized : dict :=
    [ (lit "id", VStr oid);
      (lit "proveedor", VStr prov);
      (lit "empresa", VStr emp);
      (lit "monto", VFloat mnt);
      (lit "moneda", VStr mon) ] in
  match adj_of o with
  | Some (AttDict adj) => merge_adjuntos adj normalized
  | _ => Ok normalized
  end.


End Normalizer.

(* ===================================================================== *)
(** * models/registro.py and db/database.py: the record store *)
(* ===================================================================== *)

Module Store.

(** One row of [registros_webhook].  Timestamps are integers; the two
    presence flags are nullable booleans. *)
Record RegistroWebhook : Type := {
  id : Z;
  fecha_recepcion : Z;
  ordenes_de_compra : option (list pyval);
  factura_base64 : option str;
  procesado : bool;
  tiene_oc : option bool;
  tiene_factura : option bool;
  resultado_validacion : option str;
  es_anomalia : bool;
  tipo_anomalia : option str;
  datos_factura_json : pyval;
  fecha_procesamiento : option Z
}.

(** Truth value of a nullable boolean column. *)
Definition flag (b : option bool) : bool :=
  match b with Some true => true | _ => false end.

(** The property [num_ordenes]. *)
Definition num_ordenes (r : RegistroWebhook) : nat :=
  match ordenes_de_compra r with
  | Some ((_ :: _) as l) => length l
  | _ => O
  end.

(** What the outside world does, step by step: every call of a
    collaborator and every write session of the store is entered in
    [trace]; the length of the trace is the time at which the next
    external answer is asked for. *)
Inductive event : Type :=
| CallExtraer (factura_b64 : option str)
| CallComparar (datos_factura : pyval) (ocs : option (list pyval))
| DbWrite (committed : bool).

Record World : Type := {
  rows : list RegistroWebhook;
  next_id : Z;
  trace : list event
}.

Definition tick (w : World) : nat := length (trace w).

Definition log (ev : event) (w : World) : World :=
  {| rows := rows w; next_id := next_id w; trace := trace w ++ [ev] |}.

(** The environment of the store: whether the write session opened at a
    given time fails (and with which exception), and the clock. *)
Record Env : Type := {
  db_fault : nat -> option exn;
  utcnow : nat -> Z
}.

(** Code that reads and writes the world and may raise. *)
Definition M (A : Type) : Type := World -> result A * World.

Definition ret {A} (a : A) : M A := fun w => (Ok a, w).

Definition raise {A} (e : exn) : M A := fun w => (Raise e, w).

Definition mbind {A B} (c : M A) (k : A -> M B) : M B :=
  fun w =>
    match c w with
    | (Ok a, w') => k a w'
    | (Raise e, w') => (Raise e, w')
    end.

(** [with db_manager.get_session() as session: ...] around a write
    [f]: the session commits, or it rolls back and re-raises. *)
Definition write_session (env : Env) (f : World -> World) : M unit :=
  fun w =>
    match db_fault env (tick w) with
    | None => (Ok tt, log (DbWrite true) (f w))
    | Some e => (Raise e, log (DbWrite false) w)
    end.

End Store.

Import Store.

Notation "x <-- c ;; k" := (Store.mbind c (fun x => k))
  (at level 61, c at next level, right associativity).

(* ===================================================================== *)
(** * services/openai/client.py: the comparison collaborator *)
(* ===================================================================== *)

Module OpenAIClient.

(** The remote chat API and the prompt builder, both able to raise.  The
    answer of the API is the list of the message contents of its choices;
    a content can be missing. *)
Record ChatAPI : Type := {
  get_comparison_prompt : pyval -> option (list pyval) -> result str;
  chat_completions_create : nat -> str -> result (list (option str))
}.

(** ['Error en comparación: '] (the accented letter is U+00F3). *)
Definition error_prefix : str :=
  lit "Error en comparaci" ++ [243%N] ++ lit "n: ".

(** [response.choices[0].message.content.strip()]. *)
Definition first_content (choices : list (option str)) : result str :=
  match choices with
  | [] => Raise (Exception (lit "list index out of range"))
  | None :: _ =>
      Raise (Exception (lit "'NoneType' object has no attribute 'strip'"))
  | Some content :: _ => Ok (strip content)
  end.

(** [len(ordenes_de_compra)] in the first log line. *)
Definition len_ocs (ocs : option (list pyval)) : result nat :=
  match ocs with
  | Some l => Ok (length l)
  | None => Raise (Exception (lit "object of type 'NoneType' has no len()"))
  end.

(** The body of the [try] of lines 155-170. *)
Definition comparar_try (api : ChatAPI) (now : nat)
    (datos_factura : pyval) (ordenes_de_compra : option (list pyval))
  : result str :=
  _ <- len_ocs ordenes_de_compra ;;
  prompt <- get_comparison_prompt api datos_factura ordenes_de_compra ;;
  choices <- chat_completions_create api now prompt ;;
  first_content choices.

Definition comparar_factura_oc (api : ChatAPI) (now : nat)
    (datos_factura : pyval) (ordenes_de_compra : option (list pyval))
  : result str :=
  try_except
    (comparar_try api now datos_factura ordenes_de_compra)
    (fun e => Ok (error_prefix ++ str_of_exn e)).

End OpenAIClient.

(* ===================================================================== *)
(** * services/validator/validator.py: the validation engine *)
(* ===================================================================== *)

Module TipoAnomalia.
Definition SIN_OC : str := lit "sin_oc".
Definition SIN_FACTURA : str := lit "sin_factura".
Definition SIN_OC_NI_FACTURA : str := lit "sin_oc_ni_factura".
Definition ERROR_PROCESAMIENTO : str := lit "error_procesamiento_factura".
Definition DISCREPANCIAS : str := lit "discrepancias_encontradas".
End TipoAnomalia.

Module Validator.

(** The service object held in [self.openai_service], seen from the
    validator: two calls that answer or raise.  [nat] is the time of the
    call, so that an external service may answer differently each time. *)
Record OpenAIService : Type := {
  extraer_datos_factura : nat -> option str -> result (pyval * pyval);
  comparar_factura_oc : nat -> pyval -> option (list pyval) -> result str
}.

(** The service object of [client.py]: its comparison is the function
    above; its extraction, a long exchange with the remote API, is left
    as it comes. *)
Definition servicio_real (api : OpenAIClient.ChatAPI)
    (extraer : nat -> option str -> result (pyval * pyval))
  : OpenAIService :=
  {| extraer_datos_factura := extraer;
     comparar_factura_oc := OpenAIClient.comparar_factura_oc api |}.

(** The outcome dictionary [resultado].  The error outcome built by the
    batch loop has no ['num_ordenes'] key. *)
Record Resultado : Type := {
  registro_id : Z;
  r_fecha_recepcion : Z;
  r_tiene_oc : option bool;
  r_tiene_factura : option bool;
  r_es_anomalia : bool;
  r_tipo_anomalia : option str;
  resultado_openai : option str;
  datos_factura : pyval;
  r_num_ordenes : option nat;
  factura_base64_raw : option str
}.

Definition set_anomalia (b : bool) (tipo : option str) (r : Resultado)
  : Resultado :=
  {| registro_id := registro_id r;
     r_fecha_recepcion := r_fecha_recepcion r;
     r_tiene_oc := r_tiene_oc r;
     r_tiene_factura := r_tiene_factura r;
     r_es_anomalia := b;
     r_tipo_anomalia := tipo;
     resultado_openai := resultado_openai r;
     datos_factura := datos_factura r;
     r_num_ordenes := r_num_ordenes r;
     factura_base64_raw := factura_base64_raw r |}.

Definition set_resultado_openai (t : option str) (r : Resultado) : Resultado :=
  {| registro_id := registro_id r;
     r_fecha_recepcion := r_fecha_recepcion r;
     r_tiene_oc := r_tiene_oc r;
     r_tiene_factura := r_tiene_factura r;
     r_es_anomalia := r_es_anomalia r;
     r_tipo_anomalia := r_tipo_anomalia r;
     resultado_openai := t;
     datos_factura := datos_factura r;
     r_num_ordenes := r_num_ordenes r;
     factura_base64_raw := factura_base64_raw r |}.

Definition set_datos_factura (d : pyval) (r : Resultado) : Resultado :=
  {| registro_id := registro_id r;
     r_fecha_recepcion := r_fecha_recepcion r;
     r_tiene_oc := r_tiene_oc r;
     r_tiene_factura := r_tiene_factura r;
     r_es_anomalia := r_es_anomalia r;
     r_tipo_anomalia := r_tipo_anomalia r;
     resultado_openai := resultado_openai r;
     datos_factura := d;
     r_num_ordenes := r_num_ordenes r;
     factura_base64_raw := factura_base64_raw r |}.

(** Lines 105-117. *)
Definition resultado_inicial (registro : RegistroWebhook) : Resultado :=
  {| registro_id := Store.id registro;
     r_fecha_recepcion := fecha_recepcion registro;
     r_tiene_oc := tiene_oc registro;
     r_tiene_factura := tiene_factura registro;
     r_es_anomalia := false;
     r_tipo_anomalia := None;
     resultado_openai := None;
     datos_factura := VNone;
     r_num_ordenes := Some (num_ordenes registro);
     factura_base64_raw := factura_base64 registro |}.

Definition SIN_OC_TEXTO : str := lit "No se pudo comparar: Falta Orden de Compra.".

(** ['Falló la extracción de datos del PDF.'] *)
Definition EXTRACCION_FALLIDA : str :=
  lit "Fall" ++ [243%N] ++ lit " la extracci" ++ [243%N]
  ++ lit "n de datos del PDF.".

(** The two [datos_factura.get(...)] of the log line of lines 140-142:
    they need a mapping. *)
Definition log_datos_extraidos (datos : pyval) : result unit :=
  match datos with
  | VDict _ => Ok tt
  | _ => Raise (object_error datos "has no attribute 'get'")
  end.

(** The external calls, entered in the trace. *)
Definition call_extraer (svc : OpenAIService) (b64 : option str)
  : M (pyval * pyval) :=
  fun w => (extraer_datos_factura svc (tick w) b64, log (CallExtraer b64) w).

Definition call_comparar (svc : OpenAIService) (datos : pyval)
    (ocs : option (list pyval)) : M str :=
  fun w =>
    (comparar_factura_oc svc (tick w) datos ocs, log (CallComparar datos ocs) w).

(** Step 2, lines 135-147: the extraction inside its own [try].  The pair
    returned is the outcome dictionary and the local [datos_factura]. *)
Definition extraer_paso (svc : OpenAIService) (registro : RegistroWebhook)
    (resultado : Resultado) : M (Resultado * pyval) :=
  fun w =>
    match call_extraer svc (factura_base64 registro) w with
    | (Ok (datos, _), w') =>
        let resultado' := set_datos_factura datos resultado in
        if truthy datos then
          match log_datos_extraidos datos with
          | Ok _ => (Ok (resultado', datos), w')
          | Raise _ => (Ok (resultado', VNone), w')
          end
        else (Ok (resultado', datos), w')
    | (Raise _, w') => (Ok (resultado, VNone), w')
    end.

(** The test of line 170 on the text of the comparison. *)
Definition todo_coincide (comparacion : str) : bool :=
  let comparacion_upper := upper (strip comparacion) in
  contains (lit "OK") comparacion_upper
  && negb (contains (lit "DISCREPANCIA") comparacion_upper).

Definition _validar_registro_individual (svc : OpenAIService)
    (registro : RegistroWebhook) : M Resultado :=
  let resultado := resultado_inicial registro in
  if negb (flag (tiene_factura registro)) then
    if negb (flag (tiene_oc registro)) then
      ret (set_anomalia true (Some TipoAnomalia.SIN_OC_NI_FACTURA) resultado)
    else
      ret (set_anomalia true (Some TipoAnomalia.SIN_FACTURA) resultado)
  else
    p <-- extraer_paso svc registro resultado ;;
    let (resultado, datos_factura) := p in
    if negb (flag (tiene_oc registro)) then
      ret (set_resultado_openai (Some SIN_OC_TEXTO)
             (set_anomalia true (Some TipoAnomalia.SIN_OC) resultado))
    else if truthy datos_factura then
      comparacion <-- call_comparar svc datos_factura
                        (ordenes_de_compra registro) ;;
      let resultado := set_resultado_openai (Some comparacion) resultado in
      if todo_coincide comparacion then
        ret (set_anomalia false (r_tipo_anomalia resultado) resultado)
      else
        ret (set_anomalia true (Some TipoAnomalia.DISCREPANCIAS) resultado)
    else
      let resultado :=
        set_anomalia true (Some TipoAnomalia.ERROR_PROCESAMIENTO) resultado in
      ret (match resultado_openai resultado with
           | Some (_ :: _) => resultado
           | _ => set_resultado_openai (Some EXTRACCION_FALLIDA) resultado
           end).

(** The row update of [_actualizar_registro], lines 190-197. *)
Definition actualizar_fila (resultado : Resultado) (ahora : Z)
    (r : RegistroWebhook) : RegistroWebhook :=
  {| Store.id := Store.id r;
     fecha_recepcion := fecha_recepcion r;
     ordenes_de_compra := ordenes_de_compra r;
     factura_base64 := factura_base64 r;
     procesado := true;
     tiene_oc := tiene_oc r;
     tiene_factura := tiene_factura r;
     resultado_validacion := resultado_openai resultado;
     es_anomalia := r_es_anomalia resultado;
     tipo_anomalia := r_tipo_anomalia resultado;
     datos_factura_json := datos_factura resultado;
     fecha_procesamiento := Some ahora |}.

(** [filter_by(id=registro_id).update({...})] on the rows. *)
Definition update_rows (registro_id : Z) (resultado : Resultado) (ahora : Z)
    (l : list RegistroWebhook) : list RegistroWebhook :=
  map (fun r => if Z.eqb (Store.id r) registro_id
                then actualizar_fila resultado ahora r else r) l.

(** A failed session is logged and re-raised (lines 198-200). *)
Definition _actualizar_registro (env : Env) (registro_id : Z)
    (resultado : Resultado) : M unit :=
  write_session env
    (fun w =>
       {| rows := update_rows registro_id resultado (utcnow env (tick w))
                    (rows w);
          next_id := next_id w;
          trace := trace w |}).

(** [order_by(fecha_recepcion.asc())]: rows of equal date keep their table
    order. *)
Fixpoint insert_by_fecha (r : RegistroWebhook) (l : list RegistroWebhook)
  : list RegistroWebhook :=
  match l with
  | [] => [r]
  | x :: l' =>
      if (fecha_recepcion r <=? fecha_recepcion x)%Z
      then r :: l
      else x :: insert_by_fecha r l'
  end.

Definition order_by_fecha (l : list RegistroWebhook) : list RegistroWebhook :=
  fold_right insert_by_fecha [] l.

(** The query of lines 90-95.  [fecha_recepcion] is a NOT NULL column, so
    the second filter holds of every row.  A read of the store is taken to
    succeed. *)
Definition _obtener_registros_pendientes : M (list RegistroWebhook) :=
  fun w =>
    (Ok (order_by_fecha (filter (fun r => negb (procesado r)) (rows w))), w).

(** The error outcome of lines 61-72. *)
Definition resultado_error (registro : RegistroWebhook) (e : exn) : Resultado :=
  {| registro_id := Store.id registro;
     r_fecha_recepcion := fecha_recepcion registro;
     r_tiene_oc := tiene_oc registro;
     r_tiene_factura := tiene_factura registro;
     r_es_anomalia := true;
     r_tipo_anomalia := Some TipoAnomalia.ERROR_PROCESAMIENTO;
     resultado_openai := Some (lit "Error: " ++ str_of_exn e);
     datos_factura := VNone;
     r_num_ordenes := None;
     factura_base64_raw := factura_base64 registro |}.

(** The [except] block of lines 57-74, entered with the outcomes appended
    so far. *)
Definition manejar_error (env : Env) (registro : RegistroWebhook)
    (resultados : list Resultado) (e : exn) : M (list Resultado) :=
  let err := resultado_error registro e in
  let resultados := resultados ++ [err] in
  _ <-- _actualizar_registro env (Store.id registro) err ;;
  ret resultados.

(** The [try] block of lines 44-55.  The list [resultados] is a local of
    the caller: the append of line 51 is kept when the write of line 52
    raises, so the block hands back the list it reached together with its
    outcome. *)
Definition cuerpo_try (env : Env) (svc : OpenAIService)
    (registro : RegistroWebhook) (resultados : list Resultado)
  : World -> result unit * (list Resultado * World) :=
  fun w =>
    match _validar_registro_individual svc registro w with
    | (Ok resultado, w1) =>
        let resultados1 := resultados ++ [resultado] in
        match _actualizar_registro env (Store.id registro) resultado w1 with
        | (Ok _, w2) => (Ok tt, (resultados1, w2))
        | (Raise e, w2) => (Raise e, (resultados1, w2))
        end
    | (Raise e, w1) => (Raise e, (resultados, w1))
    end.

(** One turn of the loop of lines 43-74. *)
Definition iteracion (env : Env) (svc : OpenAIService)
    (registro : RegistroWebhook) (resultados : list Resultado)
  : M (list Resultado) :=
  fun w =>
    match cuerpo_try env svc registro resultados w with
    | (Ok _, (resultados1, w1)) => (Ok resultados1, w1)
    | (Raise e, (resultados1, w1)) =>
        manejar_error env registro resultados1 e w1
    end.

Fixpoint bucle (env : Env) (svc : OpenAIService)
    (registros : list RegistroWebhook) (resultados : list Resultado)
  : M (list Resultado) :=
  match registros with
  | [] => ret resultados
  | registro :: resto =>
      resultados' <-- iteracion env svc registro resultados ;;
      bucle env svc resto resultados'
  end.

Definition validar_todos_los_registros (env : Env) (svc : OpenAIService)
  : M (list Resultado) :=
  registros <-- _obtener_registros_pendientes ;;
  match registros with
  | [] => ret []
  | _ :: _ => bucle env svc registros []
  end.

End Validator.

(* ===================================================================== *)
(** * services/webhook/handler.py: the ingestion endpoint *)
(* ===================================================================== *)

Module Handler.

Import Normalizer.

(** The two library functions the endpoint only calls: [ast.literal_eval]
    (through [parse_flexible_json]) and the validating
    constructor of [OrdenCompraInput] that pydantic generates. *)
Record Host : Type := {
  literal_eval : str -> result pyval;
  OrdenCompraInput_of : dict -> result OrdenCompraInput
}.

(** An uploaded file: its name and its bytes. *)
Record UploadFile : Type := {
  filename : str;
  file_content : list N
}.

(** The multipart form of [POST /webhook]. *)
Record Submission : Type := {
  factura : option UploadFile;
  ordenes_de_compra : option str
}.

Inductive Response : Type :=
| Ignored
| Success (registro_id : Z)
| HTTP500 (detail : str).

(** [_clean_json_string]. *)
Definition is_control (c : char) : bool :=
  in_range 0 31 c || in_range 127 159 c.

Definition _clean_json_string (json_str : str) : str :=
  let s1 := replace [13%N] [] (replace [10%N] [32%N] json_str) in
  let s2 := replace [9%N] [32%N] s1 in
  filter (fun c => negb (is_control c)) s2.

(** The replacement of lines 138 and 150: a backslash followed by a double
    quote becomes the double quote alone. *)
Definition unescape_quotes (s : str) : str :=
  replace [92%N; 34%N] [34%N] s.

(** A phase of parsing: [raw_list] stays [None] when the parser raises. *)
Definition intento (h : Host) (text : str) : pyval :=
  match Helpers.parse_flexible_json (literal_eval h) text with
  | Ok v => v
  | Raise _ => VNone
  end.

(** The three phases of lines 129-157. *)
Definition parse_fases (h : Host) (ordenes : str) : pyval :=
  let raw_list := intento h ordenes in
  let raw_list :=
    match raw_list with
    | VNone => intento h (unescape_quotes ordenes)
    | _ => raw_list
    end in
  match raw_list with
  | VNone => intento h (unescape_quotes (_clean_json_string ordenes))
  | _ => raw_list
  end.

(** The items that [for item in raw_list] visits; a number or a boolean
    is not iterable. *)
Definition iterar (v : pyval) : result (list pyval) :=
  match v with
  | VList l => Ok l
  | VStr s => Ok (map (fun c => VStr [c]) s)
  | VDict d => Ok (map (fun kv => VStr (fst kv)) d)
  | _ => Raise (object_error v "is not iterable")
  end.

(** Lines 165-173 for one item. *)
Definition normalizar_item (h : Host) (item : pyval) : pyval :=
  match item with
  | VDict d =>
      match (o <- OrdenCompraInput_of h d ;; to_normalized_dict o) with
      | Ok oc_normalizada => VDict oc_normalizada
      | Raise _ => item
      end
  | _ => item
  end.

(** The [.get] calls of the log line of lines 176-178 on the first order. *)
Definition log_check (ocs_finales : list pyval) : result unit :=
  match ocs_finales with
  | [] => Ok tt
  | VDict _ :: _ => Ok tt
  | ej :: _ => Raise (object_error ej "has no attribute 'get'")
  end.

(** Step 2, lines 124-178: the list [ocs_finales]. *)
Definition procesar_ocs (h : Host) (ordenes : option str)
  : result (list pyval) :=
  match ordenes with
  | Some ((_ :: _) as texto) =>
      let raw_list := parse_fases h texto in
      if truthy raw_list then
        let raw_list :=
          match raw_list with
          | VDict _ => VList [raw_list]
          | _ => raw_list
          end in
        items <- iterar raw_list ;;
        let ocs_finales := map (normalizar_item h) items in
        _ <- log_check ocs_finales ;;
        Ok ocs_finales
      else Ok []
  | _ => Ok []
  end.

(** Step 1, lines 114-121. *)
Definition procesar_factura (f : option UploadFile) : option str :=
  match f with
  | Some file =>
      match file_content file with
      | [] => None
      | _ :: _ => Some (b64encode (file_content file))
      end
  | None => None
  end.

(** The new row of [_guardar_registro_sync], with the defaults of the
    columns. *)
Definition nuevo_registro (new_id ahora : Z) (factura_b64 : option str)
    (ocs : list pyval) : RegistroWebhook :=
  {| Store.id := new_id;
     fecha_recepcion := ahora;
     Store.ordenes_de_compra :=
       match ocs with [] => None | _ :: _ => Some ocs end;
     factura_base64 := factura_b64;
     procesado := false;
     tiene_oc :=
       Some (match ocs with [] => false | _ :: _ => (0 <? length ocs)%nat end);
     tiene_factura :=
       Some (match factura_b64 with
             | Some (_ :: _) => true
             | _ => false
             end);
     resultado_validacion := None;
     es_anomalia := false;
     tipo_anomalia := None;
     datos_factura_json := VNone;
     fecha_procesamiento := None |}.

Definition _guardar_registro_sync (env : Env) (factura_b64 : option str)
    (ocs : list pyval) : M Z :=
  fun w =>
    let new_id := next_id w in
    match write_session env
            (fun w0 =>
               {| rows := rows w0
                          ++ [nuevo_registro new_id (utcnow env (tick w0))
                                factura_b64 ocs];
                  next_id := (next_id w0 + 1)%Z;
                  trace := trace w0 |}) w with
    | (Ok _, w') => (Ok new_id, w')
    | (Raise e, w') => (Raise e, w')
    end.

(** The body of the [try] of [receive_webhook], lines 109-189. *)
Definition receive_webhook_body (h : Host) (env : Env) (sub : Submission)
  : M Response :=
  let factura_b64 := procesar_factura (factura sub) in
  match procesar_ocs h (ordenes_de_compra sub) with
  | Raise e => raise e
  | Ok ocs_finales =>
      if negb (match factura_b64 with Some (_ :: _) => true | _ => false end)
         && negb (match ocs_finales with [] => false | _ :: _ => true end)
      then ret Ignored
      else
        registro_id <-- _guardar_registro_sync env factura_b64 ocs_finales ;;
        ret (Success registro_id)
  end.

(** [receive_webhook]: any exception becomes an HTTP 500 answer carrying
    its text. *)
Definition receive_webhook (h : Host) (env : Env) (sub : Submission)
  : World -> Response * World :=
  fun w =>
    match receive_webhook_body h env sub w with
    | (Ok resp, w') => (resp, w')
    | (Raise e, w') => (HTTP500 (str_of_exn e), w')
    end.

End Handler.

(* ===================================================================== *)
(** * Vocabulary of the properties *)
(* ===================================================================== *)

Module Spec.

Import Normalizer Validator.

(** The first synonym that is truthy: neither missing nor empty. *)
Fixpoint first_truthy (synonyms : list (option str)) : option str :=
  match synonyms with
  | [] => None
  | Some s :: rest => if str_truthy s then Some s else first_truthy rest
  | None :: rest => first_truthy rest
  end.

Definition resolve (synonyms : list (option str)) (default : str) : str :=
  match first_truthy synonyms with
  | Some s => s
  | None => default
  end.


(** The keys that the nested data of an order may add or overwrite. *)
Definition clave_adjunta (k : str) : bool :=
  str_eqb k (lit "datos_adjuntos") || str_eqb k (lit "concepto")
  || str_eqb k (lit "fecha_orden") || str_eqb k (lit "servicios").

(** The amount that lines 51-57 of the handler compute. *)
Definition monto_normalizado (o : OrdenCompraInput) : pyfloat :=
  match convert_monto (raw_monto o) with
  | Ok f => f
  | Raise _ => FNum 0
  end.


(** What the extraction call leaves in the outcome dictionary. *)
Definition datos_retenidos (svc : OpenAIService) (registro : RegistroWebhook)
    (w : World) : pyval :=
  match extraer_datos_factura svc (tick w) (factura_base64 registro) with
  | Ok (datos, _) => datos
  | Raise _ => VNone
  end.

(** Text that cannot prolong a number standing just before it: it is
    empty or starts with something other than a digit, a point or an
    exponent letter. *)
Definition sin_digito (r : str) : bool :=
  match r with
  | [] => true
  | x :: _ => negb (is_digit x)
  end.








(** The outcome invariant of a record. *)
Definition invariante (r : RegistroWebhook) : Prop :=
  procesado r = false ->
  es_anomalia r = false /\ tipo_anomalia r = None
  /\ fecha_procesamiento r = None.

(** The row of a given identity. *)
Definition buscar (i : Z) (l : list RegistroWebhook)
  : option RegistroWebhook :=
  find (fun r => Z.eqb (Store.id r) i) l.

(** The store before any submission. *)
Definition mundo_inicial : World :=
  {| rows := []; next_id := 1; trace := [] |}.

(** The two operations that run against the store, one after the other:
    a request to the webhook and a run of the validation batch. *)
Inductive paso (w w' : World) : Prop :=
| paso_webhook (h : Handler.Host) (env : Env) (sub : Handler.Submission) :
    w' = snd (Handler.receive_webhook h env sub w) -> paso w w'
| paso_batch (env : Env) (svc : OpenAIService) :
    w' = snd (validar_todos_los_registros env svc w) -> paso w w'.

Inductive alcanzable : World -> Prop :=
| alcanzable_inicial : alcanzable mundo_inicial
| alcanzable_paso (w w' : World) : alcanzable w -> paso w w' -> alcanzable w'.

(** The records that the query of the batch selects. *)
Definition pendientes (w : World) : list RegistroWebhook :=
  order_by_fecha (filter (fun r => negb (procesado r)) (rows w)).

(** The world after a write session that committed [filas]. *)
Definition tras_escritura (filas : list RegistroWebhook) (w : World) : World :=
  {| rows := filas; next_id := next_id w; trace := trace w ++ [DbWrite true] |}.

(** The primary key: identities are distinct and below the next one. *)
Definition bien_formado (w : World) : Prop :=
  NoDup (map Store.id (rows w))
  /\ Forall (fun r => (Store.id r < next_id w)%Z) (rows w).

(** How a run of the batch over the records [ids] may change the rows:
    a row is left alone, or it is one of the records of the run and has
    received its single update. *)
Definition evoluciona (ids : list Z) (l l' : list RegistroWebhook) : Prop :=
  Forall2 (fun r r' =>
             r' = r
             \/ (In (Store.id r) ids
                 /\ exists res ahora, r' = actualizar_fila res ahora r))
          l l'.

End Spec.

(* ===================================================================== *)
(** * Concrete inputs *)
(* ===================================================================== *)

Module Fixtures.

Import Normalizer Validator.

Definition datos_acme : pyval :=
  VDict [(lit "proveedor", VStr (lit "ACME")); (lit "gran_total", VInt 100)].

Definition oc_acme : pyval :=
  VDict [(lit "id", VStr (lit "OC-1")); (lit "proveedor", VStr (lit "ACME"))].

(** A pending record, given what it holds. *)
Definition registro_pendiente (i fecha : Z) (ocs : option (list pyval))
    (factura : option str) : RegistroWebhook :=
  {| Store.id := i; fecha_recepcion := fecha;
     ordenes_de_compra := ocs;
     factura_base64 := factura;
     procesado := false;
     tiene_oc := Some (match ocs with Some (_ :: _) => true | _ => false end);
     tiene_factura :=
       Some (match factura with Some (_ :: _) => true | _ => false end);
     resultado_validacion := None; es_anomalia := false;
     tipo_anomalia := None; datos_factura_json := VNone;
     fecha_procesamiento := None |}.

(** A pending record with an invoice and one purchase order. *)
Definition registro_completo : RegistroWebhook :=
  registro_pendiente 1 100 (Some [oc_acme]) (Some (lit "JVBERi0x")).

Definition registro_vacio : RegistroWebhook :=
  registro_pendiente 2 101 None None.

Definition registro_sin_factura : RegistroWebhook :=
  registro_pendiente 3 102 (Some [oc_acme]) None.

Definition registro_sin_oc : RegistroWebhook :=
  registro_pendiente 4 103 None (Some (lit "JVBERi0x")).

Definition mundo (l : list RegistroWebhook) : World :=
  {| rows := l; next_id := 1 + Z.of_nat (length l); trace := [] |}.

(** A service whose extraction succeeds and whose comparison answers
    [texto]. *)
Definition svc_texto (texto : str) : OpenAIService :=
  {| extraer_datos_factura := fun _ _ => Ok (datos_acme, VNone);
     comparar_factura_oc := fun _ _ _ => Ok texto |}.

(** A service whose comparison raises. *)
Definition svc_falla (msg : str) : OpenAIService :=
  {| extraer_datos_factura := fun _ _ => Ok (datos_acme, VNone);
     comparar_factura_oc := fun _ _ _ => Raise (Exception msg) |}.



(** A store that commits every write, and one that refuses them all. *)
Definition env_sano : Env :=
  {| db_fault := fun _ => None; utcnow := fun n => (1000 + Z.of_nat n)%Z |}.

Definition env_caido : Env :=
  {| db_fault := fun _ => Some (Exception (lit "database is locked"));
     utcnow := fun n => (1000 + Z.of_nat n)%Z |}.



(** A submission with a three-byte file and no purchase-order field. *)
Definition sub_factura : Handler.Submission :=
  {| Handler.factura :=
       Some {| Handler.filename := lit "factura.pdf";
               Handler.file_content := [37; 80; 68]%N |};
     Handler.ordenes_de_compra := None |}.

(** A submission with no file and the purchase-order field [texto]. *)
Definition sub_ordenes (texto : str) : Handler.Submission :=
  {| Handler.factura := None; Handler.ordenes_de_compra := Some texto |}.

(** A host whose library calls are never reached by the inputs below. *)
Definition host_nulo : Handler.Host :=
  {| Handler.literal_eval := fun _ => Raise (Exception (lit "malformed"));
     Handler.OrdenCompraInput_of :=
       fun _ => Raise (Exception (lit "validation error")) |}.

(** The store after [sub_factura] was received by an empty store, and the
    row it created. *)
Definition mundo_uno : World :=
  snd (Handler.receive_webhook host_nulo env_sano sub_factura
         Spec.mundo_inicial).



End Fixtures.

(* ===================================================================== *)
(** * The standard [base64] decoder, as [base64.b64decode] runs it on text *)
(* ===================================================================== *)

Module Base64.

(** The value of a character of the alphabet. *)
Definition b64_value (c : char) : option N :=
  if in_range 65 90 c then Some (c - 65)%N
  else if in_range 97 122 c then Some (c - 71)%N
  else if in_range 48 57 c then Some (c + 4)%N
  else if char_eqb c 43 then Some 62%N
  else if char_eqb c 47 then Some 63%N
  else None.

(** [str(n)] for a natural number. *)
Fixpoint str_of_uint (u : Decimal.uint) : str :=
  match u with
  | Decimal.Nil => []
  | Decimal.D0 u' => 48%N :: str_of_uint u'
  | Decimal.D1 u' => 49%N :: str_of_uint u'
  | Decimal.D2 u' => 50%N :: str_of_uint u'
  | Decimal.D3 u' => 51%N :: str_of_uint u'
  | Decimal.D4 u' => 52%N :: str_of_uint u'
  | Decimal.D5 u' => 53%N :: str_of_uint u'
  | Decimal.D6 u' => 54%N :: str_of_uint u'
  | Decimal.D7 u' => 55%N :: str_of_uint u'
  | Decimal.D8 u' => 56%N :: str_of_uint u'
  | Decimal.D9 u' => 57%N :: str_of_uint u'
  end.

Definition str_of_nat (n : nat) : str := str_of_uint (Nat.to_uint n).

(** The end of the input inside a group of four characters. *)
Definition fin_de_texto (quad_pos n_out : nat) : result (list N) :=
  match quad_pos with
  | 0%nat => Ok []
  | 1%nat =>
      Raise (Exception
               (lit "Invalid base64-encoded string: number of data characters ("
                ++ str_of_nat (n_out / 3 * 4 + 1)
                ++ lit ") cannot be 1 more than a multiple of 4"))
  | _ => Raise (Exception (lit "Incorrect padding"))
  end.

(** [binascii.a2b_base64] without strict mode.  [quad_pos] is the place in
    the current group of four, [leftchar] the bits not yet written,
    [pads] the padding characters seen since the last data character, and
    [n_out] the number of bytes written so far.  A character outside the
    alphabet is skipped; padding that completes a group ends the data. *)
Fixpoint a2b_base64 (quad_pos : nat) (leftchar : N) (pads : nat)
    (n_out : nat) (s : str) : result (list N) :=
  match s with
  | [] => fin_de_texto quad_pos n_out
  | c :: s' =>
      if char_eqb c 61 then
        if (2 <=? quad_pos)%nat then
          if (4 <=? quad_pos + S pads)%nat then Ok []
          else a2b_base64 quad_pos leftchar (S pads) n_out s'
        else a2b_base64 quad_pos leftchar pads n_out s'
      else
        match b64_value c with
        | None => a2b_base64 quad_pos leftchar pads n_out s'
        | Some v =>
            match quad_pos with
            | 0%nat => a2b_base64 1 v 0 n_out s'
            | 1%nat =>
                r <- a2b_base64 2 (v mod 16) 0 (S n_out) s' ;;
                Ok ((leftchar * 4 + v / 16)%N :: r)
            | 2%nat =>
                r <- a2b_base64 3 (v mod 4) 0 (S n_out) s' ;;
                Ok ((leftchar * 16 + v / 4)%N :: r)
            | _ =>
                r <- a2b_base64 0 0 0 (S n_out) s' ;;
                Ok ((leftchar * 64 + v)%N :: r)
            end
        end
  end.

(** [base64.b64decode(s)] on text: the text must be ASCII. *)
Definition b64decode (s : str) : result (list N) :=
  if forallb (fun c => (c <? 128)%N) s then a2b_base64 0 0 0 0 s
  else Raise (Exception
                (lit "string argument should contain only ASCII characters")).

End Base64.

(* ===================================================================== *)
(** * utils/helpers.py: the other helpers *)
(* ===================================================================== *)

Module HelpersText.

Import Base64.

(** [decode_base64_pdf]: the two-character sequence backslash, n and the
    spaces are removed before decoding; [None] on any failure. *)
Definition decode_base64_pdf (base64_string : str) : option (list N) :=
  let clean_string :=
    replace (lit " ") [] (replace [92%N; 110%N] [] (strip base64_string)) in
  match b64decode clean_string with
  | Ok data => Some data
  | Raise _ => None
  end.

(** [validate_base64]; the argument can be [None]. *)
Definition validate_base64 (base64_string : option str) : bool :=
  match base64_string with
  | Some ((_ :: _) as s) =>
      match b64decode (strip s) with
      | Ok _ => true
      | Raise _ => false
      end
  | _ => false
  end.

(** [text[:m]] for an integer [m], negative or not. *)
Definition slice_to (m : Z) (text : str) : str :=
  if (0 <=? m)%Z then firstn (Z.to_nat m) text
  else firstn (length text - Z.to_nat (- m)) text.

Definition truncate_text (text : str) (max_length : Z) : str :=
  if (Z.of_nat (length text) <=? max_length)%Z then text
  else slice_to max_length text ++ lit "...".

End HelpersText.

(* ===================================================================== *)
(** * services/report/generator.py: the rows and the figures of the report *)
(* ===================================================================== *)

Module Report.

Import Validator.

(** [str.title()]: a letter that follows a letter is lowered, any other
    letter is raised.  As for [upper], only the ASCII letters are cased. *)
Fixpoint title_from (previous_is_cased : bool) (s : str) : str :=
  match s with
  | [] => []
  | c :: s' =>
      (if previous_is_cased then lower_char c else upper_char c)
      :: title_from (is_alpha c) s'
  end.

Definition title (s : str) : str := title_from false s.

Definition NA : str := lit "N/A".

(** The warning sign followed by its variation selector, the red circle,
    the cross mark and the check mark of the labels. *)
Definition aviso : str := [9888%N; 65039%N].
Definition circulo_rojo : str := [128308%N].
Definition cruz : str := [10060%N].
Definition visto : str := [9989%N].

(** The table [formatos] of lines 147-153. *)
Definition formatos : list (str * str) :=
  [ (lit "sin_oc", aviso ++ lit " Sin OC");
    (lit "sin_factura", aviso ++ lit " Sin Factura");
    (lit "sin_oc_ni_factura", circulo_rojo ++ lit " Sin OC ni Factura");
    (lit "error_procesamiento_factura", cruz ++ lit " Error al Procesar");
    (lit "discrepancias_encontradas", aviso ++ lit " Discrepancias") ].

Fixpoint lookup {A} (k : str) (d : list (str * A)) : option A :=
  match d with
  | [] => None
  | (k', v) :: d' => if str_eqb k k' then Some v else lookup k d'
  end.

Definition _format_tipo_anomalia (tipo : option str) : str :=
  match tipo with
  | Some ((_ :: _) as t) =>
      match lookup t formatos with
      | Some etiqueta => etiqueta
      | None => title (replace (lit "_") (lit " ") t)
      end
  | _ => NA
  end.

(** An outcome as the report reads it: the dictionary built by the
    validator, and the key ['drive_link'] once it has been set. *)
Record Entrada : Type := {
  res : Resultado;
  drive_link : option str
}.

(** The columns of the sheet.  The accented letters are U+00F3 and
    U+00ED. *)
Definition COL_ESTADO : str := lit "Estado".
Definition COL_ID : str := lit "ID Registro".
Definition COL_FECHA : str := lit "Fecha Recepci" ++ [243%N] ++ lit "n".
Definition COL_TIENE_OC : str := lit "Tiene OC".
Definition COL_CANTIDAD : str := lit "Cantidad OCs".
Definition COL_TIENE_FACTURA : str := lit "Tiene Factura".
Definition COL_LINK : str := lit "Link Factura".
Definition COL_TIPO : str := lit "Tipo Anomal" ++ [237%N] ++ lit "a".
Definition COL_PROVEEDOR : str := lit "Proveedor".
Definition COL_TOTAL : str := lit "Gran Total".
Definition COL_MONEDA : str := lit "Moneda".
Definition COL_RECEPTOR : str := lit "Receptor".
Definition COL_FOLIO : str := lit "Folio".
Definition COL_RESULTADO : str :=
  lit "Resultado Validaci" ++ [243%N] ++ lit "n".

Definition ESTADO_ANOMALIA : str :=
  aviso ++ lit " ANOMAL" ++ [205%N] ++ lit "A".
Definition ESTADO_OK : str := visto ++ lit " OK".

Definition si_no (b : bool) : pyval :=
  VStr (if b then lit "S" ++ [237%N] else lit "No").

(** [d.get(k, default)]. *)
Definition get_default (k : str) (d : dict) (default : pyval) : pyval :=
  match dict_get k d with
  | Some v => v
  | None => default
  end.

(** Lines 116-132: the five columns read from the extracted data. *)
Definition columnas_datos (datos : pyval) : result dict :=
  if truthy datos then
    match datos with
    | VDict d =>
        Ok [ (COL_PROVEEDOR, get_default (lit "proveedor") d (VStr NA));
             (COL_TOTAL, get_default (lit "gran_total") d (VStr NA));
             (COL_MONEDA, get_default (lit "moneda") d (VStr NA));
             (COL_RECEPTOR, get_default (lit "receptor") d (VStr NA));
             (COL_FOLIO, get_default (lit "folio") d (VStr NA)) ]
    | _ => Raise (object_error datos "has no attribute 'get'")
    end
  else
    Ok [ (COL_PROVEEDOR, VStr NA); (COL_TOTAL, VStr NA);
         (COL_MONEDA, VStr NA); (COL_RECEPTOR, VStr NA);
         (COL_FOLIO, VStr NA) ].

(** Lines 135-138: the text of the validation, cut at 200 characters. *)
Definition recortar (validacion : option str) : pyval :=
  match validacion with
  | Some v =>
      if str_truthy v && (200 <? length v)%nat
      then VStr (firstn 200 v ++ lit "...")
      else VStr v
  | None => VNone
  end.

Section Preparar.

(** [datetime.strftime], which the sources only call. *)
Variable strftime : Z -> str -> str.

(** [format_datetime] of [utils/helpers.py], with its default format. *)
Definition FORMATO_FECHA : str := lit "%Y-%m-%d %H:%M:%S".

Definition format_datetime (dt : Z) (format_str : str) : str :=
  strftime dt format_str.

(** One turn of the loop of [_preparar_datos], lines 97-140. *)
Definition fila_de (e : Entrada) : result dict :=
  let r := res e in
  let estado := if r_es_anomalia r then ESTADO_ANOMALIA else ESTADO_OK in
  let fila : dict :=
    [ (COL_ESTADO, VStr estado);
      (COL_ID, VInt (registro_id r));
      (COL_FECHA,
       VStr (format_datetime (r_fecha_recepcion r) FORMATO_FECHA));
      (COL_TIENE_OC, si_no (flag (r_tiene_oc r)));
      (COL_CANTIDAD,
       VInt (match r_num_ordenes r with
             | Some n => Z.of_nat n
             | None => 0%Z
             end));
      (COL_TIENE_FACTURA, si_no (flag (r_tiene_factura r)));
      (COL_LINK,
       VStr (match drive_link e with Some l => l | None => NA end));
      (COL_TIPO, VStr (_format_tipo_anomalia (r_tipo_anomalia r))) ] in
  datos <- columnas_datos (datos_factura r) ;;
  Ok (fila ++ datos ++ [(COL_RESULTADO, recortar (resultado_openai r))]).

Fixpoint _preparar_datos (resultados : list Entrada) : result (list dict) :=
  match resultados with
  | [] => Ok []
  | e :: resto =>
      fila <- fila_de e ;;
      data <- _preparar_datos resto ;;
      Ok (fila :: data)
  end.

End Preparar.

(** The figures of [_crear_hoja_resumen], lines 249-257 and 278; the same
    three counts are taken in [ejecutar_validacion] of [main.py]. *)
Definition total (resultados : list Resultado) : nat := length resultados.

Definition anomalias (resultados : list Resultado) : nat :=
  length (filter r_es_anomalia resultados).

Definition correctos (resultados : list Resultado) : nat :=
  (total resultados - anomalias resultados)%nat.

(** [tipos_anomalias[tipo] = tipos_anomalias.get(tipo, 0) + 1]. *)
Fixpoint incrementar (k : str) (d : list (str * nat)) : list (str * nat) :=
  match d with
  | [] => [(k, 1%nat)]
  | (k', n) :: d' =>
      if str_eqb k k' then (k', S n) :: d' else (k', n) :: incrementar k d'
  end.

Definition tiene_tipo (r : Resultado) : bool :=
  r_es_anomalia r
  && match r_tipo_anomalia r with Some (_ :: _) => true | _ => false end.

Definition tipos_anomalias (resultados : list Resultado)
  : list (str * nat) :=
  fold_left
    (fun d r =>
       if tiene_tipo r
       then incrementar (_format_tipo_anomalia (r_tipo_anomalia r)) d
       else d)
    resultados [].

(** The order of [sorted] on the items: by label, code point by code
    point, then by count. *)
Fixpoint str_leb (a b : str) : bool :=
  match a, b with
  | [], _ => true
  | _ :: _, [] => false
  | x :: a', y :: b' =>
      if (x <? y)%N then true
      else if (y <? x)%N then false
      else str_leb a' b'
  end.

Definition item_leb (a b : str * nat) : bool :=
  if str_eqb (fst a) (fst b) then (snd a <=? snd b)%nat
  else str_leb (fst a) (fst b).

Fixpoint insertar (x : str * nat) (l : list (str * nat))
  : list (str * nat) :=
  match l with
  | [] => [x]
  | y :: l' => if item_leb x y then x :: l else y :: insertar x l'
  end.

Definition sorted_items (d : list (str * nat)) : list (str * nat) :=
  fold_right insertar [] d.

Definition desglose (resultados : list Resultado) : list (str * nat) :=
  sorted_items (tipos_anomalias resultados).

End Report.

(* ===================================================================== *)
(** * Files, Drive, Chat and the orchestration of a run *)
(* ===================================================================== *)

Module Externo.

Import Base64 Report Validator.

(** ** Text and paths *)

(** [s.split(sep)] for a separator of one character. *)
Fixpoint split_char (sep : char) (s : str) : list str :=
  match s with
  | [] => [[]]
  | c :: s' =>
      if char_eqb c sep then [] :: split_char sep s'
      else match split_char sep s' with
           | x :: l => (c :: x) :: l
           | [] => [[c]]
           end
  end.

(** [sep.join(l)]. *)
Fixpoint join (sep : str) (l : list str) : str :=
  match l with
  | [] => []
  | x :: l' =>
      match l' with
      | [] => x
      | _ :: _ => x ++ sep ++ join sep l'
      end
  end.

(** [s.endswith(suffix)]. *)
Definition endswith (suffix s : str) : bool :=
  startswith (rev suffix) (rev s).

(** [str(z)] for an integer. *)
Definition str_of_int (z : Z) : str :=
  if (z <? 0)%Z then 45%N :: str_of_uint (N.to_uint (Z.abs_N z))
  else str_of_uint (N.to_uint (Z.abs_N z)).

(** The text of a value inside an f-string, for a text that can be
    [None]. *)
Definition fmt_opt (v : option str) : str :=
  match v with
  | Some s => s
  | None => lit "None"
  end.

(** A [pathlib] path on a POSIX system: its root ([''], ['/'] or ['//'])
    and its parts.  Empty parts and ['.'] are dropped when a text is
    turned into a path; exactly two leading slashes are kept as a root of
    their own. *)
Record Path : Type := {
  raiz : str;
  partes : list str
}.

Definition es_parte (p : str) : bool :=
  negb (str_eqb p []) && negb (str_eqb p (lit ".")).

Definition raiz_de (s : str) : str :=
  if startswith (lit "///") s then lit "/"
  else if startswith (lit "//") s then lit "//"
  else if startswith (lit "/") s then lit "/"
  else [].

Definition Path_of_str (s : str) : Path :=
  {| raiz := raiz_de s; partes := filter es_parte (split_char 47 s) |}.

(** [p / s]: a text with a root replaces the path. *)
Definition truediv (p : Path) (s : str) : Path :=
  let q := Path_of_str s in
  if str_truthy (raiz q) then q
  else {| raiz := raiz p; partes := partes p ++ partes q |}.

(** [str(p)]. *)
Definition str_of_Path (p : Path) : str :=
  match raiz p, partes p with
  | [], [] => lit "."
  | _, _ => raiz p ++ join (lit "/") (partes p)
  end.

(** ** Settings and the outside world *)

(** The fields of [config/settings.py] read by the report, the Drive
    service and the orchestrator; [REPORTS_DIR] is the text of the path. *)
Record Settings : Type := {
  REPORTS_DIR : str;
  GOOGLE_DRIVE_FOLDER_ID : option str;
  GOOGLE_DRIVE_INVOICES_FOLDER_ID : str
}.

(** The request of [files().create(...)]: the metadata and the media. *)
Record Subida : Type := {
  name : str;
  parents : option str;
  mimetype : str;
  media : str
}.

(** What the run does outside the store, in order. *)
Inductive suceso : Type :=
| FileWrite (path : str) (data : list N) (ok : bool)
| DriveCreate (req : Subida) (ok : bool)
| FileRemove (path : str) (ok : bool)
| ExcelWrite (path : str) (data : list dict) (resultados : list Entrada)
    (ok : bool)
| ChatPost (text : str) (delivered : bool).

(** The answers of the outside world, asked for at a time that is the
    number of things done so far: writing a file, asking whether it
    exists, removing it, the Drive upload (loading the credentials,
    building the client, reading the media and executing the request;
    the answer is the ['id'] of the created file, if it has one), writing
    the workbook, the HTTP post to the chat (its status code) and the
    clock. *)
Record Exterior : Type := {
  open_write : nat -> str -> option exn;
  path_exists : nat -> str -> bool;
  os_remove : nat -> str -> option exn;
  files_create : nat -> Subida -> result (option str);
  excel_writer : nat -> str -> option exn;
  requests_post : nat -> str -> result Z;
  datetime_now : nat -> Z
}.

(** The store together with what has been done outside it. *)
Record Sistema : Type := {
  db : World;
  fuera : list suceso
}.

Definition ahora (s : Sistema) : nat := length (fuera s).

Definition anotar (ev : suceso) (s : Sistema) : Sistema :=
  {| db := db s; fuera := fuera s ++ [ev] |}.

Definition F (A : Type) : Type := Sistema -> result A * Sistema.

Definition fret {A} (a : A) : F A := fun s => (Ok a, s).

Definition fbind {A B} (c : F A) (k : A -> F B) : F B :=
  fun s =>
    match c s with
    | (Ok a, s') => k a s'
    | (Raise e, s') => (Raise e, s')
    end.

(** Code that only computes. *)
Definition puro {A} (c : result A) : F A := fun s => (c, s).

(** Code that only works on the store. *)
Definition en_db {A} (c : M A) : F A :=
  fun s =>
    match c (db s) with
    | (r, w) => (r, {| db := w; fuera := fuera s |})
    end.

Notation "x <~ c ;; k" := (fbind c (fun x => k))
  (at level 61, c at next level, right associativity).

Section Run.

Variable cfg : Settings.
Variable ext : Exterior.
Variable strftime : Z -> str -> str.

(** ** services/google/drive_service.py *)

Definition MIME_PDF : str := lit "application/pdf".
Definition MIME_XLSX : str :=
  lit "application/vnd.openxmlformats-officedocument.spreadsheetml.sheet".

Definition DRIVE_PREFIX : str := lit "https://drive.google.com/file/d/".

(** Line 26: the folder given by the caller when it is truthy, else the
    folder of the settings, whatever it is. *)
Definition target_folder (specific_folder_id : option str) : option str :=
  match specific_folder_id with
  | Some (_ :: _) => specific_folder_id
  | _ => GOOGLE_DRIVE_FOLDER_ID cfg
  end.

(** The request built by lines 26-48.  [lower] maps the ASCII letters
    only; no other code point has a lower case that contains one of the
    characters of ['.pdf'], so the test of line 43 is the one of the
    source. *)
Definition solicitud (output_file : str) (specific_folder_id : option str)
  : Subida :=
  {| name := last (split_char 47 output_file) [];
     parents := target_folder specific_folder_id;
     mimetype := if endswith (lit ".pdf") (lower output_file)
                 then MIME_PDF else MIME_XLSX;
     media := output_file |}.

(** [upload_to_drive]: the link on success; a failure is logged and
    raised again (lines 66-68). *)
Definition upload_to_drive (output_file : str)
    (specific_folder_id : option str) : F str :=
  fun s =>
    let req := solicitud output_file specific_folder_id in
    match files_create ext (ahora s) req with
    | Ok file_id =>
        (Ok (DRIVE_PREFIX ++ fmt_opt file_id ++ lit "/view"),
         anotar (DriveCreate req true) s)
    | Raise e => (Raise e, anotar (DriveCreate req false) s)
    end.

(** ** services/google/chat_service.py *)

(** The text of lines 21-28; the code points above 127 are the two
    emoji of the greeting, the inverted exclamation mark, the accented
    letters, the receipt and the link sign. *)
Definition texto_mensaje (link resumen : str) : str :=
  [128196%N; 10024%N] ++ lit " " ++ [161%N] ++ lit "Excelente d"
  ++ [237%N] ++ lit "a!" ++ [10%N]
  ++ lit "El reporte de validaci" ++ [243%N] ++ lit "n de "
  ++ [34%N] ++ lit "*Facturas vs " ++ [211%N] ++ lit "rdenes de Compra*"
  ++ [34%N] ++ lit " " ++ [129534%N; 10%N]
  ++ lit " ya est" ++ [225%N] ++ lit " listo." ++ [10%N; 10%N]
  ++ resumen ++ [10%N; 10%N]
  ++ lit "Adjunto podr" ++ [225%N] ++ lit "s encontrar el link:" ++ [10%N]
  ++ [128279%N] ++ lit "Link: " ++ link.

(** [send_advice]: an exception of the post is caught and logged, another
    status than 200 is logged. *)
Definition send_advice (link resumen : str) : F unit :=
  fun s =>
    let texto := texto_mensaje link resumen in
    match requests_post ext (ahora s) texto with
    | Ok status_code =>
        (Ok tt, anotar (ChatPost texto (status_code =? 200)%Z) s)
    | Raise _ => (Ok tt, anotar (ChatPost texto false) s)
    end.

(** ** services/report/generator.py: the PDFs and the workbook *)

Definition ERROR_AL_SUBIR : str := lit "Error al subir".

Definition FORMATO_ARCHIVO : str := lit "%Y%m%d_%H%M%S".

(** [self.reports_dir] and [self.pdf_dir] (lines 19-20). *)
Definition reports_dir : Path := Path_of_str (REPORTS_DIR cfg).
Definition pdf_dir : Path := truediv reports_dir (lit "pdf").

(** Lines 62-63: the text after the first comma, up to the next one. *)
Definition sin_cabecera (base64_str : str) : result str :=
  if contains (lit ",") base64_str then
    match split_char 44 base64_str with
    | _ :: x :: _ => Ok x
    | _ => Raise (Exception (lit "list index out of range"))
    end
  else Ok base64_str.

(** Line 68. *)
Definition pdf_name (r : Resultado) : str :=
  lit "Factura_" ++ str_of_int (registro_id r) ++ lit "_"
  ++ format_datetime strftime (r_fecha_recepcion r) FORMATO_ARCHIVO
  ++ lit ".pdf".

(** The body of the [try] of lines 61-85; its value is the link put in
    the outcome at line 81. *)
Definition subir_pdf (r : Resultado) (base64_str : str) : F str :=
  base64_str <~ puro (sin_cabecera base64_str) ;;
  pdf_bytes <~ puro (b64decode base64_str) ;;
  let pdf_path := str_of_Path (truediv pdf_dir (pdf_name r)) in
  fun s =>
    match open_write ext (ahora s) pdf_path with
    | Some e => (Raise e, anotar (FileWrite pdf_path pdf_bytes false) s)
    | None =>
        (link <~ upload_to_drive pdf_path
                   (Some (GOOGLE_DRIVE_INVOICES_FOLDER_ID cfg)) ;;
         fun s2 =>
           if path_exists ext (ahora s2) pdf_path then
             match os_remove ext (ahora s2) pdf_path with
             | None => (Ok link, anotar (FileRemove pdf_path true) s2)
             | Some e => (Raise e, anotar (FileRemove pdf_path false) s2)
             end
           else (Ok link, s2))
          (anotar (FileWrite pdf_path pdf_bytes true) s)
    end.

(** One turn of the loop of lines 53-89. *)
Definition procesar_pdf (r : Resultado) : F Entrada :=
  fun s =>
    match factura_base64_raw r with
    | Some base64_str =>
        if str_truthy base64_str && (100 <? length base64_str)%nat then
          match subir_pdf r base64_str s with
          | (Ok link, s') =>
              (Ok {| res := r; drive_link := Some link |}, s')
          | (Raise _, s') =>
              (Ok {| res := r; drive_link := Some ERROR_AL_SUBIR |}, s')
          end
        else (Ok {| res := r; drive_link := Some NA |}, s)
    | None => (Ok {| res := r; drive_link := Some NA |}, s)
    end.

Fixpoint _procesar_pdfs_y_subir (resultados : list Resultado)
  : F (list Entrada) :=
  match resultados with
  | [] => fret []
  | r :: resto =>
      e <~ procesar_pdf r ;;
      es <~ _procesar_pdfs_y_subir resto ;;
      fret (e :: es)
  end.

(** [generate_report_filename] of [utils/helpers.py], at a given time. *)
Definition generate_report_filename (t : nat) : str :=
  lit "reporte_validacion_"
  ++ strftime (datetime_now ext t) FORMATO_ARCHIVO ++ lit ".xlsx".

(** [_crear_excel_formateado]: the workbook is written from the rows and
    from the outcomes, which by then carry their links. *)
Definition _crear_excel_formateado (data : list dict) (filepath : str)
    (resultados : list Entrada) : F unit :=
  fun s =>
    match excel_writer ext (ahora s) filepath with
    | None => (Ok tt, anotar (ExcelWrite filepath data resultados true) s)
    | Some e =>
        (Raise e, anotar (ExcelWrite filepath data resultados false) s)
    end.

(** [generar_reporte], lines 27-47.  Building the data frame from the
    rows is taken to succeed. *)
Definition generar_reporte (resultados : list Resultado) : F str :=
  resultados_con_links <~ _procesar_pdfs_y_subir resultados ;;
  data <~ puro (_preparar_datos strftime resultados_con_links) ;;
  fun s =>
    let filename := generate_report_filename (ahora s) in
    let filepath := str_of_Path (truediv reports_dir filename) in
    (_ <~ _crear_excel_formateado data filepath resultados_con_links ;;
     fret filepath) s.

(** ** main.py: one run *)

Variable env : Env.
Variable svc : OpenAIService.

(** Lines 99-104; the code points above 127 are the chart, the bullet,
    the check mark, the warning sign and the accented letters. *)
Definition resumen_texto (resultados : list Resultado) : str :=
  [128202%N] ++ lit " *Resumen de Ejecuci" ++ [243%N] ++ lit "n:*" ++ [10%N]
  ++ [8226%N] ++ lit " Total procesados: *"
  ++ str_of_nat (total resultados) ++ lit "*" ++ [10%N]
  ++ [8226%N] ++ lit " " ++ visto ++ lit " Correctos: *"
  ++ str_of_nat (correctos resultados) ++ lit "*" ++ [10%N]
  ++ [8226%N] ++ lit " " ++ aviso ++ lit " Anomal" ++ [237%N] ++ lit "as: *"
  ++ str_of_nat (anomalias resultados) ++ lit "*".

(** Line 126. *)
Definition error_msg (e : exn) : str :=
  aviso ++ lit " *ERROR CR" ++ [205%N] ++ lit "TICO EN VALIDACI" ++ [211%N]
  ++ lit "N*" ++ [10%N; 10%N] ++ lit "Error: " ++ firstn 200 (str_of_exn e).

(** The [try] block of lines 72-119. *)
Definition pasos : F unit :=
  resultados <~ en_db (validar_todos_los_registros env svc) ;;
  match resultados with
  | [] => fret tt
  | _ :: _ =>
      archivo_reporte <~ generar_reporte resultados ;;
      link_drive <~ upload_to_drive archivo_reporte None ;;
      send_advice link_drive (resumen_texto resultados)
  end.

(** [ejecutar_validacion]: a failure of the steps is notified; a failure
    of that notification is logged (lines 121-129). *)
Definition ejecutar_validacion : F unit :=
  fun s =>
    match pasos s with
    | (Ok _, s') => (Ok tt, s')
    | (Raise e, s') =>
        match send_advice (lit "N/A") (error_msg e) s' with
        | (Ok _, s'') => (Ok tt, s'')
        | (Raise _, s'') => (Ok tt, s'')
        end
    end.

End Run.

End Externo.

(* ===================================================================== *)
(** * services/openai/client.py: the extraction with the Assistants API *)
(* ===================================================================== *)

Module Extraccion.

Import Base64 HelpersText.

(** A run of the remote API, as far as the client reads it. *)
Record Run : Type := {
  run_id : str;
  status : str
}.

(** What the client does outside, in order.  A creation carries the id it
    was answered with, or nothing when it failed. *)
Inductive llamada : Type :=
| TimeRead
| FilesCreate (name : str) (file_data : list N) (file_id : option str)
| AssistantsCreate (assistant_id : option str)
| ThreadsCreate (file_id : str) (ok : bool)
| RunsCreate (thread_id assistant_id : str) (ok : bool)
| Sleep
| RunsRetrieve (thread_id run_id : str) (ok : bool)
| MessagesList (thread_id : str) (ok : bool)
| FilesDelete (file_id : str) (ok : bool)
| AssistantsDelete (assistant_id : str) (ok : bool).

Definition historia : Type := list llamada.

(** The clock and the remote API.  An answer may depend on everything
    done so far.  The messages of a thread are lists of content blocks;
    a block has a text value or is of another kind. *)
Record AssistantsAPI : Type := {
  time_time : historia -> Q;
  files_create : historia -> str -> list N -> result str;
  assistants_create : historia -> result str;
  threads_create : historia -> str -> result str;
  runs_create : historia -> str -> str -> result Run;
  runs_retrieve : historia -> str -> str -> result Run;
  messages_list : historia -> str -> result (list (list (option str)));
  files_delete : historia -> str -> option exn;
  assistants_delete : historia -> str -> option exn
}.

(** The locals [file_obj] and [assistant], which the [finally] block
    reads, and what has been done. *)
Record Locales : Type := {
  file_obj : option str;
  assistant : option str;
  hecho : historia
}.

Definition anotar (ev : llamada) (st : Locales) : Locales :=
  {| file_obj := file_obj st; assistant := assistant st;
     hecho := hecho st ++ [ev] |}.

(** Code on the locals that may raise; it has no answer when the fuel of
    the polling loop runs out. *)
Definition P (A : Type) : Type := Locales -> option (result A * Locales).

Definition pret {A} (a : A) : P A := fun st => Some (Ok a, st).

Definition pbind {A B} (c : P A) (k : A -> P B) : P B :=
  fun st =>
    match c st with
    | Some (Ok a, st') => k a st'
    | Some (Raise e, st') => Some (Raise e, st')
    | None => None
    end.

Notation "x <~~ c ;; k" := (pbind c (fun x => k))
  (at level 61, c at next level, right associativity).

Definition ppuro {A} (c : result A) : P A := fun st => Some (c, st).

(** [int(x)] for a clock value: the fraction is cut off. *)
Definition int_of_Q (q : Q) : Z := Z.quot (Qnum q) (Zpos (Qden q)).

Definition TIMEOUT : Q := 90%Q.
Definition SLEEP_INTERVAL : Q := (3 # 2)%Q.

Section Client.

Variable api : AssistantsAPI.

(** [time.time()]. *)
Definition leer_reloj : P Q :=
  fun st => Some (Ok (time_time api (hecho st)), anotar TimeRead st).

(** [_upload_file], lines 27-45: a failure is logged and raised again. *)
Definition _upload_file (base64_string : str) : P str :=
  base64_string <~~ ppuro (Externo.sin_cabecera base64_string) ;;
  file_data <~~ ppuro (b64decode base64_string) ;;
  t <~~ leer_reloj ;;
  let name :=
    lit "factura_" ++ Externo.str_of_int (int_of_Q t) ++ lit ".pdf" in
  fun st =>
    match files_create api (hecho st) name file_data with
    | Ok file_id =>
        Some (Ok file_id, anotar (FilesCreate name file_data (Some file_id)) st)
    | Raise e => Some (Raise e, anotar (FilesCreate name file_data None) st)
    end.

(** [_delete_file], lines 47-53: a failure is logged, not raised. *)
Definition _delete_file (file_id : str) (st : Locales) : Locales :=
  match files_delete api (hecho st) file_id with
  | None => anotar (FilesDelete file_id true) st
  | Some _ => anotar (FilesDelete file_id false) st
  end.

Definition set_file_obj (file_id : str) : P unit :=
  fun st =>
    Some (Ok tt, {| file_obj := Some file_id; assistant := assistant st;
                    hecho := hecho st |}).

Definition set_assistant (assistant_id : str) : P unit :=
  fun st =>
    Some (Ok tt, {| file_obj := file_obj st; assistant := Some assistant_id;
                    hecho := hecho st |}).

Definition crear_asistente : P str :=
  fun st =>
    match assistants_create api (hecho st) with
    | Ok a => Some (Ok a, anotar (AssistantsCreate (Some a)) st)
    | Raise e => Some (Raise e, anotar (AssistantsCreate None) st)
    end.

(** A remote call whose answer is not kept among the locals. *)
Definition llamar {A} (f : historia -> result A) (ev : bool -> llamada)
  : P A :=
  fun st =>
    match f (hecho st) with
    | Ok a => Some (Ok a, anotar (ev true) st)
    | Raise e => Some (Raise e, anotar (ev false) st)
    end.

(** [run.status in ["completed", "failed", "cancelled"]]. *)
Definition terminado (run : Run) : bool :=
  str_eqb (status run) (lit "completed")
  || str_eqb (status run) (lit "failed")
  || str_eqb (status run) (lit "cancelled").

(** The polling loop of lines 105-110; [fuel] bounds its turns. *)
Fixpoint esperar (fuel : nat) (thread_id : str) (start_time : Q) (run : Run)
  : P Run :=
  if terminado run then pret run
  else
    match fuel with
    | O => fun _ => None
    | S fuel' =>
        t <~~ leer_reloj ;;
        if negb (Qle_bool (t - start_time) TIMEOUT) then
          fun st =>
            Some (Raise (Exception (lit "Tiempo de espera agotado en OpenAI")),
                  st)
        else
          run' <~~ (fun st =>
                      llamar (fun h => runs_retrieve api h thread_id
                                         (run_id run))
                        (RunsRetrieve thread_id (run_id run))
                        (anotar Sleep st)) ;;
          esperar fuel' thread_id start_time run'
    end.

(** [messages.data[0].content[0].text.value], line 124. *)
Definition primer_texto (data : list (list (option str))) : result str :=
  match data with
  | [] => Raise (Exception (lit "list index out of range"))
  | content :: _ =>
      match content with
      | [] => Raise (Exception (lit "list index out of range"))
      | None :: _ =>
          Raise (Exception (lit "object has no attribute 'text'"))
      | Some value :: _ => Ok value
      end
  end.

(** Line 127: the fences of a code block are removed. *)
Definition limpiar_json (response_text : str) : str :=
  strip (replace [96%N; 96%N; 96%N] []
           (replace ([96%N; 96%N; 96%N] ++ lit "json") [] response_text)).

(** Lines 81-131: the thread, the run, the wait and the answer. *)
Definition consulta (fuel : nat) (file_id assistant_id : str)
  : P (pyval * pyval) :=
  thread_id <~~ llamar (fun h => threads_create api h file_id)
                  (ThreadsCreate file_id) ;;
  run <~~ llamar (fun h => runs_create api h thread_id assistant_id)
            (RunsCreate thread_id assistant_id) ;;
  start_time <~~ leer_reloj ;;
  run <~~ esperar fuel thread_id start_time run ;;
  if negb (str_eqb (status run) (lit "completed")) then
    pret (VNone, VNone)
  else
    data <~~ llamar (fun h => messages_list api h thread_id)
               (MessagesList thread_id) ;;
    response_text <~~ ppuro (primer_texto data) ;;
    datos_factura <~~ ppuro (Json.loads (limpiar_json response_text)) ;;
    pret (datos_factura, VNone).

(** The [try] block of lines 64-131.  With [None] as text
    [validate_base64] is false, so the second [None] branch is never
    reached. *)
Definition cuerpo (fuel : nat) (factura_base64 : option str)
  : P (pyval * pyval) :=
  if negb (validate_base64 factura_base64) then pret (VNone, VNone)
  else
    match factura_base64 with
    | None => pret (VNone, VNone)
    | Some base64_string =>
        file_id <~~ _upload_file base64_string ;;
        _ <~~ set_file_obj file_id ;;
        assistant_id <~~ crear_asistente ;;
        _ <~~ set_assistant assistant_id ;;
        consulta fuel file_id assistant_id
    end.

(** The [finally] block of lines 141-149: both deletions swallow their
    failure. *)
Definition limpieza (st : Locales) : Locales :=
  let st1 :=
    match file_obj st with
    | Some file_id => _delete_file file_id st
    | None => st
    end in
  match assistant st1 with
  | Some assistant_id =>
      match assistants_delete api (hecho st1) assistant_id with
      | None => anotar (AssistantsDelete assistant_id true) st1
      | Some _ => anotar (AssistantsDelete assistant_id false) st1
      end
  | None => st1
  end.

(** [extraer_datos_factura]: both [except] clauses return the pair of
    [None]; the [finally] block runs on every way out. *)
Definition extraer_datos_factura (fuel : nat) (factura_base64 : option str)
    (h : historia) : option (result (pyval * pyval) * historia) :=
  match cuerpo fuel factura_base64
          {| file_obj := None; assistant := None; hecho := h |} with
  | None => None
  | Some (out, st) =>
      Some (try_except out (fun _ => Ok (VNone, VNone)),
            hecho (limpieza st))
  end.

End Client.

End Extraccion.

(* ===================================================================== *)
(** * services/openai/prompts.py: the prompt of the comparison *)
(* ===================================================================== *)

Module Prompts.

(** The prompt up to the vendor of the invoice (lines 79-85). *)
Definition PROMPT_INICIO : str :=
  lit "Eres un Auditor Financiero Inteligente. Tienes una Factura"
  ++ lit " y una lista de "
  ++ [34%N]
  ++ lit "Candidatos"
  ++ [34%N]
  ++ lit " ("
  ++ [211%N]
  ++ lit "rdenes de Compra)."
  ++ [10%N]
  ++ lit "Tu misi"
  ++ [243%N]
  ++ lit "n es descubrir CUAL(ES) orden(es) de compra justifican est"
  ++ lit "a factura."
  ++ [10%N; 10%N]
  ++ repeat 9552%N 59
  ++ [10%N; 128196%N]
  ++ lit " FACTURA A VALIDAR:"
  ++ [10%N]
  ++ repeat 9552%N 59
  ++ [10%N; 8226%N]
  ++ lit " Proveedor: ".

(** Line 86. *)
Definition PROMPT_TOTAL : str :=
  [10%N; 8226%N]
  ++ lit " Total Factura: $".

(** Line 87. *)
Definition PROMPT_MONEDA : str :=
  [10%N; 8226%N]
  ++ lit " Moneda: ".

(** Lines 88-90. *)
Definition PROMPT_LISTA : str :=
  [10%N; 10%N]
  ++ repeat 9552%N 59
  ++ [10%N; 128203%N]
  ++ lit " LISTA DE OCs DISPONIBLES (".

(** Lines 90-92. *)
Definition PROMPT_LISTA_FIN : str :=
  lit "):"
  ++ [10%N]
  ++ repeat 9552%N 59
  ++ [10%N].

(** The matching logic, the rules and the answer format (lines 93-132). *)
Definition PROMPT_REGLAS : str :=
  [10%N; 10%N]
  ++ repeat 9552%N 59
  ++ [10%N; 129504%N]
  ++ lit " L"
  ++ [211%N]
  ++ lit "GICA DE EMPAREJAMIENTO (MATCHING LOGIC):"
  ++ [10%N]
  ++ repeat 9552%N 59
  ++ [10%N; 10%N]
  ++ lit "Debes verificar los siguientes escenarios en orden:"
  ++ [10%N; 10%N]
  ++ lit "1. **MATCH INDIVIDUAL (1 a 1):**"
  ++ [10%N]
  ++ lit "   "
  ++ [191%N]
  ++ lit "Existe alguna OC individual cuyo monto sea igual al de la "
  ++ lit "factura (tolerancia +/- $1.00)?"
  ++ [10%N]
  ++ lit "   *Si s"
  ++ [237%N]
  ++ lit "*: La factura es v"
  ++ [225%N]
  ++ lit "lida y corresponde a esa OC espec"
  ++ [237%N]
  ++ lit "fica."
  ++ [10%N; 10%N]
  ++ lit "2. **MATCH TOTAL (1 a Todas):**"
  ++ [10%N]
  ++ lit "   "
  ++ [191%N]
  ++ lit "La suma de TODAS las OCs coincide con el monto de la factu"
  ++ lit "ra?"
  ++ [10%N]
  ++ lit "   *Si s"
  ++ [237%N]
  ++ lit "*: La factura agrupa todas las "
  ++ [243%N]
  ++ lit "rdenes."
  ++ [10%N; 10%N]
  ++ lit "3. **MATCH PARCIAL (1 a Varias):**"
  ++ [10%N]
  ++ lit "   (Solo si hay 3 o m"
  ++ [225%N]
  ++ lit "s OCs) "
  ++ [191%N]
  ++ lit "Existe alguna combinaci"
  ++ [243%N]
  ++ lit "n de OCs que sumadas den el total de la factura?"
  ++ [10%N; 10%N]
  ++ repeat 9552%N 59
  ++ [10%N; 128269%N]
  ++ lit " REGLAS DE VALIDACI"
  ++ [211%N]
  ++ lit "N ADICIONALES:"
  ++ [10%N]
  ++ repeat 9552%N 59
  ++ [10%N]
  ++ lit "- **Proveedor:** El nombre del proveedor en la(s) OC(s) em"
  ++ lit "parejada(s) debe coincidir razonablemente con el de la fac"
  ++ lit "tura."
  ++ [10%N]
  ++ lit "- **Moneda:** Las monedas deben coincidir."
  ++ [10%N; 10%N]
  ++ repeat 9552%N 59
  ++ [10%N; 128221%N]
  ++ lit " FORMATO DE RESPUESTA:"
  ++ [10%N]
  ++ repeat 9552%N 59
  ++ [10%N; 10%N]
  ++ lit "Si encuentras un emparejamiento v"
  ++ [225%N]
  ++ lit "lido (Individual o Grupal), responde:"
  ++ [10%N; 34%N]
  ++ lit "OK - [Explicaci"
  ++ [243%N]
  ++ lit "n Breve]"
  ++ [34%N; 10%N]
  ++ lit "Ejemplo: "
  ++ [34%N]
  ++ lit "OK - Corresponde a la OC #2 (ID: 12345) por monto exacto."
  ++ [34%N; 10%N]
  ++ lit "Ejemplo: "
  ++ [34%N]
  ++ lit "OK - Corresponde a la suma de todas las OCs."
  ++ [34%N; 10%N; 10%N]
  ++ lit "Si NO encuentras ninguna combinaci"
  ++ [243%N]
  ++ lit "n que cuadre, o el proveedor es incorrecto:"
  ++ [10%N; 34%N]
  ++ lit "DISCREPANCIA - [Detalle]"
  ++ [34%N; 10%N]
  ++ lit "Ejemplo: "
  ++ [34%N]
  ++ lit "DISCREPANCIA - El monto de la factura ($15,000) no coincid"
  ++ lit "e con ninguna OC individual ni con la suma total ($20,000)"
  ++ lit "."
  ++ [34%N; 10%N]
  ++ lit "Ejemplo: "
  ++ [34%N]
  ++ lit "DISCREPANCIA - El monto coincide con OC #1, pero el provee"
  ++ lit "dor es diferente."
  ++ [34%N; 10%N; 10%N]
  ++ lit "Analiza los n"
  ++ [250%N]
  ++ lit "meros cuidadosamente antes de responder."
  ++ [10%N].

(** [int] to [float]: the integers that round to a value beyond the
    largest float are refused. *)
Definition OVERFLOW : Z := (2 ^ 1024 - 2 ^ 970)%Z.

Definition float_of_int (z : Z) : result pyfloat :=
  if (OVERFLOW <=? Z.abs z)%Z
  then Raise (Exception (lit "int too large to convert to float"))
  else Ok (FNum (inject_Z z)).

(** [float(v)] on a value. *)
Definition float_of_value (v : pyval) : result pyfloat :=
  match v with
  | VFloat f => Ok f
  | VInt z => float_of_int z
  | VBool b => Ok (FNum (if b then 1%Q else 0%Q))
  | VStr s =>
      match float_of_str s with
      | Some f => Ok f
      | None =>
          Raise (Exception (lit "could not convert string to float: " ++ s))
      end
  | _ =>
      Raise (Exception
               (lit "float() argument must be a string or a real number, not '"
                ++ type_name v ++ lit "'"))
  end.

(** [v.get(k, default)] on a value that may not be a mapping. *)
Definition get (v : pyval) (k : str) (default : pyval) : result pyval :=
  match v with
  | VDict d =>
      Ok (match dict_get k d with
          | Some x => x
          | None => default
          end)
  | _ => Raise (object_error v "has no attribute 'get'")
  end.

(** [v[:50]]: text and lists are cut; a mapping refuses the slice as a
    key; the other values cannot be subscripted. *)
Definition slice_50 (v : pyval) : result pyval :=
  match v with
  | VStr s => Ok (VStr (firstn 50 s))
  | VList l => Ok (VList (firstn 50 l))
  | VDict _ => Raise (Exception (lit "unhashable type: 'slice'"))
  | _ => Raise (object_error v "is not subscriptable")
  end.

Section Formato.

(** [str(v)], which is what a field of an f-string prints, and
    [format(x, ',.2f')] on a float: the sources only call them. *)
Variable py_str : pyval -> str.
Variable format_2f : pyfloat -> str.

(** [format(v, ',.2f')] on a value: an integer or a boolean is turned
    into a float first; text and the other values refuse the format. *)
Definition format_value_2f (v : pyval) : result str :=
  match v with
  | VFloat f => Ok (format_2f f)
  | VInt z => f <- float_of_int z ;; Ok (format_2f f)
  | VBool b => Ok (format_2f (FNum (if b then 1%Q else 0%Q)))
  | VStr _ =>
      Raise (Exception
               (lit "Unknown format code 'f' for object of type 'str'"))
  | _ =>
      Raise (Exception
               (lit "unsupported format string passed to "
                ++ type_name v ++ lit ".__format__"))
  end.

(** Lines 60-63: the amount of an order, 0.0 when anything fails. *)
Definition monto_de (oc : pyval) : pyfloat :=
  match (m <- get oc (lit "monto") (VInt 0) ;; float_of_value m) with
  | Ok f => f
  | Raise _ => FNum 0%Q
  end.

(** One turn of the loop of lines 59-72: the line of an order. *)
Definition linea_oc (idx : nat) (oc : pyval) : result str :=
  let monto := monto_de oc in
  oc_id <- get oc (lit "id") (VStr (lit "Sin ID")) ;;
  prov <- get oc (lit "proveedor") (VStr (lit "N/A")) ;;
  mon <- get oc (lit "moneda") (VStr (lit "MXN")) ;;
  concepto <- get oc (lit "concepto") (VStr []) ;;
  desc <- slice_50 concepto ;;
  Ok (lit "   [OC #" ++ Base64.str_of_nat idx
      ++ lit "] ID: " ++ py_str oc_id
      ++ lit " | Prov: " ++ py_str prov
      ++ lit " | Monto: $" ++ format_2f monto
      ++ lit " " ++ py_str mon
      ++ lit " | Desc: " ++ py_str desc ++ [10%N]).

Fixpoint lista_ocs_texto (idx : nat) (ordenes_de_compra : list pyval)
  : result str :=
  match ordenes_de_compra with
  | [] => Ok []
  | oc :: resto =>
      linea <- linea_oc idx oc ;;
      lineas <- lista_ocs_texto (S idx) resto ;;
      Ok (linea ++ lineas)
  end.

(** [get_comparison_prompt], lines 50-132.  The sum of the amounts is
    computed by the source and never used. *)
Definition get_comparison_prompt (datos_factura : pyval)
    (ordenes_de_compra : option (list pyval)) : result str :=
  match ordenes_de_compra with
  | None => Raise (Exception (lit "'NoneType' object is not iterable"))
  | Some ocs =>
      lista <- lista_ocs_texto 1 ocs ;;
      total_factura <- get datos_factura (lit "gran_total") (VInt 0) ;;
      moneda_factura <- get datos_factura (lit "moneda") (VStr (lit "N/A")) ;;
      proveedor <- get datos_factura (lit "proveedor") VNone ;;
      total <- format_value_2f total_factura ;;
      Ok (PROMPT_INICIO ++ py_str proveedor
          ++ PROMPT_TOTAL ++ total
          ++ PROMPT_MONEDA ++ py_str moneda_factura
          ++ PROMPT_LISTA ++ Base64.str_of_nat (length ocs)
          ++ PROMPT_LISTA_FIN ++ lista
          ++ PROMPT_REGLAS)
  end.

(** The chat API together with this prompt builder. *)
Definition api_de (chat : nat -> str -> result (list (option str)))
  : OpenAIClient.ChatAPI :=
  {| OpenAIClient.get_comparison_prompt := get_comparison_prompt;
     OpenAIClient.chat_completions_create := chat |}.

End Formato.

End Prompts.

(* ===================================================================== *)
(** * More vocabulary and concrete inputs *)
(* ===================================================================== *)

Module Vocabulary.

Import Normalizer Validator.

(** The outcome dictionary after the extraction step of lines 135-147. *)
Definition tras_extraer (svc : OpenAIService) (registro : RegistroWebhook)
    (w : World) (resultado : Resultado) : Resultado :=
  match extraer_datos_factura svc (tick w) (factura_base64 registro) with
  | Ok (datos, _) => set_datos_factura datos resultado
  | Raise _ => resultado
  end.

(** The five kinds of anomaly. *)
Definition tipos_de_anomalia : list str :=
  [TipoAnomalia.SIN_OC; TipoAnomalia.SIN_FACTURA;
   TipoAnomalia.SIN_OC_NI_FACTURA; TipoAnomalia.ERROR_PROCESAMIENTO;
   TipoAnomalia.DISCREPANCIAS].

(** A store that commits every write session. *)
Definition sano (env : Env) : Prop := forall n, db_fault env n = None.

(** A row that holds an outcome. *)
Definition refleja (res : Resultado) (fila : RegistroWebhook) : Prop :=
  procesado fila = true
  /\ es_anomalia fila = r_es_anomalia res
  /\ tipo_anomalia fila = r_tipo_anomalia res
  /\ resultado_validacion fila = resultado_openai res
  /\ datos_factura_json fila = datos_factura res.

(** Outcomes in the order in which their records were received. *)
Fixpoint por_fecha (l : list Resultado) : Prop :=
  match l with
  | [] => True
  | r :: l' =>
      Forall (fun r' => (r_fecha_recepcion r <= r_fecha_recepcion r')%Z) l'
      /\ por_fecha l'
  end.

(** What [_clean_json_string] makes of one character. *)
Definition limpiar_char (c : char) : str :=
  if char_eqb c 10 || char_eqb c 9 then [32%N]
  else if Handler.is_control c then []
  else [c].

Definition es_dict (v : pyval) : bool :=
  match v with VDict _ => true | _ => false end.

(** The purchase orders that a parsed value stands for: the items of a
    list, a mapping taken as a list of one, nothing when it is falsy. *)
Definition ordenes_de (v : pyval) : list pyval :=
  if truthy v then
    match v with
    | VDict _ => [v]
    | VList l => l
    | _ => []
    end
  else [].

(** An identifier as the key pattern of [fix_malformed_json] reads it: a
    letter or an underscore, then letters, digits and underscores. *)
Definition identificador (k : str) : bool :=
  match k with
  | c :: _ => Helpers.is_ident_start c && forallb Helpers.is_ident_char k
  | [] => false
  end.

(** The fourteen columns of the sheet, in order. *)
Definition columnas : list str :=
  [Report.COL_ESTADO; Report.COL_ID; Report.COL_FECHA; Report.COL_TIENE_OC;
   Report.COL_CANTIDAD; Report.COL_TIENE_FACTURA; Report.COL_LINK;
   Report.COL_TIPO; Report.COL_PROVEEDOR; Report.COL_TOTAL;
   Report.COL_MONEDA; Report.COL_RECEPTOR; Report.COL_FOLIO;
   Report.COL_RESULTADO].

(** Extracted data that the report can read: falsy, or a mapping. *)
Definition datos_legibles (datos : pyval) : bool :=
  negb (truthy datos) || es_dict datos.

(** What a row of the sheet shows of its outcome. *)
Definition fila_refleja (e : Report.Entrada) (fila : dict) : Prop :=
  map fst fila = columnas
  /\ dict_get Report.COL_ESTADO fila
     = Some (VStr (if r_es_anomalia (Report.res e)
                   then Report.ESTADO_ANOMALIA else Report.ESTADO_OK))
  /\ dict_get Report.COL_ID fila = Some (VInt (registro_id (Report.res e)))
  /\ dict_get Report.COL_TIPO fila
     = Some (VStr (Report._format_tipo_anomalia
                     (r_tipo_anomalia (Report.res e))))
  /\ match resultado_openai (Report.res e) with
     | None => dict_get Report.COL_RESULTADO fila = Some VNone
     | Some v =>
         exists t, dict_get Report.COL_RESULTADO fila = Some (VStr t)
                   /\ (length t <= 203)%nat
                   /\ firstn 200 t = firstn 200 v
     end.

(** Items in the order of [sorted]. *)
Fixpoint ordenada (l : list (str * nat)) : Prop :=
  match l with
  | a :: ((b :: _) as l') => Report.item_leb a b = true /\ ordenada l'
  | _ => True
  end.

(** An outcome whose anomaly, if any, has one of the five kinds. *)
Definition bien_tipado (r : Resultado) : Prop :=
  r_es_anomalia r = true ->
  exists t, r_tipo_anomalia r = Some t /\ In t tipos_de_anomalia.

(** An outcome that the batch can write for a record: one returned by the
    decision sequence, or the error outcome of the [except] block. *)
Definition resultado_de (registro : RegistroWebhook) (r : Resultado) : Prop :=
  (exists svc w w',
     _validar_registro_individual svc registro w = (Ok r, w'))
  \/ (exists e, r = resultado_error registro e).

(** How a run of the batch over the records [pend] changes the rows: a
    row is left alone, or it is one of the records of the run and has
    received an outcome computed for it. *)
Definition evoluciona_bien (pend : list RegistroWebhook)
    (l l' : list RegistroWebhook) : Prop :=
  Forall2 (fun r r' =>
             r' = r
             \/ (In r pend
                 /\ exists res ahora,
                      resultado_de r res
                      /\ r' = actualizar_fila res ahora r))
          l l'.

(** A row whose flags tell what it holds, that holds an invoice or
    purchase orders, and whose outcome, once processed, is an anomaly
    exactly when it has a kind, the kind being one of the five and never
    [sin_oc_ni_factura]. *)
Definition fila_coherente (r : RegistroWebhook) : Prop :=
  tiene_oc r
  = Some (match ordenes_de_compra r with Some (_ :: _) => true | _ => false end)
  /\ tiene_factura r
     = Some (match factura_base64 r with Some (_ :: _) => true | _ => false end)
  /\ (flag (tiene_oc r) = true \/ flag (tiene_factura r) = true)
  /\ (flag (tiene_oc r) = true <-> (0 < num_ordenes r)%nat)
  /\ (es_anomalia r = false -> tipo_anomalia r = None)
  /\ (es_anomalia r = true ->
      exists t, tipo_anomalia r = Some t /\ In t tipos_de_anomalia
                /\ t <> TipoAnomalia.SIN_OC_NI_FACTURA).

(** The five keys that every normalized order has, in this order. *)
Definition claves_canonicas : list str :=
  [lit "id"; lit "proveedor"; lit "empresa"; lit "monto"; lit "moneda"].

(** ** Vocabulary of the report run *)

(** The outcome carries an invoice text of more than 100 characters, the
    ones [_procesar_pdfs_y_subir] works on. *)
Definition largo (r : Resultado) : bool :=
  match factura_base64_raw r with
  | Some b => (100 <? length b)%nat
  | None => false
  end.

Definition es_chat (ev : Externo.suceso) : bool :=
  match ev with
  | Externo.ChatPost _ _ => true
  | _ => false
  end.

Definition es_subida (ev : Externo.suceso) : bool :=
  match ev with
  | Externo.DriveCreate _ _ => true
  | _ => false
  end.

(** Work on the temporary PDFs and their upload. *)
Definition de_archivos (ev : Externo.suceso) : bool :=
  match ev with
  | Externo.FileWrite _ _ _ | Externo.DriveCreate _ _
  | Externo.FileRemove _ _ => true
  | _ => false
  end.

(** An outside world in which the files can be written and removed and
    every upload is answered with an id. *)
Definition exterior_sano (ext : Externo.Exterior) : Prop :=
  (forall t p, Externo.open_write ext t p = None)
  /\ (forall t p, Externo.path_exists ext t p = true)
  /\ (forall t p, Externo.os_remove ext t p = None)
  /\ (forall t req, exists file_id,
        Externo.files_create ext t req = Ok (Some file_id)).

(** The temporary file of an outcome and the upload asked for it. *)
Definition ruta_temporal (cfg : Externo.Settings)
    (strftime : Z -> str -> str) (r : Resultado) : str :=
  Externo.str_of_Path
    (Externo.truediv (Externo.pdf_dir cfg) (Externo.pdf_name strftime r)).

Definition subida_de_pdf (cfg : Externo.Settings)
    (strftime : Z -> str -> str) (r : Resultado) : Externo.Subida :=
  Externo.solicitud cfg (ruta_temporal cfg strftime r)
    (Some (Externo.GOOGLE_DRIVE_INVOICES_FOLDER_ID cfg)).

(** The clock is printed without a slash, as every format of the sources
    prints it. *)
Definition sin_barra (strftime : Z -> str -> str) : Prop :=
  forall dt f, ~ In 47%N (strftime dt f).

(** ** Vocabulary of the extraction *)

(** The ids of the files and of the assistants created in a history. *)
Definition archivos_creados (h : Extraccion.historia) : list str :=
  flat_map (fun ev =>
              match ev with
              | Extraccion.FilesCreate _ _ (Some file_id) => [file_id]
              | _ => []
              end) h.

Definition asistentes_creados (h : Extraccion.historia) : list str :=
  flat_map (fun ev =>
              match ev with
              | Extraccion.AssistantsCreate (Some assistant_id) =>
                  [assistant_id]
              | _ => []
              end) h.

Definition es_borrado (ev : Extraccion.llamada) : bool :=
  match ev with
  | Extraccion.FilesDelete _ _ | Extraccion.AssistantsDelete _ _ => true
  | _ => false
  end.

Definition borra_archivo (file_id : str) (ev : Extraccion.llamada) : Prop :=
  exists ok, ev = Extraccion.FilesDelete file_id ok.

Definition borra_asistente (assistant_id : str) (ev : Extraccion.llamada)
  : Prop :=
  exists ok, ev = Extraccion.AssistantsDelete assistant_id ok.

Definition es_sleep (ev : Extraccion.llamada) : bool :=
  match ev with
  | Extraccion.Sleep => true
  | _ => false
  end.

Definition es_retrieve (ev : Extraccion.llamada) : bool :=
  match ev with
  | Extraccion.RunsRetrieve _ _ _ => true
  | _ => false
  end.

(** Neither a deletion nor a creation that succeeded. *)
Definition neutra (ev : Extraccion.llamada) : bool :=
  match ev with
  | Extraccion.FilesCreate _ _ (Some _)
  | Extraccion.AssistantsCreate (Some _)
  | Extraccion.FilesDelete _ _ | Extraccion.AssistantsDelete _ _ => false
  | _ => true
  end.

(** The locals are kept and only neutral things are done. *)
Definition avanza (st st' : Extraccion.Locales) : Prop :=
  Extraccion.file_obj st' = Extraccion.file_obj st
  /\ Extraccion.assistant st' = Extraccion.assistant st
  /\ exists evs,
       Extraccion.hecho st' = Extraccion.hecho st ++ evs
       /\ forallb neutra evs = true.

Definition olist {A} (o : option A) : list A :=
  match o with
  | Some a => [a]
  | None => []
  end.

(** The clock never goes back, and a sleep lasts at least its
    interval. *)
Definition reloj_fiel (api : Extraccion.AssistantsAPI) : Prop :=
  (forall h ev,
     (Extraccion.time_time api h
      <= Extraccion.time_time api (h ++ [ev]))%Q)
  /\ (forall h,
        (Extraccion.time_time api h + Extraccion.SLEEP_INTERVAL
         <= Extraccion.time_time api (h ++ [Extraccion.Sleep]))%Q).

(** [fuel] turns are enough once [e] seconds have passed: the time is
    out, or a turn less is enough a sleep later. *)
Fixpoint basta (fuel : nat) (e : Q) : Prop :=
  match fuel with
  | O => False
  | S fuel' =>
      (Extraccion.TIMEOUT < e)%Q
      \/ basta fuel' (e + Extraccion.SLEEP_INTERVAL)%Q
  end.

(** ** Vocabulary of the comparison prompt *)

(** An order the prompt can print: a mapping whose ['concepto'], when it
    has one, is text or a list. *)
Definition orden_imprimible (oc : pyval) : bool :=
  match oc with
  | VDict d =>
      match dict_get (lit "concepto") d with
      | None | Some (VStr _) | Some (VList _) => true
      | _ => false
      end
  | _ => false
  end.

(** Extracted data whose total the prompt can print: a mapping whose
    ['gran_total'], when it has one, is a float, a boolean or an integer
    within the range of the floats. *)
Definition total_imprimible (datos : pyval) : bool :=
  match datos with
  | VDict d =>
      match dict_get (lit "gran_total") d with
      | None | Some (VFloat _) | Some (VBool _) => true
      | Some (VInt z) => (Z.abs z <? Prompts.OVERFLOW)%Z
      | _ => false
      end
  | _ => false
  end.

(** The text of the exception has no OK in it once in upper case, so
    that a comparison text built from it never passes the test of the
    validator. *)
Definition sin_ok (e : exn) : Prop :=
  contains (lit "OK") (upper (str_of_exn e)) = false.

End Vocabulary.

Module Fixtures2.

Import Normalizer Validator Fixtures.

(** A service whose extraction raises. *)
Definition svc_sin_extraccion : OpenAIService :=
  {| extraer_datos_factura := fun _ _ => Raise (Exception (lit "timeout"));
     comparar_factura_oc := fun _ _ _ => Ok (lit "OK") |}.

(** A store that refuses its first write session and commits the others. *)
Definition env_tropiezo : Env :=
  {| db_fault := fun n =>
       match n with
       | 2%nat => Some (Exception (lit "database is locked"))
       | _ => None
       end;
     utcnow := fun n => (1000 + Z.of_nat n)%Z |}.

(** An order whose attached data is a plain mapping, with the misspelt
    key for the services. *)
Definition oc_con_adjuntos : OrdenCompraInput :=
  {| VendorName := None; vendor_name := None; proveedor := None;
     our_company := None; empresa := None; receptor := None;
     total := None; monto := None; amount := None;
     moneda := None; currency := None;
     Normalizer.id := None; oc_id := None; order_id := None;
     oc_attached_data :=
       Some (AttDict [(lit "oc_subject", VStr (lit "Toner"));
                      (lit "adquired_serviecs",
                       VList [VStr (lit "print")])]);
     datos_adicionales := None;
     concepto := Some (lit "ignored"); description := None |}.

(** An outcome whose extracted data is a list, as the extraction can
    return when the remote answer is a JSON array. *)
Definition entrada_lista : Report.Entrada :=
  {| Report.res :=
       set_datos_factura (VList [VInt 1])
         (resultado_inicial Fixtures.registro_completo);
     Report.drive_link := Some (lit "N/A") |}.

(** Settings with a reports directory and the two folders. *)
Definition cfg_demo : Externo.Settings :=
  {| Externo.REPORTS_DIR := lit "/srv/app/reports";
     Externo.GOOGLE_DRIVE_FOLDER_ID := Some (lit "F-REPORTES");
     Externo.GOOGLE_DRIVE_INVOICES_FOLDER_ID := lit "F-FACTURAS" |}.

(** An outside world where everything succeeds; Drive names the file
    after the time of the upload. *)
Definition ext_sano : Externo.Exterior :=
  {| Externo.open_write := fun _ _ => None;
     Externo.path_exists := fun _ _ => true;
     Externo.os_remove := fun _ _ => None;
     Externo.files_create := fun t _ => Ok (Some (Base64.str_of_nat t));
     Externo.excel_writer := fun _ _ => None;
     Externo.requests_post := fun _ _ => Ok 200%Z;
     Externo.datetime_now := fun t => Z.of_nat t |}.

(** An outside world where Drive is down. *)
Definition ext_sin_drive : Externo.Exterior :=
  {| Externo.open_write := fun _ _ => None;
     Externo.path_exists := fun _ _ => true;
     Externo.os_remove := fun _ _ => None;
     Externo.files_create :=
       fun _ _ => Raise (Exception (lit "HttpError 503"));
     Externo.excel_writer := fun _ _ => None;
     Externo.requests_post := fun _ _ => Ok 200%Z;
     Externo.datetime_now := fun t => Z.of_nat t |}.

(** A clock printed as a number. *)
Definition strftime_demo (dt : Z) (_ : str) : str := Externo.str_of_int dt.

(** An invoice of 76 bytes and the outcome of its record. *)
Definition factura_76 : list N := repeat 37%N 76.

Definition resultado_76 : Resultado :=
  {| registro_id := 7; r_fecha_recepcion := 20240131;
     r_tiene_oc := Some true; r_tiene_factura := Some true;
     r_es_anomalia := false; r_tipo_anomalia := None;
     resultado_openai := Some (lit "OK");
     datos_factura := VDict [];
     r_num_ordenes := Some 1%nat;
     factura_base64_raw := Some (b64encode factura_76) |}.

Definition sistema_inicial : Externo.Sistema :=
  {| Externo.db := Spec.mundo_inicial; Externo.fuera := [] |}.

(** The record of that invoice, pending in a store of its own. *)
Definition registro_76 : RegistroWebhook :=
  registro_pendiente 7 20240131 (Some [oc_acme])
    (Some (b64encode factura_76)).

Definition sistema_76 : Externo.Sistema :=
  {| Externo.db := mundo [registro_76]; Externo.fuera := [] |}.

(** A remote API whose run completes at the second retrieval and whose
    answer is a JSON object inside a code fence; the clock counts the
    sleeps. *)
Definition api_demo : Extraccion.AssistantsAPI :=
  {| Extraccion.time_time :=
       fun h => inject_Z (2 * Z.of_nat (length (filter Vocabulary.es_sleep h)));
     Extraccion.files_create := fun _ _ _ => Ok (lit "file-1");
     Extraccion.assistants_create := fun _ => Ok (lit "asst-1");
     Extraccion.threads_create := fun _ _ => Ok (lit "thread-1");
     Extraccion.runs_create :=
       fun _ _ _ => Ok {| Extraccion.run_id := lit "run-1";
                          Extraccion.status := lit "queued" |};
     Extraccion.runs_retrieve :=
       fun h _ _ =>
         Ok {| Extraccion.run_id := lit "run-1";
               Extraccion.status :=
                 if (2 <=? length (filter Vocabulary.es_sleep h))%nat
                 then lit "completed" else lit "in_progress" |};
     Extraccion.messages_list :=
       fun _ _ =>
         Ok [[Some ([96%N; 96%N; 96%N] ++ lit "json" ++ [10%N]
                    ++ lit "{}" ++ [10%N] ++ [96%N; 96%N; 96%N])]];
     Extraccion.files_delete := fun _ _ => None;
     Extraccion.assistants_delete :=
       fun _ _ => Some (Exception (lit "rate limit")) |}.

(** A remote API whose run never leaves the queue. *)
Definition api_lenta : Extraccion.AssistantsAPI :=
  {| Extraccion.time_time :=
       fun h => inject_Z (2 * Z.of_nat (length (filter Vocabulary.es_sleep h)));
     Extraccion.files_create := fun _ _ _ => Ok (lit "file-1");
     Extraccion.assistants_create := fun _ => Ok (lit "asst-1");
     Extraccion.threads_create := fun _ _ => Ok (lit "thread-1");
     Extraccion.runs_create :=
       fun _ _ _ => Ok {| Extraccion.run_id := lit "run-1";
                          Extraccion.status := lit "queued" |};
     Extraccion.runs_retrieve :=
       fun _ _ _ => Ok {| Extraccion.run_id := lit "run-1";
                          Extraccion.status := lit "queued" |};
     Extraccion.messages_list := fun _ _ => Ok [];
     Extraccion.files_delete := fun _ _ => None;
     Extraccion.assistants_delete := fun _ _ => None |}.

(** What the extraction prompt asks for when nothing is found: every
    field is null. *)
Definition datos_nulos : pyval :=
  VDict [(lit "proveedor", VNone); (lit "gran_total", VNone);
         (lit "moneda", VNone)].

(** Printers that leave text as it is and print [?] otherwise. *)
Definition py_str_demo (v : pyval) : str :=
  match v with
  | VStr s => s
  | _ => lit "?"
  end.

Definition format_2f_demo (_ : pyfloat) : str := lit "0.00".

End Fixtures2.

Unset Implicit Arguments.
Import Py Store Validator Spec Fixtures.



(* ===================================================================== *)
(** * The validation decision sequence *)
(* ===================================================================== *)

Section DecisionSequence.

Variable svc : OpenAIService.


Lemma sin_factura_sin_oc registro w :
  flag (tiene_factura registro) = false ->
  flag (tiene_oc registro) = false ->
  _validar_registro_individual svc registro w =
  (Ok (set_anomalia true (Some TipoAnomalia.SIN_OC_NI_FACTURA)
         (resultado_inicial registro)), w).
Proof.
  intros Hf Ho. unfold _validar_registro_individual.
  rewrite Hf, Ho. reflexivity.
Qed.

Lemma sin_factura_con_oc registro w :
  flag (tiene_factura registro) = false ->
  flag (tiene_oc registro) = true ->
  _validar_registro_individual svc registro w =
  (Ok (set_anomalia true (Some TipoAnomalia.SIN_FACTURA)
         (resultado_inicial registro)), w).
Proof.
  intros Hf Ho. unfold _validar_registro_individual.
  rewrite Hf, Ho. reflexivity.
Qed.

(** The extraction step always returns, makes exactly one call, and keeps
    in the outcome whatever the call returned. *)
Lemma extraer_paso_spec registro resultado w :
  exists local,
    extraer_paso svc registro resultado w =
    (Ok (match extraer_datos_factura svc (tick w) (factura_base64 registro) with
         | Ok (datos, _) => set_datos_factura datos resultado
         | Raise _ => resultado
         end, local),
     log (CallExtraer (factura_base64 registro)) w).
Proof.
  unfold extraer_paso, call_extraer.
  destruct (extraer_datos_factura svc (tick w) (factura_base64 registro))
    as [[datos x]|e]; [|eauto].
  destruct (truthy datos); [|eauto].
  destruct (log_datos_extraidos datos); eauto.
Qed.

Lemma con_factura_sin_oc registro w :
  flag (tiene_factura registro) = true ->
  flag (tiene_oc registro) = false ->
  exists res,
    _validar_registro_individual svc registro w =
    (Ok res, log (CallExtraer (factura_base64 registro)) w)
    /\ r_es_anomalia res = true
    /\ r_tipo_anomalia res = Some TipoAnomalia.SIN_OC
    /\ resultado_openai res = Some SIN_OC_TEXTO
    /\ datos_factura res = datos_retenidos svc registro w.
Proof.
  intros Hf Ho. unfold _validar_registro_individual, mbind.
  rewrite Hf. cbn [negb].
  destruct (extraer_paso_spec registro (resultado_inicial registro) w)
    as [local ->].
  rewrite Ho. cbn [negb]. eexists. split; [reflexivity|].
  unfold datos_retenidos.
  destruct (extraer_datos_factura svc (tick w) (factura_base64 registro))
    as [[datos x]|e]; cbn; auto.
Qed.

End DecisionSequence.

(** C1.  Missing data.  For every pending record, service and world: with
    neither invoice nor purchase orders the outcome is an anomaly of kind
    [sin_oc_ni_factura], and with purchase orders but no invoice an anomaly
    of kind [sin_factura]; in both cases the world is returned as it was,
    so that no collaborator was called.  With an invoice but no purchase
    orders the outcome is an anomaly of kind [sin_oc] carrying the fixed
    text, the extraction was called exactly once and nothing else, and the
    outcome keeps what the extraction returned. *)
Theorem missing_data_classification (svc : OpenAIService)
    (registro : RegistroWebhook) (w : World) :
  (flag (tiene_factura registro) = false ->
   flag (tiene_oc registro) = false ->
   exists res,
     _validar_registro_individual svc registro w = (Ok res, w)
     /\ r_es_anomalia res = true
     /\ r_tipo_anomalia res = Some TipoAnomalia.SIN_OC_NI_FACTURA)
  /\
  (flag (tiene_factura registro) = false ->
   flag (tiene_oc registro) = true ->
   exists res,
     _validar_registro_individual svc registro w = (Ok res, w)
     /\ r_es_anomalia res = true
     /\ r_tipo_anomalia res = Some TipoAnomalia.SIN_FACTURA)
  /\
  (flag (tiene_factura registro) = true ->
   flag (tiene_oc registro) = false ->
   exists res w',
     _validar_registro_individual svc registro w = (Ok res, w')
     /\ r_es_anomalia res = true
     /\ r_tipo_anomalia res = Some TipoAnomalia.SIN_OC
     /\ resultado_openai res = Some SIN_OC_TEXTO
     /\ trace w' = trace w ++ [CallExtraer (factura_base64 registro)]
     /\ rows w' = rows w
     /\ datos_factura res = datos_retenidos svc registro w).
Proof.
  repeat split.
  - intros Hf Ho. eexists. split; [apply sin_factura_sin_oc; assumption|].
    split; reflexivity.
  - intros Hf Ho. eexists. split; [apply sin_factura_con_oc; assumption|].
    split; reflexivity.
  - intros Hf Ho.
    destruct (con_factura_sin_oc svc registro w Hf Ho)
      as (res & Hrun & Ha & Ht & Hr & Hd).
    exists res, (log (CallExtraer (factura_base64 registro)) w).
    repeat split; assumption || reflexivity.
Qed.


Lemma missing_data_classification_witness :
  (exists res,
     _validar_registro_individual (svc_texto (lit "OK")) registro_vacio
       (mundo [registro_vacio]) = (Ok res, mundo [registro_vacio])
     /\ r_es_anomalia res = true
     /\ r_tipo_anomalia res = Some TipoAnomalia.SIN_OC_NI_FACTURA)
  /\ (exists res,
        _validar_registro_individual (svc_texto (lit "OK"))
          registro_sin_factura (mundo [registro_sin_factura])
        = (Ok res, mundo [registro_sin_factura])
        /\ r_es_anomalia res = true
        /\ r_tipo_anomalia res = Some TipoAnomalia.SIN_FACTURA)
  /\ (exists res w',
        _validar_registro_individual (svc_texto (lit "OK"))
          registro_sin_oc (mundo [registro_sin_oc]) = (Ok res, w')
        /\ r_es_anomalia res = true
        /\ r_tipo_anomalia res = Some TipoAnomalia.SIN_OC
        /\ resultado_openai res = Some SIN_OC_TEXTO
        /\ trace w' = [CallExtraer (Some (lit "JVBERi0x"))]
        /\ rows w' = [registro_sin_oc]
        /\ datos_factura res = datos_acme).
Proof.
  split; [|split].
  - apply (proj1 (missing_data_classification (svc_texto (lit "OK"))
                    registro_vacio (mundo [registro_vacio])));
      reflexivity.
  - apply (proj1 (proj2 (missing_data_classification (svc_texto (lit "OK"))
                           registro_sin_factura
                           (mundo [registro_sin_factura]))));
      reflexivity.
  - apply (proj2 (proj2 (missing_data_classification (svc_texto (lit "OK"))
                           registro_sin_oc (mundo [registro_sin_oc]))));
      reflexivity.
Defined.

(** ** Text lemmas *)

Ltac split_N :=
  repeat (match goal with
          | |- context [N.leb ?a ?b] => destruct (N.leb_spec a b)
          | |- context [N.eqb ?a ?b] => destruct (N.eqb_spec a b)
          | |- context [N.ltb ?a ?b] => destruct (N.ltb_spec a b)
          | H : context [N.leb ?a ?b] |- _ => destruct (N.leb_spec a b)
          | H : context [N.eqb ?a ?b] |- _ => destruct (N.eqb_spec a b)
          | H : context [N.ltb ?a ?b] |- _ => destruct (N.ltb_spec a b)
          end; cbn [andb orb negb] in *; try lia; try discriminate;
          try reflexivity).

Lemma upper_char_space c : is_space c = true -> upper_char c = c.
Proof.
  unfold is_space, upper_char, is_lower, in_range, char_eqb. intros H.
  split_N.
Qed.

Lemma startswith_snoc (t u : str) (y : char) :
  t <> [] -> char_eqb (last t 0%N) y = false ->
  startswith t (u ++ [y]) = startswith t u.
Proof.
  revert u. induction t as [|x t IH]; intros u Hne Hl; [congruence|].
  destruct u as [|z u]; cbn.
  - destruct t as [|x' t].
    + cbn in Hl. rewrite Hl. reflexivity.
    + destruct (char_eqb x y); reflexivity.
  - destruct t as [|x' t].
    + destruct (char_eqb x z); reflexivity.
    + rewrite IH; [reflexivity|discriminate|exact Hl].
Qed.

Lemma contains_snoc (t u : str) (y : char) :
  t <> [] -> char_eqb (last t 0%N) y = false ->
  contains t (u ++ [y]) = contains t u.
Proof.
  intros Hne Hl. induction u as [|z u IH].
  - cbn. destruct t as [|x t]; [congruence|].
    cbn. destruct t as [|x' t].
    + cbn in Hl. rewrite Hl. reflexivity.
    + rewrite andb_false_r. reflexivity.
  - cbn [app contains]. rewrite IH.
    change (z :: u ++ [y]) with ((z :: u) ++ [y]).
    rewrite startswith_snoc by assumption. reflexivity.
Qed.

Section Token.

(** A token whose first and last characters are not white space. *)
Variable t : str.
Hypothesis t_first :
  forall c, is_space c = true -> char_eqb (hd 0%N t) c = false.
Hypothesis t_last :
  forall c, is_space c = true -> char_eqb (last t 0%N) c = false.
Hypothesis t_ne : t <> [].

Lemma contains_upper_lstrip s :
  contains t (upper (lstrip s)) = contains t (upper s).
Proof.
  induction s as [|c s IH]; [reflexivity|].
  cbn [lstrip]. destruct (is_space c) eqn:Hc; [|reflexivity].
  rewrite IH. cbn [upper map contains].
  rewrite upper_char_space by assumption.
  destruct t as [|x t']; [congruence|].
  cbn [startswith]. cbn in t_first. rewrite (t_first c Hc). reflexivity.
Qed.

Lemma rstrip_snoc s c :
  rstrip (s ++ [c]) = if is_space c then rstrip s else s ++ [c].
Proof.
  unfold rstrip. rewrite rev_app_distr. cbn [rev app lstrip].
  destruct (is_space c); [reflexivity|].
  cbn [rev]. rewrite rev_involutive. reflexivity.
Qed.

Lemma contains_upper_rstrip s :
  contains t (upper (rstrip s)) = contains t (upper s).
Proof.
  induction s as [|c s IH] using rev_ind; [reflexivity|].
  rewrite rstrip_snoc. destruct (is_space c) eqn:Hc; [|reflexivity].
  rewrite IH. unfold upper. rewrite map_app. cbn [map].
  rewrite upper_char_space by assumption.
  rewrite contains_snoc; auto.
Qed.

Lemma contains_upper_strip s :
  contains t (upper (strip s)) = contains t (upper s).
Proof.
  unfold strip. rewrite contains_upper_rstrip. apply contains_upper_lstrip.
Qed.

End Token.

Lemma not_space_letter (x : char) (c : char) :
  is_upper x = true -> is_space c = true -> char_eqb x c = false.
Proof.
  unfold is_upper, is_space, in_range, char_eqb. intros Hx Hc. split_N.
Qed.

(** The test of line 170 does not depend on the [strip()]. *)
Lemma todo_coincide_upper (comparacion : str) :
  todo_coincide comparacion =
  contains (lit "OK") (upper comparacion)
  && negb (contains (lit "DISCREPANCIA") (upper comparacion)).
Proof.
  unfold todo_coincide.
  rewrite !contains_upper_strip;
    try discriminate; try reflexivity;
    intros c Hc; apply not_space_letter; auto.
Qed.



(** A record with an invoice and purchase orders whose extraction gives a
    non-empty mapping reaches the comparison, and its outcome is read off
    the text the comparison returns. *)
Lemma comparacion_alcanzada svc registro w kv d otro comparacion :
  flag (tiene_factura registro) = true ->
  flag (tiene_oc registro) = true ->
  extraer_datos_factura svc (tick w) (factura_base64 registro)
  = Ok (VDict (kv :: d), otro) ->
  comparar_factura_oc svc (S (tick w)) (VDict (kv :: d))
    (ordenes_de_compra registro) = Ok comparacion ->
  exists res w',
    _validar_registro_individual svc registro w = (Ok res, w')
    /\ resultado_openai res = Some comparacion
    /\ r_es_anomalia res = negb (todo_coincide comparacion)
    /\ r_tipo_anomalia res =
       (if todo_coincide comparacion then None
        else Some TipoAnomalia.DISCREPANCIAS).
Proof.
  intros Hf Ho He Hc.
  unfold _validar_registro_individual. rewrite Hf. cbn [negb].
  unfold mbind, extraer_paso, call_extraer.
  rewrite He. cbn [truthy log_datos_extraidos].
  rewrite Ho. cbn [negb]. unfold call_comparar.
  replace (tick (log (CallExtraer (factura_base64 registro)) w))
    with (S (tick w)).
  2:{ unfold tick, log. cbn. rewrite length_app. cbn. lia. }
  rewrite Hc.
  destruct (todo_coincide comparacion); cbn.
  all: eexists; eexists; (split; [reflexivity|]); cbn; auto.
Qed.




(** The three texts of the specification. *)
Example texto_ok :
  todo_coincide (lit "OK - matches PO #3") = true.
Proof. reflexivity. Qed.

Example texto_discrepancia :
  todo_coincide (lit "DISCREPANCIA - amount mismatch") = false.
Proof. reflexivity. Qed.

Example texto_ambos :
  todo_coincide (lit "ok discrepancia both present") = false.
Proof. reflexivity. Qed.



(** ** The comparison collaborator *)

Lemma comparar_never_raises api now datos ocs :
  exists texto, OpenAIClient.comparar_factura_oc api now datos ocs = Ok texto.
Proof.
  unfold OpenAIClient.comparar_factura_oc.
  destruct (OpenAIClient.comparar_try api now datos ocs); cbn; eauto.
Qed.

Lemma contains_ok_error_prefix msg :
  contains (lit "OK") (upper (OpenAIClient.error_prefix ++ msg))
  = contains (lit "OK") (upper msg).
Proof. reflexivity. Qed.







(* ===================================================================== *)
(** * The field normalizer *)
(* ===================================================================== *)

Section NormalizerProofs.

Import Normalizer.

(** ** Dictionaries *)

Lemma str_eqb_refl (a : str) : str_eqb a a = true.
Proof.
  induction a as [|x a IH]; [reflexivity|].
  cbn. unfold char_eqb. rewrite N.eqb_refl. exact IH.
Qed.

Lemma dict_get_set_ne (k k' : str) (v : pyval) (d : dict) :
  str_eqb k k' = false -> dict_get k (dict_set k' v d) = dict_get k d.
Proof.
  intros Hne. induction d as [|[k0 v0] d IH]; cbn.
  - rewrite Hne. reflexivity.
  - destruct (str_eqb k' k0) eqn:E1; cbn.
    + rewrite Hne.
      destruct (str_eqb k k0) eqn:E2; [|reflexivity].
      exfalso.
      assert (Heq : forall a b : str, str_eqb a b = true -> a = b).
      { clear. induction a as [|x a IH]; destruct b as [|y b]; cbn;
          try discriminate; [reflexivity|].
        intros H. apply andb_true_iff in H. destruct H as [H1 H2].
        apply N.eqb_eq in H1. subst. f_equal. auto. }
      apply Heq in E1. apply Heq in E2. subst.
      rewrite str_eqb_refl in Hne. discriminate.
    + destruct (str_eqb k k0); [reflexivity|exact IH].
Qed.

Lemma dict_item_has (k : str) (d : dict) :
  dict_has k d = true -> exists v, dict_item k d = Ok v.
Proof.
  unfold dict_has, dict_item. destruct (dict_get k d); [eauto|discriminate].
Qed.


Lemma merge_adjuntos_total (adj normalized : dict) :
  exists d,
    merge_adjuntos adj normalized = Ok d
    /\ forall k, clave_adjunta k = false ->
                 dict_get k d = dict_get k normalized.
Proof.
  unfold merge_adjuntos, clave_adjunta.
  destruct (dict_has (lit "oc_subject") adj) eqn:H1;
    [destruct (dict_item_has _ _ H1) as [v1 ->]|];
    (destruct (dict_has (lit "oc_poDate") adj) eqn:H2;
     [destruct (dict_item_has _ _ H2) as [v2 ->]|]);
    cbn [bind];
    (eexists; split; [reflexivity|]);
    intros k Hk;
    repeat (apply orb_false_iff in Hk; destruct Hk as [Hk ?]);
    destruct (truthy _);
    repeat (rewrite dict_get_set_ne by assumption); reflexivity.
Qed.

Lemma or_default_resolve3 (a b c : option str) (default : str) :
  or_default (or_str (or_str a b) c) default = resolve [a; b; c] default.
Proof.
  unfold resolve, or_default, or_str. cbn.
  destruct a as [[|x a]|]; cbn; try reflexivity;
    destruct b as [[|y b]|]; cbn; try reflexivity;
    destruct c as [[|z c]|]; cbn; reflexivity.
Qed.

Lemma or_default_resolve2 (a b : option str) (default : str) :
  or_default (or_str a b) default = resolve [a; b] default.
Proof.
  unfold resolve, or_default, or_str. cbn.
  destruct a as [[|x a]|]; cbn; try reflexivity;
    destruct b as [[|y b]|]; cbn; reflexivity.
Qed.


(** Normalization returns, and its five canonical fields are these. *)
Lemma to_normalized_dict_spec (o : OrdenCompraInput) :
  exists d,
    to_normalized_dict o = Ok d
    /\ dict_get (lit "id") d
       = Some (VStr (resolve [id o; oc_id o; order_id o] (lit "N/A")))
    /\ dict_get (lit "proveedor") d
       = Some (VStr (resolve [proveedor o; VendorName o; vendor_name o]
                       (lit "N/A")))
    /\ dict_get (lit "empresa") d
       = Some (VStr (resolve [empresa o; our_company o; receptor o]
                       (lit "N/A")))
    /\ dict_get (lit "monto") d = Some (VFloat (monto_normalizado o))
    /\ dict_get (lit "moneda") d
       = Some (VStr (upper (resolve [moneda o; currency o] (lit "MXN")))).
Proof.
  unfold to_normalized_dict, monto_normalizado.
  rewrite !or_default_resolve3, or_default_resolve2.
  set (mnt := try_except (convert_monto (raw_monto o)) _).
  assert (Hm : mnt = Ok (match convert_monto (raw_monto o) with
                         | Ok f => f | Raise _ => FNum 0 end)).
  { unfold mnt. destruct (convert_monto (raw_monto o)); reflexivity. }
  rewrite Hm. cbn [bind].
  destruct (adj_of o) as [[m|adj]|].
  - eexists. split; [reflexivity|]. repeat split.
  - match goal with
    | |- context [merge_adjuntos adj ?n] =>
        destruct (merge_adjuntos_total adj n) as (d & -> & Hd)
    end.
    exists d. split; [reflexivity|].
    rewrite !Hd by reflexivity. repeat split.
  - eexists. split; [reflexivity|]. repeat split.
Qed.








End NormalizerProofs.

(* ===================================================================== *)
(** * The record store and the batch *)
(* ===================================================================== *)

Ltac inv_pair H := inversion H; subst; clear H.

(** The decision sequence only adds calls to the trace. *)
Lemma validar_rows svc registro w out w' :
  _validar_registro_individual svc registro w = (out, w') ->
  rows w' = rows w /\ next_id w' = next_id w.
Proof.
  unfold _validar_registro_individual. intros H.
  destruct (negb (flag (tiene_factura registro))).
  - destruct (negb (flag (tiene_oc registro))); inv_pair H; auto.
  - unfold mbind in H.
    destruct (extraer_paso_spec svc registro (resultado_inicial registro) w)
      as [local He].
    rewrite He in H.
    destruct (negb (flag (tiene_oc registro))); [inv_pair H; auto|].
    destruct (truthy local); [|inv_pair H; auto].
    unfold call_comparar in H.
    destruct (comparar_factura_oc svc _ local (ordenes_de_compra registro));
      cbn in H; [destruct (todo_coincide a)|]; inv_pair H; auto.
Qed.

Lemma actualizar_ok env i res w :
  db_fault env (tick w) = None ->
  _actualizar_registro env i res w =
  (Ok tt, {| rows := update_rows i res (utcnow env (tick w)) (rows w);
             next_id := next_id w;
             trace := trace w ++ [DbWrite true] |}).
Proof.
  intros H. unfold _actualizar_registro, write_session. rewrite H.
  reflexivity.
Qed.

Lemma actualizar_falla env i res w e :
  db_fault env (tick w) = Some e ->
  _actualizar_registro env i res w = (Raise e, log (DbWrite false) w).
Proof.
  intros H. unfold _actualizar_registro, write_session. rewrite H.
  reflexivity.
Qed.

Lemma actualizar_spec env i res w out w' :
  _actualizar_registro env i res w = (out, w') ->
  next_id w' = next_id w
  /\ ((out = Ok tt
       /\ rows w' = update_rows i res (utcnow env (tick w)) (rows w))
      \/ ((exists e, out = Raise e) /\ rows w' = rows w)).
Proof.
  unfold _actualizar_registro, write_session.
  destruct (db_fault env (tick w)) as [e|]; intros H; inv_pair H; cbn.
  - split; [reflexivity|]. right. eauto.
  - split; [reflexivity|]. left. auto.
Qed.

(** The [try] block writes the row of the record at most once, and only
    when it does not raise. *)
Lemma cuerpo_try_spec env svc registro resultados w out rs w' :
  cuerpo_try env svc registro resultados w = (out, (rs, w')) ->
  next_id w' = next_id w
  /\ ((out = Ok tt
       /\ exists res ahora,
            rows w' = update_rows (Store.id registro) res ahora (rows w))
      \/ ((exists e, out = Raise e) /\ rows w' = rows w)).
Proof.
  unfold cuerpo_try. intros H.
  destruct (_validar_registro_individual svc registro w) as [[res|e] w1] eqn:Hv;
    destruct (validar_rows _ _ _ _ _ Hv) as [Hr Hn].
  - destruct (_actualizar_registro env (Store.id registro) res w1)
      as [[[]|e] w2] eqn:Ha;
      destruct (actualizar_spec _ _ _ _ _ _ Ha) as [Hn2 Hcase];
      inv_pair H; (split; [congruence|]).
    + left. split; [reflexivity|].
      destruct Hcase as [[_ Hrows]|[[e He] _]]; [|discriminate].
      rewrite Hrows, Hr. eauto.
    + right. split; [eauto|].
      destruct Hcase as [[He _]|[_ Hrows]]; [discriminate|congruence].
  - inv_pair H. split; [assumption|]. right. split; [eauto|assumption].
Qed.

(** One turn of the loop writes the row of its record at most once; it
    wrote it when the turn returns. *)
Lemma iteracion_spec env svc registro resultados w out w' :
  iteracion env svc registro resultados w = (out, w') ->
  next_id w' = next_id w
  /\ ((exists res ahora,
         rows w' = update_rows (Store.id registro) res ahora (rows w))
      \/ ((exists e, out = Raise e) /\ rows w' = rows w)).
Proof.
  unfold iteracion. intros H.
  destruct (cuerpo_try env svc registro resultados w) as [o [rs w1]] eqn:Hc.
  destruct (cuerpo_try_spec _ _ _ _ _ _ _ _ Hc) as [Hn Hcase].
  destruct o as [u|e].
  - inv_pair H. split; [assumption|]. left.
    destruct Hcase as [[_ Hex]|[[e He] _]]; [exact Hex|discriminate].
  - destruct Hcase as [[He _]|[_ Hrows]]; [discriminate|].
    unfold manejar_error, mbind, ret in H.
    destruct (_actualizar_registro env (Store.id registro)
                (resultado_error registro e) w1) as [[[]|e'] w2] eqn:Ha;
      destruct (actualizar_spec _ _ _ _ _ _ Ha) as [Hn2 Hcase2];
      inv_pair H; (split; [congruence|]).
    + left. destruct Hcase2 as [[_ Hr2]|[[x Hx] _]]; [|discriminate].
      rewrite Hr2, Hrows. eauto.
    + right. split; [eauto|].
      destruct Hcase2 as [[Hx _]|[_ Hr2]]; [discriminate|congruence].
Qed.

(** ** The pending query *)

Lemma insert_by_fecha_perm r l : Permutation (r :: l) (insert_by_fecha r l).
Proof.
  induction l as [|x l IH]; cbn; [reflexivity|].
  destruct (fecha_recepcion r <=? fecha_recepcion x)%Z; [reflexivity|].
  rewrite perm_swap. constructor. exact IH.
Qed.

Lemma order_by_fecha_perm l : Permutation l (order_by_fecha l).
Proof.
  induction l as [|x l IH]; cbn; [constructor|].
  rewrite <- insert_by_fecha_perm. constructor. exact IH.
Qed.

Lemma obtener_pendientes w :
  _obtener_registros_pendientes w = (Ok (pendientes w), w).
Proof. reflexivity. Qed.

(** The query selects exactly the unprocessed rows. *)
Lemma pendientes_in w r :
  In r (pendientes w) <-> In r (rows w) /\ procesado r = false.
Proof.
  unfold pendientes. split.
  - intros H. apply (Permutation_in _ (Permutation_sym (order_by_fecha_perm _)))
      in H.
    apply filter_In in H. destruct H as [H1 H2].
    split; [exact H1|]. destruct (procesado r); [discriminate|reflexivity].
  - intros [H1 H2]. apply (Permutation_in _ (order_by_fecha_perm _)).
    apply filter_In. split; [exact H1|]. rewrite H2. reflexivity.
Qed.


(** ** A run that returns has processed every pending record *)

Lemma update_rows_in i res ahora l r' :
  In r' (update_rows i res ahora l) ->
  exists r, In r l
            /\ r' = if (Store.id r =? i)%Z
                    then actualizar_fila res ahora r else r.
Proof.
  unfold update_rows. intros H. apply in_map_iff in H.
  destruct H as (r & Hr & Hin). exists r. split; [exact Hin|].
  symmetry. exact Hr.
Qed.




(** ** A failure while one record is processed *)

(** The loop only appends to the outcomes it was given. *)
Lemma bucle_prefijo env svc registros :
  forall resultados w res w',
    bucle env svc registros resultados w = (Ok res, w') ->
    exists sufijo, res = resultados ++ sufijo.
Proof.
  induction registros as [|registro resto IH]; intros resultados w res w' Hb.
  - cbn in Hb. inv_pair Hb. exists []. rewrite app_nil_r. reflexivity.
  - cbn [bucle] in Hb. unfold mbind in Hb.
    destruct (iteracion env svc registro resultados w) as [[rs|e] w1] eqn:Hi;
      [|discriminate].
    destruct (IH _ _ _ _ Hb) as [suf ->].
    unfold iteracion in Hi.
    destruct (cuerpo_try env svc registro resultados w) as [o [rs0 w0]] eqn:Hc.
    assert (Hrs0 : exists s0, rs0 = resultados ++ s0).
    { unfold cuerpo_try in Hc.
      destruct (_validar_registro_individual svc registro w) as [[r|e] wv].
      - destruct (_actualizar_registro env (Store.id registro) r wv)
          as [[[]|e] wa]; inv_pair Hc; eauto.
      - inv_pair Hc. exists []. rewrite app_nil_r. reflexivity. }
    destruct Hrs0 as [s0 ->].
    destruct o as [u|e].
    + inv_pair Hi. rewrite <- app_assoc. eauto.
    + unfold manejar_error, mbind, ret in Hi.
      destruct (_actualizar_registro env (Store.id registro)
                  (resultado_error registro e) w0) as [[[]|e'] wa];
        inv_pair Hi.
      rewrite <- !app_assoc. eauto.
Qed.

(** C3, as amended.  When the [try] block of one record raises, in the
    decision sequence or in the write of its outcome, the loop catches the
    exception and appends the error outcome: an anomaly of kind
    [error_procesamiento_factura] whose text is 'Error: ' followed by the
    text of the exception.  Provided the store accepts the write of that
    outcome, every row of the record is marked processed with it, the loop
    goes on with the remaining records, and the error outcome is part of
    the list the run returns. *)
Theorem per_record_failure
    (env : Env) (svc : OpenAIService)
    (registro : RegistroWebhook) (resto : list RegistroWebhook)
    (resultados rs : list Resultado) (w w1 : World) (e : exn) :
  cuerpo_try env svc registro resultados w = (Raise e, (rs, w1)) ->
  db_fault env (tick w1) = None ->
  let err := resultado_error registro e in
  let ahora := utcnow env (tick w1) in
  let w2 :=
    tras_escritura (update_rows (Store.id registro) err ahora (rows w1)) w1 in
  r_es_anomalia err = true
  /\ r_tipo_anomalia err = Some TipoAnomalia.ERROR_PROCESAMIENTO
  /\ resultado_openai err = Some (lit "Error: " ++ str_of_exn e)
  /\ iteracion env svc registro resultados w = (Ok (rs ++ [err]), w2)
  /\ (forall r', In r' (rows w2) -> Store.id r' = Store.id registro ->
        procesado r' = true /\ es_anomalia r' = true
        /\ tipo_anomalia r' = Some TipoAnomalia.ERROR_PROCESAMIENTO
        /\ resultado_validacion r' = Some (lit "Error: " ++ str_of_exn e))
  /\ bucle env svc (registro :: resto) resultados w
     = bucle env svc resto (rs ++ [err]) w2
  /\ (forall res wf,
        bucle env svc (registro :: resto) resultados w = (Ok res, wf) ->
        In err res).
Proof.
  intros Hc Hdb err ahora w2.
  assert (Hi : iteracion env svc registro resultados w
               = (Ok (rs ++ [err]), w2)).
  { unfold iteracion. rewrite Hc. unfold manejar_error, mbind, ret.
    rewrite (actualizar_ok env _ _ w1 Hdb). reflexivity. }
  assert (Hb : bucle env svc (registro :: resto) resultados w
               = bucle env svc resto (rs ++ [err]) w2).
  { cbn [bucle]. unfold mbind. rewrite Hi. reflexivity. }
  assert (Hmarca : forall r', In r' (rows w2) ->
            Store.id r' = Store.id registro ->
            r' = actualizar_fila err ahora r').
  { intros r' Hin Hid. apply update_rows_in in Hin.
    destruct Hin as (r & Hr & ->).
    destruct (Store.id r =? Store.id registro)%Z eqn:E; [reflexivity|].
    apply Z.eqb_neq in E. contradiction. }
  split; [reflexivity|]. split; [reflexivity|]. split; [reflexivity|].
  split; [exact Hi|]. split.
  { intros r' Hin Hid. rewrite (Hmarca r' Hin Hid). repeat split. }
  split; [exact Hb|].
  - intros res wf Hres. rewrite Hb in Hres.
    destruct (bucle_prefijo _ _ _ _ _ _ _ Hres) as [suf ->].
    apply in_or_app. left. apply in_or_app. right. left. reflexivity.
Qed.

Lemma per_record_failure_witness :
  exists w2,
    bucle env_sano (svc_falla (lit "timeout"))
      [registro_completo; registro_vacio] []
      (mundo [registro_completo; registro_vacio])
    = bucle env_sano (svc_falla (lit "timeout")) [registro_vacio]
        [resultado_error registro_completo (Exception (lit "timeout"))] w2
    /\ forall r', In r' (rows w2) -> Store.id r' = 1%Z ->
         procesado r' = true /\ es_anomalia r' = true
         /\ tipo_anomalia r' = Some TipoAnomalia.ERROR_PROCESAMIENTO
         /\ resultado_validacion r' = Some (lit "Error: timeout").
Proof.
  eexists.
  edestruct (per_record_failure env_sano (svc_falla (lit "timeout"))
               registro_completo [registro_vacio] [] []
               (mundo [registro_completo; registro_vacio]))
    as (_ & _ & _ & _ & Hm & Hb & _).
  - reflexivity.
  - reflexivity.
  - split; [exact Hb|exact Hm].
Defined.

(** When the store refuses the writes, the failure of the first record
    ends the run: no record is marked and the second is never visited. *)
Lemma store_failure_counterexample :
  (exists rs w1,
     cuerpo_try env_caido (svc_texto (lit "OK - matches PO #3"))
       registro_completo [] (mundo [registro_completo; registro_vacio])
     = (Raise (Exception (lit "database is locked")), (rs, w1)))
  /\ exists w',
       validar_todos_los_registros env_caido
         (svc_texto (lit "OK - matches PO #3"))
         (mundo [registro_completo; registro_vacio])
       = (Raise (Exception (lit "database is locked")), w')
       /\ rows w' = [registro_completo; registro_vacio].
Proof.
  split.
  - eexists. eexists. reflexivity.
  - eexists. split; reflexivity.
Qed.

(** ** The outcome invariant *)

Lemma evoluciona_refl ids l : evoluciona ids l l.
Proof. induction l; constructor; auto. Qed.

Lemma evoluciona_update i res ahora l :
  evoluciona [i] l (update_rows i res ahora l).
Proof.
  induction l as [|r l IH]; cbn; constructor; [|exact IH].
  destruct (Z.eqb_spec (Store.id r) i) as [E|E]; [|left; reflexivity].
  right. split; [left; symmetry; exact E|eauto].
Qed.

Lemma evoluciona_ids ids l l' :
  evoluciona ids l l' -> map Store.id l' = map Store.id l.
Proof.
  induction 1 as [|r r' l l' Hr _ IH]; [reflexivity|].
  cbn. rewrite IH. f_equal.
  destruct Hr as [->|[_ (res & ahora & ->)]]; reflexivity.
Qed.

Lemma evoluciona_cons i ids l l1 l2 :
  ~ In i ids ->
  evoluciona [i] l l1 -> evoluciona ids l1 l2 -> evoluciona (i :: ids) l l2.
Proof.
  intros Hni H1. revert l2. induction H1 as [|r r1 l l1 Hr _ IH];
    intros l2 H2; inversion H2 as [|? r2 ? l2' Hr2 H2']; subst;
    constructor; [|apply IH; exact H2'].
  destruct Hr as [->|[Hin (res & ahora & ->)]].
  - destruct Hr2 as [->|[Hin2 Hex]]; [left; reflexivity|].
    right. split; [right; exact Hin2|exact Hex].
  - destruct Hin as [Hi|[]]. subst i.
    destruct Hr2 as [->|[Hin2 _]].
    + right. split; [left; reflexivity|eauto].
    + cbn in Hin2. contradiction.
Qed.

Lemma iteracion_evoluciona env svc registro resultados w out w' :
  iteracion env svc registro resultados w = (out, w') ->
  evoluciona [Store.id registro] (rows w) (rows w')
  /\ next_id w' = next_id w.
Proof.
  intros H. destruct (iteracion_spec _ _ _ _ _ _ _ H)
    as [Hn [(res & ahora & ->)|[_ ->]]]; split; try exact Hn.
  - apply evoluciona_update.
  - apply evoluciona_refl.
Qed.

Lemma bucle_evoluciona env svc registros :
  forall resultados w out w',
    NoDup (map Store.id registros) ->
    bucle env svc registros resultados w = (out, w') ->
    evoluciona (map Store.id registros) (rows w) (rows w')
    /\ next_id w' = next_id w.
Proof.
  induction registros as [|registro resto IH];
    intros resultados w out w' Hnd Hb.
  - cbn in Hb. inv_pair Hb. split; [apply evoluciona_refl|reflexivity].
  - cbn [bucle] in Hb. unfold mbind in Hb.
    cbn [map] in Hnd. apply NoDup_cons_iff in Hnd. destruct Hnd as [Hni Hnd].
    destruct (iteracion env svc registro resultados w) as [o w1] eqn:Hi.
    destruct (iteracion_evoluciona _ _ _ _ _ _ _ Hi) as [He1 Hn1].
    destruct o as [rs|e].
    + destruct (IH _ _ _ _ Hnd Hb) as [He2 Hn2].
      split; [|congruence].
      cbn [map]. apply (evoluciona_cons _ _ _ (rows w1)); assumption.
    + inv_pair Hb. split; [|exact Hn1].
      cbn [map]. apply (evoluciona_cons _ _ _ (rows w')); try assumption.
      apply evoluciona_refl.
Qed.

(** Selecting rows keeps their identities distinct. *)
Lemma filter_ids_NoDup (keep : RegistroWebhook -> bool)
    (filas : list RegistroWebhook) :
  NoDup (map Store.id filas) -> NoDup (map Store.id (filter keep filas)).
Proof.
  induction filas as [|x filas IH]; cbn; [auto|].
  intros H. apply NoDup_cons_iff in H. destruct H as [Hni Hnd].
  destruct (keep x); [|auto].
  cbn. constructor; [|auto].
  intros Hin. apply Hni. apply in_map_iff in Hin.
  destruct Hin as (y & Hy & Hin). apply filter_In in Hin.
  apply in_map_iff. exists y. tauto.
Qed.

Lemma pendientes_NoDup w :
  NoDup (map Store.id (rows w)) -> NoDup (map Store.id (pendientes w)).
Proof.
  intros H. unfold pendientes.
  eapply Permutation_NoDup.
  - apply Permutation_map. apply order_by_fecha_perm.
  - apply filter_ids_NoDup. exact H.
Qed.

(** A run of the batch, returning or not, leaves every row alone or gives
    it its single update, and only rows of pending records are updated. *)
Lemma batch_evoluciona env svc w out w' :
  NoDup (map Store.id (rows w)) ->
  validar_todos_los_registros env svc w = (out, w') ->
  evoluciona (map Store.id (pendientes w)) (rows w) (rows w')
  /\ next_id w' = next_id w.
Proof.
  intros Hnd H. unfold validar_todos_los_registros, mbind in H.
  rewrite obtener_pendientes in H.
  destruct (pendientes w) as [|p l] eqn:E.
  - inv_pair H. split; [apply evoluciona_refl|reflexivity].
  - apply (bucle_evoluciona env svc (p :: l) [] w out w'); [|exact H].
    rewrite <- E. apply pendientes_NoDup. exact Hnd.
Qed.

(** ** The webhook only appends *)

Lemma nuevo_registro_invariante new_id ahora factura_b64 ocs :
  invariante (Handler.nuevo_registro new_id ahora factura_b64 ocs)
  /\ procesado (Handler.nuevo_registro new_id ahora factura_b64 ocs) = false.
Proof. split; [intros _; repeat split|reflexivity]. Qed.

Lemma webhook_spec h env sub w resp w' :
  Handler.receive_webhook h env sub w = (resp, w') ->
  (rows w' = rows w /\ next_id w' = next_id w)
  \/ (exists ahora factura_b64 ocs,
        rows w' = rows w
                  ++ [Handler.nuevo_registro (next_id w) ahora factura_b64 ocs]
        /\ next_id w' = (next_id w + 1)%Z).
Proof.
  unfold Handler.receive_webhook, Handler.receive_webhook_body.
  intros H.
  destruct (Handler.procesar_ocs h (Handler.ordenes_de_compra sub))
    as [ocs|e]; [|inv_pair H; left; auto].
  match type of H with
  | context [if ?c then _ else _] => destruct c
  end; [inv_pair H; left; auto|].
  unfold mbind, Handler._guardar_registro_sync, write_session, ret in H.
  destruct (db_fault env (tick w)); inv_pair H; cbn.
  - left. auto.
  - right. eauto.
Qed.

(** ** Well-formed stores *)

Lemma buscar_some i l r : buscar i l = Some r -> In r l /\ Store.id r = i.
Proof.
  unfold buscar. intros H. apply find_some in H. destruct H as [H1 H2].
  split; [exact H1|]. apply Z.eqb_eq. exact H2.
Qed.

Lemma NoDup_id_eq (l : list RegistroWebhook) r1 r2 :
  NoDup (map Store.id l) -> In r1 l -> In r2 l ->
  Store.id r1 = Store.id r2 -> r1 = r2.
Proof.
  induction l as [|x l IH]; cbn; [tauto|].
  intros Hnd H1 H2 Heq. apply NoDup_cons_iff in Hnd. destruct Hnd as [Hni Hnd].
  destruct H1 as [->|H1], H2 as [->|H2]; auto.
  - exfalso. apply Hni. rewrite Heq. apply in_map. exact H2.
  - exfalso. apply Hni. rewrite <- Heq. apply in_map. exact H1.
Qed.

Lemma buscar_evoluciona ids i l l' r :
  evoluciona ids l l' -> buscar i l = Some r ->
  exists r', buscar i l' = Some r'
             /\ (r' = r
                 \/ (In (Store.id r) ids
                     /\ exists res ahora, r' = actualizar_fila res ahora r)).
Proof.
  unfold buscar. induction 1 as [|x x' l l' Hx _ IH]; cbn; [discriminate|].
  assert (Hid : Store.id x' = Store.id x).
  { destruct Hx as [->|[_ (res & ahora & ->)]]; reflexivity. }
  rewrite Hid. destruct (Store.id x =? i)%Z.
  - intros H. inv_pair H. exists x'. split; [reflexivity|exact Hx].
  - exact IH.
Qed.

Lemma buscar_app i l x r :
  buscar i l = Some r -> buscar i (l ++ [x]) = Some r.
Proof.
  unfold buscar. induction l as [|y l IH]; cbn; [discriminate|].
  destruct (Store.id y =? i)%Z; auto.
Qed.

(** What one operation does to a well-formed store whose rows satisfy the
    invariant. *)
Lemma paso_preserva w w' :
  bien_formado w -> Forall invariante (rows w) -> paso w w' ->
  bien_formado w' /\ Forall invariante (rows w')
  /\ forall r, buscar (Store.id r) (rows w) = Some r ->
       (procesado r = true -> buscar (Store.id r) (rows w') = Some r)
       /\ (procesado r = false ->
           buscar (Store.id r) (rows w') = Some r
           \/ exists res ahora,
                buscar (Store.id r) (rows w')
                = Some (actualizar_fila res ahora r)).
Proof.
  intros [Hnd Hlt] Hinv Hp. destruct Hp as [h env sub Hw|env svc Hw].
  - destruct (Handler.receive_webhook h env sub w) as [resp w0] eqn:E.
    cbn in Hw. subst w0.
    destruct (webhook_spec _ _ _ _ _ _ E)
      as [[Hr Hn]|(ahora & f & ocs & Hr & Hn)].
    + unfold bien_formado. rewrite Hr, Hn.
      repeat split; auto.
    + unfold bien_formado. rewrite Hr, Hn. repeat split.
      * rewrite map_app. cbn.
        apply NoDup_app; [exact Hnd|repeat constructor; cbn; tauto|].
        intros i Hi [<-|[]]. apply in_map_iff in Hi.
        destruct Hi as (r & Hr1 & Hin).
        rewrite Forall_forall in Hlt. specialize (Hlt r Hin). lia.
      * apply Forall_app. split.
        -- eapply Forall_impl; [|exact Hlt]. cbn. intros; lia.
        -- repeat constructor. cbn. lia.
      * apply Forall_app. split; [exact Hinv|].
        constructor; [apply nuevo_registro_invariante|constructor].
      * intros _. apply buscar_app. assumption.
      * intros _. left. apply buscar_app. assumption.
  - destruct (validar_todos_los_registros env svc w) as [out w0] eqn:E.
    cbn in Hw. subst w0.
    destruct (batch_evoluciona _ _ _ _ _ Hnd E) as [Hev Hn].
    pose proof (evoluciona_ids _ _ _ Hev) as Hids.
    assert (Hkeep : forall r, buscar (Store.id r) (rows w) = Some r ->
              exists r', buscar (Store.id r) (rows w') = Some r'
                /\ (r' = r
                    \/ (procesado r = false
                        /\ exists res ahora, r' = actualizar_fila res ahora r))).
    { intros r Hb.
      destruct (buscar_evoluciona _ _ _ _ _ Hev Hb)
        as (r' & Hb' & [Heq|[Hin Hex]]); exists r'; (split; [exact Hb'|]).
      - left. exact Heq.
      - right. split; [|exact Hex].
        apply in_map_iff in Hin. destruct Hin as (p & Hpid & Hpin).
        apply pendientes_in in Hpin. destruct Hpin as [Hpin Hpp].
        apply buscar_some in Hb. destruct Hb as [Hrin _].
        rewrite (NoDup_id_eq _ _ _ Hnd Hrin Hpin (eq_sym Hpid)).
        exact Hpp. }
    unfold bien_formado. rewrite Hids, Hn. repeat split.
    + exact Hnd.
    + clear - Hev Hlt. induction Hev as [|r r' l l' Hr _ IH];
        [constructor|].
      inversion Hlt; subst. constructor; [|auto].
      destruct Hr as [->|[_ (res & ahora & ->)]]; assumption.
    + clear - Hev Hinv. induction Hev as [|r r' l l' Hr _ IH];
        [constructor|].
      inversion Hinv; subst. constructor; [|auto].
      destruct Hr as [->|[_ (res & ahora & ->)]]; [assumption|].
      intros Hf. discriminate.
    + intros Hp. destruct (Hkeep r H) as (r' & Hb' & [Heq|[Hf _]]);
        [rewrite Heq in Hb'; exact Hb'|congruence].
    + intros Hp.
      destruct (Hkeep r H) as (r' & Hb' & [Heq|[_ (res & ahora & Heq)]]);
        rewrite Heq in Hb'; [left; exact Hb'|right; eauto].
Qed.

Lemma alcanzable_bien w :
  alcanzable w -> bien_formado w /\ Forall invariante (rows w).
Proof.
  induction 1 as [|w w' _ [IH1 IH2] Hp].
  - split; [split|]; cbn; constructor.
  - destruct (paso_preserva w w' IH1 IH2 Hp) as (H1 & H2 & _). auto.
Qed.



Lemma mundo_uno_alcanzable : alcanzable mundo_uno.
Proof.
  apply (@alcanzable_paso mundo_inicial); [constructor|].
  apply (@paso_webhook _ _ host_nulo env_sano sub_factura). reflexivity.
Qed.


(* ===================================================================== *)
(** * The ingestion endpoint *)
(* ===================================================================== *)

Lemma b64encode_nonempty (data : list N) :
  data <> [] -> b64encode data <> [].
Proof.
  destruct data as [|a [|b [|c rest]]]; cbn; congruence.
Qed.

(** A file with content is always a usable invoice. *)
Lemma procesar_factura_some (f : Handler.UploadFile) :
  Handler.file_content f <> [] ->
  exists c b64, Handler.procesar_factura (Some f) = Some (c :: b64).
Proof.
  intros H. unfold Handler.procesar_factura.
  destruct (Handler.file_content f) as [|x l] eqn:E; [congruence|].
  destruct (b64encode (x :: l)) as [|c b64] eqn:Eb.
  - exfalso. apply (b64encode_nonempty (x :: l)); [discriminate|exact Eb].
  - eauto.
Qed.

(** The guard of lines 181-183: with no usable invoice and an empty list of
    orders the answer is [ignored] and the world is left as it was. *)
Lemma empty_submission_ignored h env sub w :
  Handler.procesar_factura (Handler.factura sub) = None ->
  Handler.procesar_ocs h (Handler.ordenes_de_compra sub) = Ok [] ->
  Handler.receive_webhook h env sub w = (Handler.Ignored, w).
Proof.
  intros Hf Ho.
  unfold Handler.receive_webhook, Handler.receive_webhook_body.
  rewrite Hf, Ho. reflexivity.
Qed.

(** The list of orders is empty exactly when the field is missing or empty
    or what was parsed from it is falsy. *)
Lemma procesar_ocs_vacio h ordenes :
  Handler.procesar_ocs h ordenes = Ok [] <->
  ordenes = None \/ ordenes = Some []
  \/ exists texto, ordenes = Some texto
                   /\ truthy (Handler.parse_fases h texto) = false.
Proof.
  unfold Handler.procesar_ocs. split.
  - destruct ordenes as [[|c texto]|]; auto.
    intros H. right. right. exists (c :: texto). split; [reflexivity|].
    destruct (truthy (Handler.parse_fases h (c :: texto))) eqn:Ht;
      [|reflexivity].
    exfalso.
    destruct (Handler.parse_fases h (c :: texto)) as [| | | |[|x s]|[|x l]|d];
      cbn in Ht, H; try discriminate;
      repeat match type of H with
             | context [match ?x with _ => _ end] => destruct x
             end; discriminate.
  - intros [->|[->|(texto & -> & Ht)]]; try reflexivity.
    destruct texto; [reflexivity|]. rewrite Ht. reflexivity.
Qed.

(** Whenever the endpoint does not answer [success], no row is created. *)
Lemma no_success_no_row h env sub w resp w' :
  Handler.receive_webhook h env sub w = (resp, w') ->
  (forall i, resp <> Handler.Success i) ->
  rows w' = rows w /\ next_id w' = next_id w.
Proof.
  unfold Handler.receive_webhook, Handler.receive_webhook_body.
  intros H Hns.
  destruct (Handler.procesar_ocs h (Handler.ordenes_de_compra sub))
    as [ocs|e]; [|inv_pair H; auto].
  match type of H with
  | context [if ?c then _ else _] => destruct c
  end; [inv_pair H; auto|].
  unfold mbind, Handler._guardar_registro_sync, write_session, ret in H.
  destruct (db_fault env (tick w)); inv_pair H; cbn; auto.
  exfalso. apply (Hns (next_id w)). reflexivity.
Qed.

(** C9, at the failing input.  A submission with no file whose
    purchase-order field is the text 5 has no usable invoice, and the
    field parses to the number 5, which is no purchase order; the endpoint
    answers HTTP 500 with the text of a [TypeError] instead of [ignored].
    The store is left as it was. *)
Theorem scalar_orders_answer_500 (h : Handler.Host) (env : Env) (w : World) :
  Handler.procesar_factura (Handler.factura (sub_ordenes (lit "5"))) = None
  /\ Json.loads (lit "5") = Ok (VInt 5)
  /\ Handler.receive_webhook h env (sub_ordenes (lit "5")) w
     = (Handler.HTTP500 (lit "'int' object is not iterable"), w).
Proof. repeat split. Qed.

(* ===================================================================== *)
(** * The flexible JSON parser on text that is already JSON *)
(* ===================================================================== *)

Import Json.

(** ** White space *)

Lemma is_ws_space c : is_ws c = true -> is_space c = true.
Proof.
  unfold is_ws, is_space, in_range, char_eqb. intros H. split_N.
Qed.




Lemma skip_ws_id x r : is_ws x = false -> skip_ws (x :: r) = x :: r.
Proof. intros H. cbn. rewrite H. reflexivity. Qed.



Lemma rstrip_id c : is_space (last c 0%N) = false -> c <> [] -> rstrip c = c.
Proof.
  intros Hl Hne. destruct (exists_last Hne) as (c' & x & ->).
  rewrite last_last in Hl. rewrite rstrip_snoc, Hl. reflexivity.
Qed.


(** ** String literals *)

Lemma last_cons_ne {A} (x : A) (l : list A) (d : A) :
  l <> [] -> last (x :: l) d = last l d.
Proof. destruct l; [congruence|reflexivity]. Qed.



(** ** Numbers *)



Lemma sin_digito_app a b :
  a <> [] -> sin_digito a = true -> sin_digito (a ++ b) = true.
Proof. destruct a; [congruence|auto]. Qed.


Lemma last_app_ne {A} (a b : list A) (d : A) :
  b <> [] -> last (a ++ b) d = last b d.
Proof.
  intros Hb. destruct (exists_last Hb) as (b' & x & ->).
  rewrite app_assoc, !last_last. reflexivity.
Qed.









(** ** Literals *)






(** ** Values *)

(** Rewriting with an equation once the names [str] and [char] are
    unfolded on both sides. *)
Ltac rew H :=
  let E := fresh "E" in
  pose proof H as E; cbn [app] in E; unfold str, char in E |- *;
  rewrite E; clear E.




Lemma scan_once_eq f s :
  scan_once (S f) s =
  match s with
  | [] => decode_error "Expecting value"
  | c :: r =>
      if char_eqb c 34 then
        p <- scanstring r ;; Ok (VStr (fst p), snd p)
      else if char_eqb c 123 then
        match skip_ws r with
        | x :: r1 =>
            if char_eqb x 125 then Ok (VDict [], r1)
            else if char_eqb x 34 then
              p <- object_loop f r1 ;;
              Ok (VDict (dict_of_pairs (fst p)), snd p)
            else decode_error
                   "Expecting property name enclosed in double quotes"
        | [] => decode_error
                  "Expecting property name enclosed in double quotes"
        end
      else if char_eqb c 91 then
        match skip_ws r with
        | x :: r1 =>
            if char_eqb x 93 then Ok (VList [], r1)
            else
              p <- array_loop f (x :: r1) ;;
              Ok (VList (fst p), snd p)
        | [] => decode_error "Expecting value"
        end
      else scan_literal s
  end.
Proof. reflexivity. Qed.


Lemma object_loop_eq f s :
  object_loop (S f) s =
  (k <- scanstring s ;;
   match skip_ws (snd k) with
   | colon :: r =>
       if char_eqb colon 58 then
         p <- scan_once f (skip_ws r) ;;
         match skip_ws (snd p) with
         | x :: r1 =>
             if char_eqb x 125 then Ok ([(fst k, fst p)], r1)
             else if char_eqb x 44 then
               match skip_ws r1 with
               | q :: r2 =>
                   if char_eqb q 34 then
                     rest <- object_loop f r2 ;;
                     Ok ((fst k, fst p) :: fst rest, snd rest)
                   else decode_error
                     "Expecting property name enclosed in double quotes"
               | [] => decode_error
                     "Expecting property name enclosed in double quotes"
               end
             else decode_error "Expecting ',' delimiter"
         | [] => decode_error "Expecting ',' delimiter"
         end
       else decode_error "Expecting ':' delimiter"
   | [] => decode_error "Expecting ':' delimiter"
   end).
Proof. reflexivity. Qed.

Lemma char_eqb_eq a b : char_eqb a b = true -> a = b.
Proof. unfold char_eqb. apply N.eqb_eq. Qed.






(** ** [json.loads] after [strip()] *)






(* ===================================================================== *)
(** * The decision sequence: every case and its effects *)
(* ===================================================================== *)

Import Vocabulary Fixtures2.

(** The extraction step, whatever the service does: one call, and the
    local [datos_factura] is the data returned when it is a non-empty
    mapping, and falsy otherwise. *)
Lemma extraer_paso_casos svc registro resultado w :
  exists local,
    extraer_paso svc registro resultado w
    = (Ok (tras_extraer svc registro w resultado, local),
       log (CallExtraer (factura_base64 registro)) w)
    /\ ((exists kv d otro,
           extraer_datos_factura svc (tick w) (factura_base64 registro)
           = Ok (VDict (kv :: d), otro)
           /\ local = VDict (kv :: d))
        \/ ((forall kv d otro,
               extraer_datos_factura svc (tick w) (factura_base64 registro)
               <> Ok (VDict (kv :: d), otro))
            /\ truthy local = false)).
Proof.
  unfold extraer_paso, call_extraer, tras_extraer.
  destruct (extraer_datos_factura svc (tick w) (factura_base64 registro))
    as [[datos otro]|e].
  - destruct (truthy datos) eqn:Ht.
    + destruct datos as [| | | | | |[|kv d]]; cbn [log_datos_extraidos];
        try discriminate Ht;
        try (eexists; split; [reflexivity|]; right; split;
             [intros; discriminate|reflexivity]).
      eexists. split; [reflexivity|]. left. eauto.
    + eexists. split; [reflexivity|]. right. split; [|exact Ht].
      intros kv d o H. inversion H; subst. discriminate Ht.
  - eexists. split; [reflexivity|]. right. split; [intros; discriminate|].
    reflexivity.
Qed.

(** The extraction step only sets the data of the outcome. *)
Lemma tras_extraer_campos svc registro w r :
  registro_id (tras_extraer svc registro w r) = registro_id r
  /\ r_fecha_recepcion (tras_extraer svc registro w r) = r_fecha_recepcion r
  /\ r_tiene_oc (tras_extraer svc registro w r) = r_tiene_oc r
  /\ r_tiene_factura (tras_extraer svc registro w r) = r_tiene_factura r
  /\ r_es_anomalia (tras_extraer svc registro w r) = r_es_anomalia r
  /\ r_tipo_anomalia (tras_extraer svc registro w r) = r_tipo_anomalia r
  /\ resultado_openai (tras_extraer svc registro w r) = resultado_openai r
  /\ r_num_ordenes (tras_extraer svc registro w r) = r_num_ordenes r
  /\ factura_base64_raw (tras_extraer svc registro w r)
     = factura_base64_raw r
  /\ datos_factura (tras_extraer svc registro w (resultado_inicial registro))
     = datos_retenidos svc registro w.
Proof.
  unfold tras_extraer, datos_retenidos.
  destruct (extraer_datos_factura svc (tick w) (factura_base64 registro))
    as [[datos otro]|e]; repeat split.
Qed.

(** The decision sequence, case by case. *)
Lemma validar_casos svc registro w out w' :
  _validar_registro_individual svc registro w = (out, w') ->
  let inicial := resultado_inicial registro in
  let w1 := log (CallExtraer (factura_base64 registro)) w in
  let res1 := tras_extraer svc registro w inicial in
  (flag (tiene_factura registro) = false
   /\ flag (tiene_oc registro) = false /\ w' = w
   /\ out = Ok (set_anomalia true (Some TipoAnomalia.SIN_OC_NI_FACTURA)
                  inicial))
  \/ (flag (tiene_factura registro) = false
      /\ flag (tiene_oc registro) = true /\ w' = w
      /\ out = Ok (set_anomalia true (Some TipoAnomalia.SIN_FACTURA) inicial))
  \/ (flag (tiene_factura registro) = true
      /\ flag (tiene_oc registro) = false /\ w' = w1
      /\ out = Ok (set_resultado_openai (Some SIN_OC_TEXTO)
                     (set_anomalia true (Some TipoAnomalia.SIN_OC) res1)))
  \/ (flag (tiene_factura registro) = true
      /\ flag (tiene_oc registro) = true /\ w' = w1
      /\ (forall kv d otro,
            extraer_datos_factura svc (tick w) (factura_base64 registro)
            <> Ok (VDict (kv :: d), otro))
      /\ out = Ok (set_resultado_openai (Some EXTRACCION_FALLIDA)
                     (set_anomalia true
                        (Some TipoAnomalia.ERROR_PROCESAMIENTO) res1)))
  \/ (flag (tiene_factura registro) = true
      /\ flag (tiene_oc registro) = true
      /\ exists kv d otro,
           extraer_datos_factura svc (tick w) (factura_base64 registro)
           = Ok (VDict (kv :: d), otro)
           /\ w' = log (CallComparar (VDict (kv :: d))
                          (ordenes_de_compra registro)) w1
           /\ ((exists e,
                  comparar_factura_oc svc (S (tick w)) (VDict (kv :: d))
                    (ordenes_de_compra registro) = Raise e
                  /\ out = Raise e)
               \/ (exists texto,
                     comparar_factura_oc svc (S (tick w)) (VDict (kv :: d))
                       (ordenes_de_compra registro) = Ok texto
                     /\ out = Ok (set_anomalia (negb (todo_coincide texto))
                                    (if todo_coincide texto then None
                                     else Some TipoAnomalia.DISCREPANCIAS)
                                    (set_resultado_openai (Some texto)
                                       res1))))).
Proof.
  intros H inicial w1 res1.
  unfold _validar_registro_individual in H.
  destruct (flag (tiene_factura registro)) eqn:Hf; cbn [negb] in H.
  2:{ destruct (flag (tiene_oc registro)) eqn:Ho; cbn [negb] in H;
        inv_pair H; [right; left|left]; auto. }
  unfold mbind in H.
  destruct (extraer_paso_casos svc registro (resultado_inicial registro) w)
    as (local & He & Hlocal).
  rewrite He in H.
  destruct (flag (tiene_oc registro)) eqn:Ho; cbn [negb] in H.
  2:{ inv_pair H. right. right. left. auto. }
  destruct Hlocal as [(kv & d & otro & Hx & ->)|[Hno Ht]].
  - cbn [truthy] in H. unfold call_comparar in H.
    assert (Htick : tick (log (CallExtraer (factura_base64 registro)) w)
                    = S (tick w)).
    { unfold tick, log. cbn. rewrite length_app. cbn. lia. }
    rewrite Htick in H.
    do 4 right. split; [reflexivity|]. split; [reflexivity|].
    exists kv, d, otro. split; [exact Hx|].
    destruct (comparar_factura_oc svc (S (tick w)) (VDict (kv :: d))
                (ordenes_de_compra registro)) as [texto|e].
    + assert (Htipo : r_tipo_anomalia
                        (set_resultado_openai (Some texto)
                           (tras_extraer svc registro w
                              (resultado_inicial registro))) = None).
      { cbn. apply (tras_extraer_campos svc registro w
                      (resultado_inicial registro)). }
      rewrite Htipo in H.
      destruct (todo_coincide texto) eqn:Hc; inv_pair H;
        (split; [reflexivity|]); right; exists texto;
        (split; [reflexivity|]); rewrite Hc; reflexivity.
    + inv_pair H. split; [reflexivity|]. left. eauto.
  - rewrite Ht in H.
    assert (Hro : resultado_openai (tras_extraer svc registro w
                                      (resultado_inicial registro)) = None).
    { apply (tras_extraer_campos svc registro w
               (resultado_inicial registro)). }
    cbn [resultado_openai set_anomalia] in H. rewrite Hro in H.
    inv_pair H. do 3 right. left. auto.
Qed.

(** X1.  A record with an invoice and purchase orders whose extraction
    raises, or returns anything but a non-empty mapping, is an anomaly of
    kind [error_procesamiento_factura] with the fixed text of line 182.
    The extraction was called once and the comparison was not called; the
    outcome keeps the data that the extraction returned. *)
Theorem extraction_failure_classification
    (svc : OpenAIService) (registro : RegistroWebhook) (w : World) :
  flag (tiene_factura registro) = true ->
  flag (tiene_oc registro) = true ->
  (forall kv d otro,
     extraer_datos_factura svc (tick w) (factura_base64 registro)
     <> Ok (VDict (kv :: d), otro)) ->
  exists res w',
    _validar_registro_individual svc registro w = (Ok res, w')
    /\ trace w' = trace w ++ [CallExtraer (factura_base64 registro)]
    /\ rows w' = rows w
    /\ r_es_anomalia res = true
    /\ r_tipo_anomalia res = Some TipoAnomalia.ERROR_PROCESAMIENTO
    /\ resultado_openai res = Some EXTRACCION_FALLIDA
    /\ datos_factura res = datos_retenidos svc registro w.
Proof.
  intros Hf Ho Hno.
  destruct (_validar_registro_individual svc registro w) as [out w'] eqn:Hrun.
  destruct (validar_casos _ _ _ _ _ Hrun)
    as [(F & _)|[(F & _)|[(_ & O & _)|[(_ & _ & Hw & _ & Hout)
       |(_ & _ & kv & d & otro & Hx & _)]]]].
  - congruence.
  - congruence.
  - congruence.
  - subst. eexists. eexists. split; [reflexivity|]. repeat split.
    apply (tras_extraer_campos svc registro w (resultado_inicial registro)).
  - destruct (Hno _ _ _ Hx).
Qed.

Lemma extraction_failure_classification_witness :
  exists res w',
    _validar_registro_individual svc_sin_extraccion registro_completo
      (mundo [registro_completo]) = (Ok res, w')
    /\ trace w' = [CallExtraer (Some (lit "JVBERi0x"))]
    /\ rows w' = [registro_completo]
    /\ r_es_anomalia res = true
    /\ r_tipo_anomalia res = Some TipoAnomalia.ERROR_PROCESAMIENTO
    /\ resultado_openai res = Some EXTRACCION_FALLIDA
    /\ datos_factura res = VNone.
Proof.
  apply (extraction_failure_classification svc_sin_extraccion
           registro_completo (mundo [registro_completo]));
    [reflexivity|reflexivity|intros kv d otro; discriminate].
Defined.

(** X2.  Validating one record never touches the store: the rows and the
    next identity are as before.  It calls nothing, or the extraction
    alone, or the extraction and then the comparison, in that order; and
    when it raises, the exception is the one the comparison raised. *)
Theorem validation_effects
    (svc : OpenAIService) (registro : RegistroWebhook) (w : World)
    (out : result Resultado) (w' : World) :
  _validar_registro_individual svc registro w = (out, w') ->
  rows w' = rows w /\ next_id w' = next_id w
  /\ (trace w' = trace w
      \/ trace w' = trace w ++ [CallExtraer (factura_base64 registro)]
      \/ exists datos,
           trace w' = trace w
                      ++ [CallExtraer (factura_base64 registro);
                          CallComparar datos (ordenes_de_compra registro)])
  /\ (forall e, out = Raise e ->
        exists datos,
          comparar_factura_oc svc (S (tick w)) datos
            (ordenes_de_compra registro) = Raise e).
Proof.
  intros Hrun.
  destruct (validar_casos _ _ _ _ _ Hrun)
    as [(_ & _ & -> & ->)|[(_ & _ & -> & ->)|[(_ & _ & -> & ->)
       |[(_ & _ & -> & _ & ->)
        |(_ & _ & kv & d & otro & _ & -> & Hc)]]]];
    (split; [reflexivity|]); (split; [reflexivity|]).
  1-2: split; [left; reflexivity|intros e He; discriminate He].
  1-2: split; [right; left; reflexivity|intros e He; discriminate He].
  split.
  - right. right. exists (VDict (kv :: d)). cbn. rewrite <- app_assoc.
    reflexivity.
  - intros e He. exists (VDict (kv :: d)).
    destruct Hc as [(e' & Hc & ->)|(texto & _ & ->)]; [|discriminate He].
    inversion He; subst. exact Hc.
Qed.

Lemma validation_effects_witness :
  rows (snd (_validar_registro_individual (svc_falla (lit "timeout"))
               registro_completo (mundo [registro_completo])))
  = [registro_completo]
  /\ exists datos,
       comparar_factura_oc (svc_falla (lit "timeout")) 1 datos
         (ordenes_de_compra registro_completo)
       = Raise (Exception (lit "timeout")).
Proof.
  destruct (validation_effects (svc_falla (lit "timeout")) registro_completo
              (mundo [registro_completo])
              (Raise (Exception (lit "timeout")))
              (snd (_validar_registro_individual (svc_falla (lit "timeout"))
                      registro_completo (mundo [registro_completo])))
              eq_refl) as (Hr & _ & _ & He).
  split; [exact Hr|]. apply He. reflexivity.
Defined.

(** X3.  With the service object of [client.py], whose comparison turns
    every failure into a text, validating a record always returns an
    outcome: it never raises, whatever the remote API and the extraction
    do. *)
Theorem real_service_validation_returns
    (api : OpenAIClient.ChatAPI)
    (extraer : nat -> option str -> result (pyval * pyval))
    (registro : RegistroWebhook) (w : World) :
  exists res w',
    _validar_registro_individual (servicio_real api extraer) registro w
    = (Ok res, w').
Proof.
  destruct (_validar_registro_individual (servicio_real api extraer)
              registro w) as [out w'] eqn:Hrun.
  destruct (validar_casos _ _ _ _ _ Hrun)
    as [(_ & _ & _ & ->)|[(_ & _ & _ & ->)|[(_ & _ & _ & ->)
       |[(_ & _ & _ & _ & ->)
        |(_ & _ & kv & d & otro & _ & _ & Hc)]]]]; eauto.
  destruct Hc as [(e & Hc & _)|(texto & _ & ->)]; [|eauto].
  cbn [comparar_factura_oc servicio_real] in Hc.
  destruct (comparar_never_raises api (S (tick w)) (VDict (kv :: d))
              (ordenes_de_compra registro)) as [texto Ht].
  rewrite Ht in Hc. discriminate.
Qed.

(** X4.  Every outcome of the decision sequence carries the identity of
    its record (id, reception date, the two flags, the raw invoice and the
    number of orders).  It is not an anomaly only when the record has an
    invoice and purchase orders and the comparison text passed the test of
    line 170, and then it has no kind; when it is an anomaly its kind is
    one of the five constants of [TipoAnomalia]. *)
Theorem outcome_well_formed
    (svc : OpenAIService) (registro : RegistroWebhook) (w : World)
    (res : Resultado) (w' : World) :
  _validar_registro_individual svc registro w = (Ok res, w') ->
  registro_id res = Store.id registro
  /\ r_fecha_recepcion res = fecha_recepcion registro
  /\ r_tiene_oc res = tiene_oc registro
  /\ r_tiene_factura res = tiene_factura registro
  /\ factura_base64_raw res = factura_base64 registro
  /\ r_num_ordenes res = Some (num_ordenes registro)
  /\ (r_es_anomalia res = false ->
      r_tipo_anomalia res = None
      /\ flag (tiene_factura registro) = true
      /\ flag (tiene_oc registro) = true
      /\ exists texto,
           resultado_openai res = Some texto /\ todo_coincide texto = true)
  /\ (r_es_anomalia res = true ->
      exists tipo, r_tipo_anomalia res = Some tipo
                   /\ In tipo tipos_de_anomalia).
Proof.
  intros Hrun.
  pose proof (tras_extraer_campos svc registro w (resultado_inicial registro))
    as (C1 & C2 & C3 & C4 & C5 & C6 & C7 & C8 & C9 & _).
  unfold tipos_de_anomalia.
  destruct (validar_casos _ _ _ _ _ Hrun)
    as [(Hf & Ho & _ & Hout)|[(Hf & Ho & _ & Hout)|[(Hf & Ho & _ & Hout)
       |[(Hf & Ho & _ & _ & Hout)
        |(Hf & Ho & kv & d & otro & _ & _ & Hc)]]]].
  1-4: inversion Hout; subst res; cbn;
       repeat (split; [assumption || reflexivity|]);
       (split; [intros Hx; discriminate Hx|]);
       intros _; eexists; (split; [reflexivity|]); cbn; tauto.
  destruct Hc as [(e & _ & Hout)|(texto & Hc & Hout)]; [discriminate Hout|].
  inversion Hout; subst res; cbn.
  repeat (split; [assumption || reflexivity|]).
  destruct (todo_coincide texto) eqn:Ht; cbn; split.
  - intros _. repeat split; auto. exists texto. auto.
  - intros Hx; discriminate Hx.
  - intros Hx; discriminate Hx.
  - intros _. eexists. split; [reflexivity|]. cbn. tauto.
Qed.

Lemma outcome_well_formed_witness :
  exists res,
    fst (_validar_registro_individual (svc_texto (lit "OK - matches PO #3"))
           registro_completo (mundo [registro_completo])) = Ok res
    /\ registro_id res = 1%Z
    /\ r_num_ordenes res = Some 1%nat
    /\ r_es_anomalia res = false.
Proof.
  eexists. split; [reflexivity|].
  destruct (outcome_well_formed (svc_texto (lit "OK - matches PO #3"))
              registro_completo (mundo [registro_completo]) _ _ eq_refl)
    as (H1 & _ & _ & _ & _ & H6 & _).
  split; [exact H1|]. split; [exact H6|]. reflexivity.
Defined.

(* ===================================================================== *)
(** * The batch over a store that commits, and over one that stumbles *)
(* ===================================================================== *)

Import Vocabulary Fixtures2.

(** The identity that an outcome of one turn carries. *)
Lemma validar_registro_id svc registro w res w' :
  _validar_registro_individual svc registro w = (Ok res, w') ->
  registro_id res = Store.id registro
  /\ r_fecha_recepcion res = fecha_recepcion registro.
Proof.
  intros Hrun.
  pose proof (tras_extraer_campos svc registro w (resultado_inicial registro))
    as (C1 & C2 & _).
  destruct (validar_casos _ _ _ _ _ Hrun)
    as [(_ & _ & _ & Hout)|[(_ & _ & _ & Hout)|[(_ & _ & _ & Hout)
       |[(_ & _ & _ & _ & Hout)
        |(_ & _ & kv & d & otro & _ & _ & Hc)]]]].
  1-4: inversion Hout; subst res; cbn; auto.
  destruct Hc as [(e & _ & Hout)|(texto & _ & Hout)]; [discriminate Hout|].
  inversion Hout; subst res; cbn; auto.
Qed.

(** One turn of the loop over a store that commits: one outcome is
    appended and written in the rows of the record. *)
Lemma iteracion_sana env svc registro resultados w :
  sano env ->
  exists r ahora w',
    iteracion env svc registro resultados w = (Ok (resultados ++ [r]), w')
    /\ registro_id r = Store.id registro
    /\ r_fecha_recepcion r = fecha_recepcion registro
    /\ rows w' = update_rows (Store.id registro) r ahora (rows w)
    /\ next_id w' = next_id w.
Proof.
  intros Hs. unfold iteracion, cuerpo_try.
  destruct (_validar_registro_individual svc registro w) as [[res|e] w1] eqn:Hv;
    destruct (validar_rows _ _ _ _ _ Hv) as [Hr Hn].
  - rewrite (actualizar_ok env _ _ w1 (Hs _)).
    destruct (validar_registro_id _ _ _ _ _ Hv) as [Hid Hfe].
    eexists. eexists. eexists. split; [reflexivity|]. cbn.
    rewrite Hr. auto.
  - unfold manejar_error, mbind, ret.
    rewrite (actualizar_ok env _ _ w1 (Hs _)).
    eexists. eexists. eexists. split; [reflexivity|]. cbn.
    rewrite Hr. auto.
Qed.

Lemma update_rows_ids i res ahora l :
  map Store.id (update_rows i res ahora l) = map Store.id l.
Proof.
  unfold update_rows. rewrite map_map. apply map_ext.
  intros r. destruct (Store.id r =? i)%Z; reflexivity.
Qed.

Lemma bucle_sano env svc registros :
  sano env ->
  forall resultados w,
    NoDup (map Store.id registros) ->
    exists nuevos w',
      bucle env svc registros resultados w = (Ok (resultados ++ nuevos), w')
      /\ map registro_id nuevos = map Store.id registros
      /\ map r_fecha_recepcion nuevos = map fecha_recepcion registros
      /\ map Store.id (rows w') = map Store.id (rows w)
      /\ next_id w' = next_id w
      /\ (forall r fila, In r nuevos -> In fila (rows w') ->
            Store.id fila = registro_id r -> refleja r fila)
      /\ (forall fila, In fila (rows w') ->
            ~ In (Store.id fila) (map Store.id registros) ->
            In fila (rows w)).
Proof.
  intros Hs. induction registros as [|registro resto IH];
    intros resultados w Hnd.
  - exists [], w. cbn. rewrite app_nil_r.
    repeat (split; [reflexivity|]). split; [|auto].
    intros r0 fila0 [].
  - cbn [map] in Hnd. apply NoDup_cons_iff in Hnd. destruct Hnd as [Hni Hnd].
    destruct (iteracion_sana env svc registro resultados w Hs)
      as (r & ahora & w1 & Hi & Hid & Hfe & Hrows & Hn).
    destruct (IH (resultados ++ [r]) w1 Hnd)
      as (nuevos & w' & Hb & Hids & Hfes & Hmap & Hn' & Href & Hresto).
    exists (r :: nuevos), w'.
    split.
    { cbn [bucle]. unfold mbind. rewrite Hi, Hb, <- app_assoc. reflexivity. }
    split; [cbn; congruence|].
    split; [cbn; congruence|].
    split; [rewrite Hmap, Hrows; apply update_rows_ids|].
    split; [congruence|].
    split.
    + intros r0 fila [<-|Hin] Hfila Hfid.
      * assert (Hin1 : In fila (rows w1)).
        { apply Hresto; [exact Hfila|]. rewrite Hfid, Hid. exact Hni. }
        rewrite Hrows in Hin1. apply update_rows_in in Hin1.
        destruct Hin1 as (x & _ & ->).
        destruct (Z.eqb_spec (Store.id x) (Store.id registro)) as [E|E].
        -- repeat split.
        -- exfalso. apply E. rewrite Hfid. exact Hid.
      * apply Href; assumption.
    + intros fila Hfila Hnot.
      assert (Hin1 : In fila (rows w1)).
      { apply Hresto; [exact Hfila|]. intros Hx. apply Hnot. right. exact Hx. }
      rewrite Hrows in Hin1. apply update_rows_in in Hin1.
      destruct Hin1 as (x & Hx & ->).
      destruct (Z.eqb_spec (Store.id x) (Store.id registro)) as [E|E];
        [|exact Hx].
      exfalso. apply Hnot. left. symmetry. exact E.
Qed.

(** A row whose record is not among those of the run is kept. *)
Lemma evoluciona_conserva ids l l' fila :
  evoluciona ids l l' -> ~ In (Store.id fila) ids -> In fila l -> In fila l'.
Proof.
  intros Hev Hnp. induction Hev as [|r r' l l' Hr _ IH]; [tauto|].
  intros [Heq|Hin]; [|right; auto].
  left. subst r. destruct Hr as [->|[Hx _]]; [reflexivity|contradiction].
Qed.

(** The query returns the records oldest first. *)
Lemma insert_by_fecha_orden r l :
  por_fecha (map resultado_inicial l) ->
  por_fecha (map resultado_inicial (insert_by_fecha r l)).
Proof.
  induction l as [|x l IH]; cbn; [auto|].
  intros [Hx Hl].
  destruct (Z.leb_spec (fecha_recepcion r) (fecha_recepcion x)) as [E|E]; cbn.
  - split; [|auto]. constructor; [exact E|].
    eapply Forall_impl; [|exact Hx]. cbn. intros; lia.
  - split; [|auto].
    assert (Hp := insert_by_fecha_perm r l).
    apply Forall_forall. intros y Hy.
    apply in_map_iff in Hy. destruct Hy as (z & <- & Hz).
    apply (Permutation_in _ (Permutation_sym Hp)) in Hz.
    destruct Hz as [<-|Hz]; [cbn; lia|].
    rewrite Forall_forall in Hx. apply Hx. apply in_map. exact Hz.
Qed.

Lemma order_by_fecha_orden l :
  por_fecha (map resultado_inicial (order_by_fecha l)).
Proof.
  induction l as [|x l IH]; cbn; [exact I|].
  apply insert_by_fecha_orden. exact IH.
Qed.

Lemma por_fecha_fechas (a b : list Resultado) :
  map r_fecha_recepcion a = map r_fecha_recepcion b ->
  por_fecha a -> por_fecha b.
Proof.
  revert b. induction a as [|x a IH]; intros [|y b] H; cbn in *;
    try discriminate; [auto|].
  inversion H as [[Hxy Hab]]. intros [Hx Ha]. split; [|eauto].
  clear IH H Ha. revert b Hab. induction Hx as [|z a Hz _ IH]; intros [|t b] Hab;
    cbn in *; try discriminate; constructor.
  - inversion Hab. lia.
  - apply IH. inversion Hab. reflexivity.
Qed.

(** X5.  Over a store that commits every write, a run of the batch always
    returns.  It returns one outcome per pending record, in the order of
    the query, which is oldest first; every row of a pending record then
    holds the outcome returned for it and is marked processed; no row is
    added or removed; and the rows that were processed before the run are
    left as they were. *)
Theorem healthy_store_batch (env : Env) (svc : OpenAIService) (w : World) :
  sano env ->
  NoDup (map Store.id (rows w)) ->
  exists res w',
    validar_todos_los_registros env svc w = (Ok res, w')
    /\ map registro_id res = map Store.id (pendientes w)
    /\ por_fecha res
    /\ map Store.id (rows w') = map Store.id (rows w)
    /\ (forall r fila, In r res -> In fila (rows w') ->
          Store.id fila = registro_id r -> refleja r fila)
    /\ (forall fila, In fila (rows w) -> procesado fila = true ->
          In fila (rows w')).
Proof.
  intros Hs Hnd. unfold validar_todos_los_registros, mbind.
  rewrite obtener_pendientes.
  destruct (bucle_sano env svc (pendientes w) Hs [] w (pendientes_NoDup w Hnd))
    as (nuevos & w' & Hb & Hids & Hfes & Hmap & Hn & Href & Hresto).
  assert (Hev : evoluciona (map Store.id (pendientes w)) (rows w) (rows w')).
  { apply (bucle_evoluciona env svc (pendientes w) [] w (Ok nuevos) w');
      [apply pendientes_NoDup; exact Hnd|exact Hb]. }
  assert (Hkeep : forall fila, In fila (rows w) -> procesado fila = true ->
                               In fila (rows w')).
  { intros fila Hin Hp.
    apply (evoluciona_conserva _ _ _ _ Hev); [|exact Hin].
    intros Hx. apply in_map_iff in Hx. destruct Hx as (p & Hpid & Hpin).
    apply pendientes_in in Hpin. destruct Hpin as [Hpin Hpp].
    rewrite (NoDup_id_eq _ _ _ Hnd Hpin Hin Hpid) in Hpp. congruence. }
  destruct (pendientes w) as [|p l] eqn:E.
  - cbn in Hb. inv_pair Hb. exists [], w'. cbn.
    split; [reflexivity|]. split; [reflexivity|]. split; [exact I|].
    split; [reflexivity|]. split; [|exact Hkeep].
    intros r0 fila0 [].
  - exists nuevos, w'. split; [exact Hb|]. split; [exact Hids|].
    split.
    { apply (por_fecha_fechas (map resultado_inicial (p :: l))).
      - rewrite map_map. cbn [resultado_inicial r_fecha_recepcion].
        symmetry. exact Hfes.
      - rewrite <- E. apply order_by_fecha_orden. }
    split; [exact Hmap|]. split; [exact Href|exact Hkeep].
Qed.

Lemma healthy_store_batch_witness :
  exists res w',
    validar_todos_los_registros env_sano (svc_texto (lit "OK - matches PO #3"))
      (mundo [registro_completo; registro_vacio]) = (Ok res, w')
    /\ map registro_id res = [1%Z; 2%Z]
    /\ map Store.id (rows w') = [1%Z; 2%Z].
Proof.
  destruct (healthy_store_batch env_sano (svc_texto (lit "OK - matches PO #3"))
              (mundo [registro_completo; registro_vacio]))
    as (res & w' & Hrun & Hids & _ & Hmap & _).
  - intros n. reflexivity.
  - cbn. repeat constructor; cbn; intuition discriminate.
  - exists res, w'. split; [exact Hrun|]. split; [exact Hids|exact Hmap].
Defined.

(** X6.  When the store refuses the write of an outcome and then accepts
    the write of the [except] block, the turn of the loop returns with two
    outcomes appended for the same record, the outcome of the decision
    sequence followed by the error outcome, and the rows of the record
    hold the error outcome. *)
Theorem write_failure_double_outcome
    (env : Env) (svc : OpenAIService) (registro : RegistroWebhook)
    (resultados : list Resultado) (w w1 : World) (res : Resultado) (e : exn) :
  _validar_registro_individual svc registro w = (Ok res, w1) ->
  db_fault env (tick w1) = Some e ->
  db_fault env (S (tick w1)) = None ->
  let err := resultado_error registro e in
  exists w2,
    iteracion env svc registro resultados w
    = (Ok (resultados ++ [res; err]), w2)
    /\ registro_id res = Store.id registro
    /\ registro_id err = Store.id registro
    /\ resultado_openai err = Some (lit "Error: " ++ str_of_exn e)
    /\ trace w2 = trace w1 ++ [DbWrite false; DbWrite true]
    /\ rows w2 = update_rows (Store.id registro) err
                   (utcnow env (S (tick w1))) (rows w)
    /\ (forall fila, In fila (rows w2) ->
          Store.id fila = Store.id registro -> refleja err fila).
Proof.
  intros Hv Hf1 Hf2 err.
  destruct (validar_rows _ _ _ _ _ Hv) as [Hr Hn].
  destruct (validar_registro_id _ _ _ _ _ Hv) as [Hid _].
  assert (Htick : tick (log (DbWrite false) w1) = S (tick w1)).
  { unfold tick, log. cbn. rewrite length_app. cbn. lia. }
  unfold iteracion, cuerpo_try. rewrite Hv.
  rewrite (actualizar_falla env _ _ w1 e Hf1).
  unfold manejar_error, mbind, ret.
  rewrite actualizar_ok by (rewrite Htick; exact Hf2).
  rewrite Htick. eexists. split.
  { rewrite <- app_assoc. reflexivity. }
  cbn. rewrite <- app_assoc, Hr.
  repeat (split; [assumption || reflexivity|]).
  intros fila Hin Hfid. apply update_rows_in in Hin.
  destruct Hin as (x & _ & ->).
  destruct (Z.eqb_spec (Store.id x) (Store.id registro)) as [E|E].
  - repeat split.
  - contradiction.
Qed.

Lemma write_failure_double_outcome_witness :
  exists w2,
    iteracion env_tropiezo (svc_texto (lit "OK - matches PO #3"))
      registro_completo [] (mundo [registro_completo])
    = (Ok [set_anomalia false None
             (set_resultado_openai (Some (lit "OK - matches PO #3"))
                (set_datos_factura datos_acme
                   (resultado_inicial registro_completo)));
           resultado_error registro_completo
             (Exception (lit "database is locked"))], w2)
    /\ trace w2 = [CallExtraer (Some (lit "JVBERi0x"));
                   CallComparar datos_acme (Some [oc_acme]);
                   DbWrite false; DbWrite true].
Proof.
  destruct (write_failure_double_outcome env_tropiezo
              (svc_texto (lit "OK - matches PO #3")) registro_completo []
              (mundo [registro_completo]) _ _
              (Exception (lit "database is locked"))
              eq_refl eq_refl eq_refl)
    as (w2 & Hi & _ & _ & _ & Ht & _).
  exists w2. split; [exact Hi|exact Ht].
Defined.

(* ===================================================================== *)
(** * The ingestion endpoint: what is stored and what is refused *)
(* ===================================================================== *)

Import Vocabulary Fixtures2.

(** X7.  The endpoint creates a row exactly when it answers [success].
    The identity it returns is the next one of the store; the store has
    gained one row at the end, not processed and not an anomaly, holding
    the encoded file and the list of orders, with [tiene_factura] set when
    the file has content and [tiene_oc] when the list is not empty; the
    rows that were there are unchanged.  With any other answer the rows
    and the next identity are as before. *)
Theorem webhook_creates_row_on_success
    (h : Handler.Host) (env : Env) (sub : Handler.Submission) (w : World)
    (resp : Handler.Response) (w' : World) :
  Handler.receive_webhook h env sub w = (resp, w') ->
  (forall i, resp = Handler.Success i ->
     exists ocs fila,
       Handler.procesar_ocs h (Handler.ordenes_de_compra sub) = Ok ocs
       /\ i = next_id w
       /\ rows w' = rows w ++ [fila]
       /\ next_id w' = (next_id w + 1)%Z
       /\ trace w' = trace w ++ [DbWrite true]
       /\ Store.id fila = i
       /\ fecha_recepcion fila = utcnow env (tick w)
       /\ procesado fila = false /\ es_anomalia fila = false
       /\ factura_base64 fila = Handler.procesar_factura (Handler.factura sub)
       /\ tiene_factura fila
          = Some (match Handler.procesar_factura (Handler.factura sub) with
                  | Some _ => true
                  | None => false
                  end)
       /\ tiene_oc fila = Some (match ocs with [] => false | _ => true end)
       /\ num_ordenes fila = length ocs
       /\ (tiene_factura fila = Some true \/ tiene_oc fila = Some true))
  /\ ((forall i, resp <> Handler.Success i) ->
      rows w' = rows w /\ next_id w' = next_id w).
Proof.
  intros H. split; [|apply (no_success_no_row h env sub w resp w' H)].
  intros i ->.
  unfold Handler.receive_webhook, Handler.receive_webhook_body in H.
  destruct (Handler.procesar_ocs h (Handler.ordenes_de_compra sub))
    as [ocs|e]; [|inv_pair H].
  assert (Hb64 : forall b, Handler.procesar_factura (Handler.factura sub)
                           = Some b -> b <> []).
  { unfold Handler.procesar_factura. intros b Hb.
    destruct (Handler.factura sub) as [f|]; [|discriminate].
    destruct (Handler.file_content f) as [|x l] eqn:E; [discriminate|].
    injection Hb as <-. apply (b64encode_nonempty (x :: l)). discriminate. }
  match type of H with
  | context [if ?c then _ else _] => destruct c eqn:Hc
  end; [inv_pair H|].
  unfold mbind, Handler._guardar_registro_sync, write_session, ret in H.
  destruct (db_fault env (tick w)); inv_pair H.
  exists ocs. eexists. split; [reflexivity|]. cbn.
  repeat (split; [reflexivity|]).
  destruct (Handler.procesar_factura (Handler.factura sub)) as [[|c b]|] eqn:Hf.
  - destruct (Hb64 [] eq_refl eq_refl).
  - repeat split; try (destruct ocs; reflexivity). left. reflexivity.
  - destruct ocs as [|x l]; [discriminate Hc|].
    repeat split. right. reflexivity.
Qed.

Lemma webhook_creates_row_on_success_witness :
  exists ocs fila,
    Handler.procesar_ocs host_nulo (Handler.ordenes_de_compra sub_factura)
    = Ok ocs
    /\ rows mundo_uno = [fila]
    /\ Store.id fila = 1%Z
    /\ factura_base64 fila = Some (lit "JVBE")
    /\ tiene_factura fila = Some true
    /\ tiene_oc fila = Some false.
Proof.
  destruct (webhook_creates_row_on_success host_nulo env_sano sub_factura
              mundo_inicial (Handler.Success 1) mundo_uno eq_refl)
    as [H _].
  destruct (H 1%Z eq_refl)
    as (ocs & fila & Ho & _ & Hr & _ & _ & Hid & _ & _ & _ & Hf & Htf & Hto
        & _).
  exists ocs, fila. split; [exact Ho|]. split; [exact Hr|].
  split; [exact Hid|]. split; [exact Hf|]. split; [exact Htf|].
  rewrite Hto. inversion Ho. reflexivity.
Defined.

(** ** Text that is JSON *)

(** The three phases stop at the first one when the text is JSON for
    something other than null. *)
Lemma parse_fases_json h texto v :
  Json.loads (strip texto) = Ok v -> v <> VNone ->
  Handler.parse_fases h texto = v.
Proof.
  intros H Hv. unfold Handler.parse_fases.
  assert (Hi : Handler.intento h texto = v).
  { unfold Handler.intento, Helpers.parse_flexible_json. rewrite H.
    reflexivity. }
  rewrite Hi. destruct v; try reflexivity. congruence.
Qed.

Lemma loads_nonempty texto v : Json.loads (strip texto) = Ok v -> texto <> [].
Proof. intros H ->. cbn in H. discriminate. Qed.

(** X8.  Purchase orders must be JSON objects.  When the field is JSON
    for a list whose first item is not an object, or for a non-empty
    string (whose characters are then taken as the items), the log line
    of line 178 raises on the first item and the endpoint answers HTTP
    500 with the text of that [AttributeError]; nothing is stored, even
    when a valid invoice file came with the request. *)
Theorem non_object_orders_answer_500
    (h : Handler.Host) (env : Env) (w : World)
    (f : option Handler.UploadFile) (texto : str) :
  let sub := {| Handler.factura := f;
                Handler.ordenes_de_compra := Some texto |} in
  (forall x rest,
     Json.loads (strip texto) = Ok (VList (x :: rest)) ->
     es_dict x = false ->
     Handler.receive_webhook h env sub w
     = (Handler.HTTP500
          (lit "'" ++ type_name x ++ lit "' object has no attribute 'get'"),
        w))
  /\ (forall c s,
        Json.loads (strip texto) = Ok (VStr (c :: s)) ->
        Handler.receive_webhook h env sub w
        = (Handler.HTTP500 (lit "'str' object has no attribute 'get'"), w)).
Proof.
  intros sub. split.
  - intros x rest H Hx.
    pose proof (loads_nonempty _ _ H) as Hne.
    unfold Handler.receive_webhook, Handler.receive_webhook_body,
      Handler.procesar_ocs. cbn [sub Handler.ordenes_de_compra].
    destruct texto as [|c t]; [congruence|].
    rewrite (parse_fases_json h _ _ H) by discriminate.
    cbn [truthy Handler.iterar bind map].
    assert (Hn : Handler.normalizar_item h x = x).
    { destruct x; try reflexivity. discriminate Hx. }
    rewrite Hn. destruct x; try discriminate Hx; reflexivity.
  - intros c s H.
    pose proof (loads_nonempty _ _ H) as Hne.
    unfold Handler.receive_webhook, Handler.receive_webhook_body,
      Handler.procesar_ocs. cbn [sub Handler.ordenes_de_compra].
    destruct texto as [|c0 t]; [congruence|].
    rewrite (parse_fases_json h _ _ H) by discriminate.
    reflexivity.
Qed.

Lemma non_object_orders_answer_500_witness :
  Handler.receive_webhook host_nulo env_sano
    {| Handler.factura := Handler.factura sub_factura;
       Handler.ordenes_de_compra := Some (lit "[1, 2]") |} mundo_inicial
  = (Handler.HTTP500 (lit "'int' object has no attribute 'get'"),
     mundo_inicial).
Proof.
  apply (proj1 (non_object_orders_answer_500 host_nulo env_sano mundo_inicial
                  (Handler.factura sub_factura) (lit "[1, 2]"))
           (VInt 1) [VInt 2]); reflexivity.
Defined.

(** An object stays an object when it is normalized. *)
Lemma normalizar_item_dict h v :
  es_dict v = true -> es_dict (Handler.normalizar_item h v) = true.
Proof.
  destruct v; try discriminate. intros _. cbn.
  destruct (Handler.OrdenCompraInput_of h d) as [o|e]; [|reflexivity].
  cbn. destruct (Normalizer.to_normalized_dict o); reflexivity.
Qed.

Lemma log_check_dicts l :
  forallb es_dict l = true -> Handler.log_check l = Ok tt.
Proof.
  destruct l as [|x l]; [reflexivity|]. cbn. intros H.
  apply andb_true_iff in H. destruct H as [H _].
  destruct x; try discriminate. reflexivity.
Qed.

(** X9.  When the field is JSON for a non-empty object, or for a
    non-empty list of objects, the list of orders has one entry per
    object, in order, each the normalized form of its object or the object
    itself when it could not be normalized; every entry is an object.
    When the store commits, the endpoint answers [success] and the new
    row has [tiene_oc] set and as many orders as there were objects. *)
Theorem object_orders_are_stored
    (h : Handler.Host) (env : Env) (w : World)
    (f : option Handler.UploadFile) (texto : str) (v : pyval) :
  Json.loads (strip texto) = Ok v ->
  ordenes_de v <> [] ->
  forallb es_dict (ordenes_de v) = true ->
  let ocs := map (Handler.normalizar_item h) (ordenes_de v) in
  Handler.procesar_ocs h (Some texto) = Ok ocs
  /\ forallb es_dict ocs = true
  /\ (db_fault env (tick w) = None ->
      exists fila w',
        Handler.receive_webhook h env
          {| Handler.factura := f; Handler.ordenes_de_compra := Some texto |}
          w
        = (Handler.Success (next_id w), w')
        /\ rows w' = rows w ++ [fila]
        /\ Store.ordenes_de_compra fila = Some ocs
        /\ tiene_oc fila = Some true
        /\ num_ordenes fila = length (ordenes_de v)).
Proof.
  intros H Hne Hd ocs.
  assert (Heq : ocs = map (Handler.normalizar_item h) (ordenes_de v))
    by reflexivity.
  clearbody ocs.
  pose proof (loads_nonempty _ _ H) as Htexto.
  assert (Hv : v <> VNone) by (intros ->; apply Hne; reflexivity).
  assert (Ht : truthy v = true).
  { unfold ordenes_de in Hne. destruct (truthy v); congruence. }
  assert (Hdocs : forallb es_dict ocs = true).
  { rewrite Heq. rewrite forallb_forall in *. intros x Hx.
    apply in_map_iff in Hx. destruct Hx as (y & <- & Hy).
    apply normalizar_item_dict. auto. }
  assert (Hocs : Handler.procesar_ocs h (Some texto) = Ok ocs).
  { unfold Handler.procesar_ocs. destruct texto as [|c t]; [congruence|].
    rewrite (parse_fases_json h _ _ H Hv). rewrite Ht.
    assert (Hit : Handler.iterar (match v with
                                  | VDict _ => VList [v]
                                  | _ => v
                                  end) = Ok (ordenes_de v)).
    { unfold ordenes_de in *. rewrite Ht in *.
      destruct v; try congruence; reflexivity. }
    rewrite Hit. cbn [bind]. rewrite <- Heq.
    rewrite (log_check_dicts _ Hdocs). reflexivity. }
  split; [exact Hocs|]. split; [exact Hdocs|].
  intros Hdb.
  unfold Handler.receive_webhook, Handler.receive_webhook_body.
  cbn [Handler.ordenes_de_compra Handler.factura]. rewrite Hocs.
  assert (Hlen : length ocs = length (ordenes_de v)).
  { rewrite Heq. apply length_map. }
  destruct ocs as [|x l].
  { destruct (ordenes_de v); [congruence|discriminate Hlen]. }
  rewrite andb_false_r.
  unfold mbind, Handler._guardar_registro_sync, write_session, ret.
  rewrite Hdb. eexists. eexists. split; [reflexivity|]. cbn.
  split; [reflexivity|]. split; [reflexivity|]. split; [reflexivity|].
  cbn in Hlen. exact Hlen.
Qed.

Lemma object_orders_are_stored_witness :
  Handler.procesar_ocs host_nulo (Some [123; 34; 120; 34; 58; 49; 125]%N)
  = Ok [VDict [(lit "x", VInt 1)]].
Proof.
  destruct (object_orders_are_stored host_nulo env_sano mundo_inicial None
              [123; 34; 120; 34; 58; 49; 125]%N
              (VDict [(lit "x", VInt 1)]))
    as [H _]; [reflexivity|discriminate|reflexivity|exact H].
Defined.

(* ===================================================================== *)
(** * Text replacement, the cleaning of control characters, and the
      attached data of an order *)
(* ===================================================================== *)

Import Vocabulary Fixtures2.

(** Replacing a single character works character by character. *)
Lemma replace_char (a : char) (new s : str) :
  replace [a] new s = flat_map (fun c => if char_eqb a c then new else [c]) s.
Proof.
  unfold replace. induction s as [|c s IH]; [reflexivity|].
  cbn [replace_from startswith flat_map length Nat.sub].
  rewrite andb_true_r. destruct (char_eqb a c); rewrite IH; reflexivity.
Qed.

Lemma replace_char_absent (a : char) (new s : str) :
  ~ In a s -> replace [a] new s = s.
Proof.
  rewrite replace_char. induction s as [|c s IH]; [reflexivity|].
  intros Hn. cbn. destruct (char_eqb a c) eqn:E.
  - apply char_eqb_eq in E. subst. exfalso. apply Hn. left. reflexivity.
  - cbn. rewrite IH; [reflexivity|]. intros H. apply Hn. right. exact H.
Qed.

Lemma replace_char_gone (a b : char) (s : str) :
  a <> b -> ~ In a (replace [a] [b] s).
Proof.
  intros Hab. rewrite replace_char. induction s as [|c s IH]; [tauto|].
  cbn [flat_map]. intros H. apply in_app_or in H. destruct H as [H|H]; [|auto].
  destruct (char_eqb a c) eqn:E.
  - destruct H as [H|[]]. congruence.
  - destruct H as [H|[]]. subst c. unfold char_eqb in E.
    rewrite N.eqb_refl in E. discriminate.
Qed.

Lemma limpiar_char_spec c :
  filter (fun x => negb (Handler.is_control x))
    (flat_map (fun x => if char_eqb 9 x then [32%N] else [x])
       (flat_map (fun x => if char_eqb 13 x then [] else [x])
          (if char_eqb 10 c then [32%N] else [c])))
  = limpiar_char c.
Proof.
  unfold limpiar_char, Handler.is_control, in_range, char_eqb.
  destruct (N.eqb_spec 10 c) as [<-|H10]; [reflexivity|].
  destruct (N.eqb_spec 13 c) as [<-|H13]; [reflexivity|].
  destruct (N.eqb_spec 9 c) as [<-|H9]; [reflexivity|].
  cbn [flat_map app filter].
  rewrite (proj2 (N.eqb_neq 13 c) H13). cbn [flat_map app].
  rewrite (proj2 (N.eqb_neq 9 c) H9). cbn [filter app].
  rewrite (proj2 (N.eqb_neq c 10)) by congruence.
  rewrite (proj2 (N.eqb_neq c 9)) by congruence.
  cbn [orb].
  match goal with |- context [negb ?b] => destruct b end; reflexivity.
Qed.

Lemma clean_json_string_chars s :
  Handler._clean_json_string s = flat_map limpiar_char s.
Proof.
  unfold Handler._clean_json_string. rewrite !replace_char.
  induction s as [|c s IH]; [reflexivity|].
  cbn [flat_map]. rewrite !flat_map_app, filter_app, IH.
  rewrite limpiar_char_spec. reflexivity.
Qed.

Lemma limpiar_char_control c :
  Forall (fun x => Handler.is_control x = false) (limpiar_char c).
Proof.
  unfold limpiar_char. destruct (char_eqb c 10 || char_eqb c 9).
  - repeat constructor.
  - destruct (Handler.is_control c) eqn:E; repeat constructor. exact E.
Qed.

Lemma limpiar_char_id c :
  Handler.is_control c = false -> limpiar_char c = [c].
Proof.
  intros H. unfold limpiar_char. rewrite H.
  destruct (char_eqb c 10 || char_eqb c 9) eqn:E; [|reflexivity].
  exfalso. revert H E. unfold Handler.is_control, in_range, char_eqb.
  intros H E. split_N.
Qed.

Lemma flat_map_limpiar_id s :
  Forall (fun x => Handler.is_control x = false) s ->
  flat_map limpiar_char s = s.
Proof.
  induction 1 as [|c s Hc _ IH]; [reflexivity|].
  cbn. rewrite (limpiar_char_id c Hc), IH. reflexivity.
Qed.

(** X10.  [_clean_json_string] works character by character: a line feed
    and a tab become a space, every other control character (code points
    0 to 31 and 127 to 159, the carriage return among them) is dropped,
    and any other character is kept.  So the result holds no control
    character and is no longer than the text, cleaning twice is cleaning
    once, and a text without control characters is returned as it is. *)
Theorem clean_json_string_spec (s : str) :
  Handler._clean_json_string s = flat_map limpiar_char s
  /\ Forall (fun c => Handler.is_control c = false)
       (Handler._clean_json_string s)
  /\ (length (Handler._clean_json_string s) <= length s)%nat
  /\ Handler._clean_json_string (Handler._clean_json_string s)
     = Handler._clean_json_string s
  /\ (Forall (fun c => Handler.is_control c = false) s ->
      Handler._clean_json_string s = s).
Proof.
  assert (Hc : Forall (fun c => Handler.is_control c = false)
                 (flat_map limpiar_char s)).
  { induction s as [|c s IH]; [constructor|].
    cbn. apply Forall_app. split; [apply limpiar_char_control|exact IH]. }
  rewrite !clean_json_string_chars.
  split; [reflexivity|]. split; [exact Hc|]. split.
  { clear Hc. induction s as [|c s IH]; [constructor|].
    cbn [flat_map]. rewrite length_app. cbn [length].
    assert (length (limpiar_char c) <= 1)%nat.
    { unfold limpiar_char.
      destruct (char_eqb c 10 || char_eqb c 9); [cbn; lia|].
      destruct (Handler.is_control c); cbn; lia. }
    lia. }
  split; [apply flat_map_limpiar_id; exact Hc|].
  apply flat_map_limpiar_id.
Qed.

Lemma clean_json_string_spec_witness :
  Handler._clean_json_string (lit "[1, 2]") = lit "[1, 2]".
Proof.
  apply (proj2 (proj2 (proj2 (proj2 (clean_json_string_spec (lit "[1, 2]")))))).
  repeat constructor.
Defined.

(** ** The attached data of an order *)

Section AttachedData.

Import Normalizer.

Lemma merge_adjuntos_spec (adj : dict) (mnt : pyfloat) (oid prov emp mon : str) :
  let normalized : dict :=
    [ (lit "id", VStr oid); (lit "proveedor", VStr prov);
      (lit "empresa", VStr emp); (lit "monto", VFloat mnt);
      (lit "moneda", VStr mon) ] in
  exists d,
    merge_adjuntos adj normalized = Ok d
    /\ firstn 5 d = normalized
    /\ dict_get (lit "datos_adjuntos") d = Some (VDict adj)
    /\ dict_get (lit "concepto") d = dict_get (lit "oc_subject") adj
    /\ dict_get (lit "fecha_orden") d = dict_get (lit "oc_poDate") adj
    /\ dict_get (lit "servicios") d
       = (let servicios :=
            or_val (dict_get_or_none (lit "adquired_services") adj)
                   (dict_get_or_none (lit "adquired_serviecs") adj) in
          if truthy servicios then Some servicios else None).
Proof.
  intros normalized. unfold merge_adjuntos, dict_has, dict_item.
  destruct (dict_get (lit "oc_subject") adj) as [v1|];
    destruct (dict_get (lit "oc_poDate") adj) as [v2|];
    cbn [bind];
    destruct (truthy (or_val (dict_get_or_none (lit "adquired_services") adj)
                        (dict_get_or_none (lit "adquired_serviecs") adj)));
    eexists; (split; [reflexivity|]); repeat split.
Qed.

Lemma attached_data_core (o : OrdenCompraInput) :
  exists d,
    to_normalized_dict o = Ok d
    /\ map fst (firstn 5 d) = claves_canonicas
    /\ (forall adj,
          (exists kv rest, oc_attached_data o = Some (AttDict (kv :: rest))
                           /\ adj = kv :: rest)
          \/ ((oc_attached_data o = None
               \/ oc_attached_data o = Some (AttDict []))
              /\ datos_adicionales o = Some adj) ->
          dict_get (lit "datos_adjuntos") d = Some (VDict adj)
          /\ dict_get (lit "concepto") d = dict_get (lit "oc_subject") adj
          /\ dict_get (lit "fecha_orden") d = dict_get (lit "oc_poDate") adj
          /\ dict_get (lit "servicios") d
             = (let servicios :=
                  or_val (dict_get_or_none (lit "adquired_services") adj)
                         (dict_get_or_none (lit "adquired_serviecs") adj) in
                if truthy servicios then Some servicios else None))
    /\ ((exists m, oc_attached_data o = Some (AttModel m))
        \/ ((oc_attached_data o = None
             \/ oc_attached_data o = Some (AttDict []))
            /\ datos_adicionales o = None) ->
        map fst d = claves_canonicas).
Proof.
  unfold to_normalized_dict.
  set (mnt := try_except (convert_monto (raw_monto o)) _).
  assert (Hm : exists f, mnt = Ok f).
  { unfold mnt. destruct (convert_monto (raw_monto o)); cbn; eauto. }
  destruct Hm as [f Hm]. rewrite Hm. cbn [bind].
  match goal with
  | |- context [merge_adjuntos _ ?n] => set (normalized := n)
  end.
  unfold adj_of.
  destruct (oc_attached_data o) as [[m|[|kv rest]]|] eqn:Ha.
  - (* a model object *)
    exists normalized. split; [reflexivity|]. split; [reflexivity|].
    split; [|reflexivity].
    intros adj [(kv & rest & H & _)|[[H|H] _]]; discriminate H.
  - (* an empty mapping *)
    cbn [attached_truthy].
    destruct (datos_adicionales o) as [adj|] eqn:Hd; cbn [option_map].
    + destruct (merge_adjuntos_spec adj f
                (or_default (or_str (or_str (id o) (oc_id o)) (order_id o))
                   (lit "N/A"))
                (or_default
                   (or_str (or_str (proveedor o) (VendorName o))
                      (vendor_name o)) (lit "N/A"))
                (or_default
                   (or_str (or_str (empresa o) (our_company o))
                      (receptor o)) (lit "N/A"))
                (upper (or_default (or_str (moneda o) (currency o))
                          (lit "MXN"))))
        as (d & Hmerge & H5 & Hrest).
      fold normalized in Hmerge, H5.
      exists d. split; [exact Hmerge|]. split; [rewrite H5; reflexivity|].
      split.
      { intros adj' [(kv & rest & H & _)|[_ H]]; [discriminate H|].
        inversion H; subst adj'. exact Hrest. }
      intros [[m H]|[_ H]]; discriminate H.
    + exists normalized. split; [reflexivity|]. split; [reflexivity|].
      split; [|reflexivity].
      intros adj [(kv & rest & H & _)|[_ H]]; discriminate H.
  - (* a non-empty mapping *)
    cbn [attached_truthy].
    destruct (merge_adjuntos_spec (kv :: rest) f
                (or_default (or_str (or_str (id o) (oc_id o)) (order_id o))
                   (lit "N/A"))
                (or_default
                   (or_str (or_str (proveedor o) (VendorName o))
                      (vendor_name o)) (lit "N/A"))
                (or_default
                   (or_str (or_str (empresa o) (our_company o))
                      (receptor o)) (lit "N/A"))
                (upper (or_default (or_str (moneda o) (currency o))
                          (lit "MXN"))))
      as (d & Hmerge & H5 & Hrest).
    fold normalized in Hmerge, H5.
    exists d. split; [exact Hmerge|]. split; [rewrite H5; reflexivity|].
    split.
    { intros adj' [(kv' & rest' & H & ->)|[[H|H] _]]; try discriminate H.
      inversion H; subst. exact Hrest. }
    intros [[m H]|[[H|H] _]]; discriminate H.
  - (* no attached data *)
    destruct (datos_adicionales o) as [adj|] eqn:Hd; cbn [option_map].
    + destruct (merge_adjuntos_spec adj f
                (or_default (or_str (or_str (id o) (oc_id o)) (order_id o))
                   (lit "N/A"))
                (or_default
                   (or_str (or_str (proveedor o) (VendorName o))
                      (vendor_name o)) (lit "N/A"))
                (or_default
                   (or_str (or_str (empresa o) (our_company o))
                      (receptor o)) (lit "N/A"))
                (upper (or_default (or_str (moneda o) (currency o))
                          (lit "MXN"))))
        as (d & Hmerge & H5 & Hrest).
      fold normalized in Hmerge, H5.
      exists d. split; [exact Hmerge|]. split; [rewrite H5; reflexivity|].
      split.
      { intros adj' [(kv & rest & H & _)|[_ H]]; [discriminate H|].
        inversion H; subst adj'. exact Hrest. }
      intros [[m H]|[_ H]]; discriminate H.
    + exists normalized. split; [reflexivity|]. split; [reflexivity|].
      split; [|reflexivity].
      intros adj [(kv & rest & H & _)|[_ H]]; discriminate H.
Qed.

(** X11.  The attached data of an order.  Normalization always yields the
    five canonical keys first.  The attached data is [oc_attached_data]
    when it is truthy and [datos_adicionales] otherwise; when it is a
    plain mapping it is copied under [datos_adjuntos], its [oc_subject]
    under [concepto], its [oc_poDate] under [fecha_orden], and the first
    truthy of its [adquired_services] and [adquired_serviecs] under
    [servicios]; when it is a model object, or there is none, the result
    has the five canonical keys and no other, so a model object hides
    [datos_adicionales].  The fields [concepto] and [description] of the
    order are not used. *)
Theorem attached_data_normalization (o : OrdenCompraInput) :
  exists d,
    to_normalized_dict o = Ok d
    /\ map fst (firstn 5 d) = claves_canonicas
    /\ (forall adj,
          (exists kv rest, oc_attached_data o = Some (AttDict (kv :: rest))
                           /\ adj = kv :: rest)
          \/ ((oc_attached_data o = None
               \/ oc_attached_data o = Some (AttDict []))
              /\ datos_adicionales o = Some adj) ->
          dict_get (lit "datos_adjuntos") d = Some (VDict adj)
          /\ dict_get (lit "concepto") d = dict_get (lit "oc_subject") adj
          /\ dict_get (lit "fecha_orden") d = dict_get (lit "oc_poDate") adj
          /\ dict_get (lit "servicios") d
             = (let servicios :=
                  or_val (dict_get_or_none (lit "adquired_services") adj)
                         (dict_get_or_none (lit "adquired_serviecs") adj) in
                if truthy servicios then Some servicios else None))
    /\ ((exists m, oc_attached_data o = Some (AttModel m))
        \/ ((oc_attached_data o = None
             \/ oc_attached_data o = Some (AttDict []))
            /\ datos_adicionales o = None) ->
        map fst d = claves_canonicas)
    /\ (forall c e,
          to_normalized_dict
            {| VendorName := VendorName o; vendor_name := vendor_name o;
               proveedor := proveedor o; our_company := our_company o;
               empresa := empresa o; receptor := receptor o;
               total := total o; monto := monto o; amount := amount o;
               moneda := moneda o; currency := currency o;
               id := id o; oc_id := oc_id o; order_id := order_id o;
               oc_attached_data := oc_attached_data o;
               datos_adicionales := datos_adicionales o;
               concepto := c; description := e |} = Ok d).
Proof.
  destruct (attached_data_core o) as (d & Hd & H5 & Hadj & Hno).
  exists d. repeat (split; [assumption|]).
  intros c e. rewrite <- Hd. reflexivity.
Qed.

Lemma attached_data_normalization_witness :
  exists d,
    to_normalized_dict oc_con_adjuntos = Ok d
    /\ dict_get (lit "concepto") d = Some (VStr (lit "Toner"))
    /\ dict_get (lit "servicios") d = Some (VList [VStr (lit "print")]).
Proof.
  destruct (attached_data_normalization oc_con_adjuntos)
    as (d & Hd & _ & H & _).
  exists d. split; [exact Hd|].
  destruct (H [(lit "oc_subject", VStr (lit "Toner"));
               (lit "adquired_serviecs", VList [VStr (lit "print")])])
    as (_ & Hc & _ & Hs).
  - left. eexists. eexists. split; reflexivity.
  - split; [exact Hc|exact Hs].
Defined.

End AttachedData.

(* ===================================================================== *)
(** * The repair of keys written without quotes *)
(* ===================================================================== *)

Import Vocabulary Fixtures2.

Section KeyRepair.

Import Helpers.

Lemma ident_char_facts c :
  is_ident_char c = true ->
  char_eqb c 34 = false /\ char_eqb c 92 = false /\ (c <? 32)%N = false
  /\ c <> 39%N /\ is_space c = false /\ char_eqb c 58 = false.
Proof.
  unfold is_ident_char, is_alpha, is_lower, is_upper, is_digit, is_space,
    in_range, char_eqb.
  intros H. repeat split; try (intros ->; cbn in H; discriminate); split_N.
Qed.

Lemma ident_start_char c : is_ident_start c = true -> is_ident_char c = true.
Proof.
  unfold is_ident_start, is_ident_char. intros H.
  apply orb_true_iff in H. destruct H as [H|H]; rewrite H;
    [reflexivity|apply orb_true_r].
Qed.

Lemma space_facts c :
  is_space c = true ->
  char_eqb c 34 = false /\ is_ident_char c = false /\ c <> 39%N
  /\ char_eqb c 58 = false.
Proof.
  unfold is_ident_char, is_alpha, is_lower, is_upper, is_digit, is_space,
    in_range, char_eqb.
  intros H. repeat split; try (intros ->; cbn in H; discriminate); split_N.
Qed.

Lemma identificador_inv k :
  identificador k = true ->
  exists c k', k = c :: k' /\ is_ident_start c = true
               /\ Forall (fun x => is_ident_char x = true) k.
Proof.
  unfold identificador. destruct k as [|c k']; [discriminate|].
  intros H. apply andb_true_iff in H. destruct H as [H1 H2].
  exists c, k'. split; [reflexivity|]. split; [exact H1|].
  apply Forall_forall. apply forallb_forall. exact H2.
Qed.

Lemma span_ident_app k r :
  Forall (fun x => is_ident_char x = true) k ->
  is_ident_char (hd 0%N r) = false ->
  span_ident (k ++ r) = (k, r).
Proof.
  intros Hk Hr. induction Hk as [|c k Hc _ IH]; cbn [app].
  - destruct r as [|x r]; [reflexivity|]. cbn in *. rewrite Hr. reflexivity.
  - cbn. rewrite Hc, IH. reflexivity.
Qed.

Lemma count_space_app ws x r :
  Forall (fun c => is_space c = true) ws -> is_space x = false ->
  count_space (ws ++ x :: r) = length ws
  /\ skipn (length ws) (ws ++ x :: r) = x :: r.
Proof.
  intros Hws Hx. induction Hws as [|c ws Hc _ [IH1 IH2]]; cbn.
  - rewrite Hx. auto.
  - rewrite Hc. rewrite IH1. auto.
Qed.

(** The pattern matches an identifier followed by white space and a
    colon, when what stands before it allows a key to start. *)
Lemma key_match_key prev key ws tail :
  match prev with
  | Some p => negb (char_eqb p 34) && negb (is_ident_char p)
  | None => true
  end = true ->
  identificador key = true ->
  Forall (fun c => is_space c = true) ws ->
  key_match prev (key ++ ws ++ 58%N :: tail)
  = Some (key, (length key + length ws + 1)%nat).
Proof.
  intros Hp Hk Hws.
  destruct (identificador_inv key Hk) as (c & k' & -> & Hc & Hall).
  unfold key_match. rewrite Hp. cbn [app]. rewrite Hc. cbn [andb].
  change (c :: k' ++ ws ++ 58%N :: tail)
    with ((c :: k') ++ ws ++ 58%N :: tail).
  rewrite span_ident_app; [|exact Hall|].
  2:{ destruct Hws as [|x ws Hx _]; [reflexivity|].
      cbn. apply (space_facts x Hx). }
  destruct (count_space_app ws 58%N tail Hws eq_refl) as [Hn Hs].
  assert (Hx : char_eqb (hd 0%N (ws ++ 58%N :: tail)) 34 = false).
  { destruct Hws as [|x ws Hx _]; [reflexivity|].
    cbn. apply (space_facts x Hx). }
  unfold str, char in *.
  remember (ws ++ 58%N :: tail) as r eqn:Er.
  destruct r as [|x r'].
  { destruct ws; discriminate Er. }
  cbn [hd] in Hx. rewrite Hx. cbv zeta. rewrite Hn, Hs. reflexivity.
Qed.

Lemma quote_keys_skip a :
  forall prev b,
    a <> [] ->
    quote_keys prev (length a) (a ++ b) = quote_keys (Some (last a 0%N)) 0 b.
Proof.
  induction a as [|c a IH]; intros prev b Hne; [congruence|].
  destruct a as [|d a].
  - reflexivity.
  - cbn [length app quote_keys].
    change (quote_keys (Some c) (length (d :: a)) ((d :: a) ++ b)
            = quote_keys (Some (last (d :: a) 0%N)) 0 b).
    apply IH. discriminate.
Qed.

(** A key without quotes, at the start of an object, is given its
    quotes; the blanks before the colon go away. *)
Lemma quote_keys_objeto key ws tail :
  identificador key = true ->
  Forall (fun c => is_space c = true) ws ->
  quote_keys (Some 58%N) 0 tail = tail ->
  quote_keys None 0 (123%N :: key ++ ws ++ 58%N :: tail)
  = 123%N :: 34%N :: key ++ 34%N :: 58%N :: tail.
Proof.
  intros Hk Hws Htail.
  pose proof (key_match_key (Some 123%N) key ws tail eq_refl Hk Hws) as Hm.
  destruct (identificador_inv key Hk) as (c & k' & -> & Hc & Hall).
  cbn [quote_keys]. 
  assert (H0 : key_match None (123%N :: (c :: k') ++ ws ++ 58%N :: tail)
               = None) by reflexivity.
  rewrite H0. f_equal.
  cbn [app quote_keys]. cbn [app] in Hm. unfold str, char in *. rewrite Hm.
  cbn [app]. f_equal. f_equal.
  replace (length (c :: k') + length ws + 1 - 1)%nat
    with (length (k' ++ ws ++ [58%N])).
  2:{ rewrite !length_app. cbn. lia. }
  replace (k' ++ ws ++ 58%N :: tail) with ((k' ++ ws ++ [58%N]) ++ tail).
  2:{ rewrite <- !app_assoc. reflexivity. }
  rewrite quote_keys_skip.
  2:{ destruct k'; [destruct ws|]; discriminate. }
  unfold str, char in *.
  assert (Hl : last (k' ++ ws ++ [58%N]) 0%N = 58%N).
  { rewrite app_assoc. apply last_last. }
  rewrite Hl, Htail. reflexivity.
Qed.

(** ** The repaired text is JSON *)

Lemma scan_units_plain k r :
  Forall (fun c => is_ident_char c = true) k ->
  Json.scan_units (k ++ 34%N :: r) = Ok (map (fun c => (c, false)) k, r).
Proof.
  induction 1 as [|c k Hc _ IH]; [reflexivity|].
  destruct (ident_char_facts c Hc) as (H34 & H92 & H32 & _).
  cbn [app map Json.scan_units]. rewrite H34, H92, H32, IH. reflexivity.
Qed.

Lemma join_pairs_plain k :
  Json.join_pairs (map (fun c => (c, false)) k) = k.
Proof.
  induction k as [|c k IH]; [reflexivity|].
  cbn [map Json.join_pairs]. destruct k as [|d k]; [reflexivity|].
  cbn [map] in *. rewrite IH. reflexivity.
Qed.

Lemma scanstring_plain k r :
  Forall (fun c => is_ident_char c = true) k ->
  Json.scanstring (k ++ 34%N :: r) = Ok (k, r).
Proof.
  intros H. unfold Json.scanstring. rewrite (scan_units_plain k r H).
  cbn. rewrite join_pairs_plain. reflexivity.
Qed.

(** An object whose first key has no quotes is not JSON. *)
Lemma loads_clave_sin_comillas key r :
  identificador key = true ->
  exists e, Json.loads (123%N :: key ++ r) = Raise e.
Proof.
  intros Hk. destruct (identificador_inv key Hk) as (c & k' & -> & Hc & Hall).
  inversion Hall as [|? ? Hcc _]; subst.
  destruct (ident_char_facts c Hcc) as (H34 & _ & _ & _ & Hsp & _).
  assert (Hws : Json.is_ws c = false).
  { destruct (Json.is_ws c) eqn:E; [|reflexivity].
    apply is_ws_space in E. congruence. }
  assert (H125 : char_eqb c 125 = false).
  { revert Hcc. unfold is_ident_char, is_alpha, is_lower, is_upper, is_digit,
      in_range, char_eqb. intros Hcc. split_N. }
  unfold Json.loads, Json.decode.
  cbn [startswith app length Json.skip_ws]. 
  change (char_eqb 65279 123) with false. cbn [andb].
  change (Json.is_ws 123) with false. cbv iota.
  rewrite scan_once_eq.
  change (char_eqb 123 34) with false. change (char_eqb 123 123) with true.
  cbv iota. rewrite (skip_ws_id c _ Hws). rewrite H125, H34.
  eexists. reflexivity.
Qed.

(** An object with one key, an identifier, and a value that is read up to
    the closing brace. *)
Lemma loads_objeto key tail v :
  identificador key = true ->
  (forall f, Json.scan_once (S f) (Json.skip_ws tail) = Ok (v, [125%N])) ->
  Json.loads (123%N :: 34%N :: key ++ 34%N :: 58%N :: tail)
  = Ok (VDict [(key, v)]).
Proof.
  intros Hk Hv. destruct (identificador_inv key Hk) as (c & k' & -> & Hc & Hall).
  unfold Json.loads, Json.decode.
  cbn [startswith app length Json.skip_ws].
  change (char_eqb 65279 123) with false. cbn [andb].
  change (Json.is_ws 123) with false. cbv iota.
  rewrite scan_once_eq.
  change (char_eqb 123 34) with false. change (char_eqb 123 123) with true.
  cbv iota. rewrite (skip_ws_id 34%N _ eq_refl).
  change (char_eqb 34 125) with false. change (char_eqb 34 34) with true.
  cbv iota. rewrite object_loop_eq.
  change (c :: k' ++ 34%N :: 58%N :: tail)
    with ((c :: k') ++ 34%N :: 58%N :: tail).
  rewrite (scanstring_plain (c :: k') _ Hall). cbn [bind fst snd].
  rewrite (skip_ws_id 58%N _ eq_refl).
  change (char_eqb 58 58) with true. cbv iota.
  rewrite length_app. cbn [length Nat.add]. rewrite Hv. cbn [bind fst snd].
  rewrite (skip_ws_id 125%N _ eq_refl).
  change (char_eqb 125 125) with true. cbv iota.
  cbn. reflexivity.
Qed.

Lemma strip_objeto s :
  s <> [] -> is_space (last s 0%N) = false -> strip (123%N :: s) = 123%N :: s.
Proof.
  intros Hne Hl. unfold strip. cbn [lstrip].
  change (is_space 123) with false. cbv iota.
  apply rstrip_id; [|discriminate].
  rewrite last_cons_ne by exact Hne. exact Hl.
Qed.

(** The repair of one object whose key has no quotes. *)
Lemma reparacion (literal_eval : str -> result pyval) key ws tail v :
  identificador key = true ->
  Forall (fun c => is_space c = true) ws ->
  quote_keys (Some 58%N) 0 tail = tail ->
  ~ In 39%N tail ->
  tail <> [] -> is_space (last tail 0%N) = false ->
  (forall f, Json.scan_once (S f) (Json.skip_ws tail) = Ok (v, [125%N])) ->
  fix_malformed_json (123%N :: key ++ ws ++ 58%N :: tail)
  = 123%N :: 34%N :: key ++ 34%N :: 58%N :: tail
  /\ parse_flexible_json literal_eval (123%N :: key ++ ws ++ 58%N :: tail)
     = Ok (VDict [(key, v)]).
Proof.
  intros Hk Hws Htail H39 Hne Hlast Hv.
  destruct (loads_clave_sin_comillas key (ws ++ 58%N :: tail) Hk) as [e He].
  assert (Hfix : fix_malformed_json (123%N :: key ++ ws ++ 58%N :: tail)
                 = 123%N :: 34%N :: key ++ 34%N :: 58%N :: tail).
  { unfold fix_malformed_json. rewrite He.
    rewrite (quote_keys_objeto key ws tail Hk Hws Htail).
    apply replace_char_absent.
    destruct (identificador_inv key Hk) as (c & k' & Hkey & Hc & Hall).
    intros [H|[H|H]]; try discriminate H.
    apply in_app_or in H. destruct H as [H|[H|[H|H]]]; try discriminate H.
    - rewrite Forall_forall in Hall.
      apply (ident_char_facts 39%N (Hall _ H)). reflexivity.
    - contradiction. }
  split; [exact Hfix|].
  unfold parse_flexible_json.
  assert (Hs : strip (123%N :: key ++ ws ++ 58%N :: tail)
               = 123%N :: key ++ ws ++ 58%N :: tail).
  { apply strip_objeto.
    - destruct key; [destruct ws|]; discriminate.
    - rewrite app_assoc. rewrite last_app_ne by discriminate.
      rewrite last_cons_ne by exact Hne. exact Hlast. }
  rewrite Hs, He, Hfix. rewrite (loads_objeto key tail v Hk Hv). reflexivity.
Qed.

(** X12.  The repair promised by the doc string of [fix_malformed_json].
    For every identifier used as a key without quotes, with any blanks
    before the colon, the object with the value 123 and the object with
    the value "value" are not JSON; the repair gives the key its double
    quotes and drops the blanks before the colon, and the flexible parser
    returns the mapping from the key to the value. *)
Theorem unquoted_key_is_repaired
    (literal_eval : str -> result pyval) (key ws : str) :
  identificador key = true ->
  forallb is_space ws = true ->
  (fix_malformed_json ([123%N] ++ key ++ ws ++ lit ": 123}")
   = [123%N; 34%N] ++ key ++ [34%N] ++ lit ": 123}"
   /\ parse_flexible_json literal_eval ([123%N] ++ key ++ ws ++ lit ": 123}")
      = Ok (VDict [(key, VInt 123)]))
  /\ (fix_malformed_json
        ([123%N] ++ key ++ ws ++ [58%N; 32%N; 34%N] ++ lit "value"
         ++ [34%N; 125%N])
      = [123%N; 34%N] ++ key ++ [34%N; 58%N; 32%N; 34%N] ++ lit "value"
        ++ [34%N; 125%N]
      /\ parse_flexible_json literal_eval
           ([123%N] ++ key ++ ws ++ [58%N; 32%N; 34%N] ++ lit "value"
            ++ [34%N; 125%N])
         = Ok (VDict [(key, VStr (lit "value"))])).
Proof.
  intros Hk Hws.
  assert (Hws' : Forall (fun c => is_space c = true) ws).
  { apply Forall_forall. apply forallb_forall. exact Hws. }
  split.
  - apply (reparacion literal_eval key ws (lit " 123}") (VInt 123) Hk Hws');
      try reflexivity; try discriminate.
    cbn. intuition discriminate.
  - apply (reparacion literal_eval key ws
             ([32%N; 34%N] ++ lit "value" ++ [34%N; 125%N])
             (VStr (lit "value")) Hk Hws');
      try reflexivity; try discriminate.
    cbn. intuition discriminate.
Qed.

Lemma unquoted_key_is_repaired_witness :
  Helpers.parse_flexible_json (fun _ => Raise (Exception []))
    (lit "{name : 123}")
  = Ok (VDict [(lit "name", VInt 123)]).
Proof.
  apply (proj2 (proj1 (unquoted_key_is_repaired
                         (fun _ => Raise (Exception []))
                         (lit "name") (lit " ") eq_refl eq_refl))).
Defined.


(** ** Single quotes *)

(** Inside a word nothing matches: a key must start at a word boundary. *)
Lemma quote_keys_word w :
  forall p r,
    is_ident_char p = true ->
    Forall (fun c => is_ident_char c = true) w ->
    quote_keys (Some p) 0 (w ++ r)
    = w ++ quote_keys (Some (last (p :: w) 0%N)) 0 r.
Proof.
  induction w as [|c w IH]; intros p r Hp Hw; [reflexivity|].
  inversion Hw as [|? ? Hc Hw']; subst.
  cbn [app quote_keys].
  assert (Hm : key_match (Some p) (c :: w ++ r) = None).
  { unfold key_match. rewrite Hp. rewrite andb_false_r. reflexivity. }
  unfold str, char in *. rewrite Hm. f_equal.
  rewrite (IH c r Hc Hw'). destruct w; reflexivity.
Qed.

(** A word that is not followed by blanks and a colon is no key. *)
Lemma key_match_no_colon prev w x r :
  Forall (fun c => is_ident_char c = true) w ->
  is_ident_char x = false -> is_space x = false -> char_eqb x 58 = false ->
  key_match prev (w ++ x :: r) = None.
Proof.
  intros Hw Hx Hs Hc. unfold key_match.
  destruct w as [|c w]; cbn [app].
  - unfold is_ident_start, is_ident_char in *.
    apply orb_false_iff in Hx. destruct Hx as [Hx H95].
    apply orb_false_iff in Hx. destruct Hx as [Ha _].
    rewrite Ha, H95. rewrite andb_false_r. reflexivity.
  - destruct (_ && is_ident_start c); [|reflexivity].
    change (c :: w ++ x :: r) with ((c :: w) ++ x :: r).
    rewrite (span_ident_app (c :: w) (x :: r) Hw Hx).
    destruct (char_eqb x 34); [reflexivity|].
    cbn [count_space]. rewrite Hs. cbn [skipn]. rewrite Hc. reflexivity.
Qed.

Lemma quote_keys_palabra prev w x r :
  w <> [] ->
  Forall (fun c => is_ident_char c = true) w ->
  is_ident_char x = false -> is_space x = false -> char_eqb x 58 = false ->
  quote_keys prev 0 (w ++ x :: r)
  = w ++ quote_keys (Some (last w 0%N)) 0 (x :: r).
Proof.
  intros Hne Hw Hx Hs Hc. destruct w as [|c w]; [congruence|].
  inversion Hw as [|? ? Hcc Hw']; subst.
  pose proof (key_match_no_colon prev (c :: w) x r Hw Hx Hs Hc) as Hm.
  cbn [app quote_keys]. cbn [app] in Hm. unfold str, char in *.
  rewrite Hm. f_equal. apply (quote_keys_word w c (x :: r) Hcc Hw').
Qed.

Lemma quote_keys_otro prev x r :
  is_ident_start x = false ->
  quote_keys prev 0 (x :: r) = x :: quote_keys (Some x) 0 r.
Proof.
  intros Hx. cbn [quote_keys].
  assert (Hm : key_match prev (x :: r) = None).
  { unfold key_match. rewrite Hx, andb_false_r. reflexivity. }
  unfold str, char in *. rewrite Hm. reflexivity.
Qed.

Lemma app_ne_r {A} (a b : list A) : b <> [] -> a ++ b <> [].
Proof. destruct a; [auto|discriminate]. Qed.

Lemma flat_map_sin_comilla (k : str) :
  Forall (fun c => is_ident_char c = true) k ->
  flat_map (fun c => if char_eqb 39 c then [34%N] else [c]) k = k.
Proof.
  induction 1 as [|c k Hc _ IH]; [reflexivity|].
  cbn [flat_map]. rewrite IH.
  destruct (char_eqb 39 c) eqn:E; [|reflexivity].
  apply char_eqb_eq in E. subst c. discriminate Hc.
Qed.

(** X13.  Single quotes.  When the text is not JSON, every single quote
    of it becomes a double quote: the repaired text holds none, also where
    the single quote stood inside a value.  For identifiers used as key
    and as value between single quotes, the object is not JSON, the
    repair only changes the quotes, and the flexible parser returns the
    mapping from the key to the value. *)
Theorem single_quotes_become_double
    (literal_eval : str -> result pyval) :
  (forall s e, Json.loads s = Raise e -> ~ In 39%N (fix_malformed_json s))
  /\ (forall key val,
        identificador key = true -> identificador val = true ->
        let texto :=
          [123%N; 39%N] ++ key ++ [39%N; 58%N; 32%N; 39%N] ++ val
          ++ [39%N; 125%N] in
        fix_malformed_json texto
        = [123%N; 34%N] ++ key ++ [34%N; 58%N; 32%N; 34%N] ++ val
          ++ [34%N; 125%N]
        /\ parse_flexible_json literal_eval texto
           = Ok (VDict [(key, VStr val)])).
Proof.
  split.
  { intros s e He. unfold fix_malformed_json. rewrite He.
    apply replace_char_gone. discriminate. }
  intros key val Hk Hval texto.
  destruct (identificador_inv key Hk) as (c & k' & Hkey & Hc & Hall).
  destruct (identificador_inv val Hval) as (d & v' & Hv & Hd & Hvall).
  assert (Hne : key <> []) by (rewrite Hkey; discriminate).
  assert (Hvne : val <> []) by (rewrite Hv; discriminate).
  assert (He : exists e, Json.loads texto = Raise e).
  { unfold texto. cbn [app]. eexists. reflexivity. }
  destruct He as [e He].
  assert (Hq : quote_keys None 0 texto = texto).
  { unfold texto. cbn [app].
    rewrite !quote_keys_otro by reflexivity. do 2 f_equal.
    rewrite (quote_keys_palabra (Some 39%N) key 39%N _ Hne Hall
               eq_refl eq_refl eq_refl).
    f_equal. rewrite !quote_keys_otro by reflexivity. do 4 f_equal.
    rewrite (quote_keys_palabra (Some 39%N) val 39%N _ Hvne Hvall
               eq_refl eq_refl eq_refl).
    rewrite !quote_keys_otro by reflexivity. reflexivity. }
  assert (Hfix : fix_malformed_json texto
                 = [123%N; 34%N] ++ key ++ [34%N; 58%N; 32%N; 34%N] ++ val
                   ++ [34%N; 125%N]).
  { unfold fix_malformed_json. rewrite He, Hq.
    change (lit "'") with [39%N]. rewrite replace_char.
    unfold texto. rewrite !flat_map_app.
    rew (flat_map_sin_comilla key Hall). rew (flat_map_sin_comilla val Hvall).
    reflexivity. }
  split; [exact Hfix|].
  unfold parse_flexible_json.
  assert (Hs : strip texto = texto).
  { unfold texto.
    change ([123%N; 39%N] ++ key ++ [39%N; 58%N; 32%N; 39%N] ++ val
            ++ [39%N; 125%N])
      with (123%N :: [39%N] ++ key ++ [39%N; 58%N; 32%N; 39%N] ++ val
            ++ [39%N; 125%N]).
    apply strip_objeto; [discriminate|].
    rewrite !last_app_ne by (repeat apply app_ne_r; discriminate).
    reflexivity. }
  rewrite Hs, He, Hfix. cbn [app].
  rewrite (loads_objeto key (32%N :: 34%N :: val ++ [34%N; 125%N])
             (VStr val) Hk); [reflexivity|].
  intros f. cbn [Json.skip_ws]. change (Json.is_ws 32) with true.
  change (Json.is_ws 34) with false. cbv iota.
  rewrite scan_once_eq. change (char_eqb 34 34) with true. cbv iota.
  rewrite (scanstring_plain val [125%N] Hvall). reflexivity.
Qed.

Lemma single_quotes_become_double_witness :
  ~ In 39%N (Helpers.fix_malformed_json (lit "{name: 'O'Brien'}"))
  /\ Helpers.parse_flexible_json (fun _ => Raise (Exception []))
       (lit "{'name': 'value'}")
     = Ok (VDict [(lit "name", VStr (lit "value"))]).
Proof.
  destruct (single_quotes_become_double (fun _ => Raise (Exception [])))
    as [H1 H2].
  split.
  - apply (H1 (lit "{name: 'O'Brien'}")
              (Exception
                 (lit "Expecting property name enclosed in double quotes"))).
    reflexivity.
  - apply (H2 (lit "name") (lit "value")); reflexivity.
Defined.

End KeyRepair.

(* ===================================================================== *)
(** * Base 64: what the endpoint encodes is decoded back *)
(* ===================================================================== *)

Import Vocabulary Fixtures2.

Section Base64Proofs.

Import Base64 HelpersText.

Lemma b64_char_value n :
  (n < 64)%N ->
  b64_value (b64_char n) = Some n
  /\ char_eqb (b64_char n) 61 = false
  /\ (b64_char n <? 128)%N = true
  /\ is_space (b64_char n) = false
  /\ b64_char n <> 92%N /\ b64_char n <> 32%N.
Proof.
  intros Hn. unfold b64_value, b64_char, is_space, in_range, char_eqb.
  destruct (N.ltb_spec n 26); [|destruct (N.ltb_spec n 52);
    [|destruct (N.ltb_spec n 62); [|destruct (N.eqb_spec n 62)]]].
  all: repeat split;
    try (apply N.eqb_neq; lia); try (apply N.ltb_lt; lia); try lia.
  all: split_N; f_equal; lia.
Qed.

(** The four characters of a group of three bytes. *)
Lemma sextetos a b c :
  (a < 256)%N -> (b < 256)%N -> (c < 256)%N ->
  (a / 4 < 64)%N /\ (a mod 4 * 16 + b / 16 < 64)%N
  /\ (b mod 16 * 4 + c / 64 < 64)%N /\ (c mod 64 < 64)%N
  /\ (a mod 4 * 16 < 64)%N /\ (b mod 16 * 4 < 64)%N
  /\ (a / 4 * 4 + (a mod 4 * 16 + b / 16) / 16 = a)%N
  /\ ((a mod 4 * 16 + b / 16) mod 16 * 16 + (b mod 16 * 4 + c / 64) / 4 = b)%N
  /\ ((b mod 16 * 4 + c / 64) mod 4 * 64 + c mod 64 = c)%N
  /\ (a / 4 * 4 + (a mod 4 * 16) / 16 = a)%N
  /\ ((a mod 4 * 16 + b / 16) mod 16 * 16 + (b mod 16 * 4) / 4 = b)%N.
Proof.
  intros Ha Hb Hc.
  assert (E1 : ((a mod 4 * 16 + b / 16) / 16 = a mod 4)%N).
  { rewrite N.add_comm, N.div_add by lia.
    rewrite N.div_small; [lia|]. apply N.Div0.div_lt_upper_bound. lia. }
  assert (E2 : ((a mod 4 * 16 + b / 16) mod 16 = b / 16)%N).
  { rewrite N.add_comm, N.Div0.mod_add.
    apply N.mod_small. apply N.Div0.div_lt_upper_bound. lia. }
  assert (E3 : ((b mod 16 * 4 + c / 64) / 4 = b mod 16)%N).
  { rewrite N.add_comm, N.div_add by lia.
    rewrite N.div_small; [lia|]. apply N.Div0.div_lt_upper_bound. lia. }
  assert (E4 : ((b mod 16 * 4 + c / 64) mod 4 = c / 64)%N).
  { rewrite N.add_comm, N.Div0.mod_add.
    apply N.mod_small. apply N.Div0.div_lt_upper_bound. lia. }
  assert (E5 : ((a mod 4 * 16) / 16 = a mod 4)%N) by (apply N.div_mul; lia).
  assert (E6 : ((b mod 16 * 4) / 4 = b mod 16)%N) by (apply N.div_mul; lia).
  rewrite E1, E2, E3, E4, E5, E6.
  pose proof (N.div_mod a 4 ltac:(lia)).
  pose proof (N.div_mod b 16 ltac:(lia)).
  pose proof (N.div_mod c 64 ltac:(lia)).
  pose proof (N.mod_lt a 4 ltac:(lia)).
  pose proof (N.mod_lt b 16 ltac:(lia)).
  pose proof (N.mod_lt c 64 ltac:(lia)).
  assert (a / 4 < 64)%N by (apply N.Div0.div_lt_upper_bound; lia).
  assert (b / 16 < 16)%N by (apply N.Div0.div_lt_upper_bound; lia).
  assert (c / 64 < 4)%N by (apply N.Div0.div_lt_upper_bound; lia).
  repeat split; lia.
Qed.

(** Lists taken three items at a time. *)
Lemma tercias_ind (P : list N -> Prop) :
  P [] -> (forall a, P [a]) -> (forall a b, P [a; b]) ->
  (forall a b c rest, P rest -> P (a :: b :: c :: rest)) ->
  forall l, P l.
Proof.
  intros H0 H1 H2 H3 l.
  assert (H : forall n l, (length l <= n)%nat -> P l).
  { induction n as [|n IH]; intros [|a [|b [|c rest]]] Hl; cbn in Hl;
      auto; try lia.
    apply H3. apply IH. lia. }
  apply (H (length l)). lia.
Qed.

Lemma a2b_step q l p k c v s' :
  char_eqb c 61 = false -> b64_value c = Some v ->
  a2b_base64 q l p k (c :: s')
  = match q with
    | 0%nat => a2b_base64 1 v 0 k s'
    | 1%nat =>
        r <- a2b_base64 2 (v mod 16) 0 (S k) s' ;;
        Ok ((l * 4 + v / 16)%N :: r)
    | 2%nat =>
        r <- a2b_base64 3 (v mod 4) 0 (S k) s' ;;
        Ok ((l * 16 + v / 4)%N :: r)
    | _ =>
        r <- a2b_base64 0 0 0 (S k) s' ;;
        Ok ((l * 64 + v)%N :: r)
    end.
Proof. intros H1 H2. cbn [a2b_base64]. rewrite H1, H2. reflexivity. Qed.

Lemma a2b_char q l p k n s' :
  (n < 64)%N ->
  a2b_base64 q l p k (b64_char n :: s')
  = match q with
    | 0%nat => a2b_base64 1 n 0 k s'
    | 1%nat =>
        r <- a2b_base64 2 (n mod 16) 0 (S k) s' ;;
        Ok ((l * 4 + n / 16)%N :: r)
    | 2%nat =>
        r <- a2b_base64 3 (n mod 4) 0 (S k) s' ;;
        Ok ((l * 16 + n / 4)%N :: r)
    | _ =>
        r <- a2b_base64 0 0 0 (S k) s' ;;
        Ok ((l * 64 + n)%N :: r)
    end.
Proof.
  intros Hn. destruct (b64_char_value n Hn) as (Hv & H61 & _).
  apply a2b_step; assumption.
Qed.

(** Decoding what was encoded gives the bytes back. *)
Lemma a2b_encode data :
  Forall (fun b => (b < 256)%N) data ->
  forall k, a2b_base64 0 0 0 k (b64encode data) = Ok data.
Proof.
  induction data as [|a|a b|a b c rest IH] using tercias_ind; intros Hd k.
  - reflexivity.
  - inversion Hd as [|? ? Ha _]; subst.
    destruct (sextetos a 0 0)
      as (S1 & _ & _ & _ & S5 & _ & _ & _ & _ & E1 & _); try lia.
    cbn [b64encode].
    rewrite (a2b_char 0 _ _ _ _ _ S1), (a2b_char 1 _ _ _ _ _ S5).
    cbn. rewrite E1. reflexivity.
  - inversion Hd as [|? ? Ha Hd']; subst.
    inversion Hd' as [|? ? Hb _]; subst.
    destruct (sextetos a b 0)
      as (S1 & S2 & _ & _ & _ & S6 & E1 & _ & _ & _ & E2); try lia.
    cbn [b64encode].
    rewrite (a2b_char 0 _ _ _ _ _ S1), (a2b_char 1 _ _ _ _ _ S2),
      (a2b_char 2 _ _ _ _ _ S6).
    cbn. rewrite E1, E2. reflexivity.
  - inversion Hd as [|? ? Ha Hd']; subst.
    inversion Hd' as [|? ? Hb Hd'']; subst.
    inversion Hd'' as [|? ? Hc Hrest]; subst.
    destruct (sextetos a b c Ha Hb Hc)
      as (S1 & S2 & S3 & S4 & _ & _ & E1 & E2 & E3 & _).
    cbn [b64encode].
    rewrite (a2b_char 0 _ _ _ _ _ S1), (a2b_char 1 _ _ _ _ _ S2),
      (a2b_char 2 _ _ _ _ _ S3), (a2b_char 3 _ _ _ _ _ S4).
    rewrite (IH Hrest). cbn [bind]. rewrite E1, E2, E3. reflexivity.
Qed.

(** The characters of an encoded text. *)
Lemma b64encode_chars data :
  Forall (fun b => (b < 256)%N) data ->
  Forall (fun c => c = 61%N \/ exists n, (n < 64)%N /\ c = b64_char n)
    (b64encode data).
Proof.
  induction data as [|a|a b|a b c rest IH] using tercias_ind; intros Hd.
  - constructor.
  - inversion Hd as [|? ? Ha _]; subst.
    destruct (sextetos a 0 0)
      as (S1 & _ & _ & _ & S5 & _); try lia.
    cbn [b64encode].
    constructor; [right; eauto|]. constructor; [right; eauto|].
    constructor; [left; reflexivity|]. constructor; [left; reflexivity|].
    constructor.
  - inversion Hd as [|? ? Ha Hd']; subst.
    inversion Hd' as [|? ? Hb _]; subst.
    destruct (sextetos a b 0)
      as (S1 & S2 & _ & _ & _ & S6 & _); try lia.
    cbn [b64encode].
    constructor; [right; eauto|]. constructor; [right; eauto|].
    constructor; [right; eauto|]. constructor; [left; reflexivity|].
    constructor.
  - inversion Hd as [|? ? Ha Hd']; subst.
    inversion Hd' as [|? ? Hb Hd'']; subst.
    inversion Hd'' as [|? ? Hc Hrest]; subst.
    destruct (sextetos a b c Ha Hb Hc) as (S1 & S2 & S3 & S4 & _).
    cbn [b64encode].
    constructor; [right; eauto|]. constructor; [right; eauto|].
    constructor; [right; eauto|]. constructor; [right; eauto|].
    auto.
Qed.

Lemma b64encode_limpio data :
  Forall (fun b => (b < 256)%N) data ->
  Forall (fun c => (c <? 128)%N = true /\ is_space c = false
                   /\ c <> 92%N /\ c <> 32%N)
    (b64encode data).
Proof.
  intros Hd. eapply Forall_impl; [|apply (b64encode_chars data Hd)].
  intros c [->|(n & Hn & ->)].
  - repeat split; discriminate.
  - destruct (b64_char_value n Hn) as (_ & _ & H1 & H2 & H3 & H4). auto.
Qed.

Lemma strip_limpio s :
  Forall (fun c => is_space c = false) s -> strip s = s.
Proof.
  intros H. unfold strip.
  assert (Hl : lstrip s = s).
  { destruct H as [|c s Hc _]; [reflexivity|]. cbn. rewrite Hc. reflexivity. }
  rewrite Hl. destruct s as [|c s]; [reflexivity|].
  apply rstrip_id; [|discriminate].
  rewrite Forall_forall in H. apply H.
  destruct (exists_last (l := c :: s) ltac:(discriminate)) as (s' & x & E).
  rewrite E, last_last. apply in_or_app. right. left. reflexivity.
Qed.

(** Replacing a text whose first character does not occur changes
    nothing. *)
Lemma replace_absent a old new s :
  ~ In a s -> replace (a :: old) new s = s.
Proof.
  unfold replace. induction s as [|c s IH]; [reflexivity|].
  intros Hn. cbn [replace_from startswith].
  destruct (char_eqb a c) eqn:E.
  - apply char_eqb_eq in E. subst. exfalso. apply Hn. left. reflexivity.
  - cbn [andb]. rewrite IH; [reflexivity|].
    intros H. apply Hn. right. exact H.
Qed.

(** X14.  Base 64 round trip.  For every sequence of bytes, its encoded
    text decodes back to the same bytes with [b64decode] and with
    [decode_base64_pdf]; when there is at least one byte the text passes
    [validate_base64], and it is the text that the endpoint stores for a
    file with these bytes.  A missing or empty text does not pass. *)
Theorem base64_round_trip (data : list N) :
  Forall (fun b => (b < 256)%N) data ->
  b64decode (b64encode data) = Ok data
  /\ decode_base64_pdf (b64encode data) = Some data
  /\ (data <> [] -> validate_base64 (Some (b64encode data)) = true)
  /\ (forall f,
        Handler.file_content f = data -> data <> [] ->
        Handler.procesar_factura (Some f) = Some (b64encode data))
  /\ validate_base64 None = false
  /\ validate_base64 (Some []) = false.
Proof.
  intros Hd.
  pose proof (b64encode_limpio data Hd) as Hl.
  assert (Hs : strip (b64encode data) = b64encode data).
  { apply strip_limpio. eapply Forall_impl; [|exact Hl]. cbn. tauto. }
  rewrite Forall_forall in Hl.
  assert (Hdec : b64decode (b64encode data) = Ok data).
  { unfold b64decode.
    assert (Ha : forallb (fun c => (c <? 128)%N) (b64encode data) = true).
    { apply forallb_forall. intros c Hc. apply (Hl c Hc). }
    rewrite Ha. apply a2b_encode. exact Hd. }
  split; [exact Hdec|]. split.
  { unfold decode_base64_pdf. rewrite Hs.
    rewrite replace_absent.
    2:{ intros H. destruct (Hl _ H) as (_ & _ & H92 & _). congruence. }
    change (lit " ") with [32%N]. rewrite replace_char_absent.
    2:{ intros H. destruct (Hl _ H) as (_ & _ & _ & H32). congruence. }
    rewrite Hdec. reflexivity. }
  split.
  { intros Hne. unfold validate_base64.
    destruct (b64encode data) as [|c s] eqn:E.
    - exfalso. apply (b64encode_nonempty data Hne). exact E.
    - rewrite Hs, Hdec. reflexivity. }
  split; [|split; reflexivity].
  intros f Hf Hne. unfold Handler.procesar_factura. rewrite Hf.
  destruct data; [congruence|reflexivity].
Qed.

Lemma base64_round_trip_witness :
  decode_base64_pdf (lit "JVBE") = Some [37; 80; 68]%N
  /\ validate_base64 (Some (lit "JVBE")) = true.
Proof.
  destruct (base64_round_trip [37; 80; 68]%N) as (_ & H2 & H3 & _).
  - repeat constructor.
  - split; [exact H2|]. apply H3. discriminate.
Defined.


(** ** Truncation *)

Lemma firstn_app_exact {A} (a b : list A) : firstn (length a) (a ++ b) = a.
Proof. induction a as [|x a IH]; cbn; [destruct b|]; congruence. Qed.

Lemma truncate_short (text : str) (m : Z) :
  (0 <= m)%Z -> (length text <= Z.to_nat m)%nat -> truncate_text text m = text.
Proof.
  intros Hm H. unfold truncate_text.
  destruct (Z.leb_spec (Z.of_nat (length text)) m); [reflexivity|lia].
Qed.

Lemma truncate_long (text : str) (m : Z) :
  (0 <= m)%Z -> (Z.to_nat m < length text)%nat ->
  truncate_text text m = firstn (Z.to_nat m) text ++ lit "...".
Proof.
  intros Hm H. unfold truncate_text, slice_to.
  destruct (Z.leb_spec (Z.of_nat (length text)) m); [lia|].
  destruct (Z.leb_spec 0 m); [reflexivity|lia].
Qed.

(** X15.  [truncate_text] with a limit that is not negative.  A text no
    longer than the limit is returned as it is; a longer one is cut to
    the limit and three dots are added, so the result has at most three
    characters more than the limit and starts like the text; truncating
    twice is truncating once. *)
Theorem truncate_text_spec (text : str) (max_length : Z) :
  (0 <= max_length)%Z ->
  let n := Z.to_nat max_length in
  ((length text <= n)%nat -> truncate_text text max_length = text)
  /\ ((n < length text)%nat ->
      truncate_text text max_length = firstn n text ++ lit "...")
  /\ (length (truncate_text text max_length) <= n + 3)%nat
  /\ firstn n (truncate_text text max_length) = firstn n text
  /\ truncate_text (truncate_text text max_length) max_length
     = truncate_text text max_length.
Proof.
  intros Hm n.
  split; [apply truncate_short; exact Hm|].
  split; [apply truncate_long; exact Hm|].
  destruct (Nat.le_gt_cases (length text) n) as [H|H].
  - rewrite (truncate_short text max_length Hm H).
    split; [lia|]. split; [reflexivity|].
    apply truncate_short; assumption.
  - rewrite (truncate_long text max_length Hm H). fold n.
    assert (Hlen : length (firstn n text) = n).
    { rewrite length_firstn. lia. }
    assert (Hf : firstn n (firstn n text ++ lit "...") = firstn n text).
    { rewrite <- Hlen at 1. apply firstn_app_exact. }
    split; [rewrite length_app, Hlen; cbn; lia|].
    split; [exact Hf|].
    rewrite truncate_long; [fold n; rewrite Hf; reflexivity|exact Hm|].
    fold n. rewrite length_app, Hlen. cbn. lia.
Qed.

Lemma truncate_text_spec_witness :
  truncate_text (lit "abcdefgh") 5 = lit "abcde..."
  /\ truncate_text (truncate_text (lit "abcdefgh") 5) 5
     = truncate_text (lit "abcdefgh") 5.
Proof.
  destruct (truncate_text_spec (lit "abcdefgh") 5 ltac:(lia))
    as (_ & H2 & _ & _ & H5).
  split; [apply H2; cbn; lia|exact H5].
Defined.

End Base64Proofs.

(* ===================================================================== *)
(** * The report: labels, rows and figures *)
(* ===================================================================== *)

Import Vocabulary Fixtures2.

Section ReportProofs.

Import Report.


Lemma format_tipo_conocido t :
  In t tipos_de_anomalia ->
  In (_format_tipo_anomalia (Some t)) (map snd formatos).
Proof.
  unfold tipos_de_anomalia.
  intros [<-|[<-|[<-|[<-|[<-|[]]]]]]; cbn; tauto.
Qed.



(** ** The rows *)

Section Rows.

Variable strftime : Z -> str -> str.

Lemma columnas_datos_legibles datos :
  datos_legibles datos = true ->
  exists d, columnas_datos datos = Ok d
            /\ map fst d = [COL_PROVEEDOR; COL_TOTAL; COL_MONEDA;
                            COL_RECEPTOR; COL_FOLIO].
Proof.
  unfold datos_legibles, columnas_datos. intros H.
  destruct (truthy datos) eqn:Ht; [|eexists; split; reflexivity].
  cbn in H. destruct datos; try discriminate H.
  eexists; split; reflexivity.
Qed.

Lemma columnas_datos_ilegibles datos :
  datos_legibles datos = false ->
  columnas_datos datos = Raise (object_error datos "has no attribute 'get'").
Proof.
  unfold datos_legibles, columnas_datos. intros H.
  apply orb_false_iff in H. destruct H as [H1 H2].
  apply negb_false_iff in H1. rewrite H1.
  destruct datos; try reflexivity. discriminate H2.
Qed.

Lemma recortar_spec v :
  match v with
  | None => recortar v = VNone
  | Some x =>
      exists t, recortar v = VStr t /\ (length t <= 203)%nat
                /\ firstn 200 t = firstn 200 x
  end.
Proof.
  destruct v as [x|]; [|reflexivity]. unfold recortar.
  destruct (str_truthy x && (200 <? length x)%nat) eqn:E.
  - apply andb_true_iff in E. destruct E as [_ E]. apply Nat.ltb_lt in E.
    eexists. split; [reflexivity|].
    assert (Hl : length (firstn 200 x) = 200%nat)
      by (rewrite length_firstn; lia).
    split; [rewrite length_app, Hl; cbn; lia|].
    rewrite <- Hl at 1. apply firstn_app_exact.
  - eexists. split; [reflexivity|]. split; [|reflexivity].
    apply andb_false_iff in E. destruct E as [E|E].
    + destruct x; [cbn; lia|discriminate E].
    + apply Nat.ltb_ge in E. lia.
Qed.

Lemma fila_de_legible e :
  datos_legibles (datos_factura (res e)) = true ->
  exists fila, fila_de strftime e = Ok fila /\ fila_refleja e fila.
Proof.
  intros H. unfold fila_de.
  destruct (columnas_datos_legibles _ H) as (d & -> & Hd).
  cbn [bind]. eexists. split; [reflexivity|].
  destruct d as [|[k1 v1] [|[k2 v2] [|[k3 v3] [|[k4 v4] [|[k5 v5] [|? ?]]]]]];
    try discriminate Hd.
  cbn in Hd. inversion Hd; subst.
  unfold fila_refleja. split; [reflexivity|].
  split; [reflexivity|]. split; [reflexivity|]. split; [reflexivity|].
  pose proof (recortar_spec (resultado_openai (res e))) as Hr.
  remember (recortar (resultado_openai (res e))) as rc eqn:Erc.
  clear Erc.
  destruct (resultado_openai (res e)) as [v|].
  - destruct Hr as (t & Ht & Hlen & Hpre). exists t.
    split; [|auto]. rewrite Ht. reflexivity.
  - rewrite Hr. reflexivity.
Qed.

Lemma fila_de_ilegible e :
  datos_legibles (datos_factura (res e)) = false ->
  fila_de strftime e
  = Raise (object_error (datos_factura (res e)) "has no attribute 'get'").
Proof.
  intros H. unfold fila_de. rewrite (columnas_datos_ilegibles _ H).
  reflexivity.
Qed.

(** X17.  The rows of the sheet.  When the extracted data of every
    outcome is falsy or a mapping, [_preparar_datos] returns one row per
    outcome, in order; every row has the same fourteen columns in the same
    order, shows the state, the id and the label of its outcome, and a
    validation text of at most 203 characters that starts like the text
    of the outcome.  When some outcome carries truthy data that is not a
    mapping, no row is returned: the function raises the [AttributeError]
    of the first such outcome. *)
Theorem report_rows (resultados : list Entrada) :
  (forallb (fun e => datos_legibles (datos_factura (res e))) resultados
   = true ->
   exists data,
     _preparar_datos strftime resultados = Ok data
     /\ Forall2 fila_refleja resultados data)
  /\ (forallb (fun e => datos_legibles (datos_factura (res e))) resultados
      = false ->
      exists antes e despues,
        resultados = antes ++ e :: despues
        /\ forallb (fun x => datos_legibles (datos_factura (res x))) antes
           = true
        /\ datos_legibles (datos_factura (res e)) = false
        /\ _preparar_datos strftime resultados
           = Raise (object_error (datos_factura (res e))
                      "has no attribute 'get'")).
Proof.
  induction resultados as [|e resto [IH1 IH2]].
  - split; [|discriminate]. intros _. exists []. split; [reflexivity|].
    constructor.
  - cbn [forallb _preparar_datos].
    destruct (datos_legibles (datos_factura (res e))) eqn:He.
    + destruct (fila_de_legible e He) as (fila & -> & Hf). cbn [andb bind].
      split.
      * intros H. destruct (IH1 H) as (data & -> & Hd).
        exists (fila :: data). split; [reflexivity|]. constructor; assumption.
      * intros H.
        destruct (IH2 H) as (antes & x & despues & -> & Ha & Hx & ->).
        exists (e :: antes), x, despues. split; [reflexivity|].
        split; [cbn; rewrite He; exact Ha|]. split; [exact Hx|reflexivity].
    + split; [discriminate|]. intros _.
      exists [], e, resto. split; [reflexivity|]. split; [reflexivity|].
      split; [exact He|]. rewrite (fila_de_ilegible e He). reflexivity.
Qed.

End Rows.

Lemma report_rows_witness :
  (exists data,
     _preparar_datos (fun _ _ => lit "2024-01-01 00:00:00")
       [{| res := resultado_error registro_completo (Exception (lit "x"));
           drive_link := None |}] = Ok data
     /\ length data = 1%nat)
  /\ exists ex,
       _preparar_datos (fun _ _ => lit "2024-01-01 00:00:00") [entrada_lista]
       = Raise ex.
Proof.
  destruct (report_rows (fun _ _ => lit "2024-01-01 00:00:00")
              [{| res := resultado_error registro_completo
                           (Exception (lit "x"));
                  drive_link := None |}]) as [H1 _].
  destruct (report_rows (fun _ _ => lit "2024-01-01 00:00:00")
              [entrada_lista]) as [_ H2].
  split.
  - destruct (H1 eq_refl) as (data & Hd & Hf). exists data.
    split; [exact Hd|]. apply Forall2_length in Hf. symmetry. exact Hf.
  - destruct (H2 eq_refl) as (antes & e & despues & _ & _ & _ & H).
    eexists. exact H.
Defined.

End ReportProofs.

(* ===================================================================== *)
(** * The figures of the summary sheet *)
(* ===================================================================== *)

Import Vocabulary Fixtures2.

Section SummaryProofs.

Import Report.

Lemma str_eqb_eq (a b : str) : str_eqb a b = true -> a = b.
Proof.
  revert b. induction a as [|x a IH]; destruct b as [|y b]; cbn;
    try discriminate; [reflexivity|].
  intros H. apply andb_true_iff in H. destruct H as [H1 H2].
  apply N.eqb_eq in H1. subst. f_equal. auto.
Qed.

Lemma str_eqb_sym (a b : str) : str_eqb a b = str_eqb b a.
Proof.
  revert b. induction a as [|x a IH]; destruct b as [|y b]; cbn;
    try reflexivity.
  unfold char_eqb. rewrite (N.eqb_sym x y), IH. reflexivity.
Qed.

Lemma str_leb_total (a b : str) : str_leb a b = false -> str_leb b a = true.
Proof.
  revert b. induction a as [|x a IH]; destruct b as [|y b]; cbn;
    try discriminate; try reflexivity.
  destruct (N.ltb_spec x y); [discriminate|].
  destruct (N.ltb_spec y x); [reflexivity|]. apply IH.
Qed.

Lemma item_leb_total (a b : str * nat) :
  item_leb a b = false -> item_leb b a = true.
Proof.
  unfold item_leb. rewrite (str_eqb_sym (fst b) (fst a)).
  destruct (str_eqb (fst a) (fst b)).
  - intros H. apply Nat.leb_gt in H. apply Nat.leb_le. lia.
  - apply str_leb_total.
Qed.

(** ** Counting *)

Lemma incrementar_suma k d :
  list_sum (map snd (incrementar k d)) = S (list_sum (map snd d)).
Proof.
  unfold list_sum. induction d as [|[k' n] d IH]; [reflexivity|].
  cbn [incrementar]. destruct (str_eqb k k'); cbn [map snd fold_right].
  - reflexivity.
  - rewrite IH. lia.
Qed.

Lemma incrementar_claves k d :
  forall x, In x (map fst (incrementar k d)) <-> x = k \/ In x (map fst d).
Proof.
  induction d as [|[k' n] d IH]; intros x; cbn.
  - intuition (subst; auto).
  - destruct (str_eqb k k') eqn:E; cbn.
    + apply str_eqb_eq in E. subst. intuition (subst; auto).
    + rewrite IH. intuition (subst; auto).
Qed.

Lemma incrementar_NoDup k d :
  NoDup (map fst d) -> NoDup (map fst (incrementar k d)).
Proof.
  induction d as [|[k' n] d IH]; cbn; intros H.
  - repeat constructor. tauto.
  - apply NoDup_cons_iff in H. destruct H as [Hni Hnd].
    destruct (str_eqb k k') eqn:E; cbn.
    + constructor; assumption.
    + constructor; [|auto].
      rewrite incrementar_claves. intros [->|H]; [|contradiction].
      rewrite str_eqb_refl in E. discriminate.
Qed.

Lemma contar_spec l :
  forall acc,
    let d := fold_left
               (fun d r =>
                  if tiene_tipo r
                  then incrementar (_format_tipo_anomalia (r_tipo_anomalia r)) d
                  else d) l acc in
    list_sum (map snd d)
    = (list_sum (map snd acc) + length (filter tiene_tipo l))%nat
    /\ (NoDup (map fst acc) -> NoDup (map fst d))
    /\ (forall k, In k (map fst d) ->
          In k (map fst acc)
          \/ exists r, In r l /\ tiene_tipo r = true
                       /\ k = _format_tipo_anomalia (r_tipo_anomalia r)).
Proof.
  induction l as [|r l IH]; intros acc; cbn [fold_left filter].
  - cbn. split; [lia|]. split; auto.
  - destruct (tiene_tipo r) eqn:Hr.
    + destruct (IH (incrementar (_format_tipo_anomalia (r_tipo_anomalia r))
                      acc)) as (H1 & H2 & H3).
      cbv zeta in *. split; [|split].
      * rewrite H1, incrementar_suma. cbn. lia.
      * intros Hnd. apply H2. apply incrementar_NoDup. exact Hnd.
      * intros k Hk. destruct (H3 k Hk) as [H|(r0 & Hin & Ht & ->)].
        -- apply incrementar_claves in H. destruct H as [->|H]; [|auto].
           right. exists r. split; [left; reflexivity|auto].
        -- right. exists r0. split; [right; exact Hin|auto].
    + destruct (IH acc) as (H1 & H2 & H3). cbv zeta in *.
      split; [exact H1|]. split; [exact H2|].
      intros k Hk. destruct (H3 k Hk) as [H|(r0 & Hin & Ht & ->)]; [auto|].
      right. exists r0. split; [right; exact Hin|auto].
Qed.

(** ** Sorting *)

Lemma insertar_perm x l : Permutation (x :: l) (insertar x l).
Proof.
  induction l as [|y l IH]; cbn; [reflexivity|].
  destruct (item_leb x y); [reflexivity|].
  rewrite perm_swap. constructor. exact IH.
Qed.

Lemma sorted_items_perm d : Permutation d (sorted_items d).
Proof.
  induction d as [|x d IH]; cbn; [constructor|].
  rewrite <- insertar_perm. constructor. exact IH.
Qed.

Lemma insertar_ordenada x l : ordenada l -> ordenada (insertar x l).
Proof.
  induction l as [|y l IH]; cbn [insertar]; [intros _; exact I|].
  intros Hl. destruct (item_leb x y) eqn:E.
  - split; [exact E|exact Hl].
  - apply item_leb_total in E.
    destruct l as [|z l]; cbn [insertar] in *.
    + split; [exact E|exact I].
    + destruct Hl as [Hyz Hl]. specialize (IH Hl).
      destruct (item_leb x z) eqn:E2.
      * split; [exact E|]. exact IH.
      * split; [exact Hyz|]. exact IH.
Qed.

Lemma sorted_items_ordenada d : ordenada (sorted_items d).
Proof.
  induction d as [|x d IH]; cbn; [exact I|].
  apply insertar_ordenada. exact IH.
Qed.

Lemma list_sum_perm (a b : list nat) :
  Permutation a b -> list_sum a = list_sum b.
Proof. unfold list_sum. induction 1; cbn; lia. Qed.

Lemma filter_length_le {A} (f g : A -> bool) l :
  (forall x, f x = true -> g x = true) ->
  (length (filter f l) <= length (filter g l))%nat.
Proof.
  intros H. induction l as [|x l IH]; cbn; [lia|].
  destruct (f x) eqn:Ef.
  - rewrite (H x Ef). cbn. lia.
  - destruct (g x); cbn; lia.
Qed.

(** X18.  The figures of the summary.  The correct and the anomalous
    outcomes add up to the total.  The breakdown lists each label once,
    in the order of [sorted], and its counts add up to the number of
    anomalous outcomes that carry a kind, which is at most the number of
    anomalies.  When every anomalous outcome carries one of the five kinds
    of [TipoAnomalia], as the outcomes of the validator do, the counts
    add up to the number of anomalies and every label is one of the five
    of the table. *)
Theorem summary_figures (resultados : list Resultado) :
  (correctos resultados + anomalias resultados = total resultados)%nat
  /\ list_sum (map snd (desglose resultados))
     = length (filter tiene_tipo resultados)
  /\ (list_sum (map snd (desglose resultados)) <= anomalias resultados)%nat
  /\ NoDup (map fst (desglose resultados))
  /\ ordenada (desglose resultados)
  /\ Permutation (tipos_anomalias resultados) (desglose resultados)
  /\ (Forall bien_tipado resultados ->
      list_sum (map snd (desglose resultados)) = anomalias resultados
      /\ forall k, In k (map fst (desglose resultados)) ->
                   In k (map snd formatos)).
Proof.
  pose proof (sorted_items_perm (tipos_anomalias resultados)) as Hp.
  destruct (contar_spec resultados []) as (Hs & Hnd & Hk).
  cbv zeta in Hs, Hnd, Hk. fold (tipos_anomalias resultados) in Hs, Hnd, Hk.
  assert (Hsum : list_sum (map snd (desglose resultados))
                 = length (filter tiene_tipo resultados)).
  { unfold desglose.
    rewrite <- (list_sum_perm _ _ (Permutation_map snd Hp)). exact Hs. }
  assert (Hle : (length (filter tiene_tipo resultados)
                 <= anomalias resultados)%nat).
  { apply filter_length_le. intros r H. unfold tiene_tipo in H.
    apply andb_true_iff in H. tauto. }
  split.
  { unfold correctos, total, anomalias.
    pose proof (filter_length_le r_es_anomalia (fun _ => true) resultados
                  (fun _ _ => eq_refl)) as H.
    rewrite (forallb_filter_id (fun _ : Resultado => true)) in H.
    - lia.
    - apply forallb_forall. reflexivity. }
  split; [exact Hsum|]. split; [lia|]. split.
  { unfold desglose. eapply Permutation_NoDup.
    - apply Permutation_map. exact Hp.
    - apply Hnd. constructor. }
  split; [apply sorted_items_ordenada|]. split; [exact Hp|].
  intros Hbt. split.
  - rewrite Hsum. unfold anomalias. f_equal.
    apply filter_ext_in. intros r Hin. unfold tiene_tipo.
    rewrite Forall_forall in Hbt.
    destruct (r_es_anomalia r) eqn:Ea; [|reflexivity].
    destruct (Hbt r Hin Ea) as (t & -> & Ht).
    unfold tipos_de_anomalia in Ht.
    destruct Ht as [<-|[<-|[<-|[<-|[<-|[]]]]]]; reflexivity.
  - intros k Hin.
    apply (Permutation_in _ (Permutation_sym (Permutation_map fst Hp))) in Hin.
    destruct (Hk k Hin) as [[]|(r & Hr & Ht & ->)].
    rewrite Forall_forall in Hbt. unfold tiene_tipo in Ht.
    apply andb_true_iff in Ht. destruct Ht as [Ea _].
    destruct (Hbt r Hr Ea) as (t & -> & Hin5).
    apply format_tipo_conocido. exact Hin5.
Qed.

Lemma summary_figures_witness :
  list_sum (map snd
              (desglose
                 [resultado_error registro_completo (Exception (lit "x"));
                  resultado_inicial registro_vacio;
                  resultado_error registro_vacio (Exception (lit "y"))]))
  = 2%nat
  /\ desglose
       [resultado_error registro_completo (Exception (lit "x"));
        resultado_inicial registro_vacio;
        resultado_error registro_vacio (Exception (lit "y"))]
     = [(cruz ++ lit " Error al Procesar", 2%nat)].
Proof.
  destruct (summary_figures
              [resultado_error registro_completo (Exception (lit "x"));
               resultado_inicial registro_vacio;
               resultado_error registro_vacio (Exception (lit "y"))])
    as (_ & _ & _ & _ & _ & _ & H).
  destruct H as [H _].
  - repeat constructor; intros Ha; try discriminate Ha;
      (eexists; split; [reflexivity|]); cbn; tauto.
  - split; [exact H|reflexivity].
Defined.

End SummaryProofs.

(* ===================================================================== *)
(** * What every row of a reachable store satisfies *)
(* ===================================================================== *)

Import Vocabulary Fixtures2.

(** The outcome that one turn of the loop writes was computed for the
    record of the turn. *)
Lemma iteracion_origen env svc registro resultados w out w' :
  iteracion env svc registro resultados w = (out, w') ->
  rows w' = rows w
  \/ exists res ahora,
       resultado_de registro res
       /\ rows w' = update_rows (Store.id registro) res ahora (rows w).
Proof.
  unfold iteracion, cuerpo_try. intros H.
  destruct (_validar_registro_individual svc registro w) as [[res|e] w1] eqn:Hv;
    destruct (validar_rows _ _ _ _ _ Hv) as [Hr Hn].
  - destruct (_actualizar_registro env (Store.id registro) res w1)
      as [[[]|e] w2] eqn:Ha;
      destruct (actualizar_spec _ _ _ _ _ _ Ha) as [_ Hcase].
    + inv_pair H. right. exists res. eexists. split.
      * left. eauto.
      * destruct Hcase as [[_ Hrows]|[[x Hx] _]]; [|discriminate].
        rewrite Hrows, Hr. reflexivity.
    + destruct Hcase as [[Hx _]|[_ Hrows]]; [discriminate|].
      unfold manejar_error, mbind, ret in H.
      destruct (_actualizar_registro env (Store.id registro)
                  (resultado_error registro e) w2) as [[[]|e'] w3] eqn:Ha2;
        destruct (actualizar_spec _ _ _ _ _ _ Ha2) as [_ Hcase2];
        inv_pair H.
      * right. eexists. eexists. split; [right; eauto|].
        destruct Hcase2 as [[_ Hr2]|[[x Hx] _]]; [|discriminate].
        rewrite Hr2, Hrows, Hr. reflexivity.
      * left. destruct Hcase2 as [[Hx _]|[_ Hr2]]; [discriminate|].
        congruence.
  - unfold manejar_error, mbind, ret in H.
    destruct (_actualizar_registro env (Store.id registro)
                (resultado_error registro e) w1) as [[[]|e'] w3] eqn:Ha2;
      destruct (actualizar_spec _ _ _ _ _ _ Ha2) as [_ Hcase2];
      inv_pair H.
    + right. eexists. eexists. split; [right; eauto|].
      destruct Hcase2 as [[_ Hr2]|[[x Hx] _]]; [|discriminate].
      rewrite Hr2, Hr. reflexivity.
    + left. destruct Hcase2 as [[Hx _]|[_ Hr2]]; [discriminate|].
      congruence.
Qed.

Lemma evoluciona_bien_refl pend l : evoluciona_bien pend l l.
Proof. induction l; constructor; auto. Qed.

(** The update of the rows of one record, when its rows are the record
    itself. *)
Lemma evoluciona_bien_update registro res ahora l :
  resultado_de registro res ->
  (forall fila, In fila l -> Store.id fila = Store.id registro ->
                fila = registro) ->
  evoluciona_bien [registro] l (update_rows (Store.id registro) res ahora l).
Proof.
  intros Hres. induction l as [|r l IH]; intros Hsame; cbn; constructor.
  - destruct (Z.eqb_spec (Store.id r) (Store.id registro)) as [E|E];
      [|left; reflexivity].
    right. rewrite (Hsame r (or_introl eq_refl) E).
    split; [left; reflexivity|]. eauto.
  - apply IH. intros fila Hin. apply Hsame. right. exact Hin.
Qed.

Lemma evoluciona_bien_cons registro resto l l1 l2 :
  ~ In (Store.id registro) (map Store.id resto) ->
  evoluciona_bien [registro] l l1 -> evoluciona_bien resto l1 l2 ->
  evoluciona_bien (registro :: resto) l l2.
Proof.
  intros Hni H1. revert l2. induction H1 as [|r r1 l l1 Hr _ IH];
    intros l2 H2; inversion H2 as [|? r2 ? l2' Hr2 H2']; subst;
    constructor; [|apply IH; exact H2'].
  destruct Hr as [->|[Hin (res & ahora & Hres & ->)]].
  - destruct Hr2 as [->|[Hin2 Hex]]; [left; reflexivity|].
    right. split; [right; exact Hin2|exact Hex].
  - destruct Hin as [Hi|[]]. subst r.
    destruct Hr2 as [->|[Hin2 _]].
    + right. split; [left; reflexivity|eauto].
    + exfalso. apply Hni.
      change (Store.id registro)
        with (Store.id (actualizar_fila res ahora registro)).
      apply in_map. exact Hin2.
Qed.

Lemma bucle_bien env svc registros :
  forall resultados w out w',
    NoDup (map Store.id registros) ->
    (forall fila reg, In fila (rows w) -> In reg registros ->
                      Store.id fila = Store.id reg -> fila = reg) ->
    bucle env svc registros resultados w = (out, w') ->
    evoluciona_bien registros (rows w) (rows w').
Proof.
  induction registros as [|registro resto IH];
    intros resultados w out w' Hnd Hsame Hb.
  - cbn in Hb. inv_pair Hb. apply evoluciona_bien_refl.
  - cbn [bucle] in Hb. unfold mbind in Hb.
    cbn [map] in Hnd. apply NoDup_cons_iff in Hnd. destruct Hnd as [Hni Hnd].
    destruct (iteracion env svc registro resultados w) as [o w1] eqn:Hi.
    assert (H1 : evoluciona_bien [registro] (rows w) (rows w1)).
    { destruct (iteracion_origen _ _ _ _ _ _ _ Hi)
        as [->|(res & ahora & Hres & ->)].
      - apply evoluciona_bien_refl.
      - apply evoluciona_bien_update; [exact Hres|].
        intros fila Hin Hid. apply (Hsame fila registro Hin); [left|];
          auto. }
    destruct o as [rs|e].
    + apply (evoluciona_bien_cons registro resto _ (rows w1));
        [exact Hni|exact H1|].
      apply (IH rs w1 out w' Hnd); [|exact Hb].
      intros fila reg Hin Hreg Hid.
      assert (Hne : Store.id fila <> Store.id registro).
      { intros E. apply Hni. rewrite <- E, Hid. apply in_map. exact Hreg. }
      assert (Hold : In fila (rows w)).
      { clear - H1 Hin Hne. induction H1 as [|r r1 l l1 Hr _ IHf];
          [destruct Hin|].
        destruct Hin as [<-|Hin]; [|right; auto].
        left. destruct Hr as [->|[Hr1 (res & ahora & _ & ->)]];
          [reflexivity|].
        exfalso. apply Hne. cbn.
        destruct Hr1 as [<-|[]]. reflexivity. }
      apply (Hsame fila reg Hold); [right; exact Hreg|exact Hid].
    + inv_pair Hb.
      apply (evoluciona_bien_cons registro resto _ (rows w'));
        [exact Hni|exact H1|apply evoluciona_bien_refl].
Qed.

Lemma batch_bien env svc w out w' :
  NoDup (map Store.id (rows w)) ->
  validar_todos_los_registros env svc w = (out, w') ->
  evoluciona_bien (pendientes w) (rows w) (rows w').
Proof.
  intros Hnd H. unfold validar_todos_los_registros, mbind in H.
  rewrite obtener_pendientes in H.
  destruct (pendientes w) as [|p l] eqn:E.
  - inv_pair H. apply evoluciona_bien_refl.
  - apply (bucle_bien env svc (p :: l) [] w out w'); [| |exact H].
    + rewrite <- E. apply pendientes_NoDup. exact Hnd.
    + intros fila reg Hin Hreg Hid. rewrite <- E in Hreg.
      apply pendientes_in in Hreg. destruct Hreg as [Hreg _].
      apply (NoDup_id_eq _ _ _ Hnd Hin Hreg Hid).
Qed.

(** The kind of an outcome computed for a record that holds something. *)
Lemma resultado_de_tipo registro res :
  (flag (tiene_oc registro) = true \/ flag (tiene_factura registro) = true) ->
  resultado_de registro res ->
  (r_es_anomalia res = false -> r_tipo_anomalia res = None)
  /\ (r_es_anomalia res = true ->
      exists t, r_tipo_anomalia res = Some t /\ In t tipos_de_anomalia
                /\ t <> TipoAnomalia.SIN_OC_NI_FACTURA).
Proof.
  intros Hflags [(svc & w & w' & Hrun)|[e ->]].
  2:{ split; [discriminate|]. intros _. eexists. split; [reflexivity|].
      split; [cbn; tauto|discriminate]. }
  pose proof (tras_extraer_campos svc registro w (resultado_inicial registro))
    as (_ & _ & _ & _ & C5 & C6 & _).
  unfold tipos_de_anomalia.
  destruct (validar_casos _ _ _ _ _ Hrun)
    as [(Hf & Ho & _ & Hout)|[(_ & _ & _ & Hout)|[(_ & _ & _ & Hout)
       |[(_ & _ & _ & _ & Hout)
        |(_ & _ & kv & d & otro & _ & _ & Hc)]]]].
  - destruct Hflags; congruence.
  - inversion Hout; subst res; cbn. split; [discriminate|]. intros _.
    eexists. split; [reflexivity|]. split; [cbn; tauto|discriminate].
  - inversion Hout; subst res; cbn. split; [discriminate|]. intros _.
    eexists. split; [reflexivity|]. split; [cbn; tauto|discriminate].
  - inversion Hout; subst res; cbn. split; [discriminate|]. intros _.
    eexists. split; [reflexivity|]. split; [cbn; tauto|discriminate].
  - destruct Hc as [(e & _ & Hout)|(texto & _ & Hout)]; [discriminate Hout|].
    inversion Hout; subst res; cbn.
    destruct (todo_coincide texto); cbn; split; try discriminate; auto.
    intros _. eexists. split; [reflexivity|].
    split; [cbn; tauto|discriminate].
Qed.

Lemma actualizar_fila_coherente res ahora r :
  fila_coherente r -> resultado_de r res ->
  fila_coherente (actualizar_fila res ahora r).
Proof.
  intros (H1 & H2 & H3 & H4 & _ & _) Hres.
  destruct (resultado_de_tipo r res H3 Hres) as [Ha Hb].
  unfold fila_coherente. cbn. auto 10.
Qed.

Lemma nuevo_registro_coherente new_id ahora f ocs :
  (f = None \/ exists c b, f = Some (c :: b)) ->
  ((exists c b, f = Some (c :: b)) \/ ocs <> []) ->
  fila_coherente (Handler.nuevo_registro new_id ahora f ocs).
Proof.
  intros Hf Hany. unfold fila_coherente, num_ordenes. cbn.
  split.
  { destruct ocs; reflexivity. }
  split; [reflexivity|]. split.
  { destruct Hany as [(c & b & ->)|Hne]; [right; reflexivity|].
    left. destruct ocs; [congruence|reflexivity]. }
  split.
  { destruct ocs; cbn; split; intros H; try discriminate; lia. }
  split; [reflexivity|discriminate].
Qed.

(** What a request adds to the rows. *)
Lemma webhook_fila h env sub w resp w' :
  Handler.receive_webhook h env sub w = (resp, w') ->
  rows w' = rows w
  \/ exists fila, rows w' = rows w ++ [fila] /\ fila_coherente fila.
Proof.
  unfold Handler.receive_webhook, Handler.receive_webhook_body.
  intros H.
  destruct (Handler.procesar_ocs h (Handler.ordenes_de_compra sub))
    as [ocs|e]; [|inv_pair H; left; auto].
  assert (Hb64 : Handler.procesar_factura (Handler.factura sub) = None
                 \/ exists c b, Handler.procesar_factura (Handler.factura sub)
                                = Some (c :: b)).
  { destruct (Handler.factura sub) as [f|] eqn:Ef; [|left; reflexivity].
    unfold Handler.procesar_factura.
    destruct (Handler.file_content f) as [|x l] eqn:E; [left; reflexivity|].
    right. destruct (b64encode (x :: l)) as [|c b] eqn:Eb; [|eauto].
    exfalso. apply (b64encode_nonempty (x :: l)); [discriminate|exact Eb]. }
  match type of H with
  | context [if ?c then _ else _] => destruct c eqn:Hc
  end; [inv_pair H; left; auto|].
  unfold mbind, Handler._guardar_registro_sync, write_session, ret in H.
  destruct (db_fault env (tick w)); inv_pair H; cbn; [left; auto|].
  right. eexists. split; [reflexivity|].
  apply nuevo_registro_coherente; [exact Hb64|].
  destruct Hb64 as [Hn|Hs]; [|left; exact Hs].
  right. rewrite Hn in Hc. destruct ocs; [discriminate Hc|discriminate].
Qed.

(** X19.  Every row of every store reached from the empty one by requests
    to the webhook and runs of the batch is coherent: [tiene_oc] tells
    whether the list of orders is non-empty and [tiene_factura] whether
    the invoice text is; the row holds an invoice or purchase orders, so
    it never lacks both; it is an anomaly exactly when it has a kind, and
    the kind is one of the five of [TipoAnomalia] other than
    [sin_oc_ni_factura], which no stored row ever gets. *)
Theorem reachable_rows_are_coherent (w : World) :
  alcanzable w ->
  Forall fila_coherente (rows w)
  /\ forall r, In r (rows w) ->
       tipo_anomalia r <> Some TipoAnomalia.SIN_OC_NI_FACTURA.
Proof.
  intros Ha.
  assert (Hall : Forall fila_coherente (rows w)).
  { induction Ha as [|w w' Ha IH Hp]; [constructor|].
    destruct (alcanzable_bien w Ha) as [[Hnd _] _].
    destruct Hp as [h env sub Hw|env svc Hw].
    - destruct (Handler.receive_webhook h env sub w) as [resp w0] eqn:E.
      cbn in Hw. subst w0.
      destruct (webhook_fila _ _ _ _ _ _ E) as [->|(fila & -> & Hf)];
        [exact IH|].
      apply Forall_app. split; [exact IH|]. constructor; [exact Hf|constructor].
    - destruct (validar_todos_los_registros env svc w) as [out w0] eqn:E.
      cbn in Hw. subst w0.
      pose proof (batch_bien _ _ _ _ _ Hnd E) as Hev.
      clear - Hev IH. induction Hev as [|r r' l l' Hr _ IHf]; [constructor|].
      inversion IH; subst. constructor; [|auto].
      destruct Hr as [->|[_ (res & ahora & Hres & ->)]]; [assumption|].
      apply actualizar_fila_coherente; assumption. }
  split; [exact Hall|].
  intros r Hin. rewrite Forall_forall in Hall.
  destruct (Hall r Hin) as (_ & _ & _ & _ & Hf & Ht).
  destruct (es_anomalia r).
  - destruct (Ht eq_refl) as (t & -> & _ & Hne). congruence.
  - rewrite (Hf eq_refl). discriminate.
Qed.

Lemma reachable_rows_are_coherent_witness :
  Forall fila_coherente (rows mundo_uno)
  /\ forall r, In r (rows mundo_uno) ->
       tipo_anomalia r <> Some TipoAnomalia.SIN_OC_NI_FACTURA.
Proof.
  apply (reachable_rows_are_coherent mundo_uno). exact mundo_uno_alcanzable.
Defined.

(* ===================================================================== *)
(** * The PDFs of the report: files, uploads and links *)
(* ===================================================================== *)

Import Vocabulary Fixtures2.

Section PdfProofs.

Import Base64 Report Externo.

(** ** Splitting and joining text *)

Lemma split_char_cons sep s : exists x l, split_char sep s = x :: l.
Proof.
  induction s as [|c s IH]; cbn; [eauto|].
  destruct (char_eqb c sep); [eauto|].
  destruct IH as (x & l & ->). eauto.
Qed.

Lemma split_char_sin sep s :
  ~ In sep s -> split_char sep s = [s].
Proof.
  induction s as [|c s IH]; intros Hn; [reflexivity|].
  cbn. destruct (char_eqb c sep) eqn:E.
  - apply N.eqb_eq in E. exfalso. apply Hn. left. exact E.
  - rewrite IH; [reflexivity|]. intros H. apply Hn. right. exact H.
Qed.

Lemma split_char_app sep a b :
  split_char sep (a ++ sep :: b) = split_char sep a ++ split_char sep b.
Proof.
  induction a as [|c a IH].
  - cbn. unfold char_eqb. rewrite N.eqb_refl. reflexivity.
  - cbn [app split_char]. rewrite IH.
    destruct (split_char_cons sep a) as (x & l & ->).
    destruct (char_eqb c sep); reflexivity.
Qed.

Lemma last_split_char sep a b :
  ~ In sep b -> last (split_char sep (a ++ sep :: b)) [] = b.
Proof.
  intros Hb. rewrite split_char_app, (split_char_sin sep b Hb).
  apply last_last.
Qed.

Lemma contains_char c s : contains [c] s = false <-> ~ In c s.
Proof.
  induction s as [|x s IH]; cbn.
  - tauto.
  - unfold char_eqb. rewrite andb_true_r.
    destruct (N.eqb c x) eqn:E; cbn.
    + apply N.eqb_eq in E. split; [discriminate|]. intros H. exfalso.
      apply H. left. symmetry. exact E.
    + apply N.eqb_neq in E. rewrite IH. split.
      * intros H [H1|H1]; [congruence|tauto].
      * intros H H1. apply H. right. exact H1.
Qed.

Lemma startswith_app p q : startswith p (p ++ q) = true.
Proof.
  induction p as [|c p IH]; [reflexivity|].
  cbn. unfold char_eqb. rewrite N.eqb_refl. exact IH.
Qed.

Lemma endswith_app a suf : endswith suf (a ++ suf) = true.
Proof.
  unfold endswith. rewrite rev_app_distr. apply startswith_app.
Qed.

(** ** Paths *)

Lemma join_snoc sep l x :
  l <> [] -> join sep (l ++ [x]) = join sep l ++ sep ++ x.
Proof.
  induction l as [|y l IH]; intros Hl; [congruence|].
  destruct l as [|z l].
  - reflexivity.
  - change (join sep ((y :: z :: l) ++ [x]))
      with (y ++ sep ++ join sep ((z :: l) ++ [x])).
    rewrite IH by discriminate.
    change (join sep (y :: z :: l)) with (y ++ sep ++ join sep (z :: l)).
    rewrite <- !app_assoc. reflexivity.
Qed.

(** A name without a slash, other than the empty text and the dot, is a
    path of one part. *)
Lemma Path_of_nombre nm :
  ~ In 47%N nm -> es_parte nm = true ->
  Path_of_str nm = {| raiz := []; partes := [nm] |}.
Proof.
  intros Hn Hp. unfold Path_of_str.
  rew (split_char_sin 47%N nm Hn). cbn [filter]. unfold str, char in *. rewrite Hp.
  f_equal. unfold raiz_de.
  destruct nm as [|c nm]; [reflexivity|].
  assert (Hc : char_eqb 47 c = false).
  { apply N.eqb_neq. intros E. subst c. apply Hn. left. reflexivity. }
  change (lit "///") with [47%N; 47%N; 47%N]. change (lit "//") with [47%N; 47%N].
  change (lit "/") with [47%N]. cbn [startswith]. rewrite Hc. reflexivity.
Qed.

(** The text of [dir / 'pdf' / name] ends with a slash and the name. *)
Lemma ruta_pdf cfg nm :
  ~ In 47%N nm -> es_parte nm = true ->
  exists pre,
    str_of_Path (truediv (pdf_dir cfg) nm) = pre ++ 47%N :: nm.
Proof.
  intros Hn Hp. unfold truediv at 1. rewrite (Path_of_nombre nm Hn Hp).
  cbn [raiz partes str_truthy].
  unfold pdf_dir, truediv.
  assert (Hpdf : Path_of_str (lit "pdf")
                 = {| raiz := []; partes := [lit "pdf"] |}) by reflexivity.
  rewrite Hpdf. cbn [raiz partes str_truthy].
  set (l := partes (reports_dir cfg) ++ [lit "pdf"]).
  assert (Hl : l <> []).
  { unfold l. destruct (partes (reports_dir cfg)); discriminate. }
  unfold str_of_Path. cbn [raiz partes].
  rew (join_snoc (lit "/") l nm Hl).
  exists (raiz (reports_dir cfg) ++ join (lit "/") l).
  assert (Hne : l ++ [nm] <> []) by (destruct l; discriminate).
  destruct (raiz (reports_dir cfg)) as [|c r].
  - clearbody l. destruct l as [|y l1]; [congruence|].
    cbn [app]. reflexivity.
  - rewrite <- app_assoc. reflexivity.
Qed.

Lemma str_of_uint_digitos u : Forall (fun c => is_digit c = true) (str_of_uint u).
Proof. induction u; cbn; constructor; auto. Qed.

Lemma str_of_int_sin_barra z : ~ In 47%N (str_of_int z).
Proof.
  assert (H : forall u, ~ In 47%N (str_of_uint u)).
  { intros u Hin. pose proof (str_of_uint_digitos u) as Hd.
    rewrite Forall_forall in Hd. specialize (Hd _ Hin). discriminate. }
  unfold str_of_int. destruct (z <? 0)%Z.
  - intros [Hc|Hc]; [discriminate|]. exact (H _ Hc).
  - apply H.
Qed.

Lemma pdf_name_nombre strftime r :
  sin_barra strftime ->
  ~ In 47%N (pdf_name strftime r) /\ es_parte (pdf_name strftime r) = true.
Proof.
  intros Hs. split.
  - unfold pdf_name, format_datetime. rewrite !in_app_iff.
    intros [H|[H|[H|[H|H]]]].
    + cbn in H. intuition discriminate.
    + exact (str_of_int_sin_barra _ H).
    + cbn in H. intuition discriminate.
    + exact (Hs _ _ H).
    + cbn in H. intuition discriminate.
  - reflexivity.
Qed.

(** ** One outcome *)

Lemma sistema_eta (s : Sistema) : s = {| db := db s; fuera := fuera s ++ [] |}.
Proof. destruct s. cbn. rewrite app_nil_r. reflexivity. Qed.

Lemma largo_eq b :
  (str_truthy b && (100 <? length b)%nat)%bool = (100 <? length b)%nat.
Proof. destruct b; [reflexivity|]. reflexivity. Qed.

(** Runs one turn of the loop through every answer of the outside
    world. *)
Ltac casos_pdf cfg ext strftime r s b :=
  unfold procesar_pdf, largo;
  destruct (factura_base64_raw r) as [b|];
  [ rewrite (largo_eq b);
    destruct (100 <? length b)%nat eqn:Elen;
    [ unfold subir_pdf, fbind, puro, upload_to_drive;
      fold (ruta_temporal cfg strftime r);
      fold (subida_de_pdf cfg strftime r);
      destruct (sin_cabecera b) as [b1|?];
      [ destruct (b64decode b1) as [bytes|?];
        [ destruct (open_write ext (ahora s) (ruta_temporal cfg strftime r));
          [ | destruct (files_create ext _ _) as [file_id|?];
              [ destruct (path_exists ext _ _);
                [ destruct (os_remove ext _ _) | ]
              | ] ]
        | ]
      | ]
    | ]
  | ].

Ltac fin_sistema s :=
  destruct s; unfold anotar; cbn [db fuera];
  rewrite <- ?app_assoc; cbn [app]; rewrite ?app_nil_r; reflexivity.

(** X20.  One turn of [_procesar_pdfs_y_subir] never raises and leaves
    the outcome as it is but for its link.  Without an invoice text of
    more than 100 characters nothing is done and the link is N/A.
    Otherwise the file is written, uploaded and removed, in this order,
    and the work stops at the first failure: the link is the one of
    Drive only when the upload succeeded and the removal did not fail;
    in every other case it is 'Error al subir', also when the file did
    reach Drive but could not be removed; a file whose upload failed is
    not removed. *)
Theorem pdf_step_outcomes (cfg : Settings) (ext : Exterior)
    (strftime : Z -> str -> str) (r : Resultado) (s : Sistema) :
  exists link evs,
    procesar_pdf cfg ext strftime r s
    = (Ok {| res := r; drive_link := Some link |},
       {| db := db s; fuera := fuera s ++ evs |})
    /\ (largo r = false -> evs = [] /\ link = NA)
    /\ (largo r = true ->
        let p := ruta_temporal cfg strftime r in
        let req := subida_de_pdf cfg strftime r in
        (evs = [] /\ link = ERROR_AL_SUBIR)
        \/ exists bytes,
             (evs = [FileWrite p bytes false] /\ link = ERROR_AL_SUBIR)
             \/ (evs = [FileWrite p bytes true; DriveCreate req false]
                 /\ link = ERROR_AL_SUBIR)
             \/ (evs = [FileWrite p bytes true; DriveCreate req true;
                        FileRemove p false]
                 /\ link = ERROR_AL_SUBIR)
             \/ exists file_id,
                  link = DRIVE_PREFIX ++ fmt_opt file_id ++ lit "/view"
                  /\ (evs = [FileWrite p bytes true; DriveCreate req true;
                             FileRemove p true]
                      \/ evs = [FileWrite p bytes true;
                                DriveCreate req true])).
Proof.
  casos_pdf cfg ext strftime r s b.
  - exists ERROR_AL_SUBIR, [FileWrite (ruta_temporal cfg strftime r) bytes false].
    split; [fin_sistema s|]. split; [discriminate|].
    intros _. right. exists bytes. left. split; reflexivity.
  - exists ERROR_AL_SUBIR,
      [FileWrite (ruta_temporal cfg strftime r) bytes true;
       DriveCreate (subida_de_pdf cfg strftime r) true;
       FileRemove (ruta_temporal cfg strftime r) false].
    split; [fin_sistema s|]. split; [discriminate|].
    intros _. right. exists bytes. right. right. left. split; reflexivity.
  - exists (DRIVE_PREFIX ++ fmt_opt file_id ++ lit "/view"),
      [FileWrite (ruta_temporal cfg strftime r) bytes true;
       DriveCreate (subida_de_pdf cfg strftime r) true;
       FileRemove (ruta_temporal cfg strftime r) true].
    split; [fin_sistema s|]. split; [discriminate|].
    intros _. right. exists bytes. right. right. right. exists file_id.
    split; [reflexivity|]. left. reflexivity.
  - exists (DRIVE_PREFIX ++ fmt_opt file_id ++ lit "/view"),
      [FileWrite (ruta_temporal cfg strftime r) bytes true;
       DriveCreate (subida_de_pdf cfg strftime r) true].
    split; [fin_sistema s|]. split; [discriminate|].
    intros _. right. exists bytes. right. right. right. exists file_id.
    split; [reflexivity|]. right. reflexivity.
  - exists ERROR_AL_SUBIR,
      [FileWrite (ruta_temporal cfg strftime r) bytes true;
       DriveCreate (subida_de_pdf cfg strftime r) false].
    split; [fin_sistema s|]. split; [discriminate|].
    intros _. right. exists bytes. right. left. split; reflexivity.
  - exists ERROR_AL_SUBIR, []. split; [fin_sistema s|].
    split; [discriminate|]. intros _. left. split; reflexivity.
  - exists ERROR_AL_SUBIR, []. split; [fin_sistema s|].
    split; [discriminate|]. intros _. left. split; reflexivity.
  - exists NA, []. split; [fin_sistema s|].
    split; [intros _; split; reflexivity|discriminate].
  - exists NA, []. split; [fin_sistema s|].
    split; [intros _; split; reflexivity|discriminate].
Qed.

(** ** The whole list *)

Lemma enlace_no_NA x : DRIVE_PREFIX ++ x <> NA.
Proof. discriminate. Qed.

Lemma procesar_pdf_resumen cfg ext strftime r s :
  exists link evs,
    procesar_pdf cfg ext strftime r s
    = (Ok {| res := r; drive_link := Some link |},
       {| db := db s; fuera := fuera s ++ evs |})
    /\ (link = NA <-> largo r = false)
    /\ (link = NA \/ link = ERROR_AL_SUBIR
        \/ startswith DRIVE_PREFIX link = true)
    /\ forallb de_archivos evs = true
    /\ (length (filter es_subida evs) <= length (filter largo [r]))%nat.
Proof.
  assert (Herr : ERROR_AL_SUBIR = NA <-> true = false)
    by (split; discriminate).
  assert (Hlink : forall x, DRIVE_PREFIX ++ x = NA <-> true = false).
  { intros x. split; [|discriminate]. intros H.
    exfalso. exact (enlace_no_NA x H). }
  cbn [filter]. casos_pdf cfg ext strftime r s b.
  - exists ERROR_AL_SUBIR, [FileWrite (ruta_temporal cfg strftime r) bytes false].
    split; [fin_sistema s|]. split; [exact Herr|].
    split; [right; left; reflexivity|]. split; [reflexivity|]. cbn. lia.
  - exists ERROR_AL_SUBIR,
      [FileWrite (ruta_temporal cfg strftime r) bytes true;
       DriveCreate (subida_de_pdf cfg strftime r) true;
       FileRemove (ruta_temporal cfg strftime r) false].
    split; [fin_sistema s|]. split; [exact Herr|].
    split; [right; left; reflexivity|]. split; [reflexivity|]. cbn. lia.
  - exists (DRIVE_PREFIX ++ fmt_opt file_id ++ lit "/view"),
      [FileWrite (ruta_temporal cfg strftime r) bytes true;
       DriveCreate (subida_de_pdf cfg strftime r) true;
       FileRemove (ruta_temporal cfg strftime r) true].
    split; [fin_sistema s|]. split; [apply Hlink|].
    split; [right; right; apply startswith_app|].
    split; [reflexivity|]. cbn. lia.
  - exists (DRIVE_PREFIX ++ fmt_opt file_id ++ lit "/view"),
      [FileWrite (ruta_temporal cfg strftime r) bytes true;
       DriveCreate (subida_de_pdf cfg strftime r) true].
    split; [fin_sistema s|]. split; [apply Hlink|].
    split; [right; right; apply startswith_app|].
    split; [reflexivity|]. cbn. lia.
  - exists ERROR_AL_SUBIR,
      [FileWrite (ruta_temporal cfg strftime r) bytes true;
       DriveCreate (subida_de_pdf cfg strftime r) false].
    split; [fin_sistema s|]. split; [exact Herr|].
    split; [right; left; reflexivity|]. split; [reflexivity|]. cbn. lia.
  - exists ERROR_AL_SUBIR, []. split; [fin_sistema s|].
    split; [exact Herr|]. split; [right; left; reflexivity|].
    split; [reflexivity|]. cbn. lia.
  - exists ERROR_AL_SUBIR, []. split; [fin_sistema s|].
    split; [exact Herr|]. split; [right; left; reflexivity|].
    split; [reflexivity|]. cbn. lia.
  - exists NA, []. split; [fin_sistema s|].
    split; [tauto|]. split; [left; reflexivity|].
    split; [reflexivity|]. cbn. lia.
  - exists NA, []. split; [fin_sistema s|].
    split; [tauto|]. split; [left; reflexivity|].
    split; [reflexivity|]. cbn. lia.
Qed.

(** X21.  [_procesar_pdfs_y_subir] never raises and never touches the
    store.  It returns the outcomes in their order, each with a link:
    N/A exactly for the outcomes without an invoice text of more than
    100 characters, and otherwise 'Error al subir' or a link of Drive.
    All it does outside is writing, uploading and removing files, with
    at most one upload for each outcome that has such a text. *)
Theorem pdf_links_never_fail (cfg : Settings) (ext : Exterior)
    (strftime : Z -> str -> str) (resultados : list Resultado)
    (s : Sistema) :
  exists es evs,
    _procesar_pdfs_y_subir cfg ext strftime resultados s
    = (Ok es, {| db := db s; fuera := fuera s ++ evs |})
    /\ map res es = resultados
    /\ Forall (fun e =>
                 exists link,
                   drive_link e = Some link
                   /\ (link = NA <-> largo (res e) = false)
                   /\ (link = NA \/ link = ERROR_AL_SUBIR
                       \/ startswith DRIVE_PREFIX link = true)) es
    /\ forallb de_archivos evs = true
    /\ (length (filter es_subida evs)
        <= length (filter largo resultados))%nat.
Proof.
  revert s. induction resultados as [|r resto IH]; intros s.
  - exists [], []. cbn. split; [rewrite <- sistema_eta; reflexivity|].
    repeat split; auto.
  - destruct (procesar_pdf_resumen cfg ext strftime r s)
      as (link & evs1 & H1 & Hna & Hforma & Hev1 & Hn1).
    destruct (IH {| db := db s; fuera := fuera s ++ evs1 |})
      as (es & evs2 & H2 & Hmap & Hall & Hev2 & Hn2).
    exists ({| res := r; drive_link := Some link |} :: es), (evs1 ++ evs2).
    split.
    { cbn [_procesar_pdfs_y_subir]. unfold fbind at 1. rewrite H1.
      unfold fbind at 1. rewrite H2. cbn [db fuera fret].
      rewrite app_assoc. reflexivity. }
    split; [cbn; rewrite Hmap; reflexivity|].
    split.
    { constructor; [|exact Hall]. exists link. cbn. auto. }
    split; [rewrite forallb_app, Hev1, Hev2; reflexivity|].
    rewrite filter_app, length_app.
    change (r :: resto) with ([r] ++ resto).
    rewrite (filter_app largo [r] resto), length_app. lia.
Qed.

(** A store and an outside world in which Drive is down: the invoice of
    the record is written, its upload fails, and the link says so. *)
Lemma pdf_links_never_fail_witness :
  exists es evs,
    _procesar_pdfs_y_subir cfg_demo ext_sin_drive strftime_demo
      [resultado_76] sistema_inicial
    = (Ok es, {| db := db sistema_inicial; fuera := evs |})
    /\ map drive_link es = [Some ERROR_AL_SUBIR]
    /\ length evs = 2%nat.
Proof.
  destruct (pdf_links_never_fail cfg_demo ext_sin_drive strftime_demo
              [resultado_76] sistema_inicial)
    as (es & evs & H & _).
  exists es, evs. split; [exact H|].
  vm_compute in H. inversion H. split; reflexivity.
Defined.

(** ** An invoice stored by the webhook *)

Lemma b64encode_length data :
  length (b64encode data) = (4 * ((length data + 2) / 3))%nat.
Proof.
  induction data as [| | |a b c rest IH] using tercias_ind;
    try reflexivity.
  change (length (b64encode (a :: b :: c :: rest)))
    with (4 + length (b64encode rest))%nat.
  rewrite IH. cbn [length].
  replace (S (S (S (length rest))) + 2)%nat
    with (length rest + 2 + 1 * 3)%nat by lia.
  rewrite Nat.div_add by discriminate. lia.
Qed.

Lemma b64_char_no_coma n : b64_char n <> 44%N.
Proof.
  unfold b64_char.
  destruct (n <? 26)%N eqn:E1; [apply N.ltb_lt in E1; lia|].
  destruct (n <? 52)%N eqn:E2; [apply N.ltb_lt in E2; lia|].
  destruct (n <? 62)%N eqn:E3;
    [apply N.ltb_lt in E3; apply N.ltb_ge in E2; lia|].
  destruct (n =? 62)%N; discriminate.
Qed.

Lemma sin_cabecera_encode data :
  Forall (fun b => (b < 256)%N) data ->
  sin_cabecera (b64encode data) = Ok (b64encode data).
Proof.
  intros Hd. unfold sin_cabecera.
  assert (H : contains (lit ",") (b64encode data) = false).
  { change (lit ",") with [44%N]. apply contains_char. intros Hin.
    pose proof (b64encode_chars data Hd) as Hc.
    rewrite Forall_forall in Hc. destruct (Hc _ Hin) as [E|(n & _ & E)].
    - discriminate.
    - symmetry in E. exact (b64_char_no_coma n E). }
  rewrite H. reflexivity.
Qed.

Lemma b64decode_encode data :
  Forall (fun b => (b < 256)%N) data ->
  b64decode (b64encode data) = Ok data.
Proof.
  intros Hd. unfold b64decode.
  assert (Ha : forallb (fun c => (c <? 128)%N) (b64encode data) = true).
  { apply forallb_forall. intros c Hc.
    pose proof (b64encode_limpio data Hd) as Hl.
    rewrite Forall_forall in Hl. apply (Hl c Hc). }
  rewrite Ha. apply a2b_encode. exact Hd.
Qed.

Lemma pdf_name_sufijo strftime r :
  exists x, pdf_name strftime r = x ++ lit ".pdf".
Proof.
  unfold pdf_name. eexists. rewrite !app_assoc. reflexivity.
Qed.

Lemma lower_app a b : lower (a ++ b) = lower a ++ lower b.
Proof. apply map_app. Qed.

(** The request for the temporary file of an outcome. *)
Lemma subida_de_pdf_spec cfg strftime r :
  sin_barra strftime ->
  subida_de_pdf cfg strftime r
  = {| name := pdf_name strftime r;
       parents := target_folder cfg
                    (Some (GOOGLE_DRIVE_INVOICES_FOLDER_ID cfg));
       mimetype := MIME_PDF;
       media := ruta_temporal cfg strftime r |}
  /\ endswith (47%N :: pdf_name strftime r) (ruta_temporal cfg strftime r)
     = true.
Proof.
  intros Hs. destruct (pdf_name_nombre strftime r Hs) as [Hn Hp].
  destruct (ruta_pdf cfg (pdf_name strftime r) Hn Hp) as (pre & Hr).
  fold (ruta_temporal cfg strftime r) in Hr.
  split.
  - unfold subida_de_pdf, solicitud. rewrite Hr.
    rew (last_split_char 47%N pre (pdf_name strftime r) Hn).
    destruct (pdf_name_sufijo strftime r) as (x & Hx).
    assert (Hm : endswith (lit ".pdf")
                   (lower (pre ++ 47%N :: pdf_name strftime r)) = true).
    { rewrite Hx.
      change (pre ++ 47%N :: x ++ lit ".pdf")
        with (pre ++ (47%N :: x) ++ lit ".pdf").
      rewrite app_assoc, lower_app.
      change (lower (lit ".pdf")) with (lit ".pdf").
      apply endswith_app. }
    rewrite Hm. reflexivity.
  - rewrite Hr. apply (endswith_app pre (47%N :: pdf_name strftime r)).
Qed.

(** X22.  The invoice received by the webhook reaches Drive unchanged.
    When the outside world works and the outcome carries the base64 text
    of a file, a file of at most 75 bytes is skipped (its text has at
    most 100 characters): nothing is done and the link is N/A.  A larger
    file is written to the temporary path with exactly its bytes,
    uploaded as a PDF under the name Factura_<id>_<date>.pdf, which is
    the last component of the temporary path, and removed; the link is
    the one of the id answered by Drive. *)
Theorem stored_invoice_reaches_drive (cfg : Settings) (ext : Exterior)
    (strftime : Z -> str -> str) (r : Resultado) (data : list N)
    (s : Sistema) :
  exterior_sano ext ->
  sin_barra strftime ->
  Forall (fun b => (b < 256)%N) data ->
  factura_base64_raw r = Some (b64encode data) ->
  ((length data <= 75)%nat ->
   procesar_pdf cfg ext strftime r s
   = (Ok {| res := r; drive_link := Some NA |}, s))
  /\ ((75 < length data)%nat ->
      let p := ruta_temporal cfg strftime r in
      exists file_id,
        procesar_pdf cfg ext strftime r s
        = (Ok {| res := r;
                 drive_link :=
                   Some (DRIVE_PREFIX ++ file_id ++ lit "/view") |},
           {| db := db s;
              fuera :=
                fuera s
                ++ [FileWrite p data true;
                    DriveCreate
                      {| name := pdf_name strftime r;
                         parents :=
                           target_folder cfg
                             (Some (GOOGLE_DRIVE_INVOICES_FOLDER_ID cfg));
                         mimetype := MIME_PDF;
                         media := p |} true;
                    FileRemove p true] |})
        /\ endswith (47%N :: pdf_name strftime r) p = true).
Proof.
  intros (Hw & Hex & Hrm & Hup) Hs Hd Hraw.
  pose proof (b64encode_length data) as Hlen.
  split.
  - intros Hle. unfold procesar_pdf. rewrite Hraw, largo_eq.
    assert (E : (100 <? length (b64encode data))%nat = false).
    { apply Nat.ltb_ge. rewrite Hlen.
      assert ((length data + 2) / 3 <= 25)%nat.
      { apply Nat.lt_succ_r. apply Nat.Div0.div_lt_upper_bound. lia. }
      lia. }
    unfold str, char in *. rewrite E. reflexivity.
  - intros Hgt p.
    destruct (subida_de_pdf_spec cfg strftime r Hs) as [Hreq Hend].
    destruct (Hup (S (ahora s)) (subida_de_pdf cfg strftime r))
      as (file_id & Hid).
    exists file_id. split; [|exact Hend].
    unfold procesar_pdf. rewrite Hraw, largo_eq.
    assert (E : (100 <? length (b64encode data))%nat = true).
    { apply Nat.ltb_lt. rewrite Hlen.
      assert (26 <= (length data + 2) / 3)%nat.
      { apply Nat.div_le_lower_bound; lia. }
      lia. }
    unfold str, char in *. rewrite E.
    unfold subir_pdf, fbind, puro, upload_to_drive.
    rewrite (sin_cabecera_encode data Hd), (b64decode_encode data Hd).
    fold (ruta_temporal cfg strftime r).
    fold (subida_de_pdf cfg strftime r). fold p.
    rewrite Hw.
    assert (Ht : ahora (anotar (FileWrite p data true) s) = S (ahora s)).
    { unfold ahora, anotar. cbn [fuera]. rewrite length_app. cbn. lia. }
    rewrite Ht, Hid, Hex, Hrm, Hreq. cbn [fmt_opt]. subst p.
    f_equal. fin_sistema s.
Qed.

(** The invoice of 76 bytes is uploaded under its name. *)
Lemma stored_invoice_reaches_drive_witness :
  exists file_id,
    procesar_pdf cfg_demo ext_sano strftime_demo resultado_76
      sistema_inicial
    = (Ok {| res := resultado_76;
             drive_link :=
               Some (DRIVE_PREFIX ++ file_id ++ lit "/view") |},
       {| db := db sistema_inicial;
          fuera :=
            [FileWrite (lit "/srv/app/reports/pdf/Factura_7_20240131.pdf")
               factura_76 true;
             DriveCreate
               {| name := lit "Factura_7_20240131.pdf";
                  parents := Some (lit "F-FACTURAS");
                  mimetype := MIME_PDF;
                  media :=
                    lit "/srv/app/reports/pdf/Factura_7_20240131.pdf" |}
               true;
             FileRemove (lit "/srv/app/reports/pdf/Factura_7_20240131.pdf")
               true] |}).
Proof.
  assert (Hsano : exterior_sano ext_sano).
  { repeat split. intros t req. eexists. reflexivity. }
  assert (Hbarra : sin_barra strftime_demo).
  { intros dt f. apply str_of_int_sin_barra. }
  assert (Hbytes : Forall (fun b => (b < 256)%N) factura_76).
  { apply Forall_forall. intros x Hx. apply repeat_spec in Hx. subst x.
    reflexivity. }
  destruct (stored_invoice_reaches_drive cfg_demo ext_sano strftime_demo
              resultado_76 factura_76 sistema_inicial
              Hsano Hbarra Hbytes eq_refl) as [_ H].
  destruct H as (file_id & H & _).
  - vm_compute. lia.
  - exists file_id. exact H.
Defined.

End PdfProofs.

(* ===================================================================== *)
(** * One run of the orchestrator *)
(* ===================================================================== *)

Import Vocabulary Fixtures2.

Section RunProofs.

Import Base64 Report Externo.

(** ** The batch returns an outcome for a pending record *)

Lemma iteracion_crece env svc registro resultados w res w' :
  iteracion env svc registro resultados w = (Ok res, w') -> res <> [].
Proof.
  unfold iteracion, cuerpo_try. intros Hi.
  destruct (_validar_registro_individual svc registro w) as [[r|e] wv].
  - destruct (_actualizar_registro env (Store.id registro) r wv)
      as [[[]|e] wa].
    + inv_pair Hi. apply app_ne_r. discriminate.
    + unfold manejar_error, mbind, ret in Hi.
      destruct (_actualizar_registro env (Store.id registro)
                  (resultado_error registro e) wa) as [[[]|e'] wb];
        inv_pair Hi.
      apply app_ne_r. discriminate.
  - unfold manejar_error, mbind, ret in Hi.
    destruct (_actualizar_registro env (Store.id registro)
                (resultado_error registro e) wv) as [[[]|e'] wb];
      inv_pair Hi.
    apply app_ne_r. discriminate.
Qed.

Lemma validar_no_vacio env svc w res w' :
  pendientes w <> [] ->
  validar_todos_los_registros env svc w = (Ok res, w') -> res <> [].
Proof.
  intros Hp Hv. unfold validar_todos_los_registros, mbind in Hv.
  rewrite obtener_pendientes in Hv.
  destruct (pendientes w) as [|registro resto]; [congruence|].
  cbn [bucle] in Hv. unfold mbind in Hv.
  destruct (iteracion env svc registro [] w) as [[rs|e] w1] eqn:Hi;
    [|discriminate].
  destruct (bucle_prefijo _ _ _ _ _ _ _ Hv) as [suf ->].
  pose proof (iteracion_crece _ _ _ _ _ _ _ Hi) as Hrs.
  destruct rs; [congruence|discriminate].
Qed.

Lemma validar_vacio env svc w :
  pendientes w = [] ->
  validar_todos_los_registros env svc w = (Ok [], w).
Proof.
  intros Hp. unfold validar_todos_los_registros, mbind.
  rewrite obtener_pendientes, Hp. reflexivity.
Qed.

(** ** What the report does outside *)

Lemma archivos_sin_chat evs :
  forallb de_archivos evs = true -> existsb es_chat evs = false.
Proof.
  induction evs as [|ev evs IH]; [reflexivity|].
  cbn. intros H. apply andb_true_iff in H. destruct H as [H1 H2].
  rewrite (IH H2). destruct ev; try discriminate; reflexivity.
Qed.

Lemma procesar_pdfs_archivos cfg ext strftime resultados :
  forall s,
  exists es evs,
    _procesar_pdfs_y_subir cfg ext strftime resultados s
    = (Ok es, {| db := db s; fuera := fuera s ++ evs |})
    /\ map res es = resultados
    /\ forallb de_archivos evs = true.
Proof.
  induction resultados as [|r resto IH]; intros s.
  - exists [], []. cbn. rewrite <- sistema_eta. auto.
  - destruct (procesar_pdf_resumen cfg ext strftime r s)
      as (link & evs1 & H1 & _ & _ & Hev1 & _).
    destruct (IH {| db := db s; fuera := fuera s ++ evs1 |})
      as (es & evs2 & H2 & Hmap & Hev2).
    exists ({| res := r; drive_link := Some link |} :: es), (evs1 ++ evs2).
    split.
    { cbn [_procesar_pdfs_y_subir]. unfold fbind at 1. rewrite H1.
      unfold fbind at 1. rewrite H2. cbn [db fuera fret].
      rewrite app_assoc. reflexivity. }
    split; [cbn; rewrite Hmap; reflexivity|].
    rewrite forallb_app, Hev1, Hev2. reflexivity.
Qed.

Lemma existsb_snoc_chat evs ev :
  existsb es_chat evs = false -> es_chat ev = false ->
  existsb es_chat (evs ++ [ev]) = false.
Proof.
  intros H1 H2. rewrite existsb_app, H1. cbn. rewrite H2. reflexivity.
Qed.

Lemma generar_reporte_sucesos cfg ext strftime resultados s :
  exists out evs,
    generar_reporte cfg ext strftime resultados s
    = (out, {| db := db s; fuera := fuera s ++ evs |})
    /\ existsb es_chat evs = false.
Proof.
  destruct (procesar_pdfs_archivos cfg ext strftime resultados s)
    as (es & evs & Hp & _ & Hev).
  apply archivos_sin_chat in Hev.
  unfold generar_reporte. unfold fbind at 1. rewrite Hp.
  unfold fbind at 1. unfold puro.
  destruct (_preparar_datos strftime es) as [data|e].
  - unfold fbind, _crear_excel_formateado, fret.
    destruct (excel_writer ext _ _).
    + eexists. eexists. split.
      * unfold anotar. cbn [db fuera]. rewrite <- app_assoc. reflexivity.
      * apply existsb_snoc_chat; [exact Hev|reflexivity].
    + eexists. eexists. split.
      * unfold anotar. cbn [db fuera]. rewrite <- app_assoc. reflexivity.
      * apply existsb_snoc_chat; [exact Hev|reflexivity].
  - exists (Raise e), evs. split; [reflexivity|exact Hev].
Qed.

Lemma send_advice_spec ext link resumen s :
  exists ok,
    send_advice ext link resumen s
    = (Ok tt, anotar (ChatPost (texto_mensaje link resumen) ok) s).
Proof.
  unfold send_advice.
  destruct (requests_post ext (ahora s) (texto_mensaje link resumen));
    eauto.
Qed.

(** The steps of the [try] block: what they leave behind. *)
Lemma pasos_sucesos cfg ext strftime env svc s :
  forall out_v w',
    validar_todos_los_registros env svc (db s) = (out_v, w') ->
    exists out evs,
      pasos cfg ext strftime env svc s
      = (out, {| db := w'; fuera := fuera s ++ evs |})
      /\ (forall e, out_v = Raise e -> out = Raise e /\ evs = [])
      /\ (out_v = Ok [] -> out = Ok tt /\ evs = [])
      /\ (forall r rs, out_v = Ok (r :: rs) ->
            (exists e, out = Raise e /\ existsb es_chat evs = false)
            \/ (exists antes texto ok,
                  out = Ok tt /\ evs = antes ++ [ChatPost texto ok]
                  /\ existsb es_chat antes = false)).
Proof.
  intros out_v w' Hv. unfold pasos. unfold fbind at 1. unfold en_db.
  rewrite Hv. destruct out_v as [[|r rs]|e].
  - exists (Ok tt), []. unfold fret. rewrite app_nil_r.
    split; [reflexivity|]. split; [discriminate|].
    split; [auto|discriminate].
  - set (s1 := {| db := w'; fuera := fuera s |}).
    destruct (generar_reporte_sucesos cfg ext strftime (r :: rs) s1)
      as (out & evs & Hg & Hc).
    unfold fbind at 1. rewrite Hg. cbn [db fuera s1].
    destruct out as [archivo|e].
    + unfold fbind at 1. unfold upload_to_drive.
      destruct (files_create ext _ _) as [file_id|e].
      * destruct (send_advice_spec ext
                    (DRIVE_PREFIX ++ fmt_opt file_id ++ lit "/view")
                    (resumen_texto (r :: rs))
                    (anotar (DriveCreate (solicitud cfg archivo None) true)
                       {| db := w'; fuera := fuera s ++ evs |}))
          as (ok & Hs).
        rewrite Hs. eexists. eexists. split.
        { unfold anotar. cbn [db fuera]. rewrite <- !app_assoc.
          cbn [app]. reflexivity. }
        split; [discriminate|]. split; [discriminate|].
        intros r0 rs0 _. right.
        exists (evs ++ [DriveCreate (solicitud cfg archivo None) true]).
        eexists. exists ok. split; [reflexivity|].
        split; [rewrite <- app_assoc; reflexivity|].
        apply existsb_snoc_chat; [exact Hc|reflexivity].
      * exists (Raise e),
          (evs ++ [DriveCreate (solicitud cfg archivo None) false]).
        split.
        { unfold anotar. cbn [db fuera]. rewrite <- !app_assoc.
          reflexivity. }
        split; [discriminate|]. split; [discriminate|].
        intros r0 rs0 _. left. exists e. split; [reflexivity|].
        apply existsb_snoc_chat; [exact Hc|reflexivity].
    + exists (Raise e), evs. split; [reflexivity|].
      split; [discriminate|]. split; [discriminate|].
      intros r0 rs0 _. left. exists e. split; [reflexivity|exact Hc].
  - exists (Raise e), []. rewrite app_nil_r. split; [reflexivity|].
    split; [intros e0 H; inversion H; auto|].
    split; discriminate.
Qed.

(** X23.  A run never raises, and the store it leaves is the one left by
    the batch: the report writes nothing to it.  Without pending records
    nothing is done outside.  With pending records exactly one message
    is posted to the chat, and posting it is the last thing done.  When
    the batch itself raises, nothing else is done outside: the message
    is the error notice, with N/A as link and the first 200 characters
    of the text of the exception. *)
Theorem run_notifies_once (cfg : Settings) (ext : Exterior)
    (strftime : Z -> str -> str) (env : Env) (svc : OpenAIService)
    (s : Sistema) :
  exists evs,
    ejecutar_validacion cfg ext strftime env svc s
    = (Ok tt,
       {| db := snd (validar_todos_los_registros env svc (db s));
          fuera := fuera s ++ evs |})
    /\ (pendientes (db s) = [] ->
        evs = []
        /\ snd (validar_todos_los_registros env svc (db s)) = db s)
    /\ (pendientes (db s) <> [] ->
        exists antes texto ok,
          evs = antes ++ [ChatPost texto ok]
          /\ existsb es_chat antes = false)
    /\ (forall e,
          fst (validar_todos_los_registros env svc (db s)) = Raise e ->
          exists ok,
            evs = [ChatPost
                     (texto_mensaje (lit "N/A")
                        (aviso ++ lit " *ERROR CR" ++ [205%N]
                         ++ lit "TICO EN VALIDACI" ++ [211%N] ++ lit "N*"
                         ++ [10%N; 10%N] ++ lit "Error: "
                         ++ firstn 200 (str_of_exn e)))
                     ok]).
Proof.
  destruct (validar_todos_los_registros env svc (db s)) as [out_v w'] eqn:Hv.
  destruct (pasos_sucesos cfg ext strftime env svc s out_v w' Hv)
    as (out & evs & Hp & Hraise & Hnil & Hcons).
  cbn [fst snd]. unfold ejecutar_validacion. rewrite Hp.
  assert (Hfin : forall e,
            out = Raise e ->
            exists ok,
              (let (r0, s'') :=
                 send_advice ext (lit "N/A") (error_msg e)
                   {| db := w'; fuera := fuera s ++ evs |} in
               match r0 with
               | Ok _ => (Ok tt, s'')
               | Raise _ => (Ok tt, s'')
               end)
              = (Ok tt,
                 {| db := w';
                    fuera := fuera s
                             ++ evs
                             ++ [ChatPost
                                   (texto_mensaje (lit "N/A") (error_msg e))
                                   ok] |})).
  { intros e _.
    destruct (send_advice_spec ext (lit "N/A") (error_msg e)
                {| db := w'; fuera := fuera s ++ evs |}) as (ok & Hs).
    exists ok. rewrite Hs. unfold anotar. cbn [db fuera].
    rewrite <- app_assoc. reflexivity. }
  destruct out_v as [[|r rs]|e].
  - destruct (Hnil eq_refl) as [-> ->].
    exists []. split; [reflexivity|]. split.
    + intros Hpend. split; [reflexivity|].
      rewrite (validar_vacio env svc (db s) Hpend) in Hv. congruence.
    + split.
      * intros Hpend. exfalso.
        exact (validar_no_vacio env svc (db s) [] w' Hpend Hv eq_refl).
      * discriminate.
  - assert (Hpend : pendientes (db s) <> []).
    { intros Hpend. rewrite (validar_vacio env svc (db s) Hpend) in Hv.
      discriminate. }
    destruct (Hcons r rs eq_refl)
      as [(e & -> & Hc)|(antes & texto & ok & -> & -> & Hc)].
    + destruct (Hfin e eq_refl) as (ok & Hs). rewrite Hs.
      exists (evs ++ [ChatPost (texto_mensaje (lit "N/A") (error_msg e)) ok]).
      split; [reflexivity|]. split; [congruence|].
      split; [|discriminate]. intros _. eauto.
    + exists (antes ++ [ChatPost texto ok]).
      split; [reflexivity|]. split; [congruence|].
      split; [|discriminate]. intros _. eauto.
  - destruct (Hraise e eq_refl) as [-> ->].
    destruct (Hfin e eq_refl) as (ok & Hs). rewrite Hs.
    exists [ChatPost (texto_mensaje (lit "N/A") (error_msg e)) ok].
    split; [reflexivity|].
    assert (Hpend : pendientes (db s) <> []).
    { intros Hpend. rewrite (validar_vacio env svc (db s) Hpend) in Hv.
      discriminate. }
    split; [congruence|]. split.
    + intros _. exists [], (texto_mensaje (lit "N/A") (error_msg e)), ok.
      split; reflexivity.
    + intros e0 He0. inversion He0; subst e0. exists ok. reflexivity.
Qed.

(** ** A run in which everything works *)

Lemma run_notifies_once_witness :
  exists ok,
    ejecutar_validacion cfg_demo ext_sano strftime_demo env_caido
      (svc_texto (lit "OK")) sistema_76
    = (Ok tt,
       {| db := snd (validar_todos_los_registros env_caido
                       (svc_texto (lit "OK")) (db sistema_76));
          fuera :=
            [ChatPost
               (texto_mensaje (lit "N/A")
                  (aviso ++ lit " *ERROR CR" ++ [205%N]
                   ++ lit "TICO EN VALIDACI" ++ [211%N] ++ lit "N*"
                   ++ [10%N; 10%N] ++ lit "Error: database is locked"))
               ok] |}).
Proof.
  destruct (run_notifies_once cfg_demo ext_sano strftime_demo env_caido
              (svc_texto (lit "OK")) sistema_76)
    as (evs & H & _ & _ & Herr).
  destruct (Herr (Exception (lit "database is locked")) eq_refl)
    as (ok & Hevs).
  exists ok. rewrite H, Hevs. reflexivity.
Defined.

Lemma raiz_de_casos t :
  raiz_de t = [] \/ exists q, raiz_de t = q ++ [47%N].
Proof.
  unfold raiz_de.
  destruct (startswith (lit "///") t).
  - right. exists []. reflexivity.
  - destruct (startswith (lit "//") t).
    + right. exists [47%N]. reflexivity.
    + destruct (startswith (lit "/") t).
      * right. exists []. reflexivity.
      * left. reflexivity.
Qed.

(** The text of [reports_dir / name] is the name, or ends with a slash
    and the name. *)
Lemma ruta_reporte cfg nm :
  ~ In 47%N nm -> es_parte nm = true ->
  exists pre,
    str_of_Path (truediv (reports_dir cfg) nm) = pre ++ nm
    /\ (pre = [] \/ exists q, pre = q ++ [47%N]).
Proof.
  intros Hn Hp. unfold truediv. rewrite (Path_of_nombre nm Hn Hp).
  cbn [raiz partes str_truthy]. unfold reports_dir, Path_of_str.
  cbn [raiz partes].
  set (l := filter es_parte (split_char 47 (REPORTS_DIR cfg))).
  clearbody l. unfold str_of_Path. cbn [raiz partes].
  destruct l as [|y l].
  - cbn [app join].
    destruct (raiz_de_casos (REPORTS_DIR cfg)) as [E|(q & E)]; rewrite E.
    + exists []. split; [reflexivity|left; reflexivity].
    + exists (q ++ [47%N]). split.
      * destruct (q ++ [47%N]) eqn:Eq; [destruct q; discriminate|].
        reflexivity.
      * right. exists q. reflexivity.
  - cbn [app]. rew (join_snoc (lit "/") (y :: l) nm ltac:(discriminate)).
    exists ((raiz_de (REPORTS_DIR cfg) ++ join (lit "/") (y :: l))
            ++ [47%N]).
    split.
    + destruct (raiz_de (REPORTS_DIR cfg)) as [|c r].
      * cbn [app]. rewrite <- app_assoc. reflexivity.
      * rewrite <- !app_assoc. reflexivity.
    + right. eexists. reflexivity.
Qed.

Lemma nombre_reporte ext strftime t :
  sin_barra strftime ->
  ~ In 47%N (generate_report_filename ext strftime t)
  /\ es_parte (generate_report_filename ext strftime t) = true.
Proof.
  intros Hs. split; [|reflexivity].
  unfold generate_report_filename. rewrite !in_app_iff.
  intros [H|[H|H]].
  - cbn in H. intuition discriminate.
  - exact (Hs _ _ H).
  - cbn in H. intuition discriminate.
Qed.

(** The request for the workbook. *)
Lemma solicitud_reporte cfg ext strftime t :
  sin_barra strftime ->
  solicitud cfg
    (str_of_Path
       (truediv (reports_dir cfg) (generate_report_filename ext strftime t)))
    None
  = {| name := generate_report_filename ext strftime t;
       parents := GOOGLE_DRIVE_FOLDER_ID cfg;
       mimetype := MIME_XLSX;
       media :=
         str_of_Path
           (truediv (reports_dir cfg)
              (generate_report_filename ext strftime t)) |}.
Proof.
  intros Hs. destruct (nombre_reporte ext strftime t Hs) as [Hn Hp].
  destruct (ruta_reporte cfg _ Hn Hp) as (pre & Hr & Hpre).
  unfold solicitud. cbn [target_folder]. f_equal.
  - rewrite Hr. destruct Hpre as [->|(q & ->)].
    + cbn [app]. rew (split_char_sin 47%N _ Hn). reflexivity.
    + rewrite <- app_assoc. cbn [app].
      rew (last_split_char 47%N q _ Hn). reflexivity.
  - rewrite Hr. unfold generate_report_filename.
    rewrite !app_assoc. rewrite lower_app. unfold endswith.
    rewrite rev_app_distr. reflexivity.
Qed.

Lemma preparar_ok strftime es :
  forallb (fun r => datos_legibles (datos_factura r)) (map res es) = true ->
  exists data,
    _preparar_datos strftime es = Ok data /\ length data = length es.
Proof.
  induction es as [|e es IH]; intros H.
  - exists []. split; reflexivity.
  - cbn in H. apply andb_true_iff in H. destruct H as [H1 H2].
    destruct (fila_de_legible strftime e H1) as (fila & Hf & _).
    destruct (IH H2) as (data & Hd & Hl).
    exists (fila :: data). cbn [_preparar_datos]. rewrite Hf. cbn.
    rewrite Hd. cbn. split; [reflexivity|]. rewrite Hl. reflexivity.
Qed.

(** X24.  A run in which everything works.  When the outside world
    works, the batch returns its outcomes and the extracted data of each
    is missing or a mapping, the run does, in this order: the work on the
    PDFs; the writing of the workbook, with one row for each outcome,
    under reporte_validacion_<date>.xlsx in the reports directory; the
    upload of that file, under that name, as a spreadsheet, to the folder
    of the settings; and the post to the chat, whose text carries the
    link answered by Drive and the three figures of the outcomes. *)
Theorem successful_run (cfg : Settings) (ext : Exterior)
    (strftime : Z -> str -> str) (env : Env) (svc : OpenAIService)
    (s : Sistema) (resultados : list Resultado) (w' : World) :
  exterior_sano ext ->
  (forall t p, excel_writer ext t p = None) ->
  sin_barra strftime ->
  pendientes (db s) <> [] ->
  validar_todos_los_registros env svc (db s) = (Ok resultados, w') ->
  forallb (fun r => datos_legibles (datos_factura r)) resultados = true ->
  exists es evs data file_id ok,
    let nombre :=
      generate_report_filename ext strftime (length (fuera s ++ evs)) in
    let p := str_of_Path (truediv (reports_dir cfg) nombre) in
    ejecutar_validacion cfg ext strftime env svc s
    = (Ok tt,
       {| db := w';
          fuera :=
            fuera s ++ evs
            ++ [ExcelWrite p data es true;
                DriveCreate
                  {| name := nombre;
                     parents := GOOGLE_DRIVE_FOLDER_ID cfg;
                     mimetype := MIME_XLSX;
                     media := p |} true;
                ChatPost
                  (texto_mensaje
                     (DRIVE_PREFIX ++ file_id ++ lit "/view")
                     (resumen_texto resultados)) ok] |})
    /\ map res es = resultados
    /\ _preparar_datos strftime es = Ok data
    /\ length data = length resultados
    /\ forallb de_archivos evs = true.
Proof.
  intros (Hw & Hex & Hrm & Hup) Hxl Hs Hpend Hv Hleg.
  pose proof (validar_no_vacio env svc (db s) resultados w' Hpend Hv) as Hne.
  destruct (procesar_pdfs_archivos cfg ext strftime resultados
              {| db := w'; fuera := fuera s |})
    as (es & evs & Hp & Hmap & Hev).
  cbn [db fuera] in Hp.
  assert (Hleg' : forallb (fun r => datos_legibles (datos_factura r))
                    (map res es) = true) by (rewrite Hmap; exact Hleg).
  destruct (preparar_ok strftime es Hleg') as (data & Hd & Hl).
  set (nombre :=
         generate_report_filename ext strftime (length (fuera s ++ evs))).
  set (p := str_of_Path (truediv (reports_dir cfg) nombre)).
  destruct (Hup (S (length (fuera s ++ evs))) (solicitud cfg p None))
    as (file_id & Hid).
  destruct (send_advice_spec ext
              (DRIVE_PREFIX ++ file_id ++ lit "/view")
              (resumen_texto resultados)
              {| db := w';
                 fuera := ((fuera s ++ evs) ++ [ExcelWrite p data es true])
                          ++ [DriveCreate (solicitud cfg p None) true] |})
    as (ok & Hsend).
  exists es, evs, data, file_id, ok. cbn zeta. fold nombre. fold p.
  split.
  - unfold ejecutar_validacion, pasos. unfold fbind at 1. unfold en_db.
    rewrite Hv. destruct resultados as [|r rs]; [congruence|].
    unfold fbind at 1. unfold generar_reporte. unfold fbind at 1.
    rewrite Hp. unfold fbind at 1. unfold puro. rewrite Hd.
    unfold ahora. cbn [fuera]. fold nombre. fold p.
    unfold fbind at 1. unfold _crear_excel_formateado, ahora.
    cbn [fuera]. rewrite Hxl. unfold fret, anotar. cbn [db fuera].
    unfold fbind at 1. unfold upload_to_drive, ahora, anotar.
    cbn [db fuera]. rewrite length_app. cbn [length].
    rewrite Nat.add_1_r, Hid. cbn [fmt_opt].
    unfold anotar in Hsend. cbn [db fuera] in Hsend. rewrite Hsend.
    unfold anotar. cbn [db fuera].
    unfold p at 2, nombre. rewrite (solicitud_reporte cfg ext strftime _ Hs).
    fold nombre. fold p. rewrite <- !app_assoc. reflexivity.
  - split; [exact Hmap|]. split; [exact Hd|].
    split; [|exact Hev].
    rewrite Hl, <- Hmap, length_map. reflexivity.
Qed.

(** The run of the demo system ends with the post to the chat. *)
Lemma successful_run_witness :
  exists evs texto ok,
    ejecutar_validacion cfg_demo ext_sano strftime_demo env_sano
      (svc_texto (lit "OK")) sistema_76
    = (Ok tt,
       {| db := snd (validar_todos_los_registros env_sano
                       (svc_texto (lit "OK")) (db sistema_76));
          fuera := evs ++ [ChatPost texto ok] |}).
Proof.
  assert (Hsano : exterior_sano ext_sano).
  { repeat split. intros t req. eexists. reflexivity. }
  assert (Hbarra : sin_barra strftime_demo).
  { intros dt f. apply str_of_int_sin_barra. }
  destruct (successful_run cfg_demo ext_sano strftime_demo env_sano
              (svc_texto (lit "OK")) sistema_76
              (fst (let (o, _) := validar_todos_los_registros env_sano
                                    (svc_texto (lit "OK")) (db sistema_76) in
                    match o with Ok l => (l, tt) | Raise _ => ([], tt) end))
              (snd (validar_todos_los_registros env_sano
                      (svc_texto (lit "OK")) (db sistema_76)))
              Hsano (fun _ _ => eq_refl) Hbarra)
    as (es & evs & data & file_id & ok & H & _).
  - discriminate.
  - reflexivity.
  - reflexivity.
  - cbn zeta in H. eexists. eexists. exists ok. rewrite H.
    cbn [fuera sistema_76 app]. rewrite app_assoc.
    change (?a ++ [?x; ?y; ?z]) with (a ++ [x; y] ++ [z]).
    rewrite app_assoc. reflexivity.
Defined.

End RunProofs.

(* ===================================================================== *)
(** * The extraction: what is returned, what is cleaned up *)
(* ===================================================================== *)

From Stdlib Require Import Lqa.

Import Vocabulary Fixtures2.

Section ExtraccionProofs.

Import Base64 HelpersText Extraccion.

Variable api : AssistantsAPI.

(** ** Steps that keep the locals *)

Lemma pbind_inv {A B} (c : P A) (k : A -> P B) st out st' :
  pbind c k st = Some (out, st') ->
  (exists a st1, c st = Some (Ok a, st1) /\ k a st1 = Some (out, st'))
  \/ (exists e, c st = Some (Raise e, st') /\ out = Raise e).
Proof.
  unfold pbind. destruct (c st) as [[[a|e] st1]|]; intros H.
  - left. eauto.
  - right. inv_pair H. eauto.
  - discriminate.
Qed.

Lemma avanza_refl st : avanza st st.
Proof.
  split; [reflexivity|]. split; [reflexivity|].
  exists []. rewrite app_nil_r. auto.
Qed.

Lemma avanza_trans st1 st2 st3 :
  avanza st1 st2 -> avanza st2 st3 -> avanza st1 st3.
Proof.
  intros (Hf1 & Ha1 & evs1 & Hh1 & Hn1) (Hf2 & Ha2 & evs2 & Hh2 & Hn2).
  split; [congruence|]. split; [congruence|].
  exists (evs1 ++ evs2). rewrite Hh2, Hh1, <- app_assoc.
  split; [reflexivity|]. rewrite forallb_app, Hn1, Hn2. reflexivity.
Qed.

Lemma avanza_anotar ev st : neutra ev = true -> avanza st (anotar ev st).
Proof.
  intros H. split; [reflexivity|]. split; [reflexivity|].
  exists [ev]. cbn. rewrite H. auto.
Qed.

Lemma ppuro_inv {A} (c : result A) st out st' :
  ppuro c st = Some (out, st') -> out = c /\ st' = st.
Proof. unfold ppuro. intros H. inv_pair H. auto. Qed.

Lemma leer_reloj_inv st out st' :
  leer_reloj api st = Some (out, st') ->
  out = Ok (time_time api (hecho st)) /\ st' = anotar TimeRead st.
Proof. unfold leer_reloj. intros H. inv_pair H. auto. Qed.

Lemma llamar_inv {A} (f : historia -> result A) ev st out st' :
  llamar f ev st = Some (out, st') ->
  (exists a, out = Ok a /\ f (hecho st) = Ok a /\ st' = anotar (ev true) st)
  \/ (exists e, out = Raise e /\ st' = anotar (ev false) st).
Proof.
  unfold llamar. destruct (f (hecho st)) as [a|e]; intros H; inv_pair H.
  - left. eauto.
  - right. eauto.
Qed.

Lemma llamar_avanza {A} (f : historia -> result A) ev st out st' :
  (forall b, neutra (ev b) = true) ->
  llamar f ev st = Some (out, st') -> avanza st st'.
Proof.
  intros Hn H. destruct (llamar_inv f ev st out st' H)
    as [(a & _ & _ & ->)|(e & _ & ->)]; apply avanza_anotar; apply Hn.
Qed.

Lemma esperar_avanza fuel thread_id start_time :
  forall run st out st',
    esperar api fuel thread_id start_time run st = Some (out, st') ->
    avanza st st'
    /\ (forall run', out = Ok run' -> terminado run' = true).
Proof.
  induction fuel as [|fuel IH]; intros run st out st' H.
  - cbn in H. destruct (terminado run) eqn:Et; [|discriminate].
    inv_pair H. split; [apply avanza_refl|].
    intros run' E. inversion E; subst. exact Et.
  - cbn [esperar] in H. destruct (terminado run) eqn:Et.
    + inv_pair H. split; [apply avanza_refl|].
      intros run' E. inversion E; subst. exact Et.
    + apply pbind_inv in H.
      destruct H as [(t & st1 & Hr & H)|(e & Hr & _)].
      2:{ apply leer_reloj_inv in Hr. destruct Hr as [Hr _]. discriminate. }
      apply leer_reloj_inv in Hr. destruct Hr as [_ ->].
      destruct (negb (Qle_bool (t - start_time) TIMEOUT)).
      * inv_pair H. split; [apply avanza_anotar; reflexivity|].
        discriminate.
      * apply pbind_inv in H.
        destruct H as [(run1 & st2 & Hl & H)|(e & Hl & ->)].
        -- apply llamar_avanza in Hl; [|reflexivity].
           destruct (IH _ _ _ _ H) as [Hav Hterm].
           split; [|exact Hterm].
           pose proof (avanza_anotar TimeRead st eq_refl) as A1.
           pose proof (avanza_anotar Sleep (anotar TimeRead st) eq_refl)
             as A2.
           exact (avanza_trans _ _ _ A1
                    (avanza_trans _ _ _ A2 (avanza_trans _ _ _ Hl Hav))).
        -- apply llamar_avanza in Hl; [|reflexivity].
           split; [|discriminate].
           pose proof (avanza_anotar TimeRead st eq_refl) as A1.
           pose proof (avanza_anotar Sleep (anotar TimeRead st) eq_refl)
             as A2.
           exact (avanza_trans _ _ _ A1 (avanza_trans _ _ _ A2 Hl)).
Qed.

(** What a returned pair of the query tells. *)
Lemma consulta_inv fuel file_id assistant_id st out st' :
  consulta api fuel file_id assistant_id st = Some (out, st') ->
  avanza st st'
  /\ (forall d x, out = Ok (d, x) ->
        x = VNone
        /\ (d <> VNone ->
            exists thread_id text evs0,
              hecho st' = hecho st ++ evs0 ++ [MessagesList thread_id true]
              /\ Json.loads (limpiar_json text) = Ok d)).
Proof.
  unfold consulta. intros H.
  apply pbind_inv in H. destruct H as [(thread_id & s1 & H1 & H)|(e & H1 & ->)].
  2:{ split; [eapply llamar_avanza; [|exact H1]; reflexivity|discriminate]. }
  apply llamar_avanza in H1; [|reflexivity].
  apply pbind_inv in H. destruct H as [(run & s2 & H2 & H)|(e & H2 & ->)].
  2:{ apply llamar_avanza in H2; [|reflexivity].
      split; [eapply avanza_trans; eauto|discriminate]. }
  apply llamar_avanza in H2; [|reflexivity].
  pose proof (avanza_trans _ _ _ H1 H2) as H12. clear H1 H2.
  apply pbind_inv in H. destruct H as [(start & s3 & H3 & H)|(e & H3 & _)].
  2:{ apply leer_reloj_inv in H3. destruct H3 as [H3 _]. discriminate. }
  apply leer_reloj_inv in H3. destruct H3 as [_ ->].
  assert (H13 : avanza st (anotar TimeRead s2)).
  { eapply avanza_trans; [exact H12|apply avanza_anotar; reflexivity]. }
  clear H12.
  apply pbind_inv in H. destruct H as [(run' & s4 & H4 & H)|(e & H4 & ->)].
  2:{ apply esperar_avanza in H4. destruct H4 as [H4 _].
      split; [eapply avanza_trans; eauto|discriminate]. }
  apply esperar_avanza in H4. destruct H4 as [H4 _].
  pose proof (avanza_trans _ _ _ H13 H4) as H14. clear H13 H4.
  destruct (negb (str_eqb (status run') (lit "completed"))).
  { inv_pair H. split; [exact H14|].
    intros d x E. inversion E; subst. split; [reflexivity|congruence]. }
  apply pbind_inv in H. destruct H as [(data & s5 & H5 & H)|(e & H5 & ->)].
  2:{ apply llamar_avanza in H5; [|reflexivity].
      split; [eapply avanza_trans; eauto|discriminate]. }
  destruct (llamar_inv _ _ _ _ _ H5) as [(a & _ & _ & Hs5)|(e & E & _)];
    [|discriminate].
  apply llamar_avanza in H5; [|reflexivity].
  pose proof (avanza_trans _ _ _ H14 H5) as H15. clear H5.
  apply pbind_inv in H. destruct H as [(text & s6 & H6 & H)|(e & H6 & ->)].
  2:{ apply ppuro_inv in H6. destruct H6 as [_ ->].
      split; [exact H15|discriminate]. }
  apply ppuro_inv in H6. destruct H6 as [_ ->].
  apply pbind_inv in H. destruct H as [(datos & s7 & H7 & H)|(e & H7 & ->)].
  2:{ apply ppuro_inv in H7. destruct H7 as [_ ->].
      split; [exact H15|discriminate]. }
  apply ppuro_inv in H7. destruct H7 as [H7 ->].
  inv_pair H. split; [exact H15|].
  intros d x E. inversion E; subst. split; [reflexivity|].
  intros _. destruct H14 as (_ & _ & evs14 & Hh14 & _).
  exists thread_id, text, evs14. split.
  - cbn [hecho anotar]. rewrite Hh14, <- app_assoc. reflexivity.
  - inversion H7. reflexivity.
Qed.

(** ** The [try] block and the [finally] block *)

Lemma neutra_nada evs :
  forallb neutra evs = true ->
  archivos_creados evs = [] /\ asistentes_creados evs = []
  /\ existsb es_borrado evs = false.
Proof.
  induction evs as [|ev evs IH]; [auto|].
  cbn [forallb]. intros H. apply andb_true_iff in H. destruct H as [H1 H2].
  destruct (IH H2) as (Ia & Ib & Ic).
  unfold archivos_creados, asistentes_creados in *. cbn [flat_map existsb].
  rewrite Ia, Ib, Ic.
  destruct ev as [| n d [i|] | [a|] | | | | | | |];
    try discriminate; auto.
Qed.

Lemma archivos_app a b :
  archivos_creados (a ++ b) = archivos_creados a ++ archivos_creados b.
Proof. apply flat_map_app. Qed.

Lemma asistentes_app a b :
  asistentes_creados (a ++ b)
  = asistentes_creados a ++ asistentes_creados b.
Proof. apply flat_map_app. Qed.

Lemma upload_inv s st out st' :
  _upload_file api s st = Some (out, st') ->
  file_obj st' = file_obj st /\ assistant st' = assistant st
  /\ exists evs,
       forallb neutra evs = true
       /\ ((exists e, out = Raise e /\ hecho st' = hecho st ++ evs)
           \/ (exists file_id n d,
                 out = Ok file_id
                 /\ hecho st' = hecho st ++ evs
                                ++ [FilesCreate n d (Some file_id)])).
Proof.
  unfold _upload_file. intros H.
  apply pbind_inv in H. destruct H as [(b1 & s1 & H1 & H)|(e & H1 & ->)].
  2:{ apply ppuro_inv in H1. destruct H1 as [_ ->].
      split; [reflexivity|]. split; [reflexivity|].
      exists []. rewrite app_nil_r. split; [reflexivity|]. left. eauto. }
  apply ppuro_inv in H1. destruct H1 as [_ ->].
  apply pbind_inv in H. destruct H as [(d & s2 & H2 & H)|(e & H2 & ->)].
  2:{ apply ppuro_inv in H2. destruct H2 as [_ ->].
      split; [reflexivity|]. split; [reflexivity|].
      exists []. rewrite app_nil_r. split; [reflexivity|]. left. eauto. }
  apply ppuro_inv in H2. destruct H2 as [_ ->].
  apply pbind_inv in H. destruct H as [(t & s3 & H3 & H)|(e & H3 & _)].
  2:{ apply leer_reloj_inv in H3. destruct H3 as [H3 _]. discriminate. }
  apply leer_reloj_inv in H3. destruct H3 as [_ ->].
  destruct (files_create api _ _ _) as [file_id|e]; inv_pair H.
  - split; [reflexivity|]. split; [reflexivity|].
    exists [TimeRead]. split; [reflexivity|]. right.
    eexists. eexists. eexists. split; [reflexivity|].
    cbn [hecho anotar]. rewrite <- app_assoc. reflexivity.
  - split; [reflexivity|]. split; [reflexivity|].
    eexists [TimeRead; FilesCreate _ _ None]. split; [reflexivity|].
    left. eexists. split; [reflexivity|].
    cbn [hecho anotar]. rewrite <- app_assoc. reflexivity.
Qed.

Lemma cuerpo_inv fuel b h out st :
  cuerpo api fuel b {| file_obj := None; assistant := None; hecho := h |}
  = Some (out, st) ->
  exists trabajo,
    hecho st = h ++ trabajo
    /\ existsb es_borrado trabajo = false
    /\ archivos_creados trabajo = olist (file_obj st)
    /\ asistentes_creados trabajo = olist (assistant st)
    /\ (validate_base64 b = false -> trabajo = [])
    /\ (forall d x,
          out = Ok (d, x) ->
          x = VNone
          /\ (d <> VNone ->
              exists thread_id text,
                In (MessagesList thread_id true) trabajo
                /\ Json.loads (limpiar_json text) = Ok d)).
Proof.
  unfold cuerpo. intros H.
  assert (Hnada : forall o, o = Ok (VNone, VNone) ->
            forall d x, o = Ok (d, x) ->
              x = VNone
              /\ (d <> VNone ->
                  exists (thread_id : str) (text : str),
                    In (MessagesList thread_id true) (@nil llamada)
                    /\ Json.loads (limpiar_json text) = Ok d)).
  { intros o -> d x E. inversion E; subst. split; [reflexivity|congruence]. }
  destruct (validate_base64 b) eqn:Ev; cbn [negb] in H.
  2:{ inv_pair H. exists []. cbn [hecho file_obj assistant].
      rewrite app_nil_r.
      split; [reflexivity|]. split; [reflexivity|].
      split; [reflexivity|]. split; [reflexivity|].
      split; [auto|]. apply Hnada. reflexivity. }
  destruct b as [s|]; [|discriminate].
  apply pbind_inv in H. destruct H as [(file_id & s1 & H1 & H)|(e & H1 & ->)].
  2:{ apply upload_inv in H1.
      destruct H1 as (Hf & Ha & evs & Hn & [(e' & _ & Hh)|(i & n & d & E & _)]);
        [|discriminate].
      destruct (neutra_nada evs Hn) as (Na & Nb & Nc).
      exists evs. rewrite Hf, Ha. cbn [hecho file_obj assistant olist].
      split; [exact Hh|]. split; [exact Nc|].
      split; [exact Na|]. split; [exact Nb|].
      split; [congruence|discriminate]. }
  apply upload_inv in H1.
  destruct H1 as (Hf & Ha & evs1 & Hn1 & [(e' & E & _)|(i & n & d & E & Hh1)]);
    [discriminate|].
  inversion E; subst i. clear E.
  destruct (neutra_nada evs1 Hn1) as (Na1 & Nb1 & Nc1).
  cbn [hecho file_obj assistant] in Hf, Ha, Hh1.
  apply pbind_inv in H. destruct H as [([] & s2 & H2 & H)|(e & H2 & _)];
    [|discriminate].
  unfold set_file_obj in H2. inv_pair H2.
  apply pbind_inv in H.
  destruct H as [(assistant_id & s3 & H3 & H)|(e & H3 & ->)].
  2:{ unfold crear_asistente in H3. cbn [hecho] in H3.
      destruct (assistants_create api (hecho s1)); inv_pair H3.
      exists (evs1 ++ [FilesCreate n d (Some file_id)]
              ++ [AssistantsCreate None]).
      cbn [hecho anotar file_obj assistant]. rewrite Hh1, Ha.
      split; [rewrite <- !app_assoc; reflexivity|].
      split.
      { rewrite existsb_app, Nc1. reflexivity. }
      split.
      { rewrite archivos_app, Na1. reflexivity. }
      split.
      { rewrite asistentes_app, Nb1. reflexivity. }
      split; [congruence|discriminate]. }
  unfold crear_asistente in H3. cbn [hecho] in H3.
  destruct (assistants_create api (hecho s1)) as [a|]; inv_pair H3.
  apply pbind_inv in H. destruct H as [([] & s4 & H4 & H)|(e & H4 & _)];
    [|discriminate].
  unfold set_assistant in H4. inv_pair H4.
  cbn [hecho anotar file_obj assistant] in H.
  apply consulta_inv in H.
  destruct H as ((Hf5 & Ha5 & evs5 & Hh5 & Hn5) & Hdatos).
  cbn [hecho file_obj assistant] in Hf5, Ha5, Hh5, Hdatos.
  destruct (neutra_nada evs5 Hn5) as (Na5 & Nb5 & Nc5).
  exists (evs1 ++ [FilesCreate n d (Some file_id)]
          ++ [AssistantsCreate (Some assistant_id)] ++ evs5).
  rewrite Hh5, Hh1, Hf5, Ha5.
  split; [rewrite <- !app_assoc; reflexivity|].
  split.
  { rewrite !existsb_app, Nc1, Nc5. reflexivity. }
  split.
  { rewrite !archivos_app, Na1, Na5. reflexivity. }
  split.
  { rewrite !asistentes_app, Nb1, Nb5. reflexivity. }
  split; [congruence|].
  intros d0 x E. destruct (Hdatos d0 x E) as [Hx Hd]. split; [exact Hx|].
  intros Hne. destruct (Hd Hne) as (thread_id & text & evs0 & Hh & Hl).
  exists thread_id, text. split; [|exact Hl].
  rewrite Hh5 in Hh. apply app_inv_head in Hh. rewrite Hh.
  rewrite !in_app_iff. right. right. right. right. left. reflexivity.
Qed.

Lemma limpieza_spec st :
  exists f1 f2,
    hecho (limpieza api st) = hecho st ++ f1 ++ f2
    /\ Forall2 borra_archivo (olist (file_obj st)) f1
    /\ Forall2 borra_asistente (olist (assistant st)) f2.
Proof.
  unfold limpieza, _delete_file.
  destruct (file_obj st) as [file_id|].
  - destruct (files_delete api (hecho st) file_id);
      cbn [assistant anotar hecho];
      (destruct (assistant st) as [assistant_id|];
       [ destruct (assistants_delete api _ assistant_id);
         cbn [hecho anotar];
         eexists [_]; eexists [_];
         (split; [rewrite <- app_assoc; reflexivity|]);
         split; repeat constructor; eexists; reflexivity
       | eexists [_]; exists [];
         (split; [reflexivity|]);
         split; repeat constructor; eexists; reflexivity ]).
  - destruct (assistant st) as [assistant_id|].
    + destruct (assistants_delete api _ assistant_id);
        cbn [hecho anotar];
        exists []; eexists [_];
        (split; [reflexivity|]);
        split; repeat constructor; eexists; reflexivity.
    + exists [], []. rewrite app_nil_r.
      split; [reflexivity|]. split; constructor.
Qed.

(** X25.  Whenever [extraer_datos_factura] returns, it returns a pair and
    never raises; the second component, the error text, is always
    [None].  What it did splits into the work of the [try] block, which
    deletes nothing and creates at most one file and one assistant, and
    the clean-up, which asks once for the deletion of the file created,
    if any, and then of the assistant created, if any, whatever the
    outcome was.  Without a valid base64 text nothing is done at all.
    Data other than [None] is returned only when the messages of the
    thread were listed and it is the JSON value of an answer with its
    code fences removed. *)
Theorem extraction_cleans_up (fuel : nat) (factura_base64 : option str)
    (h : historia) (out : result (pyval * pyval)) (h' : historia) :
  extraer_datos_factura api fuel factura_base64 h = Some (out, h') ->
  exists datos trabajo f1 f2,
    out = Ok (datos, VNone)
    /\ h' = h ++ trabajo ++ f1 ++ f2
    /\ existsb es_borrado trabajo = false
    /\ (length (archivos_creados trabajo) <= 1)%nat
    /\ (length (asistentes_creados trabajo) <= 1)%nat
    /\ Forall2 borra_archivo (archivos_creados trabajo) f1
    /\ Forall2 borra_asistente (asistentes_creados trabajo) f2
    /\ (validate_base64 factura_base64 = false ->
        datos = VNone /\ h' = h)
    /\ (datos <> VNone ->
        exists thread_id text,
          In (MessagesList thread_id true) trabajo
          /\ Json.loads (limpiar_json text) = Ok datos).
Proof.
  unfold extraer_datos_factura. intros H.
  destruct (cuerpo api fuel factura_base64
              {| file_obj := None; assistant := None; hecho := h |})
    as [[o st]|] eqn:Hc; [|discriminate].
  inv_pair H.
  destruct (cuerpo_inv _ _ _ _ _ Hc)
    as (trabajo & Hh & Hb & Hfa & Has & Hinv & Hdat).
  destruct (limpieza_spec st) as (f1 & f2 & Hl & F1 & F2).
  assert (Hval : exists datos,
            try_except o (fun _ => Ok (VNone, VNone)) = Ok (datos, VNone)
            /\ (datos <> VNone -> o = Ok (datos, VNone))).
  { destruct o as [[d x]|e].
    - destruct (Hdat d x eq_refl) as [-> _]. exists d. cbn. auto.
    - exists VNone. cbn. split; [reflexivity|congruence]. }
  destruct Hval as (datos & Hval & Horig).
  exists datos, trabajo, f1, f2.
  split; [exact Hval|].
  split; [rewrite Hl, Hh, <- app_assoc; reflexivity|].
  split; [exact Hb|].
  split; [rewrite Hfa; destruct (file_obj st); cbn; lia|].
  split; [rewrite Has; destruct (assistant st); cbn; lia|].
  split; [rewrite Hfa; exact F1|].
  split; [rewrite Has; exact F2|].
  split.
  - intros Hv. pose proof (Hinv Hv) as Ht. subst trabajo.
    cbn in Hfa, Has. rewrite <- Hfa in F1. rewrite <- Has in F2.
    inversion F1; subst. inversion F2; subst.
    rewrite Hl, Hh, !app_nil_r. split; [|reflexivity].
    assert (Ho : o = Ok (VNone, VNone)).
    { unfold cuerpo in Hc. rewrite Hv in Hc. cbn [negb] in Hc.
      unfold pret in Hc. inversion Hc. reflexivity. }
    subst o. cbn in Hval. inversion Hval. reflexivity.
  - intros Hne. destruct (Hdat datos VNone (Horig Hne)) as [_ Hd].
    exact (Hd Hne).
Qed.

End ExtraccionProofs.

(** A valid text, a run that completes at the second retrieval and an
    answer in a code fence: the data is returned, the file is deleted,
    and the deletion of the assistant fails without being noticed. *)
Lemma extraction_cleans_up_witness :
  exists trabajo,
    Extraccion.extraer_datos_factura api_demo 62 (Some (lit "JVBERi0x")) []
    = Some (Ok (VDict [], VNone),
            trabajo ++ [Extraccion.FilesDelete (lit "file-1") true;
                        Extraccion.AssistantsDelete (lit "asst-1") false])
    /\ existsb es_borrado trabajo = false.
Proof.
  destruct (extraction_cleans_up api_demo 62 (Some (lit "JVBERi0x")) []
              (Ok (VDict [], VNone))
              (snd (match Extraccion.extraer_datos_factura api_demo 62
                            (Some (lit "JVBERi0x")) [] with
                    | Some p => p
                    | None => (Ok (VNone, VNone), [])
                    end)) eq_refl)
    as (datos & trabajo & f1 & f2 & _ & Hh & Hb & _).
  exists (firstn 13 (snd (match Extraccion.extraer_datos_factura api_demo 62
                                  (Some (lit "JVBERi0x")) [] with
                          | Some p => p
                          | None => (Ok (VNone, VNone), [])
                          end))).
  split; reflexivity.
Defined.



(** ** The polling loop ends *)

Section PollingProofs.

Import Base64 HelpersText Extraccion.

Variable api : AssistantsAPI.
Hypothesis Hreloj : reloj_fiel api.

Lemma basta_pos fuel e : basta fuel e -> (0 < fuel)%nat.
Proof. destruct fuel; cbn; [tauto|lia]. Qed.

Lemma esperar_termina thread_id start_time :
  forall fuel e run st,
    basta fuel e ->
    (start_time + e <= time_time api (hecho st))%Q ->
    exists out st' evs,
      (forall extra,
         esperar api (fuel + extra) thread_id start_time run st
         = Some (out, st'))
      /\ file_obj st' = file_obj st /\ assistant st' = assistant st
      /\ hecho st' = hecho st ++ evs
      /\ (length (filter es_sleep evs) < fuel)%nat
      /\ length (filter es_retrieve evs) = length (filter es_sleep evs).
Proof.
  destruct Hreloj as [Hmono Hsleep].
  induction fuel as [|fuel IH]; intros e run st Hb He; [destruct Hb|].
  destruct (terminado run) eqn:Et.
  { exists (Ok run), st, []. split.
    - intros extra. cbn [Nat.add esperar]. rewrite Et. reflexivity.
    - rewrite app_nil_r. cbn. repeat split; lia. }
  set (t := time_time api (hecho st)) in *.
  destruct (Qle_bool (t - start_time) TIMEOUT) eqn:Eq.
  2:{ exists (Raise (Exception (lit "Tiempo de espera agotado en OpenAI"))),
        (anotar TimeRead st), [TimeRead]. split.
      - intros extra. cbn [Nat.add esperar]. rewrite Et.
        unfold pbind, leer_reloj. fold t. rewrite Eq. reflexivity.
      - cbn. repeat split; lia. }
  assert (Hle : (t - start_time <= TIMEOUT)%Q) by (apply Qle_bool_iff; exact Eq).
  destruct Hb as [Hb|Hb].
  { exfalso. unfold TIMEOUT in *. lra. }
  set (st1 := anotar Sleep (anotar TimeRead st)).
  assert (He1 : (start_time + (e + SLEEP_INTERVAL)
                 <= time_time api (hecho st1))%Q).
  { unfold st1. cbn [hecho anotar].
    pose proof (Hmono (hecho st) TimeRead) as M1.
    pose proof (Hsleep (hecho st ++ [TimeRead])) as M2.
    fold t in M1. unfold SLEEP_INTERVAL in *. lra. }
  destruct (runs_retrieve api (hecho st1) thread_id (run_id run))
    as [run'|ex] eqn:Er.
  - set (st2 := anotar (RunsRetrieve thread_id (run_id run) true) st1).
    assert (He2 : (start_time + (e + SLEEP_INTERVAL)
                   <= time_time api (hecho st2))%Q).
    { unfold st2. cbn [hecho anotar].
      pose proof (Hmono (hecho st1)
                    (RunsRetrieve thread_id (run_id run) true)) as M3.
      lra. }
    destruct (IH _ run' st2 Hb He2)
      as (out & st' & evs & Hrun & Hf & Ha & Hh & Hs & Hr).
    exists out, st',
      ([TimeRead; Sleep; RunsRetrieve thread_id (run_id run) true] ++ evs).
    split.
    { intros extra. cbn [Nat.add esperar]. rewrite Et.
      unfold pbind at 1. unfold leer_reloj. fold t. rewrite Eq.
      cbn [negb]. unfold pbind at 1. unfold llamar. fold st1.
      rewrite Er. fold st2. apply Hrun. }
    split; [rewrite Hf; reflexivity|]. split; [rewrite Ha; reflexivity|].
    split.
    { rewrite Hh. unfold st2, st1. cbn [hecho anotar].
      rewrite <- !app_assoc. reflexivity. }
    cbn [app filter es_sleep es_retrieve length]. split; lia.
  - exists (Raise ex),
      (anotar (RunsRetrieve thread_id (run_id run) false) st1),
      [TimeRead; Sleep; RunsRetrieve thread_id (run_id run) false].
    split.
    { intros extra. cbn [Nat.add esperar]. rewrite Et.
      unfold pbind at 1. unfold leer_reloj. fold t. rewrite Eq.
      cbn [negb]. unfold pbind at 1. unfold llamar. fold st1.
      rewrite Er. reflexivity. }
    split; [reflexivity|]. split; [reflexivity|].
    split.
    { unfold st1. cbn [hecho anotar]. rewrite <- !app_assoc. reflexivity. }
    pose proof (basta_pos _ _ Hb).
    cbn [app filter es_sleep es_retrieve length]. split; lia.
Qed.

Lemma basta_62 : basta 62 0%Q.
Proof.
  do 61 right. left. vm_compute. reflexivity.
Qed.

Lemma consulta_total fuel file_id assistant_id st :
  (62 <= fuel)%nat ->
  exists r,
    consulta api fuel file_id assistant_id st = Some r
    /\ consulta api 62 file_id assistant_id st = Some r.
Proof.
  intros Hfuel. replace fuel with (62 + (fuel - 62))%nat by lia.
  generalize (fuel - 62)%nat. intros extra.
  unfold consulta, pbind, llamar, leer_reloj.
  destruct (threads_create api (hecho st) file_id) as [thread_id|e].
  2:{ eexists. split; reflexivity. }
  destruct (runs_create api _ thread_id assistant_id) as [run|e].
  2:{ eexists. split; reflexivity. }
  set (st2 := anotar (RunsCreate thread_id assistant_id true)
                (anotar (ThreadsCreate file_id true) st)).
  assert (He : (time_time api (hecho st2) + 0
                <= time_time api (hecho (anotar TimeRead st2)))%Q).
  { destruct Hreloj as [Hmono _]. cbn [hecho anotar].
    pose proof (Hmono (hecho st2) TimeRead). lra. }
  destruct (esperar_termina thread_id (time_time api (hecho st2))
              62 0%Q run (anotar TimeRead st2) basta_62 He)
    as (out & st' & evs & Hrun & _).
  pose proof (Hrun 0%nat) as H0. cbn [Nat.add] in H0.
  rewrite (Hrun extra), H0.
  destruct out as [run'|e]; [|eexists; split; reflexivity].
  destruct (negb (str_eqb (status run') (lit "completed")));
    [eexists; split; reflexivity|].
  destruct (messages_list api (hecho st') thread_id) as [data|e];
    [|eexists; split; reflexivity].
  unfold ppuro.
  destruct (primer_texto data) as [text|e]; [|eexists; split; reflexivity].
  destruct (Json.loads (limpiar_json text));
    eexists; split; reflexivity.
Qed.

Lemma pbind_total2 {A B} (c : P A) (k1 k2 : A -> P B) st :
  c st <> None ->
  (forall a st1, exists r, k1 a st1 = Some r /\ k2 a st1 = Some r) ->
  exists r, pbind c k1 st = Some r /\ pbind c k2 st = Some r.
Proof.
  unfold pbind. destruct (c st) as [[[a|e] s1]|]; intros Hn Hk.
  - apply Hk.
  - eexists. split; reflexivity.
  - congruence.
Qed.

Lemma upload_total s st : _upload_file api s st <> None.
Proof.
  unfold _upload_file, pbind, ppuro, leer_reloj.
  destruct (Externo.sin_cabecera s); [|discriminate].
  destruct (b64decode a); [|discriminate].
  destruct (files_create api _ _ _); discriminate.
Qed.

Lemma cuerpo_total fuel b st :
  (62 <= fuel)%nat ->
  exists r,
    cuerpo api fuel b st = Some r /\ cuerpo api 62 b st = Some r.
Proof.
  intros Hfuel. unfold cuerpo.
  destruct (negb (validate_base64 b)); [eexists; split; reflexivity|].
  destruct b as [s|]; [|eexists; split; reflexivity].
  apply pbind_total2; [apply upload_total|]. intros file_id s1.
  apply pbind_total2; [discriminate|]. intros [] s2.
  apply pbind_total2.
  { unfold crear_asistente. destruct (assistants_create api (hecho s2));
      discriminate. }
  intros assistant_id s3.
  apply pbind_total2; [discriminate|]. intros [] s4.
  apply consulta_total. exact Hfuel.
Qed.

(** X26.  The wait for the run ends.  When the clock never goes back and
    a sleep lasts at least its 1.5 seconds, the polling loop, entered
    right after the start time was read, stops after at most 61 sleeps,
    each followed by one retrieval, whatever the remote API answers: it
    yields a run whose status is completed, failed or cancelled, or it
    raises, with the time-out or with the failure of a retrieval.  So
    [extraer_datos_factura] always returns: 62 turns of fuel are enough,
    and more fuel gives the same result. *)
Theorem polling_is_bounded (fuel : nat) :
  (62 <= fuel)%nat ->
  (forall factura_base64 h,
     exists out h',
       extraer_datos_factura api fuel factura_base64 h = Some (out, h')
       /\ extraer_datos_factura api 62 factura_base64 h = Some (out, h'))
  /\ (forall thread_id run st,
        exists out st' evs,
          esperar api fuel thread_id (time_time api (hecho st)) run
            (anotar TimeRead st)
          = Some (out, st')
          /\ hecho st' = hecho st ++ TimeRead :: evs
          /\ (length (filter es_sleep evs) <= 61)%nat
          /\ length (filter es_retrieve evs) = length (filter es_sleep evs)
          /\ (forall run', out = Ok run' -> terminado run' = true)).
Proof.
  intros Hfuel. split.
  - intros b h. unfold extraer_datos_factura.
    destruct (cuerpo_total fuel b
                {| file_obj := None; assistant := None; hecho := h |} Hfuel)
      as ([o st] & H1 & H2).
    rewrite H1, H2. eexists. eexists. split; reflexivity.
  - intros thread_id run st.
    assert (He : (time_time api (hecho st) + 0
                  <= time_time api (hecho (anotar TimeRead st)))%Q).
    { destruct Hreloj as [Hmono _]. cbn [hecho anotar].
      pose proof (Hmono (hecho st) TimeRead). lra. }
    destruct (esperar_termina thread_id (time_time api (hecho st))
                62 0%Q run (anotar TimeRead st) basta_62 He)
      as (out & st' & evs & Hrun & _ & _ & Hh & Hs & Hr).
    exists out, st', evs.
    replace fuel with (62 + (fuel - 62))%nat by lia.
    rewrite (Hrun (fuel - 62)%nat).
    split; [reflexivity|].
    split; [rewrite Hh; cbn [hecho anotar]; rewrite <- app_assoc;
            reflexivity|].
    split; [lia|]. split; [exact Hr|].
    destruct (esperar_avanza api _ _ _ _ _ _ _ (Hrun 0%nat)) as [_ Ht].
    exact Ht.
Qed.

End PollingProofs.

(** With a run that never leaves the queue and a clock that advances two
    seconds at each sleep, the extraction returns the pair of [None]. *)
Lemma polling_is_bounded_witness :
  exists h',
    Extraccion.extraer_datos_factura api_lenta 100 (Some (lit "JVBERi0x")) []
    = Some (Ok (VNone, VNone), h').
Proof.
  assert (Hr : reloj_fiel api_lenta).
  { split.
    - intros h ev. unfold api_lenta. cbn [Extraccion.time_time].
      rewrite filter_app, length_app. rewrite <- Zle_Qle. lia.
    - intros h. unfold api_lenta. cbn [Extraccion.time_time].
      rewrite filter_app, length_app. cbn [filter es_sleep length].
      unfold Extraccion.SLEEP_INTERVAL.
      rewrite Nat2Z.inj_add, Z.mul_add_distr_l, inject_Z_plus.
      change (inject_Z (2 * Z.of_nat 1)) with 2%Q. lra. }
  destruct (polling_is_bounded api_lenta Hr 100 ltac:(lia)) as [H _].
  destruct (H (Some (lit "JVBERi0x")) []) as (out & h' & H1 & H2).
  vm_compute in H2. inversion H2. subst out h'. eexists. exact H1.
Defined.

(* ===================================================================== *)
(** * The prompt of the comparison: when it cannot be built *)
(* ===================================================================== *)

Import Vocabulary Fixtures2.

Section PromptProofs.

Import Prompts.

Variable py_str : pyval -> str.
Variable format_2f : pyfloat -> str.

Lemma get_dict d k default :
  exists x, get (VDict d) k default = Ok x
            /\ (dict_get k d = None -> x = default)
            /\ (forall v, dict_get k d = Some v -> x = v).
Proof.
  unfold get. destruct (dict_get k d) as [v|].
  - exists v. split; [reflexivity|]. split; [discriminate|].
    intros v0 E. inversion E. reflexivity.
  - exists default. split; [reflexivity|]. split; [reflexivity|discriminate].
Qed.

Lemma object_error_get_sin_ok v :
  sin_ok (object_error v "has no attribute 'get'").
Proof. destruct v; reflexivity. Qed.

Lemma object_error_sub_sin_ok v :
  sin_ok (object_error v "is not subscriptable").
Proof. destruct v; reflexivity. Qed.

Lemma get_falla v k default :
  (forall d, v <> VDict d) ->
  get v k default = Raise (object_error v "has no attribute 'get'").
Proof. intros H. destruct v; try reflexivity. exfalso. exact (H d eq_refl). Qed.

(** One order. *)
Lemma linea_oc_casos idx oc :
  (orden_imprimible oc = true ->
   exists linea, linea_oc py_str format_2f idx oc = Ok linea)
  /\ (orden_imprimible oc = false ->
      exists e, linea_oc py_str format_2f idx oc = Raise e /\ sin_ok e).
Proof.
  destruct oc as [| b | z | f | s | l | d];
    try (split; [discriminate|]; intros _;
         eexists; split; [reflexivity|]; reflexivity).
  unfold orden_imprimible, linea_oc, get. cbn [bind].
  destruct (dict_get (lit "concepto") d) as [[| b | z | f | s | l | d']|];
    cbn [slice_50 bind];
    try (split; [discriminate|]; intros _;
         eexists; split; [reflexivity|]; reflexivity);
    (split; [intros _; eexists; reflexivity|discriminate]).
Qed.

Lemma lista_ocs_casos ocs :
  forall idx,
    (forallb orden_imprimible ocs = true ->
     exists lista, lista_ocs_texto py_str format_2f idx ocs = Ok lista)
    /\ (forallb orden_imprimible ocs = false ->
        exists e,
          lista_ocs_texto py_str format_2f idx ocs = Raise e /\ sin_ok e).
Proof.
  induction ocs as [|oc resto IH]; intros idx.
  - split; [intros _; exists []; reflexivity|discriminate].
  - cbn [forallb lista_ocs_texto].
    destruct (linea_oc_casos idx oc) as [Hok Hko].
    destruct (IH (S idx)) as [Iok Iko].
    destruct (orden_imprimible oc) eqn:Eo; cbn [andb].
    + destruct (Hok eq_refl) as (linea & ->). cbn [bind]. split.
      * intros Hr. destruct (Iok Hr) as (lista & ->). cbn [bind]. eauto.
      * intros Hr. destruct (Iko Hr) as (e & -> & He). cbn [bind]. eauto.
    + destruct (Hko eq_refl) as (e & -> & He). cbn [bind].
      split; [discriminate|]. intros _. eauto.
Qed.

Lemma float_of_int_casos z :
  ((Z.abs z <? OVERFLOW)%Z = true ->
   float_of_int z = Ok (FNum (inject_Z z)))
  /\ ((Z.abs z <? OVERFLOW)%Z = false ->
      float_of_int z
      = Raise (Exception (lit "int too large to convert to float"))).
Proof.
  unfold float_of_int. split; intros H.
  - apply Z.ltb_lt in H. destruct (OVERFLOW <=? Z.abs z)%Z eqn:E;
      [apply Z.leb_le in E; lia|reflexivity].
  - apply Z.ltb_ge in H. destruct (OVERFLOW <=? Z.abs z)%Z eqn:E;
      [reflexivity|apply Z.leb_gt in E; lia].
Qed.

(** The total and the rest of the prompt, once the lines are there. *)
Lemma get_valor d k default x :
  dict_get k d = x ->
  get (VDict d) k default
  = Ok (match x with Some v => v | None => default end).
Proof. intros <-. reflexivity. Qed.

Lemma total_casos datos :
  (total_imprimible datos = true ->
   exists d x total,
     datos = VDict d
     /\ get datos (lit "gran_total") (VInt 0) = Ok x
     /\ format_value_2f format_2f x = Ok total)
  /\ (total_imprimible datos = false ->
      exists e,
        (get datos (lit "gran_total") (VInt 0) = Raise e
         \/ exists x,
              get datos (lit "gran_total") (VInt 0) = Ok x
              /\ (exists d, datos = VDict d)
              /\ format_value_2f format_2f x = Raise e)
        /\ sin_ok e).
Proof.
  destruct datos as [| b | z | f | s | l | d];
    try (split; [discriminate|]; intros _;
         eexists; split; [left; reflexivity|reflexivity]).
  unfold total_imprimible.
  destruct (dict_get (lit "gran_total") d) as [x|] eqn:Eg.
  2:{ split; [|discriminate]. intros _. exists d. eexists. eexists.
      split; [reflexivity|]. split; [exact (get_valor _ _ _ _ Eg)|].
      reflexivity. }
  pose proof (get_valor d (lit "gran_total") (VInt 0) _ Eg) as Hg.
  cbn beta iota in Hg.
  assert (Hbien : forall total,
            format_value_2f format_2f x = Ok total ->
            exists d0 x0 total0,
              VDict d = VDict d0
              /\ get (VDict d) (lit "gran_total") (VInt 0) = Ok x0
              /\ format_value_2f format_2f x0 = Ok total0).
  { intros total Hf. exists d, x, total. auto. }
  assert (Hmal : forall e,
            format_value_2f format_2f x = Raise e -> sin_ok e ->
            exists e0,
              (get (VDict d) (lit "gran_total") (VInt 0) = Raise e0
               \/ exists x0,
                    get (VDict d) (lit "gran_total") (VInt 0) = Ok x0
                    /\ (exists d0, VDict d = VDict d0)
                    /\ format_value_2f format_2f x0 = Raise e0)
              /\ sin_ok e0).
  { intros e Hf He. exists e. split; [|exact He]. right. exists x.
    split; [exact Hg|]. split; [eauto|exact Hf]. }
  clear Hg Eg.
  destruct x as [| b | z | f | s | l | d'].
  - split; [discriminate|]. intros _. eapply Hmal; reflexivity.
  - split; [|discriminate]. intros _. eapply Hbien. reflexivity.
  - destruct (float_of_int_casos z) as [Hok Hko]. split.
    + intros H. eapply Hbien. cbn [format_value_2f]. rewrite (Hok H).
      reflexivity.
    + intros H. eapply Hmal.
      * cbn [format_value_2f]. rewrite (Hko H). reflexivity.
      * reflexivity.
  - split; [|discriminate]. intros _. eapply Hbien. reflexivity.
  - split; [discriminate|]. intros _. eapply Hmal; reflexivity.
  - split; [discriminate|]. intros _. eapply Hmal; reflexivity.
  - split; [discriminate|]. intros _. eapply Hmal; reflexivity.
Qed.

Lemma prompt_casos datos ocs :
  (forallb orden_imprimible ocs && total_imprimible datos = true ->
   exists prompt,
     get_comparison_prompt py_str format_2f datos (Some ocs) = Ok prompt)
  /\ (forallb orden_imprimible ocs && total_imprimible datos = false ->
      exists e,
        get_comparison_prompt py_str format_2f datos (Some ocs) = Raise e
        /\ sin_ok e).
Proof.
  unfold get_comparison_prompt.
  destruct (lista_ocs_casos ocs 1) as [Lok Lko].
  destruct (total_casos datos) as [Tok Tko].
  destruct (forallb orden_imprimible ocs) eqn:El; cbn [andb].
  2:{ destruct (Lko eq_refl) as (e & -> & He). cbn [bind].
      split; [discriminate|]. intros _. eauto. }
  destruct (Lok eq_refl) as (lista & ->). cbn [bind].
  destruct (total_imprimible datos) eqn:Et.
  - destruct (Tok eq_refl) as (d & x & total & -> & Hg & Hf).
    rewrite Hg. cbn [bind get]. rewrite Hf. cbn [bind].
    split; [intros _; eauto|discriminate].
  - split; [discriminate|]. intros _.
    destruct (Tko eq_refl) as (e & [Hg|(x & Hg & (d & ->) & Hf)] & He).
    + rewrite Hg. cbn [bind]. eauto.
    + rewrite Hg. cbn [bind get]. rewrite Hf. cbn [bind]. eauto.
Qed.

(** X27.  When the prompt of the comparison can be built.  Without a
    list of orders it cannot.  With one, [get_comparison_prompt] returns
    a text exactly when every order is a mapping whose 'concepto', if it
    has one, is text or a list, and the invoice data is a mapping whose
    'gran_total', if it has one, is a float, a boolean or an integer that
    fits a float; otherwise it raises.  An order that is not a mapping,
    a 'concepto' that is null or a number, and a 'gran_total' that is
    null or text all make it raise. *)
Theorem comparison_prompt_errors (datos : pyval)
    (ordenes : option (list pyval)) :
  ((exists prompt,
      get_comparison_prompt py_str format_2f datos ordenes = Ok prompt)
   <-> exists ocs,
         ordenes = Some ocs
         /\ forallb orden_imprimible ocs = true
         /\ total_imprimible datos = true)
  /\ (forall d ocs,
        datos = VDict d ->
        dict_get (lit "gran_total") d = Some VNone ->
        forallb orden_imprimible ocs = true ->
        get_comparison_prompt py_str format_2f datos (Some ocs)
        = Raise (Exception
                   (lit "unsupported format string passed to NoneType.__format__")))
  /\ (forall d ocs antes despues,
        dict_get (lit "concepto") d = Some VNone ->
        ocs = antes ++ VDict d :: despues ->
        forallb orden_imprimible antes = true ->
        get_comparison_prompt py_str format_2f datos (Some ocs)
        = Raise (Exception (lit "'NoneType' object is not subscriptable"))).
Proof.
  split; [|split].
  - split.
    + intros (prompt & H). destruct ordenes as [ocs|]; [|discriminate].
      exists ocs. split; [reflexivity|].
      destruct (prompt_casos datos ocs) as [_ Hko].
      destruct (forallb orden_imprimible ocs && total_imprimible datos)
        eqn:E.
      * apply andb_true_iff in E. exact E.
      * destruct (Hko eq_refl) as (e & He & _). congruence.
    + intros (ocs & -> & Hl & Ht).
      destruct (prompt_casos datos ocs) as [Hok _].
      apply Hok. rewrite Hl, Ht. reflexivity.
  - intros d ocs -> Hg Hl. unfold get_comparison_prompt.
    destruct (lista_ocs_casos ocs 1) as [Lok _].
    destruct (Lok Hl) as (lista & ->). cbn [bind].
    rewrite (get_valor d (lit "gran_total") (VInt 0) _ Hg). reflexivity.
  - intros d ocs antes despues Hc -> Ha. unfold get_comparison_prompt.
    assert (H : forall idx,
              lista_ocs_texto py_str format_2f idx
                (antes ++ VDict d :: despues)
              = Raise (Exception
                         (lit "'NoneType' object is not subscriptable"))).
    { clear - Hc Ha. induction antes as [|oc antes IH]; intros idx.
      - cbn [app lista_ocs_texto]. unfold linea_oc.
        rewrite (get_valor d (lit "concepto") (VStr []) _ Hc).
        reflexivity.
      - cbn [forallb] in Ha. apply andb_true_iff in Ha.
        destruct Ha as [Ho Ha]. cbn [app lista_ocs_texto].
        destruct (linea_oc_casos idx oc) as [Hok _].
        destruct (Hok Ho) as (linea & ->). cbn [bind].
        rewrite (IH Ha). reflexivity. }
    rewrite H. reflexivity.
Qed.

End PromptProofs.

(** An empty list of orders and data without a total give a prompt; a
    null total gives none. *)
Lemma comparison_prompt_errors_witness :
  (exists prompt,
     Prompts.get_comparison_prompt py_str_demo format_2f_demo (VDict [])
       (Some []) = Ok prompt)
  /\ Prompts.get_comparison_prompt py_str_demo format_2f_demo datos_nulos
       (Some [oc_acme])
     = Raise (Exception
                (lit "unsupported format string passed to NoneType.__format__")).
Proof.
  destruct (comparison_prompt_errors py_str_demo format_2f_demo (VDict [])
              (Some [])) as [[_ H1] _].
  destruct (comparison_prompt_errors py_str_demo format_2f_demo datos_nulos
              (Some [oc_acme])) as [_ [H2 _]].
  split.
  - apply H1. exists []. repeat split.
  - eapply H2; reflexivity.
Defined.

(** X28.  A record whose comparison prompt cannot be built.  Take a
    record with an invoice and purchase orders whose extraction returned
    a non-empty mapping.  When an order cannot be printed, or the total
    of the invoice cannot ('gran_total' null, as the extraction prompt
    asks for when it is not found, or text), the prompt builder raises,
    and whatever the chat API would answer the record is an anomaly of
    kind [discrepancias_encontradas] whose validation text is 'Error en
    comparacion: ' followed by the text of that exception. *)
Theorem unprintable_data_is_discrepancy
    (py_str : pyval -> str) (format_2f : pyfloat -> str)
    (extraer : nat -> option str -> result (pyval * pyval))
    (registro : RegistroWebhook) (w : World)
    (kv : str * pyval) (d : dict) (otro : pyval) (ocs : list pyval) :
  flag (tiene_factura registro) = true ->
  flag (tiene_oc registro) = true ->
  ordenes_de_compra registro = Some ocs ->
  extraer (tick w) (factura_base64 registro) = Ok (VDict (kv :: d), otro) ->
  forallb orden_imprimible ocs && total_imprimible (VDict (kv :: d)) = false ->
  exists e,
    Prompts.get_comparison_prompt py_str format_2f (VDict (kv :: d))
      (Some ocs) = Raise e
    /\ forall chat,
       exists res w',
         _validar_registro_individual
           (servicio_real (Prompts.api_de py_str format_2f chat) extraer)
           registro w
         = (Ok res, w')
         /\ resultado_openai res
            = Some (OpenAIClient.error_prefix ++ str_of_exn e)
         /\ r_es_anomalia res = true
         /\ r_tipo_anomalia res = Some TipoAnomalia.DISCREPANCIAS.
Proof.
  intros Hf Ho Hocs He Hmal.
  destruct (prompt_casos py_str format_2f (VDict (kv :: d)) ocs)
    as [_ Hko].
  destruct (Hko Hmal) as (e & Hp & Hsin).
  exists e. split; [exact Hp|]. intros chat.
  set (texto := OpenAIClient.error_prefix ++ str_of_exn e).
  assert (Hcmp : comparar_factura_oc
                   (servicio_real (Prompts.api_de py_str format_2f chat)
                      extraer)
                   (S (tick w)) (VDict (kv :: d))
                   (ordenes_de_compra registro) = Ok texto).
  { rewrite Hocs. cbn [comparar_factura_oc servicio_real].
    unfold OpenAIClient.comparar_factura_oc, OpenAIClient.comparar_try.
    cbn [OpenAIClient.len_ocs bind OpenAIClient.get_comparison_prompt
         Prompts.api_de].
    rewrite Hp. reflexivity. }
  destruct (comparacion_alcanzada
              (servicio_real (Prompts.api_de py_str format_2f chat) extraer)
              registro w kv d otro texto Hf Ho He Hcmp)
    as (res & w' & Hrun & Hr & Ha & Ht).
  exists res, w'. split; [exact Hrun|]. split; [exact Hr|].
  assert (Hno : todo_coincide texto = false).
  { rewrite todo_coincide_upper. unfold texto.
    rewrite contains_ok_error_prefix. unfold sin_ok in Hsin.
    rewrite Hsin. reflexivity. }
  rewrite Hno in Ha, Ht. split; [exact Ha|exact Ht].
Qed.

(** The record of the fixtures, with an extraction that found nothing:
    every field is null. *)
Lemma unprintable_data_is_discrepancy_witness :
  exists res w',
    _validar_registro_individual
      (servicio_real
         (Prompts.api_de py_str_demo format_2f_demo
            (fun _ _ => Ok [Some (lit "OK")]))
         (fun _ _ => Ok (datos_nulos, VNone)))
      registro_completo (mundo [registro_completo])
    = (Ok res, w')
    /\ resultado_openai res
       = Some (OpenAIClient.error_prefix
               ++ lit "unsupported format string passed to NoneType.__format__")
    /\ r_tipo_anomalia res = Some TipoAnomalia.DISCREPANCIAS.
Proof.
  destruct (unprintable_data_is_discrepancy py_str_demo format_2f_demo
              (fun _ _ => Ok (datos_nulos, VNone))
              registro_completo (mundo [registro_completo])
              (lit "proveedor", VNone)
              [(lit "gran_total", VNone); (lit "moneda", VNone)]
              VNone [oc_acme]
              eq_refl eq_refl eq_refl eq_refl eq_refl)
    as (e & Hp & H).
  destruct (H (fun _ _ => Ok [Some (lit "OK")]))
    as (res & w' & Hrun & Hr & _ & Ht).
  exists res, w'. split; [exact Hrun|]. split; [|exact Ht].
  rewrite Hr. vm_compute in Hp. inversion Hp. reflexivity.
Defined.

(** ** Orders as the webhook stores them *)

(** X29.  The orders stored by the webhook and the prompt.  The
    normalized form of an order is a mapping whose amount the prompt
    prints as normalized.  Without attached data in the form of a
    mapping it has no 'concepto' and the prompt can always print it.
    With such data its 'concepto' is the 'oc_subject' of the data, so the
    prompt can print the order exactly when that subject is missing, text
    or a list: a null or numeric subject makes the prompt of every
    comparison with this order fail. *)
Theorem normalized_order_is_printable (o : Normalizer.OrdenCompraInput) :
  exists d,
    Normalizer.to_normalized_dict o = Ok d
    /\ Prompts.monto_de (VDict d) = monto_normalizado o
    /\ (forall adj,
          (exists kv rest,
             Normalizer.oc_attached_data o
             = Some (Normalizer.AttDict (kv :: rest))
             /\ adj = kv :: rest)
          \/ ((Normalizer.oc_attached_data o = None
               \/ Normalizer.oc_attached_data o
                  = Some (Normalizer.AttDict []))
              /\ Normalizer.datos_adicionales o = Some adj) ->
          orden_imprimible (VDict d)
          = match dict_get (lit "oc_subject") adj with
            | None | Some (VStr _) | Some (VList _) => true
            | _ => false
            end)
    /\ ((exists m,
           Normalizer.oc_attached_data o = Some (Normalizer.AttModel m))
        \/ ((Normalizer.oc_attached_data o = None
             \/ Normalizer.oc_attached_data o
                = Some (Normalizer.AttDict []))
            /\ Normalizer.datos_adicionales o = None) ->
        orden_imprimible (VDict d) = true).
Proof.
  destruct (attached_data_core o) as (d & Hd & _ & Hadj & Hsin).
  destruct (to_normalized_dict_spec o) as (d' & Hd' & _ & _ & _ & Hm & _).
  assert (d' = d) by congruence. subst d'.
  exists d. split; [exact Hd|]. split.
  { unfold Prompts.monto_de.
    rewrite (get_valor d (lit "monto") (VInt 0) _ Hm). reflexivity. }
  split.
  - intros adj Hc. destruct (Hadj adj Hc) as (_ & Hcon & _).
    unfold orden_imprimible. unfold dict, str, char in *.
    rewrite Hcon. reflexivity.
  - intros Hc. pose proof (Hsin Hc) as Hk. clear - Hk.
    unfold claves_canonicas in Hk.
    destruct d as [|[k1 v1] [|[k2 v2] [|[k3 v3] [|[k4 v4] [|[k5 v5] [|? ?]]]]]];
      try discriminate.
    cbn in Hk. inversion Hk; subst. reflexivity.
Qed.

(** The order of the fixtures, whose attached data has a subject. *)
Lemma normalized_order_is_printable_witness :
  exists d,
    Normalizer.to_normalized_dict oc_con_adjuntos = Ok d
    /\ orden_imprimible (VDict d) = true.
Proof.
  destruct (normalized_order_is_printable oc_con_adjuntos)
    as (d & Hd & _ & Hadj & _).
  exists d. split; [exact Hd|].
  rewrite (Hadj [(lit "oc_subject", VStr (lit "Toner"));
                 (lit "adquired_serviecs", VList [VStr (lit "print")])]).
  - reflexivity.
  - left. eexists. eexists. split; reflexivity.
Defined.
